(** * Doc-Dataset-converter: the cleaner, validator, formatter and orchestrator

    A shallow embedding of [utils/cleaner.py], [utils/validator.py],
    [utils/formatter.py], the [extract] methods of [converters/*.py] and the
    [process_file] / [process_batch] methods of [app.py], with the properties
    of the specification that concern them.

    Conventions.
    - A Python [str] is a [string]; its characters are the code points
      U+0000..U+00FF, classified and lower-cased the way CPython does it for
      those code points.
    - A Python [dict] is an association list in insertion order (the order
      [to_xml] and [csv.DictWriter] iterate in); its keys are strings, as the
      annotations [Dict[str, Any]] say. The rows that [dict(zip(...))] makes
      of a table have the header cells as keys, which can be [None] or any
      other hashable value: they are kept apart, as [kdict].
    - Code that can raise returns a [result]; [try ... except Exception] is
      [try_except].
    - What the third-party parsers (PyMuPDF, pdfplumber, python-docx, pandas,
      chardet) answer for a file is not computed here: it is read from an
      environment, each call either answering or raising. *)

From Stdlib Require Import List String Ascii Bool Arith ZArith NArith Lia DecimalString.
From stdpp Require Import gmap strings.
Import ListNotations.

Local Open Scope string_scope.
Local Open Scope list_scope.
Local Set Warnings "-register-all".

(** ** Characters *)

Module Chars.

Definition code (c : ascii) : N := N_of_ascii c.

Definition between (lo hi c : ascii) : bool :=
  (code lo <=? code c)%N && (code c <=? code hi)%N.

Definition chr (n : N) : ascii := ascii_of_N n.

(** The double quote. *)
Definition dquote : ascii := chr 34.

(** [str.isspace], which is also the regular expression class [\s]. *)
Definition isspace (c : ascii) : bool :=
  between (chr 9) (chr 13) c || between (chr 28) (chr 32) c
  || (code c =? 133)%N || (code c =? 160)%N.

(** The class [\d]: the decimal digits. *)
Definition isdecimal (c : ascii) : bool := between "0" "9" c.

Definition isalpha (c : ascii) : bool :=
  between "A" "Z" c || between "a" "z" c
  || (code c =? 170)%N || (code c =? 181)%N || (code c =? 186)%N
  || between (chr 192) (chr 214) c || between (chr 216) (chr 246) c
  || between (chr 248) (chr 255) c.

(** [str.isalnum]: letters, decimal digits, and the characters with a digit
    or numeric value (superscripts one to three, the vulgar fractions). *)
Definition isalnum (c : ascii) : bool :=
  isalpha c || isdecimal c
  || (code c =? 178)%N || (code c =? 179)%N || (code c =? 185)%N
  || between (chr 188) (chr 190) c.

(** The class [\w], which decides [\b]. *)
Definition isword (c : ascii) : bool := isalnum c || Ascii.eqb c "_".

Definition isupper (c : ascii) : bool :=
  between "A" "Z" c || between (chr 192) (chr 214) c
  || between (chr 216) (chr 222) c.

Definition lower_char (c : ascii) : ascii :=
  if isupper c then chr (code c + 32) else c.

(** [str.upper] of one character. The capitals of U+00B5 and U+00FF lie
    outside the alphabet: those two characters are left as they are. *)
Definition upper_char (c : ascii) : list ascii :=
  if between "a" "z" c || between (chr 224) (chr 246) c || between (chr 248) (chr 254) c
  then [chr (code c - 32)]
  else if (code c =? 223)%N then ["S"; "S"]%char
  else [c].

(** [str.isprintable], used by [repr]. *)
Definition isprintable (c : ascii) : bool :=
  negb (between (chr 0) (chr 31) c || between (chr 127) (chr 160) c
        || (code c =? 173)%N).

End Chars.

(** A property of every character, case by case. *)
Ltac each_char c :=
  destruct c as [[] [] [] [] [] [] [] []]; vm_compute; try reflexivity; try discriminate.

(** ** Strings *)

Module Str.
Import Chars.

Definition chars (s : string) : list ascii := list_ascii_of_string s.
Definition of_chars (l : list ascii) : string := string_of_list_ascii l.

Fixpoint drop_while (p : ascii -> bool) (l : list ascii) : list ascii :=
  match l with
  | [] => []
  | a :: l' => if p a then drop_while p l' else l
  end.

Fixpoint take_while (p : ascii -> bool) (l : list ascii) : list ascii :=
  match l with
  | [] => []
  | a :: l' => if p a then a :: take_while p l' else []
  end.

(** [s.strip()] *)
Definition strip_chars (l : list ascii) : list ascii :=
  rev (drop_while isspace (rev (drop_while isspace l))).
Definition strip (s : string) : string := of_chars (strip_chars (chars s)).

(** [s.lower()] *)
Definition lower (s : string) : string := of_chars (map lower_char (chars s)).

(** [s.upper()] *)
Definition upper (s : string) : string := of_chars (flat_map upper_char (chars s)).

(** [s.title()], on ASCII text: a letter is put in upper case when it
    follows no letter, in lower case when it follows one. *)
Fixpoint title_chars (after_letter : bool) (l : list ascii) : list ascii :=
  match l with
  | [] => []
  | a :: l' =>
      if between "a" "z" a || between "A" "Z" a
      then (if after_letter then [lower_char a] else upper_char a) ++ title_chars true l'
      else a :: title_chars false l'
  end.
Definition title (s : string) : string := of_chars (title_chars false (chars s)).

(** [s.endswith(suffix)] *)
Definition endswith (suffix s : string) : bool :=
  String.prefix (of_chars (rev (chars suffix))) (of_chars (rev (chars s))).

(** [s.split()]: the maximal runs of characters that are not white space. *)
Fixpoint split_chars (cur : list ascii) (l : list ascii) : list (list ascii) :=
  match l with
  | [] => match cur with [] => [] | _ => [rev cur] end
  | a :: l' =>
      if isspace a
      then match cur with [] => split_chars [] l' | _ => rev cur :: split_chars [] l' end
      else split_chars (a :: cur) l'
  end.
Definition split (s : string) : list string := map of_chars (split_chars [] (chars s)).

(** [sep.join(parts)] *)
Fixpoint join (sep : string) (parts : list string) : string :=
  match parts with
  | [] => ""
  | [p] => p
  | p :: rest => p +:+ sep +:+ join sep rest
  end.

(** [s.replace(a, b)] for one-character [a] and [b]. *)
Definition replace_char (a b : ascii) (s : string) : string :=
  of_chars (map (fun c => if Ascii.eqb c a then b else c) (chars s)).

(** [s.split(sep)] for a one-character separator: empty pieces are kept. *)
Fixpoint split_on_chars (sep : ascii) (cur : list ascii) (l : list ascii) : list (list ascii) :=
  match l with
  | [] => [rev cur]
  | a :: l' => if Ascii.eqb a sep then rev cur :: split_on_chars sep [] l'
               else split_on_chars sep (a :: cur) l'
  end.
Definition split_on (sep : ascii) (s : string) : list string :=
  map of_chars (split_on_chars sep [] (chars s)).

Definition contains_char (a : ascii) (s : string) : bool :=
  existsb (Ascii.eqb a) (chars s).

(** [s[:n]] and [s[n:]] *)
Definition take (n : nat) (s : string) : string := of_chars (firstn n (chars s)).
Definition drop (n : nat) (s : string) : string := of_chars (skipn n (chars s)).

End Str.

(** ** Regular expressions: the part of [re] that the cleaner uses *)

Module Re.
Import Chars Str.

(** An item of a bracketed class. *)
Inductive item : Type :=
| Ch (c : ascii)            (* a character *)
| Rg (lo hi : ascii)        (* lo-hi *)
| Space                     (* \s *)
| Digit.                    (* \d *)

Definition item_has (i : item) (c : ascii) : bool :=
  match i with
  | Ch a => Ascii.eqb c a
  | Rg lo hi => between lo hi c
  | Space => isspace c
  | Digit => isdecimal c
  end.

(** Whether a class with these items has the character. *)
Definition has (items : list item) (c : ascii) : bool :=
  existsb (fun i => item_has i c) items.

Inductive regex : Type :=
| Eps
| Chr (c : ascii)           (* a literal character *)
| In (items : list item)    (* [...] *)
| NotIn (items : list item) (* [^...] *)
| Bound                     (* \b *)
| Cat (r1 r2 : regex)
| Alt (r1 r2 : regex)       (* r1|r2, the left one tried first *)
| Opt (r : regex)           (* r?, greedy *)
| Plus (r : regex)          (* r+, greedy *)
| Times (n : nat) (r : regex). (* r{n} *)

Fixpoint lit (s : string) : regex :=
  match s with
  | EmptyString => Eps
  | String c EmptyString => Chr c
  | String c s' => Cat (Chr c) (lit s')
  end.

(** A position in the subject: the character before it, if any, and what is
    left of the subject. *)
Definition pos : Type := option ascii * list ascii.

Definition word_at (o : option ascii) : bool :=
  match o with Some c => isword c | None => false end.

Definition cont : Type := option ascii -> list ascii -> option pos.
Definition matcher : Type := option ascii -> list ascii -> cont -> option pos.

(** [r+] for a matcher of [r]: one iteration, then as many more as match
    (greedy), each of which has to consume something. *)
Fixpoint plus_loop (m : matcher) (k : cont) (fuel : nat)
  (prev : option ascii) (s : list ascii) : option pos :=
  m prev s (fun p' s' =>
    match fuel with
    | 0 => k p' s'
    | S fuel' =>
        if (length s' <? length s)%nat
        then match plus_loop m k fuel' p' s' with
             | Some x => Some x
             | None => k p' s'
             end
        else k p' s'
    end).

(** [r{n}] for a matcher of [r]. *)
Fixpoint times_loop (m : matcher) (k : cont) (n : nat)
  (prev : option ascii) (s : list ascii) : option pos :=
  match n with
  | 0 => k prev s
  | S n' => m prev s (fun p' s' => times_loop m k n' p' s')
  end.

(** The backtracking matcher, in continuation-passing style: [k] is tried at
    each position where [r] can end, in the order of preference of [re]
    (greedy, alternatives from left to right); the first answer of [k] wins. *)
Fixpoint rmatch (r : regex) (prev : option ascii) (s : list ascii)
  (k : cont) {struct r} : option pos :=
  match r with
  | Eps => k prev s
  | Chr c =>
      match s with
      | a :: s' => if Ascii.eqb a c then k (Some a) s' else None
      | [] => None
      end
  | In items =>
      match s with
      | a :: s' => if has items a then k (Some a) s' else None
      | [] => None
      end
  | NotIn items =>
      match s with
      | a :: s' => if has items a then None else k (Some a) s'
      | [] => None
      end
  | Bound => if xorb (word_at prev) (word_at (head s)) then k prev s else None
  | Cat r1 r2 => rmatch r1 prev s (fun p' s' => rmatch r2 p' s' k)
  | Alt r1 r2 =>
      match rmatch r1 prev s k with
      | Some x => Some x
      | None => rmatch r2 prev s k
      end
  | Opt r1 =>
      match rmatch r1 prev s k with
      | Some x => Some x
      | None => k prev s
      end
  | Plus r1 => plus_loop (rmatch r1) k (length s) prev s
  | Times n r1 => times_loop (rmatch r1) k n prev s
  end.

Definition accept : cont :=
  fun p s => Some (p, s).

(** [re.sub]: scan from the left; at each position take the match there if
    there is one (and it is not empty: no pattern of the cleaner matches the
    empty string), emit the replacement and go on after the match; else copy
    the character. *)
Fixpoint sub_loop (r : regex) (repl : list ascii) (fuel : nat)
  (prev : option ascii) (s : list ascii) : list ascii :=
  match fuel with
  | 0 => s
  | S fuel' =>
      match s with
      | [] => []
      | a :: s' =>
          match rmatch r prev s accept with
          | Some (p', t) =>
              if (length t <? length s)%nat
              then repl ++ sub_loop r repl fuel' p' t
              else a :: sub_loop r repl fuel' (Some a) s'
          | None => a :: sub_loop r repl fuel' (Some a) s'
          end
      end
  end.

Definition sub_chars (r : regex) (repl : list ascii) (s : list ascii) : list ascii :=
  sub_loop r repl (length s) None s.

Definition sub (r : regex) (repl : string) (s : string) : string :=
  of_chars (sub_chars r (chars repl) (chars s)).

End Re.

(** ** utils/cleaner.py *)

Module DataCleaner.
Import Chars Str Re.

(** [r'http[s]?://(?:[a-zA-Z]|[0-9]|[$-_@.&+]|[!*\\(\\),]|(?:%[0-9a-fA-F][0-9a-fA-F]))+'] *)
Definition url_re : regex :=
  Cat (lit "http") (Cat (Opt (In [Ch "s"])) (Cat (lit "://")
    (Plus (Alt (In [Rg "a" "z"; Rg "A" "Z"])
          (Alt (In [Rg "0" "9"])
          (Alt (In [Rg "$" "_"; Ch "@"; Ch "."; Ch "&"; Ch "+"])
          (Alt (In [Ch "!"; Ch "*"; Ch "\"; Ch "("; Ch "\"; Ch ")"; Ch ","])
               (Cat (Chr "%") (Cat (In [Rg "0" "9"; Rg "a" "f"; Rg "A" "F"])
                                   (In [Rg "0" "9"; Rg "a" "f"; Rg "A" "F"])))))))))).

(** [r'\S+@\S+'] *)
Definition email_re : regex :=
  Cat (Plus (NotIn [Space])) (Cat (Chr "@") (Plus (NotIn [Space]))).

(** [r'\b\d{3}[-.]?\d{3}[-.]?\d{4}\b'] *)
Definition phone_re : regex :=
  Cat Bound (Cat (Times 3 (In [Digit])) (Cat (Opt (In [Ch "-"; Ch "."]))
    (Cat (Times 3 (In [Digit])) (Cat (Opt (In [Ch "-"; Ch "."]))
      (Cat (Times 4 (In [Digit])) Bound))))).

(** [r'\b\d{10}\b'] *)
Definition ten_digits_re : regex :=
  Cat Bound (Cat (Times 10 (In [Digit])) Bound).

(** [r'[^a-zA-Z0-9\s]'] *)
Definition special_re : regex :=
  NotIn [Rg "a" "z"; Rg "A" "Z"; Rg "0" "9"; Space].

(** [r'\d+'] *)
Definition digits_re : regex := Plus (In [Digit]).

(** [r'\s+'] *)
Definition spaces_re : regex := Plus (In [Space]).

(** The options: a [Dict[str, bool]], or [None]. *)
Definition default_options : gmap string bool :=
  list_to_map
    [("remove_extra_spaces", true); ("remove_special_chars", false);
     ("remove_numbers", false); ("lowercase", false); ("remove_urls", true);
     ("remove_emails", false); ("remove_phone_numbers", false)].

(** [options.get(key, dflt)] *)
Definition get (options : gmap string bool) (key : string) (dflt : bool) : bool :=
  default dflt (options !! key).

Definition clean_text (text : string) (options : option (gmap string bool)) : string :=
  let options := match options with None => default_options | Some o => o end in
  let cleaned_text := text in
  let cleaned_text :=
    if get options "remove_urls" true then sub url_re "" cleaned_text
    else cleaned_text in
  let cleaned_text :=
    if get options "remove_emails" false then sub email_re "" cleaned_text
    else cleaned_text in
  let cleaned_text :=
    if get options "remove_phone_numbers" false
    then sub ten_digits_re "" (sub phone_re "" cleaned_text)
    else cleaned_text in
  let cleaned_text :=
    if get options "remove_special_chars" false then sub special_re "" cleaned_text
    else cleaned_text in
  let cleaned_text :=
    if get options "remove_numbers" false then sub digits_re "" cleaned_text
    else cleaned_text in
  let cleaned_text :=
    if get options "lowercase" false then lower cleaned_text else cleaned_text in
  let cleaned_text :=
    if get options "remove_extra_spaces" true
    then strip (sub spaces_re " " cleaned_text)
    else cleaned_text in
  cleaned_text.

(** An option set given by the seven flags. *)
Definition options_of (urls emails phones special numbers lowercase spaces : bool)
  : gmap string bool :=
  list_to_map
    [("remove_urls", urls); ("remove_emails", emails);
     ("remove_phone_numbers", phones); ("remove_special_chars", special);
     ("remove_numbers", numbers); ("lowercase", lowercase);
     ("remove_extra_spaces", spaces)].

End DataCleaner.


(** What the three character-wise steps and the white space step of
    [clean_text] compute, written without the matcher; the proofs relate the
    two. *)
Module CleanerSpec.
Import Chars Str Re.

Definition keeps_special (c : ascii) : bool :=
  between "a" "z" c || between "A" "Z" c || between "0" "9" c || isspace c.

(** One space for each maximal run of white space; [inrun] says that the
    character before was white space. *)
Fixpoint squeeze (inrun : bool) (s : list ascii) : list ascii :=
  match s with
  | [] => []
  | a :: s' =>
      if isspace a
      then if inrun then squeeze true s' else " "%char :: squeeze true s'
      else a :: squeeze false s'
  end.

(** A text in which every white space character is a space that follows no
    white space. *)
Fixpoint squeezed (inrun : bool) (s : list ascii) : bool :=
  match s with
  | [] => true
  | a :: s' =>
      if isspace a
      then Ascii.eqb a " " && negb inrun && squeezed true s'
      else squeezed false s'
  end.

Definition clean_chars (special numbers lowercase : bool) (s : list ascii) : list ascii :=
  let s := if special then List.filter keeps_special s else s in
  let s := if numbers then List.filter (fun c => negb (isdecimal c)) s else s in
  let s := if lowercase then map lower_char s else s in
  strip_chars (squeeze false s).

Definition starts_clean (l : list ascii) : Prop :=
  match l with [] => True | a :: _ => isspace a = false end.

(** The three invariants of a cleaned text, one for each enabled step. *)
Definition kept (special numbers lowercase : bool) (c : ascii) : Prop :=
  (special = true -> keeps_special c = true) /\
  (numbers = true -> negb (isdecimal c) = true) /\
  (lowercase = true -> lower_char c = c).

End CleanerSpec.

(** Where a match of [url_re], of [email_re] or of [phone_re] starts, written
    without the matcher, for the idempotence of the cleaner with these
    removals. *)
Module PatternSpec.
Import Chars Str Re DataCleaner CleanerSpec.

Definition nonspace (c : ascii) : bool := negb (isspace c).

(** The characters of the class that [url_re] repeats; the escape [%XX] adds
    none, [%] and the hexadecimal digits being in the class. *)
Definition urlch (c : ascii) : bool :=
  has [Rg "a" "z"; Rg "A" "Z"] c || has [Rg "0" "9"] c
  || has [Rg "$" "_"; Ch "@"; Ch "."; Ch "&"; Ch "+"] c
  || has [Ch "!"; Ch "*"; Ch "\"; Ch "("; Ch "\"; Ch ")"; Ch ","] c.

(** What is left of [t] after the prefix [pre], if [t] starts with it. *)
Fixpoint strip_prefix (pre t : list ascii) : option (list ascii) :=
  match pre with
  | [] => Some t
  | c :: pre' =>
      match t with
      | a :: t' => if Ascii.eqb a c then strip_prefix pre' t' else None
      | [] => None
      end
  end.

(** The group that [url_re] repeats. *)
Definition url_class : regex :=
  Alt (In [Rg "a" "z"; Rg "A" "Z"])
    (Alt (In [Rg "0" "9"])
    (Alt (In [Rg "$" "_"; Ch "@"; Ch "."; Ch "&"; Ch "+"])
    (Alt (In [Ch "!"; Ch "*"; Ch "\"; Ch "("; Ch "\"; Ch ")"; Ch ","])
         (Cat (Chr "%") (Cat (In [Rg "0" "9"; Rg "a" "f"; Rg "A" "F"])
                             (In [Rg "0" "9"; Rg "a" "f"; Rg "A" "F"])))))).

(** What follows the scheme, when it starts with a character of the class. *)
Definition url_after (r : list ascii) : option (list ascii) :=
  match strip_prefix (chars "://") r with
  | Some (c :: h) => if urlch c then Some (c :: h) else None
  | _ => None
  end.

(** What follows [http://] or [https://] at the start of [t], when that
    starts with a character of the class: a match of [url_re] starts at [t]
    exactly then. *)
Definition url_host (t : list ascii) : option (list ascii) :=
  match strip_prefix (chars "http") t with
  | Some r =>
      url_after match r with
                | a :: r' => if Ascii.eqb a "s" then r' else r
                | [] => r
                end
  | None => None
  end.

Definition url_at (t : list ascii) : bool :=
  match url_host t with Some _ => true | None => false end.

Definition head_is (p : ascii -> bool) (t : list ascii) : bool :=
  match t with a :: _ => p a | [] => false end.

(** Before any white space, [t] has an [@] that a character other than white
    space follows. *)
Fixpoint at_inside (t : list ascii) : bool :=
  match t with
  | [] => false
  | c :: t' =>
      nonspace c && ((Ascii.eqb c "@" && head_is nonspace t') || at_inside t')
  end.

(** A match of [email_re] starts at [t]. *)
Definition email_at (t : list ascii) : bool :=
  match t with a :: t' => nonspace a && at_inside t' | [] => false end.

(** No match starts anywhere in [s]. *)
Fixpoint none_at (at_ : list ascii -> bool) (s : list ascii) : bool :=
  match s with
  | [] => true
  | _ :: s' => negb (at_ s) && none_at at_ s'
  end.

(** A continuation that never fails. *)
Definition total (k : cont) : Prop := forall p s, k p s <> None.

(** [p+] followed by [k], for a class [p]: the longest run first, then the
    shorter ones. *)
Fixpoint back (p : ascii -> bool) (k : cont) (s : list ascii) : option pos :=
  match s with
  | a :: s' =>
      if p a
      then match back p k s' with
           | Some x => Some x
           | None => k (Some a) s'
           end
      else None
  | [] => None
  end.

(** What [email_re] has after its first [\S+]. *)
Definition email_tail : cont :=
  fun p s => rmatch (Cat (Chr "@") (Plus (NotIn [Space]))) p s accept.

(** The run of [q] at the start of [x] is the start of that of [y]. *)
Definition within (q : ascii -> bool) (x y : list ascii) : Prop :=
  exists e, take_while q y = take_while q x ++ e.

(** The two pattern removals that idempotence is shown with. *)
Definition clean_patterns (urls emails : bool) (s : list ascii) : list ascii :=
  let s := if urls then sub_chars url_re [] s else s in
  if emails then sub_chars email_re [] s else s.

(** The separators that [phone_re] allows between the groups of digits. *)
Definition sepch (c : ascii) : bool := has [Ch "-"; Ch "."] c.

(** What is left of [t] after [n] decimal digits. *)
Fixpoint digits (n : nat) (t : list ascii) : option (list ascii) :=
  match n with
  | 0 => Some t
  | S n' =>
      match t with
      | a :: t' => if isdecimal a then digits n' t' else None
      | [] => None
      end
  end.

(** [t] without the separator it starts with, if it starts with one. *)
Definition skip_sep (t : list ascii) : list ascii :=
  match t with
  | a :: t' => if sepch a then t' else t
  | [] => []
  end.

(** What is left of [t] after three digits, three digits and four digits,
    with at most one separator after the first and after the second group. *)
Definition phone_body (t : list ascii) : option (list ascii) :=
  match digits 3 t with
  | Some t1 =>
      match digits 3 (skip_sep t1) with
      | Some t2 => digits 4 (skip_sep t2)
      | None => None
      end
  | None => None
  end.

(** A match of [phone_re] starts at [t]; [w] says that the character before
    [t] is a word character. *)
Definition phone_at (w : bool) (t : list ascii) : bool :=
  negb w &&
  match phone_body t with
  | Some rest => negb (word_at (head rest))
  | None => false
  end.

(** No match of [phone_re] starts anywhere in [t]. *)
Fixpoint phone_free (w : bool) (t : list ascii) : bool :=
  match t with
  | [] => true
  | a :: t' => negb (phone_at w t) && phone_free (isword a) t'
  end.

(** [t] is at its end, or starts with a character that is neither of a word
    nor a separator. *)
Definition inert (t : list ascii) : bool :=
  match t with
  | [] => true
  | a :: _ => negb (isword a) && negb (sepch a)
  end.

(** [x] is [y] as far as a match of [phone_re] can see: the two have the
    same characters up to a place where no match goes on in [x], and where
    one that has its digits ends in [y] as well. The flag says that the
    character before is not a word character. *)
Inductive sees : bool -> list ascii -> list ascii -> Prop :=
| sees_same (b : bool) (x : list ascii) : sees b x x
| sees_end (b : bool) (x y : list ascii) :
    inert x = true -> word_at (head y) = false -> sees b x y
| sees_gap (x y : list ascii) : word_at (head x) = false -> sees true x y
| sees_cons (b : bool) (a : ascii) (x y : list ascii) :
    sees (negb (isword a)) x y -> sees b (a :: x) (a :: y).

(** The two removals of [remove_phone_numbers]. *)
Definition phones (p : bool) (s : list ascii) : list ascii :=
  if p then sub_chars ten_digits_re [] (sub_chars phone_re [] s) else s.

(** [clean_text] with [remove_extra_spaces], on the characters, by its six
    other flags. *)
Definition clean_flags (urls emails phone special numbers lowercase : bool)
  (s : list ascii) : list ascii :=
  clean_chars special numbers lowercase (phones phone (clean_patterns urls emails s)).

End PatternSpec.

(** ** Floats, as far as the code compares them *)

Module Double.
Import Chars Str.

(** The float nearest to an integer: 53 significant bits, ties to even. *)
Definition to_double (n : N) : N :=
  if (n <? 2 ^ 53)%N then n
  else
    let e := (N.log2 n - 52)%N in
    let q := (n / 2 ^ e)%N in
    let r := (n mod 2 ^ e)%N in
    if (2 ^ e <? 2 * r)%N || ((2 * r =? 2 ^ e)%N && N.odd q)
    then ((q + 1) * 2 ^ e)%N else (q * 2 ^ e)%N.

(** The number that decimal digits write. *)
Fixpoint digits_from (acc : N) (l : list ascii) : option N :=
  match l with
  | [] => Some acc
  | c :: l' =>
      if between "0" "9" c then digits_from (10 * acc + (code c - 48))%N l' else None
  end.

Definition number_of (l : list ascii) : option N :=
  match l with
  | [] => None
  | _ => digits_from 0 l
  end.

(** The text before the first [c], and the text after it if [c] is there. *)
Fixpoint cut (c : ascii) (l : list ascii) : list ascii * option (list ascii) :=
  match l with
  | [] => ([], None)
  | a :: l' =>
      if Ascii.eqb a c then ([], Some l')
      else let '(before, after) := cut c l' in (a :: before, after)
  end.

(** The integer that a float is equal to, if there is one, read off the
    [repr] of the float: [repr] writes a float below 1e16 with all its
    digits, so that it is an integer when the digits after the point are
    zeros, and a float from 1e16 on as [d.ddde+xx], the shortest digits of
    which the float is the nearest one; those floats are all integers. Of
    [inf], of [nan] and of a float that is no integer there is none. *)
Definition float_int (r : string) : option Z :=
  let l := chars r in
  let negative := match l with "-"%char :: _ => true | _ => false end in
  let l := match l with "-"%char :: l' => l' | _ => l end in
  let signed (n : N) : Z := if negative then (- Z.of_N n)%Z else Z.of_N n in
  let '(mantissa, exponent) := cut "e" l in
  let '(whole, fraction) := cut "." mantissa in
  match exponent with
  | None =>
      match number_of whole, fraction with
      | Some n, Some (d :: ds) =>
          if forallb (Ascii.eqb "0") (d :: ds) then Some (signed (to_double n)) else None
      | _, _ => None
      end
  | Some ("+"%char :: x) =>
      let fraction := default [] fraction in
      match number_of (whole ++ fraction), number_of x with
      | Some m, Some x =>
          if (N.of_nat (length fraction) <=? x)%N
          then Some (signed (to_double (m * 10 ^ (x - N.of_nat (length fraction)))))
          else None
      | _, _ => None
      end
  | Some _ => None
  end.

End Double.

(** ** Python values, exceptions and the built-ins the code calls *)

Module Py.
Import Chars Str.

(** The values found in an extraction record. A float is carried by its
    [repr]: the code only prints floats. *)
Inductive value : Type :=
| VNone
| VBool (b : bool)
| VInt (z : Z)
| VFloat (repr : string)
| VStr (s : string)
| VList (l : list value)
| VDict (d : list (string * value)).

Definition dict : Type := list (string * value).

(** An exception: the name of its class and [str(e)]. *)
Inductive exn : Type := Exn (kind : string) (msg : string).

Definition exn_str (e : exn) : string := match e with Exn _ m => m end.

Inductive result (A : Type) : Type :=
| Ok (a : A)
| Raise (e : exn).
Arguments Ok {A} a.
Arguments Raise {A} e.

Definition bind {A B : Type} (r : result A) (k : A -> result B) : result B :=
  match r with
  | Ok a => k a
  | Raise e => Raise e
  end.

Notation "'let*' x ':=' r 'in' k" := (bind r (fun x => k))
  (at level 10, x name, r at level 100, k at level 200).

(** [try: body except Exception as e: handler(e)] *)
Definition try_except {A : Type} (body : result A) (handler : exn -> A) : A :=
  match body with
  | Ok a => a
  | Raise e => handler e
  end.

(** [for x in xs: acc = f(acc, x)], stopping at the first exception. *)
Fixpoint foldM {A S : Type} (f : S -> A -> result S) (acc : S) (xs : list A) : result S :=
  match xs with
  | [] => Ok acc
  | x :: xs' => let* acc' := f acc x in foldM f acc' xs'
  end.

Fixpoint mapM {A B : Type} (f : A -> result B) (xs : list A) : result (list B) :=
  match xs with
  | [] => Ok []
  | x :: xs' => let* y := f x in let* ys := mapM f xs' in Ok (y :: ys)
  end.

(** *** Dictionaries *)

(** [d.get(k)] *)
Fixpoint lookup (k : string) (d : dict) : option value :=
  match d with
  | [] => None
  | (k', v) :: d' => if String.eqb k' k then Some v else lookup k d'
  end.

(** [k in d] *)
Definition has_key (k : string) (d : dict) : bool :=
  match lookup k d with Some _ => true | None => false end.

(** [d.keys()] *)
Definition keys (d : dict) : list string := map fst d.

(** [d[k] = v]: a key that is there keeps its place. *)
Fixpoint set_item (k : string) (v : value) (d : dict) : dict :=
  match d with
  | [] => [(k, v)]
  | (k', v') :: d' =>
      if String.eqb k' k then (k, v) :: d' else (k', v') :: set_item k v d'
  end.

(** *** Printing *)

Definition str_of_Z (z : Z) : string := NilZero.string_of_int (Z.to_int z).
Definition str_of_nat (n : nat) : string := str_of_Z (Z.of_nat n).
Definition str_of_N (n : N) : string := str_of_Z (Z.of_N n).

Definition hex_digit (n : N) : ascii :=
  nth (N.to_nat n) (chars "0123456789abcdef") "0"%char.

(** The two hexadecimal digits of a character. *)
Definition hex2 (c : ascii) : string :=
  String (hex_digit (code c / 16)) (String (hex_digit (code c mod 16)) "").

(** [repr] of a [str]: single quotes, unless the text has a single quote and
    no double quote. *)
Definition repr_char (quote : ascii) (c : ascii) : string :=
  if Ascii.eqb c quote || Ascii.eqb c "\" then String "\" (String c "")
  else if Ascii.eqb c (chr 9) then "\t"
  else if Ascii.eqb c (chr 10) then "\n"
  else if Ascii.eqb c (chr 13) then "\r"
  else if isprintable c then String c ""
  else "\x" +:+ hex2 c.

Definition repr_str (s : string) : string :=
  let quote :=
    if contains_char "'" s && negb (contains_char dquote s) then dquote else "'"%char in
  String quote (String.concat "" (map (repr_char quote) (chars s))) +:+ String quote "".

Definition str_of_bool (b : bool) : string := if b then "True" else "False".

Fixpoint repr (v : value) : string :=
  match v with
  | VNone => "None"
  | VBool b => str_of_bool b
  | VInt z => str_of_Z z
  | VFloat r => r
  | VStr s => repr_str s
  | VList l => "[" +:+ join ", " (map repr l) +:+ "]"
  | VDict d =>
      "{" +:+ join ", " (map (fun kv => let '(k, x) := kv in
                                        repr_str k +:+ ": " +:+ repr x) d) +:+ "}"
  end.

(** [str(v)], which is also what an f-string puts for [{v}]. *)
Definition str (v : value) : string :=
  match v with
  | VStr s => s
  | _ => repr v
  end.

Definition type_name (v : value) : string :=
  match v with
  | VNone => "NoneType"
  | VBool _ => "bool"
  | VInt _ => "int"
  | VFloat _ => "float"
  | VStr _ => "str"
  | VList _ => "list"
  | VDict _ => "dict"
  end.

(** [len(v)] *)
Definition len (v : value) : result nat :=
  match v with
  | VStr s => Ok (String.length s)
  | VList l => Ok (length l)
  | VDict d => Ok (length d)
  | _ => Raise (Exn "TypeError"
                  ("object of type '" +:+ type_name v +:+ "' has no len()"))
  end.

(** [bool(v)] *)
Definition truthy (v : value) : bool :=
  match v with
  | VNone => false
  | VBool b => b
  | VInt z => negb (z =? 0)%Z
  | VFloat r => negb (String.eqb r "0.0" || String.eqb r "-0.0")
  | VStr s => negb (String.eqb s "")
  | VList l => match l with [] => false | _ => true end
  | VDict d => match d with [] => false | _ => true end
  end.

Definition no_attribute (v : value) (attr : string) : exn :=
  Exn "AttributeError"
    ("'" +:+ type_name v +:+ "' object has no attribute '" +:+ attr +:+ "'").

(** [v.split()] *)
Definition split_method (v : value) : result (list string) :=
  match v with
  | VStr s => Ok (split s)
  | _ => Raise (no_attribute v "split")
  end.

(** [d[k]] on a value *)
Definition getitem (v : value) (k : string) : result value :=
  match v with
  | VDict d =>
      match lookup k d with
      | Some x => Ok x
      | None => Raise (Exn "KeyError" (repr_str k))
      end
  | VStr _ => Raise (Exn "TypeError" "string indices must be integers, not 'str'")
  | VList _ => Raise (Exn "TypeError" "list indices must be integers or slices, not str")
  | _ => Raise (Exn "TypeError" ("'" +:+ type_name v +:+ "' object is not subscriptable"))
  end.

(** *** [json.dumps] *)

Definition json_char (ensure_ascii : bool) (c : ascii) : string :=
  if Ascii.eqb c dquote then String "\" (String dquote "")
  else if Ascii.eqb c "\" then "\\"
  else if Ascii.eqb c (chr 10) then "\n"
  else if Ascii.eqb c (chr 13) then "\r"
  else if Ascii.eqb c (chr 9) then "\t"
  else if Ascii.eqb c (chr 8) then "\b"
  else if Ascii.eqb c (chr 12) then "\f"
  else if between (chr 0) (chr 31) c || (ensure_ascii && negb (between " " "~" c))
       then "\u00" +:+ hex2 c
  else String c "".

Definition json_str (ensure_ascii : bool) (s : string) : string :=
  String dquote (String.concat "" (map (json_char ensure_ascii) (chars s)))
  +:+ String dquote "".

Definition json_float (r : string) : string :=
  if String.eqb r "nan" then "NaN"
  else if String.eqb r "inf" then "Infinity"
  else if String.eqb r "-inf" then "-Infinity"
  else r.

Fixpoint spaces (n : nat) : string :=
  match n with 0 => "" | S n' => String " " (spaces n') end.

(** A line break and the indentation of [level], when [indent] is given. *)
Definition json_break (indent : option nat) (level : nat) : string :=
  match indent with
  | None => ""
  | Some w => String (chr 10) (spaces (w * level))
  end.

Definition json_item_sep (indent : option nat) (level : nat) : string :=
  match indent with
  | None => ", "
  | Some _ => "," +:+ json_break indent level
  end.

Fixpoint json_enc (indent : option nat) (ensure_ascii : bool) (level : nat)
  (v : value) : string :=
  match v with
  | VNone => "null"
  | VBool b => if b then "true" else "false"
  | VInt z => str_of_Z z
  | VFloat r => json_float r
  | VStr s => json_str ensure_ascii s
  | VList [] => "[]"
  | VList l =>
      "[" +:+ json_break indent (S level)
      +:+ join (json_item_sep indent (S level))
               (map (json_enc indent ensure_ascii (S level)) l)
      +:+ json_break indent level +:+ "]"
  | VDict [] => "{}"
  | VDict d =>
      "{" +:+ json_break indent (S level)
      +:+ join (json_item_sep indent (S level))
               (map (fun kv => let '(k, x) := kv in
                               json_str ensure_ascii k +:+ ": "
                               +:+ json_enc indent ensure_ascii (S level) x) d)
      +:+ json_break indent level +:+ "}"
  end.

(** [json.dumps(v)] *)
Definition json_dumps (v : value) : string := json_enc None true 0 v.

(** *** Hashing *)

(** What a set or a dictionary holds for a hashable value: [None], a number
    ([True] is equal to 1, [False] to 0 and a float to the integer of its
    value, with the same hash), a float that is equal to no integer, or a
    string. *)
Inductive hkey : Type :=
| KNone
| KNum (z : Z)
| KFloat (r : string)
| KStr (s : string).

(** Whether a set or a dictionary takes two keys to be one. A NaN is equal
    to no float, itself included, and is found only as the object that it
    is; a value has no identity, and each NaN of a list is taken here to be
    an object of its own. *)
Definition hkey_eqb (a b : hkey) : bool :=
  match a, b with
  | KNone, KNone => true
  | KNum x, KNum y => (x =? y)%Z
  | KFloat x, KFloat y => String.eqb x y && negb (String.eqb x "nan")
  | KStr x, KStr y => String.eqb x y
  | _, _ => false
  end.

(** [hash(v)], with what [==] looks at: a list or a dictionary has none. *)
Definition hash_key (v : value) : result hkey :=
  match v with
  | VNone => Ok KNone
  | VBool b => Ok (KNum (if b then 1 else 0))
  | VInt z => Ok (KNum z)
  | VFloat r =>
      Ok (match Double.float_int r with
          | Some z => KNum z
          | None => KFloat r
          end)
  | VStr s => Ok (KStr s)
  | VList _ | VDict _ =>
      Raise (Exn "TypeError" ("unhashable type: '" +:+ type_name v +:+ "'"))
  end.

(** *** Dictionaries with keys of any kind *)

(** A dictionary whose keys are hashable values, in insertion order: the
    rows that [dict(zip(headers, row))] makes of a table, the keys of which
    are the header cells. *)
Definition kdict : Type := list (value * value).

(** Whether a dictionary takes two hashable values to be one key. *)
Definition same_key (a b : value) : bool :=
  match hash_key a, hash_key b with
  | Ok x, Ok y => hkey_eqb x y
  | _, _ => false
  end.

(** [d[k] = v]: a key that is there keeps its place, and stays the object
    that it was. *)
Fixpoint put (k v : value) (d : kdict) : kdict :=
  match d with
  | [] => [(k, v)]
  | (k', v') :: d' =>
      if same_key k' k then (k', v) :: d' else (k', v') :: put k v d'
  end.

(** [d.get(k)] *)
Fixpoint kget (k : value) (d : kdict) : option value :=
  match d with
  | [] => None
  | (k', v) :: d' => if same_key k' k then Some v else kget k d'
  end.

End Py.

(** Goes through the [let*] of a body that ended well. *)
Ltac through_binds H :=
  repeat match type of H with
  | Py.bind ?r _ = Py.Ok _ =>
      let E := fresh "E" in
      destruct r eqn:E; cbn [Py.bind] in H; [|discriminate H]
  | (let '(_, _) := ?x in _) = Py.Ok _ => destruct x
  | match ?x with _ => _ end = Py.Ok _ =>
      let E := fresh "E" in destruct x eqn:E; try discriminate H
  end.

(** ** utils/cleaner.py: the other methods of [DataCleaner] *)

Module Cleaner.
Import Chars Str Re Py.

(** [' '.join(text.split())] *)
Definition normalize_whitespace (text : string) : string := join " " (split text).

(** *** [remove_headers_footers] *)

(** [r'^Page \d+ of \d+$'] compiled with [re.IGNORECASE], between its [^] and
    its [$]: a letter of the pattern matches in both cases. *)
Definition page_re : regex :=
  Cat (In [Ch "P"; Ch "p"]) (Cat (In [Ch "a"; Ch "A"]) (Cat (In [Ch "g"; Ch "G"])
    (Cat (In [Ch "e"; Ch "E"]) (Cat (Chr " ") (Cat (Plus (In [Digit])) (Cat (Chr " ")
      (Cat (In [Ch "o"; Ch "O"]) (Cat (In [Ch "f"; Ch "F"]) (Cat (Chr " ")
        (Plus (In [Digit]))))))))))).

(** [r'^\d+$'], between its [^] and its [$]. *)
Definition number_re : regex := Plus (In [Digit]).

(** [$]: the end of the text, or the line feed that ends it. *)
Definition dollar : cont :=
  fun p s =>
    match s with
    | [] => Some (p, s)
    | [c] => if Ascii.eqb c (chr 10) then Some (p, s) else None
    | _ => None
    end.

(** [re.match(r'^...$', s)] finds a match: [re.match] looks at the start of
    [s], where [^] holds. *)
Definition matches (r : regex) (s : string) : bool :=
  match rmatch r None (chars s) dollar with
  | Some _ => true
  | None => false
  end.

(** The test of the loop: the line is appended. *)
Definition keeps_line (line : string) : bool :=
  negb (matches page_re (strip line))
  && negb (matches number_re (strip line))
  && negb (String.length (strip line) <? 3)%nat.

Definition remove_headers_footers (text : string) : string :=
  let lines := split_on (chr 10) text in
  let cleaned_lines := List.filter keeps_line lines in
  join (String (chr 10) "") cleaned_lines.

(** *** [remove_duplicates] *)

(** [sorted(item.items())]: the keys of a dictionary are distinct, so the
    pairs are ordered by their keys, which are compared by code points. *)
Fixpoint insert_item (kv : string * value) (l : dict) : dict :=
  match l with
  | [] => [kv]
  | kv' :: l' =>
      if String.ltb (fst kv') (fst kv) then kv' :: insert_item kv l' else kv :: l
  end.

Definition sorted_items (d : dict) : dict := fold_right insert_item [] d.

(** [str] of a list of pairs. *)
Definition str_items (l : dict) : string :=
  "[" +:+ join ", " (map (fun kv => "(" +:+ repr_str (fst kv) +:+ ", "
                                    +:+ repr (snd kv) +:+ ")") l) +:+ "]".

(** [item_key], as the set takes it: the text of the sorted pairs for a
    dictionary, else the item, which has to be hashable. *)
Definition item_key (item : value) : result hkey :=
  match item with
  | VDict d => Ok (KStr (str_items (sorted_items d)))
  | _ => hash_key item
  end.

(** The loop, from the set [seen]: the items appended. *)
Fixpoint remove_duplicates_from (seen : list hkey) (items : list value)
  : result (list value) :=
  match items with
  | [] => Ok []
  | item :: rest =>
      let* item_key := item_key item in
      if existsb (hkey_eqb item_key) seen
      then remove_duplicates_from seen rest
      else let* result := remove_duplicates_from (item_key :: seen) rest in
           Ok (item :: result)
  end.

Definition remove_duplicates (items : list value) : result (list value) :=
  remove_duplicates_from [] items.

(** *** [remove_empty_entries] *)

(** [entry.values()] *)
Definition values_method (entry : value) : result (list value) :=
  match entry with
  | VDict d => Ok (map snd d)
  | _ => Raise (no_attribute entry "values")
  end.

(** [any(str(value).strip() for value in values)] *)
Definition any_text (values : list value) : bool :=
  existsb (fun value => negb (String.eqb (strip (str value)) "")) values.

Fixpoint remove_empty_entries (data : list value) : result (list value) :=
  match data with
  | [] => Ok []
  | entry :: rest =>
      let* values := values_method entry in
      let* kept := remove_empty_entries rest in
      Ok (if any_text values then entry :: kept else kept)
  end.

End Cleaner.

(** The words of the statements about the other methods of the cleaner. *)
Module TextSpec.
Import Chars Str Re Py Cleaner PatternSpec.

(** The text that [' '.join] makes of words. *)
Fixpoint spaced (ws : list (list ascii)) : list ascii :=
  match ws with
  | [] => []
  | [w] => w
  | w :: ws' => w ++ " "%char :: spaced ws'
  end.

(** The pieces joined again by the separator, as characters. *)
Fixpoint joined (c : ascii) (ls : list (list ascii)) : list ascii :=
  match ls with
  | [] => []
  | [l] => l
  | l :: ls' => l ++ c :: joined c ls'
  end.

(** The engine found a match. *)
Definition found (o : option pos) : bool :=
  match o with Some _ => true | None => false end.

(** The end of the text, or the line feed that ends it. *)
Definition at_dollar (l : list ascii) : bool :=
  match l with
  | [] => true
  | [c] => Ascii.eqb c (chr 10)
  | _ => false
  end.

(** One character of a class, then [rest]. *)
Definition one (p : ascii -> bool) (rest : list ascii -> bool) (l : list ascii) : bool :=
  match l with
  | a :: l' => p a && rest l'
  | [] => false
  end.

(** A run of a class, as far as it goes and not empty, then [rest]. *)
Definition run (p : ascii -> bool) (rest : list ascii -> bool) (l : list ascii) : bool :=
  head_is p l && rest (drop_while p l).

(** The class of one character. *)
Definition is_char (c : ascii) (a : ascii) : bool := Ascii.eqb a c.

(** [page_re] read from left to right. *)
Definition page_shape : list ascii -> bool :=
  one (has [Ch "P"; Ch "p"]) (one (has [Ch "a"; Ch "A"]) (one (has [Ch "g"; Ch "G"])
    (one (has [Ch "e"; Ch "E"]) (one (is_char " ") (run (has [Digit]) (one (is_char " ")
      (one (has [Ch "o"; Ch "O"]) (one (has [Ch "f"; Ch "F"]) (one (is_char " ")
        (run (has [Digit]) at_dollar)))))))))).

(** A text of decimal digits, at least one. *)
Definition number (t : string) : Prop :=
  t <> "" /\ Forall (fun c => isdecimal c = true) (chars t).

(** A line [Page <n> of <m>], the two words in any case. *)
Definition page_marker (t : string) : Prop :=
  exists w1 n w2 m : string,
    t = w1 +:+ " " +:+ n +:+ " " +:+ w2 +:+ " " +:+ m /\
    lower w1 = "page" /\ lower w2 = "of" /\ number n /\ number m.

(** A text that does not end with white space. *)
Definition ends_clean (l : list ascii) : Prop :=
  forall pre c, l = pre ++ [c] -> isspace c = false.

(** A value that is a text of white space only, and a value whose text has
    another character (a float, carried by its text, is left aside). *)
Definition blank (v : value) : Prop := exists s, v = VStr s /\ strip s = "".

Definition solid (v : value) : Prop :=
  match v with
  | VStr s => strip s <> ""
  | VFloat _ => False
  | _ => True
  end.

(** A value that is a dictionary. *)
Definition is_dict (v : value) : Prop :=
  match v with VDict _ => True | _ => False end.

End TextSpec.

(** ** [os.path] (POSIX) *)

Module Path.
Import Chars Str.

(** The characters before the last [c] of [l] and those from it on, if [c]
    occurs: [l[:l.rfind(c)]] and [l[l.rfind(c):]]. *)
Definition rsplit (c : ascii) (l : list ascii) : option (list ascii * list ascii) :=
  let r := rev l in
  let tail := take_while (fun a => negb (Ascii.eqb a c)) r in
  match drop_while (fun a => negb (Ascii.eqb a c)) r with
  | [] => None
  | _ :: before => Some (rev before, c :: rev tail)
  end.

(** [os.path.split(p)]: the directory with its last slash, and the file name. *)
Definition dir_and_name (p : list ascii) : list ascii * list ascii :=
  match rsplit "/" p with
  | None => ([], p)
  | Some (dir, name) => (dir ++ ["/"%char], tl name)
  end.

(** [os.path.basename(p)] *)
Definition basename (p : string) : string := of_chars (snd (dir_and_name (chars p))).

(** [os.path.splitext(p)]: the extension starts at the last dot of the file
    name, unless only dots come before it there. *)
Definition splitext (p : string) : string * string :=
  let '(dir, name) := dir_and_name (chars p) in
  match rsplit "." name with
  | None => (p, "")
  | Some (stem, ext) =>
      if forallb (fun a => Ascii.eqb a ".") stem then (p, "")
      else (of_chars (dir ++ stem), of_chars ext)
  end.

(** [os.path.join(a, b)] *)
Definition join (a b : string) : string :=
  match chars b with
  | "/"%char :: _ => b
  | _ =>
      match rev (chars a) with
      | [] => b
      | "/"%char :: _ => a +:+ b
      | _ => a +:+ "/" +:+ b
      end
  end.

(** A name without a slash. *)
Definition no_slash (l : list ascii) : Prop := Forall (fun a => a <> "/"%char) l.

End Path.

(** ** utils/validator.py *)

Module FileValidator.
Import Chars Str Py.

Definition SUPPORTED_EXTENSIONS : list (string * string) :=
  [(".pdf", "PDF Document");
   (".docx", "Word Document");
   (".doc", "Word Document (Legacy)");
   (".xlsx", "Excel Spreadsheet");
   (".xls", "Excel Spreadsheet (Legacy)");
   (".csv", "CSV File");
   (".txt", "Text File")].

Definition MAX_FILE_SIZE : N := 50 * 1024 * 1024.

Fixpoint assoc (k : string) (d : list (string * string)) : option string :=
  match d with
  | [] => None
  | (k', v) :: d' => if String.eqb k' k then Some v else assoc k d'
  end.

(** The file system as the validator sees it: the size of what is at a path,
    if something is. *)
Definition stat_fn : Type := string -> option N.

(** [os.path.exists] *)
Definition exists_ (stat : stat_fn) (p : string) : bool :=
  match stat p with Some _ => true | None => false end.

(** [os.path.getsize] *)
Definition getsize (stat : stat_fn) (p : string) : result N :=
  match stat p with
  | Some n => Ok n
  | None => Raise (Exn "FileNotFoundError"
                     ("[Errno 2] No such file or directory: " +:+ repr_str p))
  end.

(** [f"{a / b:.2f}"] for a float [a / b] that is the exact quotient: the
    nearest multiple of 0.01, ties to even. *)
Definition format_2f (a b : N) : string :=
  let q := (100 * a / b)%N in
  let r := (100 * a mod b)%N in
  let cents := if (b <? 2 * r)%N || ((2 * r =? b)%N && N.odd q) then (q + 1)%N else q in
  let frac := (cents mod 100)%N in
  str_of_N (cents / 100) +:+ "." +:+ (if (frac <? 10)%N then "0" else "") +:+ str_of_N frac.

(** [f"{file_size / (1024*1024):.2f}"]: dividing by a power of two is exact
    on the float of [file_size]. *)
Definition size_in_mb (file_size : N) : string :=
  format_2f (Double.to_double file_size) (1024 * 1024).

(** [f"{FileValidator.MAX_FILE_SIZE / (1024*1024)}"]: the float 50.0 *)
Definition max_size_in_mb : string := "50.0".

Definition validate_file (stat : stat_fn) (file_path : string) : result (bool * string) :=
  if negb (exists_ stat file_path) then Ok (false, "File does not exist")
  else
    let ext := snd (Path.splitext file_path) in
    let ext := lower ext in
    match assoc ext SUPPORTED_EXTENSIONS with
    | None =>
        Ok (false, "Unsupported file type: " +:+ ext +:+ ". Supported types: "
                   +:+ Str.join ", " (map fst SUPPORTED_EXTENSIONS))
    | Some label =>
        let* file_size := getsize stat file_path in
        if (MAX_FILE_SIZE <? file_size)%N
        then Ok (false, "File too large: " +:+ size_in_mb file_size
                        +:+ "MB. Maximum size: " +:+ max_size_in_mb +:+ "MB")
        else if (file_size =? 0)%N then Ok (false, "File is empty")
        else Ok (true, "Valid " +:+ label)
    end.

(** [SUPPORTED_EXTENSIONS.get(ext, "Unknown")] *)
Definition get_file_type (file_path : string) : string :=
  let ext := snd (Path.splitext file_path) in
  let ext := lower ext in
  default "Unknown" (assoc ext SUPPORTED_EXTENSIONS).

Definition is_supported (file_path : string) : bool :=
  let ext := snd (Path.splitext file_path) in
  match assoc (lower ext) SUPPORTED_EXTENSIONS with
  | Some _ => true
  | None => false
  end.

Definition get_supported_extensions : list string := map fst SUPPORTED_EXTENSIONS.

End FileValidator.

(** The words of the statements about [validate_file]. *)
Module ValidatorSpec.
Import Str FileValidator.

Definition extension (file_path : string) : string :=
  lower (snd (Path.splitext file_path)).

Definition unsupported_message (ext : string) : string :=
  "Unsupported file type: " +:+ ext
  +:+ ". Supported types: .pdf, .docx, .doc, .xlsx, .xls, .csv, .txt".

Definition too_large_message (size : N) : string :=
  "File too large: " +:+ size_in_mb size +:+ "MB. Maximum size: 50.0MB".

End ValidatorSpec.

(** ** Files written by the program *)

Module Fs.

(** What a written file holds. A CSV file is the sequence of rows handed to
    the [csv] writer, each cell as the text the writer puts; an archive is
    the set of the paths it packs. *)
Inductive file : Type :=
| Text (content : string)
| Csv (rows : list (list string))
| Zip (members : gset string).

Abbreviation files := (gmap string file).

End Fs.

(** ** utils/formatter.py *)

Module DataFormatter.
Import Chars Str Py Fs.

(** [json.dumps(data, indent=2, ensure_ascii=False, default=str)] and
    [json.dumps(data, ensure_ascii=False, default=str)]; every value of the
    model is serializable, so [default] is not called. *)
Definition to_json (data : value) (pretty : bool) : string :=
  if pretty then json_enc (Some 2) false 0 data
  else json_enc None false 0 data.

(** [data[0]] *)
Definition first_item (data : value) : result value :=
  match data with
  | VList (x :: _) => Ok x
  | VList [] => Raise (Exn "IndexError" "list index out of range")
  | VStr (String c _) => Ok (VStr (String c ""))
  | VStr EmptyString => Raise (Exn "IndexError" "string index out of range")
  | VDict _ => Raise (Exn "KeyError" "0")
  | _ => Raise (Exn "TypeError" ("'" +:+ type_name data +:+ "' object is not subscriptable"))
  end.

(** [v.keys()] and [v.items()] *)
Definition keys_method (v : value) : result (list string) :=
  match v with
  | VDict d => Ok (keys d)
  | _ => Raise (no_attribute v "keys")
  end.

Definition items_method (v : value) : result dict :=
  match v with
  | VDict d => Ok d
  | _ => Raise (no_attribute v "items")
  end.

(** [for row in data] *)
Definition iterate (data : value) : result (list value) :=
  match data with
  | VList l => Ok l
  | VStr s => Ok (map (fun c => VStr (String c "")) (chars s))
  | VDict d => Ok (map VStr (keys d))
  | _ => Raise (Exn "TypeError" ("'" +:+ type_name data +:+ "' object is not iterable"))
  end.

(** [json.dumps(v) if isinstance(v, (dict, list)) else v] *)
Definition clean_cell (v : value) : value :=
  match v with
  | VDict _ | VList _ => VStr (json_dumps v)
  | _ => v
  end.

(** The text the [csv] writer puts for a cell. *)
Definition csv_cell (v : value) : string :=
  match v with
  | VNone => ""
  | _ => str v
  end.

(** [csv.DictWriter._dict_to_list]: a key outside the field names is an
    error; a missing field is the empty string. (With several wrong keys,
    the order in which the message lists them is that of a set.) *)
Definition dict_to_list (fieldnames : list string) (rowdict : dict) : result (list value) :=
  match List.filter (fun k => negb (existsb (String.eqb k) fieldnames)) (keys rowdict) with
  | [] => Ok (map (fun k => default (VStr "") (lookup k rowdict)) fieldnames)
  | wrong =>
      Raise (Exn "ValueError" ("dict contains fields not in fieldnames: "
                               +:+ join ", " (map repr_str wrong)))
  end.

(** [writer.writerow(cleaned_row)] for each row, as long as none raises: the
    rows written, and how the loop ended. *)
Fixpoint write_rows (fieldnames : list string) (rows : list value)
  : list (list string) * result unit :=
  match rows with
  | [] => ([], Ok tt)
  | row :: rows' =>
      match (let* items := items_method row in
             let cleaned_row := map (fun kv => (fst kv, clean_cell (snd kv))) items in
             dict_to_list fieldnames cleaned_row) with
      | Raise e => ([], Raise e)
      | Ok cells =>
          let '(written, r) := write_rows fieldnames rows' in
          (map csv_cell cells :: written, r)
      end
  end.

(** The body of the [with open(...)] block of [to_csv]. *)
Definition csv_body (data : value) : list (list string) * result unit :=
  match (let* first := first_item data in keys_method first) with
  | Raise e => ([], Raise e)
  | Ok fieldnames =>
      (* writer.writeheader() *)
      match iterate data with
      | Raise e => ([fieldnames], Raise e)
      | Ok rows =>
          let '(written, r) := write_rows fieldnames rows in
          (fieldnames :: written, r)
      end
  end.

(** [to_csv(data, output_path)]; [opens p] is the exception that
    [open(p, 'w')] raises, if it does. Returns the string and the files. *)
Definition to_csv (opens : string -> option exn) (data : value) (output_path : string)
  (fs : files) : string * files :=
  if negb (truthy data) then ("No data to convert to CSV", fs)
  else
    match opens output_path with
    | Some e => ("Error creating CSV: " +:+ exn_str e, fs)
    | None =>
        let '(rows, r) := csv_body data in
        let fs := <[output_path := Csv rows]> fs in
        match r with
        | Ok _ => (output_path, fs)
        | Raise e => ("Error creating CSV: " +:+ exn_str e, fs)
        end
    end.

(** [to_csv] on rows that are dictionaries with keys of any kind. *)

(** [csv.DictWriter._dict_to_list] *)
Definition kdict_to_list (fieldnames : list value) (rowdict : kdict)
  : result (list value) :=
  match List.filter (fun k => negb (existsb (same_key k) fieldnames))
                    (map fst rowdict) with
  | [] => Ok (map (fun k => default (VStr "") (kget k rowdict)) fieldnames)
  | wrong =>
      Raise (Exn "ValueError" ("dict contains fields not in fieldnames: "
                               +:+ join ", " (map repr wrong)))
  end.

(** [writer.writerow(cleaned_row)] for each row, as long as none raises. *)
Fixpoint write_krows (fieldnames : list value) (rows : list kdict)
  : list (list string) * result unit :=
  match rows with
  | [] => ([], Ok tt)
  | row :: rows' =>
      let cleaned_row := map (fun kv => (fst kv, clean_cell (snd kv))) row in
      match kdict_to_list fieldnames cleaned_row with
      | Raise e => ([], Raise e)
      | Ok cells =>
          let '(written, r) := write_krows fieldnames rows' in
          (map csv_cell cells :: written, r)
      end
  end.

(** [to_csv(data, output_path)]: the header is the text that the writer puts
    for each key of the first row. *)
Definition to_csv_zipped (opens : string -> option exn) (data : list kdict)
  (output_path : string) (fs : files) : string * files :=
  match data with
  | [] => ("No data to convert to CSV", fs)
  | first :: _ =>
      match opens output_path with
      | Some e => ("Error creating CSV: " +:+ exn_str e, fs)
      | None =>
          let fieldnames := map fst first in
          (* writer.writeheader() *)
          let '(written, r) := write_krows fieldnames data in
          let fs := <[output_path := Csv (map csv_cell fieldnames :: written)]> fs in
          match r with
          | Ok _ => (output_path, fs)
          | Raise e => ("Error creating CSV: " +:+ exn_str e, fs)
          end
      end
  end.

(** [key.replace(' ', '_').replace('-', '_')] *)
Definition safe_key (key : string) : string :=
  replace_char "-" "_" (replace_char " " "_" key).

Definition nl : string := String (chr 10) "".

Fixpoint repeat_str (s : string) (n : nat) : string :=
  match n with 0 => "" | S n' => s +:+ repeat_str s n' end.

(** [f"<{tag}>{v}</{tag}>"] *)
Definition leaf (tag : string) (v : value) : string :=
  "<" +:+ tag +:+ ">" +:+ str v +:+ "</" +:+ tag +:+ ">".

(** [dict_to_xml_helper(d, tag, indent_level)], on the value [VDict d]: its
    callers test [isinstance(value, dict)] before they call it. *)
Fixpoint xml_helper (v : value) (tag : string) (indent_level : nat) {struct v} : string :=
  let indent := repeat_str "  " indent_level in
  match v with
  | VDict d =>
      "<" +:+ tag +:+ ">" +:+ nl
      +:+ String.concat ""
            (map (fun kv =>
                    let '(key, value) := kv in
                    let safe_key := safe_key key in
                    match value with
                    | VDict _ =>
                        indent +:+ "  " +:+ xml_helper value safe_key (indent_level + 1) +:+ nl
                    | VList l =>
                        String.concat ""
                          (map (fun item =>
                                  match item with
                                  | VDict _ =>
                                      indent +:+ "  "
                                      +:+ xml_helper item safe_key (indent_level + 1) +:+ nl
                                  | _ => indent +:+ "  " +:+ leaf safe_key item +:+ nl
                                  end) l)
                    | _ => indent +:+ "  " +:+ leaf safe_key value +:+ nl
                    end) d)
      +:+ indent +:+ "</" +:+ tag +:+ ">"
  | _ => ""
  end.

Definition dict_to_xml_helper (d : dict) (tag : string) (indent_level : nat) : string :=
  xml_helper (VDict d) tag indent_level.

(** The inner function [dict_to_xml(d, root)] of [to_xml]. *)
Definition dict_to_xml (d : dict) (root : string) : string :=
  "<" +:+ root +:+ ">" +:+ nl
  +:+ String.concat ""
        (map (fun kv =>
                let '(key, value) := kv in
                let safe_key := safe_key key in
                match value with
                | VDict d' => "  " +:+ dict_to_xml_helper d' safe_key 2 +:+ nl
                | VList l =>
                    String.concat ""
                      (map (fun item =>
                              match item with
                              | VDict d' => "  " +:+ dict_to_xml_helper d' safe_key 2 +:+ nl
                              | _ => "  " +:+ leaf safe_key item +:+ nl
                              end) l)
                | _ => "  " +:+ leaf safe_key value +:+ nl
                end) d)
  +:+ "</" +:+ root +:+ ">".

(** The declaration, with its four double quotes. *)
Definition xml_declaration : string :=
  "<?xml version=" +:+ String dquote "1.0" +:+ String dquote " encoding="
  +:+ String dquote "UTF-8" +:+ String dquote "?>".

Definition default_root : string := "document".

Definition to_xml (data : dict) (root_name : string) : string :=
  xml_declaration +:+ nl +:+ dict_to_xml data root_name.

(** [data.get(k, dflt)] *)
Definition get (data : dict) (k : string) (dflt : value) : value :=
  default dflt (lookup k data).

Definition create_ai_training_format (data : dict) : result dict :=
  let ai_format :=
    [("input_text", VStr ""); ("metadata", VDict []);
     ("features", VDict []); ("structured_data", VList [])] in
  let ai_format :=
    match lookup "full_text" data with
    | Some x => set_item "input_text" x ai_format
    | None => ai_format
    end in
  let ai_format :=
    match lookup "metadata" data with
    | Some x => set_item "metadata" x ai_format
    | None => ai_format
    end in
  let* words := split_method (get data "full_text" (VStr "")) in
  let* has_tables :=
    if has_key "tables" data
    then let* n := len (get data "tables" (VList [])) in Ok (0 <? n)%nat
    else Ok false in
  let ai_format :=
    set_item "features"
      (VDict [("document_type", get data "document_type" (VStr "unknown"));
              ("word_count", VInt (Z.of_nat (length words)));
              ("has_tables", VBool has_tables);
              ("has_structure", VBool (has_key "pages" data || has_key "paragraphs" data))])
      ai_format in
  let ai_format :=
    match lookup "tables" data with
    | Some x => set_item "structured_data" x ai_format
    | None =>
        match lookup "data" data with
        | Some x => set_item "structured_data" x ai_format
        | None => ai_format
        end
    end in
  Ok ai_format.

Definition get_statistics (data : dict) : result dict :=
  let stats :=
    [("document_type", get data "document_type" (VStr "Unknown"));
     ("total_size", VInt 0); ("text_length", VInt 0); ("word_count", VInt 0);
     ("has_tables", VBool false); ("table_count", VInt 0)] in
  let* stats :=
    match lookup "full_text" data with
    | Some text =>
        let* n := len text in
        let stats := set_item "text_length" (VInt (Z.of_nat n)) stats in
        let* words := split_method text in
        Ok (set_item "word_count" (VInt (Z.of_nat (length words))) stats)
    | None => Ok stats
    end in
  let* stats :=
    match lookup "tables" data with
    | Some tables =>
        let stats := set_item "has_tables" (VBool true) stats in
        let* n := len tables in
        Ok (set_item "table_count" (VInt (Z.of_nat n)) stats)
    | None => Ok stats
    end in
  let stats :=
    match lookup "total_pages" data with
    | Some x => set_item "total_pages" x stats
    | None =>
        match lookup "total_paragraphs" data with
        | Some x => set_item "total_paragraphs" x stats
        | None => stats
        end
    end in
  Ok stats.

End DataFormatter.

(** The words of the statements about the formatter. *)
Module FormatterSpec.
Import Chars Str Py DataFormatter.

(** The number of words of a text: the characters that are no white space
    and follow white space or nothing. *)
Fixpoint word_starts (after_space : bool) (l : list ascii) : nat :=
  match l with
  | [] => 0
  | a :: l' =>
      if isspace a then word_starts true l'
      else (if after_space then 1 else 0) + word_starts false l'
  end.

Definition word_count (text : string) : nat := word_starts true (chars text).

(** The text of a record: empty when there is no ["full_text"]; the record
    is ill-typed when ["full_text"] is no string. *)
Definition full_text_of (data : dict) : option string :=
  match lookup "full_text" data with
  | None => Some ""
  | Some (VStr s) => Some s
  | Some _ => None
  end.

(** The tables of a record, when ["tables"] is a list or absent. *)
Definition tables_of (data : dict) : option (list value) :=
  match lookup "tables" data with
  | None => Some []
  | Some (VList l) => Some l
  | Some _ => None
  end.

(** The fields that hold the units of a document in the data model of the
    specification: pages, paragraphs, lines, sheets. *)
Definition units_field_present (data : dict) : bool :=
  has_key "pages" data || has_key "paragraphs" data
  || has_key "lines" data || has_key "sheets" data.

(** [ai_format["features"][name]] *)
Definition feature (ai_format : dict) (name : string) : option value :=
  match lookup "features" ai_format with
  | Some (VDict f) => lookup name f
  | _ => None
  end.

(** The cells of a row under the field names: the JSON text of a nested
    value, the text of any other, nothing for [None] or a missing field. *)
Definition row_cells (fieldnames : list string) (row : dict) : list string :=
  map (fun k => match lookup k row with
                | Some v => csv_cell (clean_cell v)
                | None => ""
                end) fieldnames.

(** Every key of the row is a field name. *)
Definition fits (fieldnames : list string) (row : dict) : Prop :=
  forall k, In k (keys row) -> In k fieldnames.

(** A line of the body of the root element: indented, ended by a line feed. *)
Definition indented_line (piece : string) : Prop :=
  exists x, piece = "  " +:+ x +:+ nl.

(** The entries that [get_statistics] adds for the pages or the paragraphs. *)
Definition count_entry (data : dict) : dict :=
  match lookup "total_pages" data with
  | Some x => [("total_pages", x)]
  | None =>
      match lookup "total_paragraphs" data with
      | Some x => [("total_paragraphs", x)]
      | None => []
      end
  end.

(** The statistics of a record with this text and these tables. *)
Definition statistics_of (data : dict) (text : string) (tables : list value) : dict :=
  [("document_type", get data "document_type" (VStr "Unknown"));
   ("total_size", VInt 0);
   ("text_length", VInt (Z.of_nat (String.length text)));
   ("word_count", VInt (Z.of_nat (length (split text))));
   ("has_tables", VBool (has_key "tables" data));
   ("table_count", VInt (Z.of_nat (length tables)))]
  ++ count_entry data.

End FormatterSpec.

(** The words of the statement about the root element of [to_xml]: the
    elements of a text, read by its tags. *)
Module XmlSpec.
Import Chars Str Py DataFormatter.

(** A name of XML 1.0, among the characters of the model: its first
    character, and the others. *)
Definition name_start (c : ascii) : bool :=
  Ascii.eqb c ":" || Ascii.eqb c "_" || between "A" "Z" c || between "a" "z" c
  || between (chr 192) (chr 214) c || between (chr 216) (chr 246) c
  || between (chr 248) (chr 255) c.

Definition name_char (c : ascii) : bool :=
  name_start c || Ascii.eqb c "-" || Ascii.eqb c "." || between "0" "9" c
  || (code c =? 183)%N.

Definition is_name (l : list ascii) : bool :=
  match l with
  | [] => false
  | c :: l' => name_start c && forallb name_char l'
  end.

(** The state of the reading: the elements that are open, the innermost
    first; the tag that is being read, if one is, its last character first;
    the elements closed at the top level, the last one first. *)
Definition reading : Type :=
  list (list ascii) * option (list ascii) * list (list ascii).

(** The end of a tag, which is what stands between a [<] and the next [>]:
    [/name] closes the innermost open element, which has to be [name];
    [name] opens an element. A tag has no attribute, and nothing else
    (a comment, a declaration, an empty element) is a tag. *)
Definition end_tag (opened closed : list (list ascii)) (content : list ascii)
  : option reading :=
  match content with
  | "/"%char :: name =>
      match opened with
      | top :: rest =>
          if is_name name && String.eqb (of_chars name) (of_chars top)
          then Some (rest, None, match rest with [] => name :: closed | _ => closed end)
          else None
      | [] => None
      end
  | _ => if is_name content then Some (content :: opened, None, closed) else None
  end.

(** The elements of the top level of a text, in their order, if the text is
    made of elements that are closed in the order in which they are open,
    with nothing but white space outside of them. Inside an element every
    character but [<] is text: character references are not looked at. *)
Fixpoint read (st : reading) (text : list ascii) {struct text}
  : option (list (list ascii)) :=
  let '(opened, tag, closed) := st in
  match text with
  | [] =>
      match opened, tag with
      | [], None => Some (rev closed)
      | _, _ => None
      end
  | c :: text' =>
      match tag with
      | Some t =>
          if Ascii.eqb c ">"
          then match end_tag opened closed (rev t) with
               | Some st' => read st' text'
               | None => None
               end
          else read (opened, Some (c :: t), closed) text'
      | None =>
          if Ascii.eqb c "<" then read (opened, Some [], closed) text'
          else match opened with
               | [] => if isspace c then read st text' else None
               | _ => read st text'
               end
      end
  end.

(** The declaration of [to_xml], character by character. *)
Definition declaration : list ascii :=
  ["<"; "?"; "x"; "m"; "l"; " "; "v"; "e"; "r"; "s"; "i"; "o"; "n"; "=";
   "034"; "1"; "."; "0"; "034"; " "; "e"; "n"; "c"; "o"; "d"; "i"; "n"; "g"; "=";
   "034"; "U"; "T"; "F"; "-"; "8"; "034"; "?"; ">"]%char.

(** The names of the top-level elements of a text that starts with the
    declaration. *)
Definition root_elements (text : string) : option (list string) :=
  match PatternSpec.strip_prefix declaration (chars text) with
  | Some rest => option_map (map of_chars) (read ([], None, []) rest)
  | None => None
  end.

(** A text without [<]. *)
Definition plain_text (s : string) : bool := negb (contains_char "<" s).

(** A dictionary of which [to_xml] makes elements only: every key that
    becomes a tag is a name, once its spaces and hyphens are underscores,
    and no text that is put between two tags has a [<]. *)
Fixpoint tame (v : value) : bool :=
  match v with
  | VDict d =>
      forallb (fun kv =>
                 let '(key, value) := kv in
                 let tag := is_name (chars (safe_key key)) in
                 match value with
                 | VDict _ => tag && tame value
                 | VList l =>
                     forallb (fun item =>
                                match item with
                                | VDict _ => tag && tame item
                                | _ => tag && plain_text (str item)
                                end) l
                 | _ => tag && plain_text (str value)
                 end) d
  | _ => true
  end.

(** Reading [s] leads from one state to another, whatever follows. *)
Definition moves (st : reading) (s : string) (st' : reading) : Prop :=
  forall rest, read st (chars s ++ rest) = read st' rest.

(** Inside an open element, what the helper makes of a tame value leaves
    the reading where it was: it is made of whole elements and of text. *)
Definition element (v : value) : Prop :=
  forall tag level o c,
    tame v = true -> is_name (chars tag) = true -> o <> [] ->
    moves (o, None, c) (xml_helper v tag level) (o, None, c).

End XmlSpec.

(** ** converters/*.py *)

Module Converters.
Import Chars Str Py FileValidator.

(** *** What the parsing libraries answer *)

(** A document opened by PyMuPDF: [page.get_text()] for each page, and
    [doc.metadata]. *)
Record fitz_doc : Type := {
  fitz_pages : list (result string);
  fitz_metadata : result dict
}.

(** A table found by pdfplumber or python-docx: rows of cells. *)
Definition table : Type := list (list value).

Record docx_paragraph : Type := {
  para_text : string;
  para_style_name : result string
}.

(** [doc.core_properties]; a date is carried by its [str]. *)
Record docx_properties : Type := {
  prop_title : string;
  prop_author : string;
  prop_subject : string;
  prop_keywords : string;
  prop_created : option string;
  prop_modified : option string;
  prop_last_modified_by : string
}.

Record docx_doc : Type := {
  docx_paragraphs : list docx_paragraph;
  docx_tables : result (list (result table));
  docx_core_properties : result docx_properties
}.

(** A pandas data frame, by what the code asks of it. *)
Record frame : Type := {
  df_records : list dict;                   (* df.to_dict('records') *)
  df_columns : list value;                  (* df.columns.tolist() *)
  df_null_values : result dict;             (* df.isnull().sum().to_dict() *)
  df_data_types : result dict;              (* df.dtypes.astype(str).to_dict() *)
  df_numeric_summary : result (option dict) (* describe() of the numeric columns, if any *)
}.

Record env : Type := {
  stat : stat_fn;
  (** the exception that [open(path, 'w')] raises, if it does *)
  opens : string -> option exn;
  (** [fitz.open(path)] *)
  fitz_open : string -> result fitz_doc;
  (** [pdfplumber.open(path)], then [page.extract_tables()] for each page *)
  plumber_open : string -> result (list (result (list table)));
  (** [Document(path)] *)
  docx_open : string -> result docx_doc;
  (** [pd.ExcelFile(path).sheet_names] *)
  excel_sheet_names : string -> result (list string);
  (** [pd.read_excel(path, sheet_name=name)] *)
  read_excel : string -> string -> result frame;
  (** [chardet.detect(open(path, 'rb').read())['encoding']] *)
  detect : string -> result (option string);
  (** [open(path, 'r', encoding=enc).read()] *)
  read_text : string -> string -> result string;
  (** [csv.DictReader] over the file: the field names and the rows *)
  read_csv : string -> string -> result (option (list string) * list dict)
}.

Definition VNat (n : nat) : value := VInt (Z.of_nat n).

(** ["\n\n"] *)
Definition blank_line : string := String (chr 10) (String (chr 10) "").

(** [[f(i, x) for i, x in enumerate(xs)]] with [i] from [i0]. *)
Fixpoint enumerate_from {A : Type} (i0 : nat) (xs : list A) : list (nat * A) :=
  match xs with
  | [] => []
  | x :: xs' => (i0, x) :: enumerate_from (S i0) xs'
  end.

(** A loop that appends to a list inside [try: ... except: pass]: what was
    appended before the first exception stays. *)
Fixpoint append_until_error {A : Type} (f : A -> result (list value)) (xs : list A)
  : list value :=
  match xs with
  | [] => []
  | x :: xs' =>
      match f x with
      | Ok ys => ys ++ append_until_error f xs'
      | Raise _ => []
      end
  end.

Definition row_value (row : list value) : value := VList row.
Definition table_value (t : table) : value := VList (map row_value t).

(** *** pdf_converter.py *)

Module PDFConverter.

Definition _extract_tables (e : env) (file_path : string) : list value :=
  match plumber_open e file_path with
  | Raise _ => []
  | Ok pages =>
      append_until_error
        (fun '(page_num, page) =>
           let* tables := page in
           Ok (flat_map
                 (fun '(table_idx, t) =>
                    match t with
                    | [] => []
                    | first_row :: _ =>
                        [VDict [("page", VNat (page_num + 1));
                                ("table_index", VNat (table_idx + 1));
                                ("rows", VNat (length t));
                                ("columns", VNat (length first_row));
                                ("data", table_value t)]]
                    end)
                 (enumerate_from 0 tables)))
        (enumerate_from 0 pages)
  end.

(** [get_metadata], called with [self.doc] set: a document without pages is
    false, and opened again. *)
Definition get_metadata (e : env) (file_path : string) (doc : fitz_doc) : result dict :=
  let* doc := match fitz_pages doc with
              | [] => fitz_open e file_path
              | _ => Ok doc
              end in
  let* metadata := fitz_metadata doc in
  let get k := default (VStr "N/A") (lookup k metadata) in
  Ok [("title", get "title"); ("author", get "author"); ("subject", get "subject");
      ("creator", get "creator"); ("producer", get "producer");
      ("creation_date", get "creationDate"); ("modification_date", get "modDate")].

Definition extract_body (e : env) (file_path : string) : result dict :=
  let* doc := fitz_open e file_path in
  let* texts := mapM (fun page => page) (fitz_pages doc) in
  let pages_data :=
    map (fun '(page_num, text) =>
           VDict [("page_number", VNat (page_num + 1));
                  ("text", VStr text);
                  ("word_count", VNat (length (split text)))])
        (enumerate_from 0 texts) in
  let tables := _extract_tables e file_path in
  let* metadata := get_metadata e file_path doc in
  Ok [("document_type", VStr "PDF");
      ("total_pages", VNat (length (fitz_pages doc)));
      ("full_text", VStr (join blank_line texts));
      ("pages", VList pages_data);
      ("tables", VList tables);
      ("metadata", VDict metadata)].

Definition extract (e : env) (file_path : string) : dict :=
  try_except (extract_body e file_path)
    (fun ex => [("error", VStr ("Failed to extract PDF: " +:+ exn_str ex));
                ("document_type", VStr "PDF")]).

End PDFConverter.

(** *** word_converter.py *)

Module WordConverter.

Definition _extract_tables (doc : docx_doc) : list value :=
  match docx_tables doc with
  | Raise _ => []
  | Ok tables =>
      append_until_error
        (fun '(table_idx, t) =>
           let* rows_data := t in
           Ok [VDict [("table_index", VNat (table_idx + 1));
                      ("rows", VNat (length rows_data));
                      ("columns", VNat (match rows_data with
                                        | [] => 0
                                        | first_row :: _ => length first_row
                                        end));
                      ("data", table_value rows_data)]])
        (enumerate_from 0 tables)
  end.

(** [x or "N/A"] *)
Definition or_na (x : string) : value :=
  if String.eqb x "" then VStr "N/A" else VStr x.

Definition get_metadata (doc : docx_doc) : result dict :=
  let* core_props := docx_core_properties doc in
  Ok [("title", or_na (prop_title core_props));
      ("author", or_na (prop_author core_props));
      ("subject", or_na (prop_subject core_props));
      ("keywords", or_na (prop_keywords core_props));
      ("created", VStr (default "N/A" (prop_created core_props)));
      ("modified", VStr (default "N/A" (prop_modified core_props)));
      ("last_modified_by", or_na (prop_last_modified_by core_props))].

Definition extract_body (e : env) (file_path : string) : result dict :=
  let* doc := docx_open e file_path in
  let* paragraphs :=
    mapM (fun para =>
            let* style := para_style_name para in
            Ok (para_text para, style))
         (List.filter (fun para => negb (String.eqb (strip (para_text para)) ""))
            (docx_paragraphs doc)) in
  let tables := _extract_tables doc in
  let* metadata := get_metadata doc in
  Ok [("document_type", VStr "Word Document");
      ("total_paragraphs", VNat (length paragraphs));
      ("total_tables", VNat (length tables));
      ("full_text", VStr (join blank_line (map fst paragraphs)));
      ("paragraphs",
       VList (map (fun '(text, style) =>
                     VDict [("text", VStr text); ("style", VStr style);
                            ("word_count", VNat (length (split text)))])
                  paragraphs));
      ("tables", VList tables);
      ("metadata", VDict metadata)].

Definition extract (e : env) (file_path : string) : dict :=
  try_except (extract_body e file_path)
    (fun ex => [("error", VStr ("Failed to extract Word document: " +:+ exn_str ex));
                ("document_type", VStr "Word Document")]).

End WordConverter.

(** [file_path.split('.')[-1].upper()] *)
Definition last_dot_part_upper (file_path : string) : string :=
  upper (List.last (split_on "." file_path) "").

(** *** excel_converter.py *)

Module ExcelConverter.

Definition _get_statistics (df : frame) : result dict :=
  let* null_values := df_null_values df in
  let* data_types := df_data_types df in
  let stats :=
    [("total_rows", VNat (length (df_records df)));
     ("total_columns", VNat (length (df_columns df)));
     ("null_values", VDict null_values);
     ("data_types", VDict data_types)] in
  let* numeric := df_numeric_summary df in
  match numeric with
  | Some summary => Ok (set_item "numeric_summary" (VDict summary) stats)
  | None => Ok stats
  end.

Definition get_metadata (file_path : string) : dict :=
  [("file_type", VStr "Excel Spreadsheet");
   ("format", VStr (last_dot_part_upper file_path))].

Definition extract_body (e : env) (file_path : string) : result dict :=
  let* sheet_names := excel_sheet_names e file_path in
  let* sheets :=
    mapM (fun sheet_name =>
            let* df := read_excel e file_path sheet_name in
            let* statistics := _get_statistics df in
            let records := map VDict (df_records df) in
            Ok (VDict [("sheet_name", VStr sheet_name);
                       ("rows", VNat (length (df_records df)));
                       ("columns", VNat (length (df_columns df)));
                       ("column_names", VList (df_columns df));
                       ("data", VList records);
                       ("preview", VList (firstn 10 records));
                       ("statistics", VDict statistics)],
                records))
         sheet_names in
  Ok [("document_type", VStr "Excel Spreadsheet");
      ("total_sheets", VNat (length sheet_names));
      ("sheet_names", VList (map VStr sheet_names));
      ("sheets", VList (map fst sheets));
      ("all_data", VList (flat_map snd sheets));
      ("metadata", VDict (get_metadata file_path))].

Definition extract (e : env) (file_path : string) : dict :=
  try_except (extract_body e file_path)
    (fun ex => [("error", VStr ("Failed to extract Excel file: " +:+ exn_str ex));
                ("document_type", VStr "Excel Spreadsheet")]).

End ExcelConverter.

(** *** text_converter.py *)

Module TextConverter.

(** [result['encoding'] or 'utf-8'], and ['utf-8'] when anything raises. *)
Definition _detect_encoding (e : env) (file_path : string) : string :=
  match detect e file_path with
  | Ok (Some enc) => if String.eqb enc "" then "utf-8" else enc
  | Ok None => "utf-8"
  | Raise _ => "utf-8"
  end.

Definition get_metadata (file_path encoding : string) : dict :=
  [("encoding", VStr encoding);
   ("file_extension", VStr (last_dot_part_upper file_path))].

Definition _extract_plain_text (e : env) (file_path encoding : string) : result dict :=
  let* content := read_text e file_path encoding in
  let lines := split_on (chr 10) content in
  Ok [("document_type", VStr "Text File");
      ("encoding", VStr encoding);
      ("total_lines", VNat (length lines));
      ("total_characters", VNat (String.length content));
      ("word_count", VNat (length (split content)));
      ("full_text", VStr content);
      ("lines",
       VList (map (fun '(i, line) =>
                     VDict [("line_number", VNat (i + 1)); ("text", VStr line)])
                  (List.filter (fun '(_, line) => negb (String.eqb (strip line) ""))
                     (enumerate_from 0 lines))));
      ("metadata", VDict (get_metadata file_path encoding))].

Definition _extract_csv (e : env) (file_path encoding : string) : result dict :=
  let* parsed := read_csv e file_path encoding in
  let '(headers, rows) := parsed in
  let rows := map VDict rows in
  Ok [("document_type", VStr "CSV File");
      ("encoding", VStr encoding);
      ("total_rows", VNat (length rows));
      ("total_columns", VNat (match headers with
                              | Some h => length h
                              | None => 0
                              end));
      ("headers", match headers with
                  | Some h => VList (map VStr h)
                  | None => VNone
                  end);
      ("data", VList rows);
      ("preview", VList (firstn 10 rows));
      ("metadata", VDict (get_metadata file_path encoding))].

Definition extract_body (e : env) (file_path encoding : string) : result dict :=
  if endswith ".csv" (lower file_path)
  then _extract_csv e file_path encoding
  else _extract_plain_text e file_path encoding.

Definition extract (e : env) (file_path encoding : string) : dict :=
  try_except (extract_body e file_path encoding)
    (fun ex => [("error", VStr ("Failed to extract text file: " +:+ exn_str ex));
                ("document_type", VStr "Text File")]).

End TextConverter.

(** *** The converter objects *)

Inductive converter : Type :=
| PDF (file_path : string)
| Word (file_path : string)
| Excel (file_path : string)
| TextFile (file_path : string) (encoding : string).

(** [BaseConverter.__init__] reads the size of the file. *)
Definition base_init (e : env) (file_path : string) : result N :=
  getsize (stat e) file_path.

Definition new_pdf (e : env) (file_path : string) : result converter :=
  let* _ := base_init e file_path in Ok (PDF file_path).
Definition new_word (e : env) (file_path : string) : result converter :=
  let* _ := base_init e file_path in Ok (Word file_path).
Definition new_excel (e : env) (file_path : string) : result converter :=
  let* _ := base_init e file_path in Ok (Excel file_path).
Definition new_text (e : env) (file_path : string) : result converter :=
  let* _ := base_init e file_path in
  Ok (TextFile file_path (TextConverter._detect_encoding e file_path)).

(** [converter.extract()] *)
Definition extract (e : env) (c : converter) : dict :=
  match c with
  | PDF p => PDFConverter.extract e p
  | Word p => WordConverter.extract e p
  | Excel p => ExcelConverter.extract e p
  | TextFile p enc => TextConverter.extract e p enc
  end.

End Converters.

(** ** app.py *)

Module App.
Import Chars Str Py Fs FileValidator Converters.

(** Code that writes files and can raise: the files written stay when it
    raises. *)
Definition io (A : Type) : Type := files -> result A * files.

Definition ret {A : Type} (a : A) : io A := fun fs => (Ok a, fs).
Definition raise {A : Type} (e : exn) : io A := fun fs => (Raise e, fs).
Definition lift {A : Type} (r : result A) : io A := fun fs => (r, fs).

Definition io_bind {A B : Type} (m : io A) (k : A -> io B) : io B :=
  fun fs =>
    match m fs with
    | (Ok a, fs') => k a fs'
    | (Raise e, fs') => (Raise e, fs')
    end.

Notation "'let!' x ':=' m 'in' k" := (io_bind m (fun x => k))
  (at level 10, x name, m at level 100, k at level 200).

(** [with open(path, 'w', encoding='utf-8') as f: f.write(content)] *)
Definition write_text (e : env) (path content : string) : io unit :=
  fun fs =>
    match opens e path with
    | Some ex => (Raise ex, fs)
    | None => (Ok tt, <[path := Text content]> fs)
    end.

Definition output_dir : string := "output".

Fixpoint zip {A B : Type} (xs : list A) (ys : list B) : list (A * B) :=
  match xs, ys with
  | x :: xs', y :: ys' => (x, y) :: zip xs' ys'
  | _, _ => []
  end.

(** [dict(pairs)]: a key has to be hashable. *)
Definition dict_of_pairs (pairs : list (value * value)) : result kdict :=
  foldM (fun d '(k, v) => let* _ := hash_key k in Ok (put k v d)) [] pairs.

(** [dict(zip(headers, row))] *)
Definition dict_zip (headers row : value) : result kdict :=
  let* hs := DataFormatter.iterate headers in
  let* cells := DataFormatter.iterate row in
  dict_of_pairs (zip hs cells).

(** [v[1:]] *)
Definition rest_items (v : value) : result value :=
  match v with
  | VList l => Ok (VList (tl l))
  | VStr s => Ok (VStr (Str.drop 1 s))
  | VDict _ => Raise (Exn "TypeError" "unhashable type: 'slice'")
  | _ => Raise (Exn "TypeError" ("'" +:+ type_name v +:+ "' object is not subscriptable"))
  end.

(** The rows for the CSV export: a value of the record, or the dictionaries
    made of a table, whose keys are its header cells. *)
Inductive tabular : Type :=
| Rows (v : value)
| Zipped (ds : list kdict).

Definition _extract_tabular_data (data : dict) : result tabular :=
  match lookup "data" data with
  | Some rows => Ok (Rows rows)
  | None =>
      match lookup "all_data" data with
      | Some rows => Ok (Rows rows)
      | None =>
          match lookup "tables" data with
          | Some tables =>
              if truthy tables then
                let* first := DataFormatter.first_item tables in
                let* first_table := getitem first "data" in
                let* long := if truthy first_table
                             then let* n := len first_table in Ok (1 <? n)%nat
                             else Ok false in
                if long then
                  let* headers := DataFormatter.first_item first_table in
                  let* rows := rest_items first_table in
                  let* rows := DataFormatter.iterate rows in
                  let* dicts := mapM (dict_zip headers) rows in
                  Ok (Zipped dicts)
                else Ok (Rows (VList []))
              else Ok (Rows (VList []))
          | None => Ok (Rows (VList []))
          end
      end
  end.

(** [if csv_data:], [to_csv(csv_data, output_path)] and [len(csv_data)] *)
Definition rows_given (csv_data : tabular) : bool :=
  match csv_data with
  | Rows v => truthy v
  | Zipped ds => match ds with [] => false | _ => true end
  end.

Definition rows_to_csv (opens : string -> option exn) (csv_data : tabular)
  (output_path : string) (fs : files) : string * files :=
  match csv_data with
  | Rows v => DataFormatter.to_csv opens v output_path fs
  | Zipped ds => DataFormatter.to_csv_zipped opens ds output_path fs
  end.

Definition rows_len (csv_data : tabular) : result nat :=
  match csv_data with
  | Rows v => len v
  | Zipped ds => Ok (length ds)
  end.

Definition _format_statistics (stats : dict) : string :=
  "**Document Statistics**" +:+ DataFormatter.nl +:+ DataFormatter.nl
  +:+ String.concat ""
        (map (fun '(key, value) =>
                let formatted_key := title (replace_char "_" " " key) in
                "**" +:+ formatted_key +:+ ":** " +:+ str value +:+ DataFormatter.nl)
             stats).

(** [clean_text] called on a value: on anything but a [str], the first step
    that is enabled raises (the messages are those of Python 3.11). *)
Definition clean_value (v : value) (options : gmap string bool) : result value :=
  match v with
  | VStr s => Ok (VStr (DataCleaner.clean_text s (Some options)))
  | _ =>
      let on k d := DataCleaner.get options k d in
      let re_error :=
        Exn "TypeError"
          ("expected string or bytes-like object, got '" +:+ type_name v +:+ "'") in
      if on "remove_urls" true || on "remove_emails" false
         || on "remove_phone_numbers" false || on "remove_special_chars" false
         || on "remove_numbers" false
      then Raise re_error
      else if on "lowercase" false then Raise (no_attribute v "lower")
      else if on "remove_extra_spaces" true then Raise re_error
      else Ok v
  end.

(** [s[:2000] + "..." if len(s) > 2000 else s] *)
Definition preview_of (s : string) : string :=
  if (2000 <? String.length s)%nat then Str.take 2000 s +:+ "..." else s.

Definition outcome : Type := string * string * option string * string.

(** The CSV branch of [process_file]: what [to_csv] returns is not looked
    at. [success] makes the answer of a file that went through. *)
Definition export_csv (e : env) (extracted_data : dict) (output_path stats_text : string)
  (success : string -> outcome) : io outcome :=
  let! csv_data := lift (_extract_tabular_data extracted_data) in
  if rows_given csv_data then
    let! _ := (fun fs =>
                 (Ok tt, snd (rows_to_csv (opens e) csv_data output_path fs))) in
    let! n := lift (rows_len csv_data) in
    ret (success ("CSV file created with " +:+ str_of_nat n +:+ " rows"))
  else ret ("No tabular data found for CSV export", "", None, stats_text).

(** The body of the [try] of [process_file]. *)
Definition process_file_body (e : env) (file_path output_format : string)
  (clean_text remove_urls remove_extra_spaces lowercase : bool) : io outcome :=
  let! valid := lift (validate_file (stat e) file_path) in
  let '(is_valid, validation_msg) := valid in
  if negb is_valid then ret (validation_msg, "", None, "")
  else
    let ext := lower (snd (Path.splitext file_path)) in
    let new_converter :=
      if String.eqb ext ".pdf" then Some new_pdf
      else if String.eqb ext ".docx" || String.eqb ext ".doc" then Some new_word
      else if String.eqb ext ".xlsx" || String.eqb ext ".xls" then Some new_excel
      else if String.eqb ext ".txt" || String.eqb ext ".csv" then Some new_text
      else None in
    match new_converter with
    | None => ret ("Unsupported file type: " +:+ ext, "", None, "")
    | Some new =>
        let! converter := lift (new e file_path) in
        let extracted_data := extract e converter in
        match lookup "error" extracted_data with
        | Some err => ret (str err, "", None, "")
        | None =>
            let! extracted_data :=
              match lookup "full_text" extracted_data with
              | Some text =>
                  if clean_text then
                    let cleaning_options : gmap string bool :=
                      list_to_map
                        [("remove_extra_spaces", remove_extra_spaces);
                         ("remove_urls", remove_urls);
                         ("lowercase", lowercase);
                         ("remove_special_chars", false);
                         ("remove_numbers", false)] in
                    let! cleaned := lift (clean_value text cleaning_options) in
                    ret (set_item "full_text" cleaned extracted_data)
                  else ret extracted_data
              | None => ret extracted_data
              end in
            let! stats := lift (DataFormatter.get_statistics extracted_data) in
            let stats_text := _format_statistics stats in
            let base_name := fst (Path.splitext (Path.basename file_path)) in
            let success output_path preview :=
              ("Successfully processed: " +:+ Path.basename file_path
               +:+ DataFormatter.nl +:+ "Output saved to: " +:+ output_path,
               preview, Some output_path, stats_text) in
            if String.eqb output_format "JSON" then
              let output_path := Path.join output_dir (base_name +:+ "_converted.json") in
              let json_output := DataFormatter.to_json (VDict extracted_data) true in
              let! _ := write_text e output_path json_output in
              ret (success output_path (preview_of json_output))
            else if String.eqb output_format "CSV" then
              let output_path := Path.join output_dir (base_name +:+ "_converted.csv") in
              export_csv e extracted_data output_path stats_text (success output_path)
            else if String.eqb output_format "XML" then
              let output_path := Path.join output_dir (base_name +:+ "_converted.xml") in
              let xml_output := DataFormatter.to_xml extracted_data DataFormatter.default_root in
              let! _ := write_text e output_path xml_output in
              ret (success output_path (preview_of xml_output))
            else if String.eqb output_format "AI Training Format" then
              let output_path := Path.join output_dir (base_name +:+ "_ai_training.json") in
              let! ai_format := lift (DataFormatter.create_ai_training_format extracted_data) in
              let json_output := DataFormatter.to_json (VDict ai_format) true in
              let! _ := write_text e output_path json_output in
              ret (success output_path (preview_of json_output))
            else
              (* no branch has set [output_path] (the message is that of Python 3.11) *)
              raise (Exn "UnboundLocalError"
                       "cannot access local variable 'output_path' where it is not associated with a value")
        end
    end.

Definition process_file (e : env) (file_path output_format : string)
  (clean_text remove_urls remove_extra_spaces lowercase : bool) (fs : files)
  : outcome * files :=
  match process_file_body e file_path output_format
          clean_text remove_urls remove_extra_spaces lowercase fs with
  | (Ok r, fs') => (r, fs')
  | (Raise ex, fs') => (("Error processing file: " +:+ exn_str ex, "", None, ""), fs')
  end.

(** [if output_path:] *)
Definition path_given (output_path : option string) : bool :=
  match output_path with
  | Some p => negb (String.eqb p "")
  | None => false
  end.

(** The state of the loop of [process_batch]. *)
Record tally : Type := {
  results : list string;
  successful : nat;
  failed : nat
}.

(** One turn of the loop; [E fs] is what the environment answers when the
    written files are [fs]. *)
Definition batch_step (E : files -> env) (output_format : string)
  (clean_text remove_urls remove_extra_spaces lowercase : bool)
  (st : tally * files) (file_path : string) : tally * files :=
  let '(t, fs) := st in
  let '((status, _, output_path, _), fs') :=
    process_file (E fs) file_path output_format
      clean_text remove_urls remove_extra_spaces lowercase fs in
  if path_given output_path
  then ({| results := results t ++ ["[OK] " +:+ Path.basename file_path];
           successful := successful t + 1;
           failed := failed t |}, fs')
  else ({| results := results t
                      ++ ["[FAILED] " +:+ Path.basename file_path +:+ ": " +:+ status];
           successful := successful t;
           failed := failed t + 1 |}, fs').

Definition zip_path : string := Path.join output_dir "batch_output.zip".

(** The files under a directory. *)
Definition under (dir : string) (fs : files) : gset string :=
  dom (filter (fun kv => String.prefix (dir +:+ "/") (fst kv) = true) fs).

(** [shutil.make_archive(os.path.join(output_dir, "batch_output"), 'zip',
    output_dir)]: the archive is opened for writing in the directory that it
    then packs, so it is one of its own members. *)
Definition make_archive (e : env) : io unit :=
  fun fs =>
    match opens e zip_path with
    | Some ex => (Raise ex, fs)
    | None =>
        let fs := <[zip_path := Zip ∅]> fs in
        (Ok tt, <[zip_path := Zip (under output_dir fs)]> fs)
    end.

Definition summary_of (t : tally) : string :=
  "**Batch Processing Complete**" +:+ DataFormatter.nl +:+ DataFormatter.nl
  +:+ "Successful: " +:+ str_of_nat (successful t) +:+ DataFormatter.nl
  +:+ "Failed: " +:+ str_of_nat (failed t) +:+ DataFormatter.nl +:+ DataFormatter.nl
  +:+ "**Details:**" +:+ DataFormatter.nl +:+ join DataFormatter.nl (results t).

(** [process_batch]; the second component of the answer is the path of the
    archive, [None], or the empty string. *)
Definition process_batch (E : files -> env) (files_ : list string) (output_format : string)
  (clean_text remove_urls remove_extra_spaces lowercase : bool)
  : io (string * option string) :=
  match files_ with
  | [] => ret ("No files uploaded", Some "")
  | _ =>
      fun fs =>
        let '(t, fs) :=
          fold_left
            (batch_step E output_format clean_text remove_urls remove_extra_spaces lowercase)
            files_ ({| results := []; successful := 0; failed := 0 |}, fs) in
        let summary := summary_of t in
        if (0 <? successful t)%nat
        then (let! _ := make_archive (E fs) in ret (summary, Some zip_path)) fs
        else (Ok (summary, None), fs)
  end.

End App.

(** The words of the statements about the extractors and the orchestrator. *)
Module AppSpec.
Import Chars Str Py Fs Converters App.

(** The record of a failed extraction. *)
Definition error_record (what document_type cause : string) : dict :=
  [("error", VStr ("Failed to extract " +:+ what +:+ ": " +:+ cause));
   ("document_type", VStr document_type)].

(** How each extractor names the format in its message, and its tag. *)
Definition what (c : converter) : string :=
  match c with
  | PDF _ => "PDF"
  | Word _ => "Word document"
  | Excel _ => "Excel file"
  | TextFile _ _ => "text file"
  end.

Definition tag (c : converter) : string :=
  match c with
  | PDF _ => "PDF"
  | Word _ => "Word Document"
  | Excel _ => "Excel Spreadsheet"
  | TextFile _ _ => "Text File"
  end.

(** What [extract] runs inside its [try]. *)
Definition body (e : env) (c : converter) : result dict :=
  match c with
  | PDF p => PDFConverter.extract_body e p
  | Word p => WordConverter.extract_body e p
  | Excel p => ExcelConverter.extract_body e p
  | TextFile p enc => TextConverter.extract_body e p enc
  end.

(** A row zipped against the header: the pairs in order, a header cell that
    comes again taking the later cell of the row. *)
Definition zipped (headers : list value) (row : list value) : kdict :=
  fold_left (fun d '(k, v) => put k v d) (zip headers row) [].

(** No two of the cells are one key. *)
Definition distinct_keys (headers : list value) : Prop :=
  ForallOrdPairs (fun a b => same_key a b = false) headers.

(** A value that can be a key. *)
Definition hashable (v : value) : Prop := exists k, hash_key v = Ok k.

(** The outcomes of the files of a batch, processed one after the other, and
    the files written in the end. *)
Fixpoint trace (E : files -> env) (output_format : string)
  (clean_text remove_urls remove_extra_spaces lowercase : bool)
  (fs : files) (files_ : list string) : list outcome * files :=
  match files_ with
  | [] => ([], fs)
  | p :: ps =>
      let '(o, fs') :=
        process_file (E fs) p output_format
          clean_text remove_urls remove_extra_spaces lowercase fs in
      let '(os, fs'') :=
        trace E output_format clean_text remove_urls remove_extra_spaces lowercase fs' ps in
      (o :: os, fs'')
  end.

Definition status_of (o : outcome) : string := fst (fst (fst o)).
Definition output_of (o : outcome) : option string := snd (fst o).

(** The file went through: [process_file] gave an output path. *)
Definition went_through (o : outcome) : bool := path_given (output_of o).

(** The line of the details for a file and its outcome. *)
Definition detail (p : string) (o : outcome) : string :=
  if went_through o then "[OK] " +:+ Path.basename p
  else "[FAILED] " +:+ Path.basename p +:+ ": " +:+ status_of o.

Definition details (files_ : list string) (outs : list outcome) : list string :=
  map (fun '(p, o) => detail p o) (zip files_ outs).

Definition count (outs : list outcome) (b : bool) : nat :=
  length (List.filter (fun o => Bool.eqb (went_through o) b) outs).

(** What a call of [process_file] does to the files: nothing, or it writes
    one file in the output directory. *)
Definition writes_under_output (fs fs' : files) : Prop :=
  fs' = fs \/
  exists out f, String.prefix "output/" out = true /\ fs' = <[out := f]> fs.

(** What the body of [process_file] leaves: the files as above, and, when it
    answers with an output path, that path is in the output directory and
    holds a file, if it could be opened. *)
Definition body_effect (e : env) (fs : files) (res : result outcome) (fs' : files) : Prop :=
  writes_under_output fs fs' /\
  forall r, res = Ok r -> went_through r = true ->
    exists out,
      output_of r = Some out /\ String.prefix "output/" out = true /\
      (opens e out = None -> is_Some (fs' !! out)).

Definition effect_of (e : env) (fs : files) (x : result outcome * files) : Prop :=
  body_effect e fs (fst x) (snd x).

(** The statement about the archive that the specification makes: every
    member of the archive is the output of a file of the batch that went
    through. *)
Definition archive_only_of_batch (members : gset string) (outs : list outcome) : Prop :=
  forall m, m ∈ members ->
    exists o, In o outs /\ went_through o = true /\ output_of o = Some m.

End AppSpec.

(** The words of the statements about the output of [process_file]. *)
Module OutputSpec.
Import Chars Str Py Fs Converters App AppSpec.

(** The end of the name of the output file, for the four formats. *)
Definition suffix_of (output_format : string) : option string :=
  if String.eqb output_format "JSON" then Some "_converted.json"
  else if String.eqb output_format "CSV" then Some "_converted.csv"
  else if String.eqb output_format "XML" then Some "_converted.xml"
  else if String.eqb output_format "AI Training Format" then Some "_ai_training.json"
  else None.

(** The name of the input file without its directory and its extension. *)
Definition base_name (file_path : string) : string :=
  fst (Path.splitext (Path.basename file_path)).

(** The path of the output file of an input file, if the format is known. *)
Definition output_name (file_path output_format : string) : option string :=
  match suffix_of output_format with
  | Some suffix => Some ("output/" +:+ base_name file_path +:+ suffix)
  | None => None
  end.

(** A field that is absent or a list. *)
Definition listy (k : string) (data : dict) : Prop :=
  lookup k data = None \/ exists l, lookup k data = Some (VList l).

(** The status of a file that went through. *)
Definition saved_message (file_path out : string) : string :=
  "Successfully processed: " +:+ Path.basename file_path +:+ DataFormatter.nl
  +:+ "Output saved to: " +:+ out.

(** The status is the message of an extractor that failed. *)
Definition extract_failed (e : env) (status : string) : Prop :=
  exists c ex,
    body e c = Raise ex /\
    status = "Failed to extract " +:+ what c +:+ ": " +:+ exn_str ex.

(** The statuses of [process_file] without an output path, when nothing is
    raised: the message of the validator, that of the extractor, or that of
    the CSV export without rows. *)
Definition quiet (e : env) (file_path output_format status : string) : Prop :=
  FileValidator.validate_file (stat e) file_path = Ok (false, status) \/
  extract_failed e status \/
  (status = "No tabular data found for CSV export" /\ output_format = "CSV").

(** What a call of [process_file] leaves, by its answer: with an output
    path, the path is the output name and the file is written there if it
    can be opened (only the CSV export answers with a path when it cannot);
    without one, the files are as they were. *)
Definition named (e : env) (file_path output_format : string) (fs : files)
  (res : result outcome) (fs' : files) : Prop :=
  match res with
  | Ok (status, preview, output_path, stats) =>
      match output_path with
      | Some out =>
          output_name file_path output_format = Some out /\
          status = saved_message file_path out /\
          match opens e out with
          | None => exists f, fs' = <[out := f]> fs
          | Some _ => fs' = fs /\ output_format = "CSV"
          end
      | None => fs' = fs /\ preview = "" /\ quiet e file_path output_format status
      end
  | Raise _ => fs' = fs
  end.

(** The record of a CSV file with these field names and rows. *)
Definition csv_record (file_path encoding : string) (headers : option (list string))
  (rows : list dict) : dict :=
  [("document_type", VStr "CSV File");
   ("encoding", VStr encoding);
   ("total_rows", VNat (length (map VDict rows)));
   ("total_columns", VNat (match headers with Some h => length h | None => 0 end));
   ("headers", match headers with Some h => VList (map VStr h) | None => VNone end);
   ("data", VList (map VDict rows));
   ("preview", VList (firstn 10 (map VDict rows)));
   ("metadata", VDict (TextConverter.get_metadata file_path encoding))].

End OutputSpec.

(** ** Concrete inputs for the examples *)

Module Fixtures.
Import Py Fs Converters.

(** A file system with one file. *)
Definition one_file (name : string) (size : N) : FileValidator.stat_fn :=
  fun p => if String.eqb p name then Some size else None.

Definition no_answer {A : Type} : result A :=
  Raise (Exn "RuntimeError" "no such document").

(** A small office: a text file, a PDF with a table of three rows, a CSV
    file, and a file that PyMuPDF cannot open; every output can be written. *)
Definition office : env := {|
  stat := fun p =>
    if String.eqb p "in/a.txt" then Some 28%N
    else if String.eqb p "in/b.pdf" then Some 700%N
    else if String.eqb p "in/c.csv" then Some 12%N
    else if String.eqb p "in/broken.pdf" then Some 5%N
    else None;
  opens := fun _ => None;
  fitz_open := fun p =>
    if String.eqb p "in/b.pdf"
    then Ok {| fitz_pages := [Ok "page one"];
               fitz_metadata := Ok [("title", VStr "T")] |}
    else Raise (Exn "FileDataError" "cannot open broken document");
  plumber_open := fun p =>
    Ok [Ok [[[VStr "h1"; VStr "h2"]; [VStr "1"; VStr "2"]; [VStr "3"; VNone]]]];
  docx_open := fun _ => no_answer;
  excel_sheet_names := fun _ => no_answer;
  read_excel := fun _ _ => no_answer;
  detect := fun _ => Ok (Some "ascii");
  read_text := fun _ _ => Ok "Hello  WORLD http://x.y/z ok";
  read_csv := fun _ _ =>
    Ok (Some ["a"; "b"],
        [[("a", VStr "1"); ("b", VStr "2")]; [("a", VStr "3"); ("b", VStr "4")]])
|}.

(** The same office when pdfplumber cannot read any file. *)
Definition office_without_plumber : env := {|
  stat := stat office;
  opens := opens office;
  fitz_open := fitz_open office;
  plumber_open := fun _ => Raise (Exn "PDFSyntaxError" "No /Root object!");
  docx_open := docx_open office;
  excel_sheet_names := excel_sheet_names office;
  read_excel := read_excel office;
  detect := detect office;
  read_text := read_text office;
  read_csv := read_csv office
|}.

(** The same office when no output can be written. *)
Definition office_read_only : env := {|
  stat := stat office;
  opens := fun _ => Some (Exn "PermissionError" "[Errno 13] Permission denied");
  fitz_open := fitz_open office;
  plumber_open := plumber_open office;
  docx_open := docx_open office;
  excel_sheet_names := excel_sheet_names office;
  read_excel := read_excel office;
  detect := detect office;
  read_text := read_text office;
  read_csv := read_csv office
|}.

(** An output directory that holds a file of an earlier run. *)
Definition earlier_run : files := {["output/old_converted.json" := Text "{}"]}.

(** The record of a PDF with one table. *)
Definition table_record : dict :=
  [("document_type", VStr "PDF");
   ("tables",
    VList [VDict [("page", VInt 1); ("table_index", VInt 1);
                  ("rows", VInt 3); ("columns", VInt 2);
                  ("data", table_value [[VStr "h1"; VStr "h2"];
                                        [VStr "1"; VStr "2"];
                                        [VStr "3"; VNone]])]])].

(** The record of a text file with one line. *)
Definition text_record : dict :=
  [("document_type", VStr "Text File");
   ("encoding", VStr "utf-8");
   ("total_lines", VInt 1);
   ("total_characters", VInt 5);
   ("word_count", VInt 3);
   ("full_text", VStr "a b c");
   ("lines", VList [VDict [("line_number", VInt 1); ("text", VStr "a b c")]]);
   ("metadata", VDict [("encoding", VStr "utf-8"); ("file_extension", VStr "TXT")])].

(** The record of a PDF without tables. *)
Definition pdf_record : dict :=
  [("document_type", VStr "PDF");
   ("total_pages", VInt 1);
   ("full_text", VStr "a b c");
   ("pages", VList [VDict [("page_number", VInt 1); ("text", VStr "a b c");
                           ("word_count", VInt 3)]]);
   ("tables", VList []);
   ("metadata", VDict [("title", VStr "N/A")])].

(** A sheet of two rows. *)
Definition ledger : frame := {|
  df_records := [[("n", VInt 1)]; [("n", VInt 2)]];
  df_columns := [VStr "n"];
  df_null_values := Ok [("n", VInt 0)];
  df_data_types := Ok [("n", VStr "int64")];
  df_numeric_summary := Ok None
|}.

(** The office with two more files: a text file ["in/c.txt"], named as the
    CSV file is, and a workbook of two sheets. *)
Definition office_with_workbook : env := {|
  stat := fun p =>
    if String.eqb p "in/c.txt" then Some 28%N
    else if String.eqb p "in/d.xlsx" then Some 9000%N
    else stat office p;
  opens := opens office;
  fitz_open := fitz_open office;
  plumber_open := plumber_open office;
  docx_open := docx_open office;
  excel_sheet_names := fun p =>
    if String.eqb p "in/d.xlsx" then Ok ["one"; "two"] else no_answer;
  read_excel := fun p _ =>
    if String.eqb p "in/d.xlsx" then Ok ledger else no_answer;
  detect := detect office;
  read_text := read_text office;
  read_csv := read_csv office
|}.

End Fixtures.

(** * Properties *)

(** ** The matcher on the patterns of one class *)

Module ReFacts.
Import Chars Str Re.

Lemma chars_of_chars (l : list ascii) : chars (of_chars l) = l.
Proof. apply list_ascii_of_string_of_list_ascii. Qed.

Lemma of_chars_chars (s : string) : of_chars (chars s) = s.
Proof. apply string_of_list_ascii_of_string. Qed.

Lemma drop_while_length (p : ascii -> bool) (l : list ascii) :
  length (drop_while p l) <= length l.
Proof. induction l as [|a l IH]; simpl; [lia|]. destruct (p a); simpl; lia. Qed.

Lemma rmatch_Plus (r : regex) prev s k :
  rmatch (Plus r) prev s k = plus_loop (rmatch r) k (length s) prev s.
Proof. reflexivity. Qed.

Lemma rmatch_Cat (r1 r2 : regex) prev s k :
  rmatch (Cat r1 r2) prev s k = rmatch r1 prev s (fun p' s' => rmatch r2 p' s' k).
Proof. reflexivity. Qed.

Lemma last_cons_default (b a : ascii) (l : list ascii) :
  List.last (b :: l) a = List.last l b.
Proof.
  revert a b; induction l as [|c l IH]; intros a b; [reflexivity|].
  change (List.last (b :: c :: l) a) with (List.last (c :: l) a).
  rewrite (IH a c), (IH b c). reflexivity.
Qed.

(** [[...]+] takes the longest run of characters of the class, and needs one. *)
Lemma plus_class_accept (items : list item) :
  forall fuel prev s, length s <= fuel ->
    plus_loop (rmatch (In items)) accept fuel prev s =
    match s with
    | a :: s' =>
        if has items a
        then Some (Some (List.last (take_while (has items) s') a), drop_while (has items) s')
        else None
    | [] => None
    end.
Proof.
  induction fuel as [|fuel IH]; intros prev s Hlen.
  - destruct s; simpl in *; [reflexivity | lia].
  - destruct s as [|a s']; [reflexivity|].
    cbn [plus_loop rmatch].
    destruct (has items a) eqn:Ha; [|reflexivity].
    assert (Hlt : (length s' <? length (a :: s'))%nat = true)
      by (apply Nat.ltb_lt; simpl; lia).
    rewrite Hlt, IH by (simpl in Hlen; lia).
    destruct s' as [|b s'']; [reflexivity|].
    cbn [take_while drop_while]. destruct (has items b); [|reflexivity].
    rewrite last_cons_default. reflexivity.
Qed.

Lemma sub_loop_notin (items : list item) :
  forall fuel prev s, length s <= fuel ->
    sub_loop (NotIn items) [] fuel prev s = List.filter (has items) s.
Proof.
  induction fuel as [|fuel IH]; intros prev s Hlen.
  - destruct s; simpl in *; [reflexivity | lia].
  - destruct s as [|a s']; [reflexivity|].
    cbn [sub_loop rmatch List.filter].
    simpl in Hlen.
    destruct (has items a) eqn:Ha.
    + rewrite IH by lia. reflexivity.
    + unfold accept.
      replace (length s' <? length (a :: s'))%nat with true
        by (symmetry; apply Nat.ltb_lt; simpl; lia).
      rewrite IH by lia. reflexivity.
Qed.

Lemma filter_drop_while (p : ascii -> bool) (l : list ascii) :
  List.filter (fun c => negb (p c)) (drop_while p l) = List.filter (fun c => negb (p c)) l.
Proof.
  induction l as [|a l IH]; [reflexivity|]. simpl.
  destruct (p a) eqn:Ha; simpl; [exact IH | rewrite Ha; reflexivity].
Qed.

Lemma sub_loop_plus_class_empty (items : list item) :
  forall fuel prev s, length s <= fuel ->
    sub_loop (Plus (In items)) [] fuel prev s =
    List.filter (fun c => negb (has items c)) s.
Proof.
  induction fuel as [|fuel IH]; intros prev s Hlen.
  - destruct s; simpl in *; [reflexivity | lia].
  - destruct s as [|a s']; [reflexivity|].
    cbn [sub_loop]. rewrite rmatch_Plus, plus_class_accept by lia.
    simpl in Hlen. cbn [List.filter].
    destruct (has items a) eqn:Ha; cbn [negb].
    + pose proof (drop_while_length (has items) s') as Hd.
      replace (length (drop_while (has items) s') <? length (a :: s'))%nat with true
        by (symmetry; apply Nat.ltb_lt; simpl; lia).
      rewrite IH by lia. cbn [app]. apply filter_drop_while.
    + rewrite IH by lia. reflexivity.
Qed.

End ReFacts.

(** ** The cleaner without the pattern removals *)

Module CleanerFacts.
Import Chars Str Re DataCleaner CleanerSpec ReFacts.

Lemma lower_char_fixed (c : ascii) : lower_char (lower_char c) = lower_char c.
Proof. each_char c. Qed.

Lemma lower_char_keeps (c : ascii) :
  keeps_special c = true -> keeps_special (lower_char c) = true.
Proof. each_char c. Qed.

Lemma lower_char_decimal (c : ascii) : isdecimal (lower_char c) = isdecimal c.
Proof. each_char c. Qed.

Lemma has_special (c : ascii) :
  has [Rg "a" "z"; Rg "A" "Z"; Rg "0" "9"; Space] c = keeps_special c.
Proof.
  unfold has, keeps_special; simpl. rewrite orb_false_r, !orb_assoc. reflexivity.
Qed.

Lemma has_space (c : ascii) : has [Space] c = isspace c.
Proof. unfold has; simpl. apply orb_false_r. Qed.

Lemma has_digit (c : ascii) : has [Digit] c = isdecimal c.
Proof. unfold has; simpl. apply orb_false_r. Qed.

Lemma filter_ext_bool (p q : ascii -> bool) (l : list ascii) :
  (forall c, p c = q c) -> List.filter p l = List.filter q l.
Proof.
  intros H; induction l as [|a l IH]; [reflexivity|]. simpl.
  rewrite H, IH. reflexivity.
Qed.

Lemma drop_while_ext (p q : ascii -> bool) (l : list ascii) :
  (forall c, p c = q c) -> drop_while p l = drop_while q l.
Proof.
  intros H; induction l as [|a l IH]; [reflexivity|]. simpl.
  rewrite H, IH. reflexivity.
Qed.

(** [re.sub(r'[^a-zA-Z0-9\s]', '', s)] keeps the letters, digits and white space. *)
Lemma sub_special (s : list ascii) :
  sub_chars special_re [] s = List.filter keeps_special s.
Proof.
  unfold sub_chars, special_re. rewrite sub_loop_notin by lia.
  apply filter_ext_bool, has_special.
Qed.

(** [re.sub(r'\d+', '', s)] keeps what is not a digit. *)
Lemma sub_digits (s : list ascii) :
  sub_chars digits_re [] s = List.filter (fun c => negb (isdecimal c)) s.
Proof.
  unfold sub_chars, digits_re. rewrite sub_loop_plus_class_empty by lia.
  apply filter_ext_bool. intros c. rewrite has_digit. reflexivity.
Qed.

Lemma squeeze_true_drop (s : list ascii) :
  squeeze true s = squeeze false (drop_while isspace s).
Proof.
  induction s as [|a s IH]; [reflexivity|]. simpl.
  destruct (isspace a) eqn:Ha; [exact IH|]. simpl. rewrite Ha. reflexivity.
Qed.

(** [re.sub(r'\s+', ' ', s)] puts one space for each run of white space. *)
Lemma sub_loop_spaces :
  forall fuel prev s, length s <= fuel ->
    sub_loop spaces_re [" "%char] fuel prev s = squeeze false s.
Proof.
  unfold spaces_re.
  induction fuel as [|fuel IH]; intros prev s Hlen.
  - destruct s; simpl in *; [reflexivity | lia].
  - destruct s as [|a s']; [reflexivity|].
    cbn [sub_loop]. rewrite rmatch_Plus, plus_class_accept by lia.
    simpl in Hlen. cbn [squeeze]. rewrite has_space.
    destruct (isspace a) eqn:Ha.
    + pose proof (drop_while_length (has [Space]) s') as Hd.
      replace (length (drop_while (has [Space]) s') <? length (a :: s'))%nat with true
        by (symmetry; apply Nat.ltb_lt; simpl; lia).
      rewrite IH by lia. cbn [app]. f_equal.
      rewrite squeeze_true_drop. f_equal. apply drop_while_ext, has_space.
    + rewrite IH by lia. reflexivity.
Qed.

Lemma sub_spaces (s : list ascii) :
  sub_chars spaces_re [" "%char] s = squeeze false s.
Proof. apply sub_loop_spaces. lia. Qed.

(** *** White space *)

Lemma squeezed_squeeze (b : bool) (s : list ascii) : squeezed b (squeeze b s) = true.
Proof.
  revert b; induction s as [|a s IH]; intros b; [reflexivity|]. simpl.
  destruct (isspace a) eqn:Ha.
  - destruct b; [apply IH|]. simpl. change (isspace " ") with true.
    simpl. apply IH.
  - simpl. rewrite Ha. apply IH.
Qed.

Lemma squeeze_squeezed (b : bool) (s : list ascii) :
  squeezed b s = true -> squeeze b s = s.
Proof.
  revert b; induction s as [|a s IH]; intros b H; [reflexivity|]. simpl in *.
  destruct (isspace a) eqn:Ha.
  - apply andb_true_iff in H as [H Hs]. apply andb_true_iff in H as [Hsp Hb].
    apply Ascii.eqb_eq in Hsp. subst a. destruct b; [discriminate|].
    rewrite IH by exact Hs. reflexivity.
  - rewrite IH by exact H. reflexivity.
Qed.

Lemma squeezed_weaken (b : bool) (s : list ascii) :
  squeezed b s = true -> squeezed false s = true.
Proof.
  destruct s as [|a s]; [reflexivity|]. simpl.
  destruct (isspace a); [|tauto].
  intros H. apply andb_true_iff in H as [H Hs]. apply andb_true_iff in H as [Hsp _].
  rewrite Hsp, Hs. reflexivity.
Qed.

Lemma squeezed_drop_while (b b' : bool) (s : list ascii) :
  squeezed b s = true -> squeezed b' (drop_while isspace s) = true.
Proof.
  revert b; induction s as [|a s IH]; intros b H; [reflexivity|]. simpl in *.
  destruct (isspace a) eqn:Ha.
  - apply andb_true_iff in H as [_ Hs]. apply (IH true Hs).
  - simpl. rewrite Ha. exact H.
Qed.

Lemma squeezed_prefix (b : bool) (l r : list ascii) :
  squeezed b (l ++ r) = true -> squeezed b l = true.
Proof.
  revert b; induction l as [|a l IH]; intros b H; [reflexivity|]. simpl in *.
  destruct (isspace a).
  - apply andb_true_iff in H as [H Hs]. rewrite H. simpl. apply (IH true Hs).
  - apply (IH false H).
Qed.

Lemma take_drop_while (p : ascii -> bool) (l : list ascii) :
  take_while p l ++ drop_while p l = l.
Proof.
  induction l as [|a l IH]; [reflexivity|]. simpl.
  destruct (p a); simpl; [rewrite IH|]; reflexivity.
Qed.

(** Stripping on the right leaves a prefix. *)
Lemma rstrip_prefix (l : list ascii) :
  rev (drop_while isspace (rev l)) ++ rev (take_while isspace (rev l)) = l.
Proof.
  rewrite <- rev_app_distr, take_drop_while. apply rev_involutive.
Qed.

Lemma squeezed_strip (s : list ascii) :
  squeezed false s = true -> squeezed false (strip_chars s) = true.
Proof.
  intros H. unfold strip_chars.
  apply (squeezed_prefix false _ (rev (take_while isspace (rev (drop_while isspace s))))).
  rewrite rstrip_prefix. apply (squeezed_drop_while false false s H).
Qed.

Lemma drop_while_starts_clean (l : list ascii) : starts_clean (drop_while isspace l).
Proof.
  induction l as [|a l IH]; simpl; [exact I|].
  destruct (isspace a) eqn:Ha; [exact IH | exact Ha].
Qed.

Lemma drop_while_clean (l : list ascii) : starts_clean l -> drop_while isspace l = l.
Proof. destruct l as [|a l]; simpl; [reflexivity|]. intros ->. reflexivity. Qed.

Lemma starts_clean_prefix (l r : list ascii) : starts_clean (l ++ r) -> starts_clean l.
Proof. destruct l; simpl; auto. Qed.

Lemma strip_chars_fixed (s : list ascii) : strip_chars (strip_chars s) = strip_chars s.
Proof.
  unfold strip_chars.
  set (w := drop_while isspace s).
  assert (Hz : starts_clean (rev (drop_while isspace (rev w)))).
  { apply (starts_clean_prefix _ (rev (take_while isspace (rev w)))).
    rewrite rstrip_prefix. apply drop_while_starts_clean. }
  rewrite (drop_while_clean _ Hz), rev_involutive.
  rewrite (drop_while_clean (drop_while isspace (rev w)))
    by apply drop_while_starts_clean.
  reflexivity.
Qed.

(** *** What each step keeps *)

Section Keeps.
Variable P : ascii -> Prop.

Lemma Forall_drop_while (p : ascii -> bool) (l : list ascii) :
  Forall P l -> Forall P (drop_while p l).
Proof.
  induction 1 as [|a l Ha Hl IH]; simpl; [constructor|].
  destruct (p a); [exact IH | constructor; assumption].
Qed.

Lemma Forall_strip (l : list ascii) : Forall P l -> Forall P (strip_chars l).
Proof.
  intros H. unfold strip_chars.
  apply List.Forall_rev, Forall_drop_while, List.Forall_rev, Forall_drop_while, H.
Qed.

Lemma Forall_squeeze (b : bool) (l : list ascii) :
  P " "%char -> Forall P l -> Forall P (squeeze b l).
Proof.
  intros Hsp H; revert b; induction H as [|a l Ha Hl IH]; intros b; simpl; [constructor|].
  destruct (isspace a); [destruct b|]; try constructor; auto.
Qed.

Lemma Forall_filter_keep (p : ascii -> bool) (l : list ascii) :
  Forall P l -> Forall P (List.filter p l).
Proof.
  induction 1 as [|a l Ha Hl IH]; simpl; [constructor|].
  destruct (p a); [constructor; assumption | exact IH].
Qed.

End Keeps.

Lemma Forall_filter_true (p : ascii -> bool) (l : list ascii) :
  Forall (fun c => p c = true) (List.filter p l).
Proof.
  induction l as [|a l IH]; simpl; [constructor|].
  destruct (p a) eqn:Ha; [constructor; assumption | exact IH].
Qed.

Lemma filter_all (p : ascii -> bool) (l : list ascii) :
  Forall (fun c => p c = true) l -> List.filter p l = l.
Proof.
  induction 1 as [|a l Ha Hl IH]; simpl; [reflexivity|].
  rewrite Ha, IH. reflexivity.
Qed.

Lemma map_all_fixed (f : ascii -> ascii) (l : list ascii) :
  Forall (fun c => f c = c) l -> map f l = l.
Proof.
  induction 1 as [|a l Ha Hl IH]; simpl; [reflexivity|].
  rewrite Ha, IH. reflexivity.
Qed.

Lemma Forall_map_image (P : ascii -> Prop) (f : ascii -> ascii) (l : list ascii) :
  (forall c, P (f c)) -> Forall P (map f l).
Proof. intros H; induction l; simpl; constructor; auto. Qed.

Lemma Forall_map_keep (P : ascii -> Prop) (f : ascii -> ascii) (l : list ascii) :
  (forall c, P c -> P (f c)) -> Forall P l -> Forall P (map f l).
Proof. intros H; induction 1; simpl; constructor; auto. Qed.

Lemma clean_chars_kept (sp nu lo : bool) (s : list ascii) :
  Forall (kept sp nu lo) (clean_chars sp nu lo s).
Proof.
  unfold clean_chars.
  apply Forall_strip, Forall_squeeze.
  { repeat split; intros _; reflexivity. }
  assert (H1 : Forall (kept sp false false)
                 (if sp then List.filter keeps_special s else s)).
  { destruct sp.
    - eapply List.Forall_impl; [|apply Forall_filter_true].
      intros c Hc. repeat split; intros; try discriminate; exact Hc.
    - apply List.Forall_forall. intros c _. repeat split; intros; discriminate. }
  set (s1 := if sp then List.filter keeps_special s else s) in *. clearbody s1.
  assert (H2 : Forall (kept sp nu false)
                 (if nu then List.filter (fun c => negb (isdecimal c)) s1 else s1)).
  { destruct nu.
    - pose proof (Forall_filter_true (fun c => negb (isdecimal c)) s1) as Hn.
      pose proof (Forall_filter_keep _ (fun c => negb (isdecimal c)) s1 H1) as Hk.
      rewrite List.Forall_forall in *. intros c Hc.
      specialize (Hn c Hc). destruct (Hk c Hc) as (Ha & _ & _).
      repeat split; intros; try discriminate; auto.
    - eapply List.Forall_impl; [|exact H1].
      intros c (Ha & _ & _). repeat split; intros; try discriminate; auto. }
  set (s2 := if nu then _ else s1) in *. clearbody s2.
  destruct lo.
  - apply List.Forall_forall. intros c Hc. apply in_map_iff in Hc as (d & <- & Hd).
    rewrite List.Forall_forall in H2. destruct (H2 d Hd) as (Ha & Hb & _).
    repeat split; intros.
    + apply lower_char_keeps; auto.
    + rewrite lower_char_decimal; auto.
    + apply lower_char_fixed.
  - eapply List.Forall_impl; [|exact H2].
    intros c (Ha & Hb & _). repeat split; intros; try discriminate; auto.
Qed.

Lemma clean_chars_fixed (sp nu lo : bool) (s : list ascii) :
  Forall (kept sp nu lo) s -> squeezed false s = true -> strip_chars s = s ->
  clean_chars sp nu lo s = s.
Proof.
  intros Hk Hsq Hst. unfold clean_chars.
  assert (H1 : (if sp then List.filter keeps_special s else s) = s).
  { destruct sp; [|reflexivity]. apply filter_all.
    eapply List.Forall_impl; [|exact Hk]. intros c (Ha & _); auto. }
  rewrite H1.
  assert (H2 : (if nu then List.filter (fun c => negb (isdecimal c)) s else s) = s).
  { destruct nu; [|reflexivity]. apply filter_all.
    eapply List.Forall_impl; [|exact Hk]. intros c (_ & Ha & _); auto. }
  rewrite H2.
  assert (H3 : (if lo then map lower_char s else s) = s).
  { destruct lo; [|reflexivity]. apply map_all_fixed.
    eapply List.Forall_impl; [|exact Hk]. intros c (_ & _ & Ha); auto. }
  rewrite H3, squeeze_squeezed by exact Hsq. exact Hst.
Qed.

Lemma clean_chars_idempotent (sp nu lo : bool) (s : list ascii) :
  clean_chars sp nu lo (clean_chars sp nu lo s) = clean_chars sp nu lo s.
Proof.
  apply clean_chars_fixed.
  - apply clean_chars_kept.
  - unfold clean_chars. apply squeezed_strip, squeezed_squeeze.
  - unfold clean_chars. apply strip_chars_fixed.
Qed.

End CleanerFacts.

(** ** The cleaner with the URLs and the addresses removed *)

Module PatternFacts.
Import Chars Str Re DataCleaner CleanerSpec PatternSpec ReFacts CleanerFacts.

(** *** Runs *)

Lemma take_while_app (q : ascii -> bool) (x e : list ascii) :
  exists e', take_while q (x ++ e) = take_while q x ++ e'.
Proof.
  induction x as [|a x [e' IH]]; simpl.
  - exists (take_while q e). reflexivity.
  - destruct (q a); [|exists []; reflexivity].
    exists e'. rewrite IH. reflexivity.
Qed.

Lemma take_while_idem (q : ascii -> bool) (x : list ascii) :
  take_while q (take_while q x) = take_while q x.
Proof.
  induction x as [|a x IH]; [reflexivity|]. simpl.
  destruct (q a) eqn:Ha; [|reflexivity]. simpl. rewrite Ha, IH. reflexivity.
Qed.

Lemma take_while_sub (q q' : ascii -> bool) (x : list ascii) :
  (forall c, q c = true -> q' c = true) ->
  take_while q (take_while q' x) = take_while q x.
Proof.
  intros H. induction x as [|a x IH]; [reflexivity|]. simpl.
  destruct (q' a) eqn:Ha'; simpl.
  - destruct (q a); [rewrite IH|]; reflexivity.
  - destruct (q a) eqn:Ha; [|reflexivity]. rewrite (H a Ha) in Ha'. discriminate.
Qed.

Lemma take_while_drop_while (q : ascii -> bool) (x : list ascii) :
  take_while q (drop_while q x) = [].
Proof.
  induction x as [|a x IH]; [reflexivity|]. simpl.
  destruct (q a) eqn:Ha; [exact IH|]. simpl. rewrite Ha. reflexivity.
Qed.

Lemma within_refl q x : within q x x.
Proof. exists []. rewrite app_nil_r. reflexivity. Qed.

Lemma within_nil q x y : take_while q x = [] -> within q x y.
Proof. intros H. exists (take_while q y). rewrite H. reflexivity. Qed.

Lemma within_cons q a x y : within q x y -> within q (a :: x) (a :: y).
Proof.
  intros [e H]. unfold within. simpl. destruct (q a).
  - exists e. rewrite H. reflexivity.
  - exists []. reflexivity.
Qed.

Lemma within_trans q x y z : within q x y -> within q y z -> within q x z.
Proof.
  intros [e H] [e' H']. exists (e ++ e'). rewrite H', H, app_assoc. reflexivity.
Qed.

Lemma within_app q x e : within q x (x ++ e).
Proof. destruct (take_while_app q x e) as [e' H]. exists e'. exact H. Qed.

Lemma within_sub (q q' : ascii -> bool) x y :
  (forall c, q c = true -> q' c = true) -> within q' x y -> within q x y.
Proof.
  intros Hs [e H].
  destruct (take_while_app q (take_while q' x) e) as [e' He'].
  exists e'.
  rewrite <- (take_while_sub q q' y Hs), H, He', (take_while_sub q q' x Hs).
  reflexivity.
Qed.

Lemma within_squeeze (q : ascii -> bool) (x : list ascii) :
  (forall c, q c = true -> nonspace c = true) ->
  within q (squeeze false x) x.
Proof.
  intros Hs. destruct x as [|a x]; [apply within_refl|]. simpl.
  destruct (isspace a) eqn:Ha.
  - apply within_nil. simpl.
    destruct (q " "%char) eqn:Hq; [|reflexivity].
    apply Hs in Hq. discriminate Hq.
  - revert a Ha. induction x as [|b x IH]; intros a Ha.
    + apply within_refl.
    + apply within_cons. simpl. destruct (isspace b) eqn:Hb.
      * apply within_nil. simpl.
        destruct (q " "%char) eqn:Hq; [|reflexivity].
        apply Hs in Hq. discriminate Hq.
      * apply IH, Hb.
Qed.

(** *** Positions without a match *)

Lemma none_at_app (at_ : list ascii -> bool) (pre s : list ascii) :
  none_at at_ (pre ++ s) = true -> none_at at_ s = true.
Proof.
  induction pre as [|a pre IH]; [auto|]. simpl.
  intros H. apply andb_true_iff in H as [_ H]. apply IH, H.
Qed.

Lemma none_at_drop_while (at_ : list ascii -> bool) (p : ascii -> bool) (s : list ascii) :
  none_at at_ s = true -> none_at at_ (drop_while p s) = true.
Proof.
  intros H. apply (none_at_app at_ (take_while p s)).
  rewrite take_drop_while. exact H.
Qed.

Section Runs.
Variable at_ : list ascii -> bool.
Variable q : ascii -> bool.
Hypothesis at_nil : at_ [] = false.
Hypothesis at_runs : forall x y, within q x y -> at_ x = true -> at_ y = true.
Hypothesis q_nonspace : forall c, q c = true -> nonspace c = true.

Lemma none_at_prefix (l e : list ascii) :
  none_at at_ (l ++ e) = true -> none_at at_ l = true.
Proof.
  induction l as [|a l IH]; [reflexivity|].
  change ((a :: l) ++ e) with (a :: (l ++ e)). cbn [none_at].
  intros H. apply andb_true_iff in H as [H1 H2].
  rewrite (IH H2), andb_true_r.
  destruct (at_ (a :: l)) eqn:Ha; [|reflexivity].
  rewrite (at_runs (a :: l) (a :: l ++ e)) in H1; [discriminate|apply (within_app q (a :: l) e)|exact Ha].
Qed.

Lemma at_not_q (a : ascii) (x : list ascii) : q a = false -> at_ (a :: x) = false.
Proof.
  intros Ha. destruct (at_ (a :: x)) eqn:H; [|reflexivity].
  rewrite <- at_nil. symmetry. apply (at_runs (a :: x) []); [|exact H].
  apply within_nil. simpl. rewrite Ha. reflexivity.
Qed.

Lemma none_at_squeeze (b : bool) (s : list ascii) :
  none_at at_ s = true -> none_at at_ (squeeze b s) = true.
Proof.
  revert b; induction s as [|a s IH]; intros b H; [reflexivity|].
  cbn [none_at] in H. apply andb_true_iff in H as [H1 H2].
  cbn [squeeze]. destruct (isspace a) eqn:Ha.
  - destruct b; [apply IH, H2|]. cbn [none_at].
    rewrite (IH true H2), andb_true_r.
    rewrite at_not_q; [reflexivity|].
    destruct (q " "%char) eqn:Hq; [|reflexivity]. apply q_nonspace in Hq. discriminate Hq.
  - cbn [none_at]. rewrite (IH false H2), andb_true_r.
    destruct (at_ (a :: squeeze false s)) eqn:Hat; [|reflexivity].
    rewrite (at_runs (a :: squeeze false s) (a :: s)) in H1;
      [discriminate| |exact Hat].
    apply within_cons, within_squeeze, q_nonspace.
Qed.

Lemma none_at_strip (s : list ascii) :
  none_at at_ s = true -> none_at at_ (strip_chars s) = true.
Proof.
  intros H. unfold strip_chars.
  apply (none_at_prefix _ (rev (take_while isspace (rev (drop_while isspace s))))).
  rewrite rstrip_prefix. apply none_at_drop_while, H.
Qed.

End Runs.


(** *** The matcher on a repeated class *)

Section Repeated.
Variable m : matcher.
Variable p : ascii -> bool.
Variable fits : cont -> Prop.
Hypothesis m_class : forall k, fits k -> forall prev s,
  m prev s k = match s with
               | a :: s' => if p a then k (Some a) s' else None
               | [] => None
               end.
Hypothesis fits_loop : forall k (o : cont) (n : nat), fits k ->
  fits (fun p' s' =>
          if (length s' <? n)%nat
          then match o p' s' with Some x => Some x | None => k p' s' end
          else k p' s').

Lemma plus_back (k : cont) : fits k ->
  forall fuel prev s, length s <= fuel -> plus_loop m k fuel prev s = back p k s.
Proof.
  intros Hk.
  induction fuel as [|fuel IH]; intros prev s Hlen.
  - destruct s; simpl in Hlen; [|lia]. cbn [plus_loop back].
    rewrite (m_class (fun p' s' => k p' s')) by exact Hk. reflexivity.
  - cbn [plus_loop].
    rewrite m_class by (apply fits_loop, Hk).
    destruct s as [|a s']; [reflexivity|]. cbn [back].
    destruct (p a); [|reflexivity].
    replace (length s' <? length (a :: s'))%nat with true
      by (symmetry; apply Nat.ltb_lt; simpl; lia).
    rewrite IH by (simpl in Hlen; lia). reflexivity.
Qed.

End Repeated.


Lemma back_accept (p : ascii -> bool) (s : list ascii) :
  option_map snd (back p accept s) =
  if head_is p s then Some (drop_while p s) else None.
Proof.
  destruct s as [|a s]; [reflexivity|]. cbn [head_is].
  revert a; induction s as [|b s IH]; intros a.
  - simpl. destruct (p a); reflexivity.
  - cbn [back] in *. cbn [drop_while]. destruct (p a) eqn:Ha; [|reflexivity].
    specialize (IH b). cbn [drop_while] in IH.
    destruct (p b) eqn:Hb; [|reflexivity].
    destruct (match back p accept s with Some x => Some x | None => accept (Some b) s end)
      as [x|] eqn:E; [exact IH|discriminate IH].
Qed.

Lemma total_accept : total accept.
Proof. intros p s. discriminate. Qed.

Lemma total_loop (k o : cont) (n : nat) : total k ->
  total (fun p' s' =>
           if (length s' <? n)%nat
           then match o p' s' with Some x => Some x | None => k p' s' end
           else k p' s').
Proof.
  intros Hk p' s'. destruct (length s' <? n)%nat; [|apply Hk].
  destruct (o p' s'); [discriminate | apply Hk].
Qed.

(** *** [url_re] *)

Lemma percent_in_class (a : ascii) :
  has [Rg "$" "_"; Ch "@"; Ch "."; Ch "&"; Ch "+"] a = false -> Ascii.eqb a "%" = false.
Proof. each_char a. Qed.

(** With a continuation that never fails, the alternatives of [url_re] are
    one class: the escape is never reached. *)
Lemma url_class_matcher (k : cont) : total k -> forall prev s,
  rmatch url_class prev s k =
  match s with
  | a :: s' => if urlch a then k (Some a) s' else None
  | [] => None
  end.
Proof.
  intros Hk prev s. destruct s as [|a s']; [reflexivity|].
  unfold url_class, urlch. cbn [rmatch].
  pose proof (Hk (Some a) s') as Hk'.
  destruct (k (Some a) s') as [x|] eqn:E; [|congruence].
  destruct (has [Rg "a" "z"; Rg "A" "Z"] a); [reflexivity|].
  destruct (has [Rg "0" "9"] a); [reflexivity|].
  destruct (has [Rg "$" "_"; Ch "@"; Ch "."; Ch "&"; Ch "+"] a) eqn:H3; [reflexivity|].
  destruct (has [Ch "!"; Ch "*"; Ch "\"; Ch "("; Ch "\"; Ch ")"; Ch ","] a); [reflexivity|].
  rewrite (percent_in_class a H3). reflexivity.
Qed.

Lemma plus_url_class (prev : option ascii) (s : list ascii) :
  option_map snd (rmatch (Plus url_class) prev s accept) =
  if head_is urlch s then Some (drop_while urlch s) else None.
Proof.
  rewrite rmatch_Plus.
  rewrite (plus_back (rmatch url_class) urlch total url_class_matcher
             (fun k o n => total_loop k o n) accept total_accept) by lia.
  apply back_accept.
Qed.

Lemma rmatch_lit (s : string) : s <> "" -> forall prev t k,
  rmatch (lit s) prev t k =
  match strip_prefix (chars s) t with
  | Some r => k (Some (List.last (chars s) " "%char)) r
  | None => None
  end.
Proof.
  induction s as [|c s IH]; [congruence|]. intros _ prev t k.
  destruct s as [|c' s'].
  - cbn [lit rmatch]. change (chars (String c "")) with [c]. cbn [strip_prefix List.last].
    destruct t as [|a t']; [reflexivity|].
    destruct (Ascii.eqb_spec a c) as [->|]; reflexivity.
  - change (lit (String c (String c' s'))) with (Cat (Chr c) (lit (String c' s'))).
    rewrite rmatch_Cat. cbn [rmatch].
    change (chars (String c (String c' s'))) with (c :: chars (String c' s')).
    cbn [strip_prefix].
    destruct t as [|a t']; [reflexivity|].
    destruct (Ascii.eqb a c); [|reflexivity].
    rewrite IH by discriminate.
    change (chars (String c' s')) with (c' :: chars s').
    rewrite !last_cons_default. reflexivity.
Qed.

Lemma rmatch_url_after (prev : option ascii) (r : list ascii) :
  option_map snd (rmatch (Cat (lit "://") (Plus url_class)) prev r accept) =
  option_map (drop_while urlch) (url_after r).
Proof.
  rewrite rmatch_Cat, rmatch_lit by discriminate. unfold url_after.
  destruct (strip_prefix (chars "://") r) as [h|]; [|reflexivity].
  rewrite plus_url_class. destruct h as [|c h]; [reflexivity|].
  cbn [head_is]. destruct (urlch c) eqn:Hc; [|reflexivity].
  cbn [option_map drop_while]. rewrite Hc. reflexivity.
Qed.

Lemma url_host_after (t : list ascii) :
  url_host t =
  match strip_prefix (chars "http") t with
  | Some r =>
      url_after match r with
                | a :: r' => if Ascii.eqb a "s" then r' else r
                | [] => r
                end
  | None => None
  end.
Proof. reflexivity. Qed.

Lemma rmatch_url (prev : option ascii) (t : list ascii) :
  option_map snd (rmatch url_re prev t accept) =
  option_map (drop_while urlch) (url_host t).
Proof.
  rewrite url_host_after.
  change url_re with
    (Cat (lit "http") (Cat (Opt (In [Ch "s"])) (Cat (lit "://") (Plus url_class)))).
  rewrite rmatch_Cat, rmatch_lit by discriminate.
  destruct (strip_prefix (chars "http") t) as [r|]; [|reflexivity].
  rewrite rmatch_Cat.
  remember (Cat (lit "://") (Plus url_class)) as R eqn:HR.
  set (p0 := Some (List.last (chars "http") " "%char)).
  change (rmatch (Opt (In [Ch "s"])) p0 r (fun p' s' => rmatch R p' s' accept))
    with (match rmatch (In [Ch "s"]) p0 r (fun p' s' => rmatch R p' s' accept) with
          | Some x => Some x
          | None => rmatch R p0 r accept
          end).
  destruct r as [|a r'].
  - cbn [rmatch]. subst R. apply rmatch_url_after.
  - cbn [rmatch]. unfold has. cbn [existsb item_has]. rewrite orb_false_r.
    destruct (Ascii.eqb_spec a "s") as [->|Ha].
    + pose proof (rmatch_url_after (Some "s"%char) r') as H. rewrite <- HR in H.
      destruct (rmatch R (Some "s"%char) r' accept) as [x|] eqn:E.
      * exact H.
      * rewrite <- H. subst R.
        rewrite rmatch_Cat, rmatch_lit by discriminate. reflexivity.
    + subst R. apply rmatch_url_after.
Qed.


Lemma strip_prefix_split (pre t r : list ascii) :
  strip_prefix pre t = Some r -> t = pre ++ r.
Proof.
  revert t; induction pre as [|c pre IH]; intros t H; simpl in H.
  - injection H as ->. reflexivity.
  - destruct t as [|a t']; [discriminate|].
    destruct (Ascii.eqb_spec a c) as [->|]; [|discriminate].
    simpl. f_equal. apply IH, H.
Qed.

Lemma strip_prefix_app (pre t r e : list ascii) :
  strip_prefix pre t = Some r -> strip_prefix pre (t ++ e) = Some (r ++ e).
Proof.
  revert t; induction pre as [|c pre IH]; intros t H; simpl in H.
  - injection H as ->. reflexivity.
  - destruct t as [|a t']; [discriminate|]. simpl.
    destruct (Ascii.eqb a c); [apply IH, H | discriminate].
Qed.

Lemma strip_prefix_take_while (q : ascii -> bool) (pre t r : list ascii) :
  Forall (fun c => q c = true) pre ->
  strip_prefix pre t = Some r ->
  strip_prefix pre (take_while q t) = Some (take_while q r).
Proof.
  intros Hq; revert t; induction Hq as [|c pre Hc Hpre IH]; intros t H; simpl in H.
  - injection H as ->. reflexivity.
  - destruct t as [|a t']; [discriminate|].
    destruct (Ascii.eqb_spec a c) as [->|]; [|discriminate].
    simpl. rewrite Hc. simpl. rewrite Ascii.eqb_refl. apply IH, H.
Qed.

Lemma urlch_slashes : Forall (fun c => urlch c = true) (chars "://").
Proof. repeat constructor. Qed.

Lemma urlch_http : Forall (fun c => urlch c = true) (chars "http").
Proof. repeat constructor. Qed.

Lemma url_after_app (r h e : list ascii) :
  url_after r = Some h -> url_after (r ++ e) = Some (h ++ e).
Proof.
  unfold url_after. intros H.
  destruct (strip_prefix (chars "://") r) as [h'|] eqn:E; [|discriminate].
  rewrite (strip_prefix_app _ _ _ e E).
  destruct h' as [|c h'']; [discriminate|]. simpl.
  destruct (urlch c); [|discriminate]. injection H as <-. reflexivity.
Qed.

Lemma url_after_take_while (r h : list ascii) :
  url_after r = Some h ->
  url_after (take_while urlch r) = Some (take_while urlch h).
Proof.
  unfold url_after. intros H.
  destruct (strip_prefix (chars "://") r) as [h'|] eqn:E; [|discriminate].
  rewrite (strip_prefix_take_while urlch _ _ _ urlch_slashes E).
  destruct h' as [|c h'']; [discriminate|]. simpl.
  destruct (urlch c) eqn:Hc; [|discriminate]. injection H as <-.
  simpl. rewrite Hc. reflexivity.
Qed.

Lemma url_after_split (r h : list ascii) :
  url_after r = Some h -> r = chars "://" ++ h.
Proof.
  unfold url_after. intros H.
  destruct (strip_prefix (chars "://") r) as [h'|] eqn:E; [|discriminate].
  apply strip_prefix_split in E.
  destruct h' as [|c h'']; [discriminate|].
  destruct (urlch c); [|discriminate]. injection H as <-. exact E.
Qed.

Lemma url_after_nil : url_after [] = None.
Proof. reflexivity. Qed.

Lemma url_host_app (x h e : list ascii) :
  url_host x = Some h -> url_host (x ++ e) = Some (h ++ e).
Proof.
  rewrite !url_host_after. intros H.
  destruct (strip_prefix (chars "http") x) as [r|] eqn:E; [|discriminate].
  rewrite (strip_prefix_app _ _ _ e E).
  destruct r as [|a r']; [discriminate H|].
  change ((a :: r') ++ e) with (a :: (r' ++ e)).
  cbv beta iota.
  destruct (Ascii.eqb a "s").
  - apply url_after_app, H.
  - apply (url_after_app (a :: r')), H.
Qed.

Lemma url_host_take_while (x h : list ascii) :
  url_host x = Some h ->
  url_host (take_while urlch x) = Some (take_while urlch h).
Proof.
  rewrite !url_host_after. intros H.
  destruct (strip_prefix (chars "http") x) as [r|] eqn:E; [|discriminate].
  rewrite (strip_prefix_take_while urlch _ _ _ urlch_http E).
  destruct r as [|a r']; [discriminate H|].
  destruct (Ascii.eqb_spec a "s") as [->|Ha].
  - change (take_while urlch ("s"%char :: r')) with ("s"%char :: take_while urlch r').
    cbv beta iota. rewrite Ascii.eqb_refl. apply url_after_take_while, H.
  - pose proof (url_after_take_while _ _ H) as H'.
    destruct (take_while urlch (a :: r')) as [|b w] eqn:Ew; [exact H'|].
    assert (b = a) as ->.
    { simpl in Ew. destruct (urlch a); [|discriminate]. injection Ew as ? _. congruence. }
    cbv beta iota. destruct (Ascii.eqb_spec a "s"); [contradiction|]. exact H'.
Qed.

Lemma url_host_split (t h : list ascii) :
  url_host t = Some h -> exists pre, t = pre ++ h /\ pre <> [].
Proof.
  rewrite url_host_after. intros H.
  destruct (strip_prefix (chars "http") t) as [r|] eqn:E; [|discriminate].
  apply strip_prefix_split in E.
  destruct r as [|a r']; [discriminate H|].
  destruct (Ascii.eqb_spec a "s") as [->|Ha]; apply url_after_split in H.
  - exists (chars "https://"). split; [|discriminate]. rewrite E, H. reflexivity.
  - exists (chars "http://"). split; [|discriminate]. rewrite E, H. reflexivity.
Qed.

(** From the two properties of a pattern that reads a run of [q] only. *)
Lemma runs_of (at_ : list ascii -> bool) (q : ascii -> bool) :
  (forall x e, at_ x = true -> at_ (x ++ e) = true) ->
  (forall x, at_ x = true -> at_ (take_while q x) = true) ->
  forall x y, within q x y -> at_ x = true -> at_ y = true.
Proof.
  intros Hmono Hrestr x y [e He] Hx.
  rewrite <- (take_drop_while q y), He.
  rewrite <- app_assoc. apply Hmono, Hrestr, Hx.
Qed.

Lemma url_at_runs (x y : list ascii) :
  within urlch x y -> url_at x = true -> url_at y = true.
Proof.
  apply runs_of; unfold url_at.
  - intros x0 e H. destruct (url_host x0) as [h|] eqn:E; [|discriminate].
    rewrite (url_host_app _ _ e E). reflexivity.
  - intros x0 H. destruct (url_host x0) as [h|] eqn:E; [|discriminate].
    rewrite (url_host_take_while _ _ E). reflexivity.
Qed.

Lemma urlch_nonspace (c : ascii) : urlch c = true -> nonspace c = true.
Proof. each_char c. Qed.

Lemma url_at_colon (t : list ascii) : url_at t = true -> List.In ":"%char t.
Proof.
  unfold url_at. rewrite url_host_after. intros H.
  destruct (strip_prefix (chars "http") t) as [r|] eqn:E; [|discriminate].
  apply strip_prefix_split in E. subst t.
  destruct r as [|a r']; [discriminate H|].
  destruct (Ascii.eqb a "s");
    match type of H with
    | match url_after ?r with _ => _ end = _ =>
        destruct (url_after r) as [h|] eqn:E; [|discriminate];
        apply url_after_split in E
    end.
  - rewrite E. simpl. auto 10.
  - rewrite E. simpl. auto 10.
Qed.

(** *** [email_re] *)

Lemma nonspace_class (k : cont) : True -> forall prev s,
  rmatch (NotIn [Space]) prev s k =
  match s with
  | a :: s' => if nonspace a then k (Some a) s' else None
  | [] => None
  end.
Proof.
  intros _ prev s. destruct s as [|a s']; [reflexivity|].
  cbn [rmatch]. unfold nonspace. rewrite has_space.
  destruct (isspace a); reflexivity.
Qed.

Lemma plus_nonspace (k : cont) (prev : option ascii) (s : list ascii) :
  rmatch (Plus (NotIn [Space])) prev s k = back nonspace k s.
Proof.
  rewrite rmatch_Plus.
  apply (plus_back (rmatch (NotIn [Space])) nonspace (fun _ => True) nonspace_class
           (fun _ _ _ _ => I) k I).
  lia.
Qed.

Lemma email_tail_snd (p : option ascii) (s : list ascii) :
  option_map snd (email_tail p s) =
  match s with
  | a :: s' =>
      if Ascii.eqb a "@" && head_is nonspace s' then Some (drop_while nonspace s')
      else None
  | [] => None
  end.
Proof.
  unfold email_tail. rewrite rmatch_Cat.
  destruct s as [|a s']; [reflexivity|].
  change (rmatch (Chr "@") p (a :: s')
            (fun p' s'0 => rmatch (Plus (NotIn [Space])) p' s'0 accept))
    with (if Ascii.eqb a "@"
          then rmatch (Plus (NotIn [Space])) (Some a) s' accept else None).
  destruct (Ascii.eqb a "@"); [|reflexivity].
  rewrite plus_nonspace. apply back_accept.
Qed.

Lemma back_email (t : list ascii) : forall a,
  option_map snd
    match back nonspace email_tail t with
    | Some x => Some x
    | None => email_tail (Some a) t
    end =
  if at_inside t then Some (drop_while nonspace t) else None.
Proof.
  induction t as [|c t IH]; intros a.
  - reflexivity.
  - cbn [back at_inside drop_while].
    destruct (nonspace c) eqn:Hc.
    + specialize (IH c). cbn [andb]. revert IH.
      destruct (back nonspace email_tail t) as [x|];
        [|destruct (email_tail (Some c) t) as [x|]];
        destruct (at_inside t); cbn [option_map]; intros IH; try discriminate IH.
      * rewrite orb_true_r. exact IH.
      * rewrite orb_true_r. exact IH.
      * rewrite orb_false_r, email_tail_snd. reflexivity.
    + cbn [andb]. rewrite email_tail_snd.
      destruct (Ascii.eqb_spec c "@") as [->|]; [discriminate Hc | reflexivity].
Qed.

Lemma rmatch_email (prev : option ascii) (t : list ascii) :
  option_map snd (rmatch email_re prev t accept) =
  if email_at t then Some (drop_while nonspace t) else None.
Proof.
  unfold email_re. rewrite rmatch_Cat.
  change (rmatch (Plus (NotIn [Space])) prev t
            (fun p' s' => rmatch (Cat (Chr "@") (Plus (NotIn [Space]))) p' s' accept))
    with (rmatch (Plus (NotIn [Space])) prev t email_tail).
  rewrite plus_nonspace.
  destruct t as [|a t']; [reflexivity|].
  cbn [back email_at drop_while].
  destruct (nonspace a); [|reflexivity]. apply back_email.
Qed.

Lemma head_is_app (p : ascii -> bool) (x e : list ascii) :
  head_is p x = true -> head_is p (x ++ e) = true.
Proof. destruct x; [discriminate | auto]. Qed.

Lemma at_inside_app (x e : list ascii) :
  at_inside x = true -> at_inside (x ++ e) = true.
Proof.
  induction x as [|c x IH]; [discriminate|]. simpl.
  intros H. apply andb_true_iff in H as [Hc H]. rewrite Hc. simpl.
  apply orb_true_iff in H as [H|H].
  - apply andb_true_iff in H as [H1 H2].
    rewrite H1, (head_is_app _ _ _ H2). reflexivity.
  - rewrite (IH H). apply orb_true_r.
Qed.

Lemma head_is_take_while (p : ascii -> bool) (x : list ascii) :
  head_is p x = true -> head_is p (take_while p x) = true.
Proof. destruct x as [|a x]; [discriminate|]. simpl. intros H. rewrite H. exact H. Qed.

Lemma at_inside_take_while (x : list ascii) :
  at_inside x = true -> at_inside (take_while nonspace x) = true.
Proof.
  induction x as [|c x IH]; [discriminate|]. simpl.
  intros H. apply andb_true_iff in H as [Hc H]. rewrite Hc. simpl. rewrite Hc. simpl.
  apply orb_true_iff in H as [H|H].
  - apply andb_true_iff in H as [H1 H2].
    rewrite H1, (head_is_take_while _ _ H2). reflexivity.
  - rewrite (IH H). apply orb_true_r.
Qed.

Lemma email_at_runs (x y : list ascii) :
  within nonspace x y -> email_at x = true -> email_at y = true.
Proof.
  apply runs_of.
  - intros [|a x0] e H; [discriminate|]. simpl in *.
    apply andb_true_iff in H as [Ha H]. rewrite Ha, (at_inside_app _ _ H). reflexivity.
  - intros [|a x0] H; [discriminate|]. simpl in *.
    apply andb_true_iff in H as [Ha H]. rewrite Ha. simpl.
    rewrite Ha, (at_inside_take_while _ H). reflexivity.
Qed.

Lemma at_inside_at (t : list ascii) : at_inside t = true -> List.In "@"%char t.
Proof.
  induction t as [|c t IH]; [discriminate|]. simpl.
  intros H. apply andb_true_iff in H as [_ H].
  apply orb_true_iff in H as [H|H].
  - apply andb_true_iff in H as [H _]. apply Ascii.eqb_eq in H. auto.
  - auto.
Qed.

Lemma email_at_at (t : list ascii) : email_at t = true -> List.In "@"%char t.
Proof.
  destruct t as [|a t]; [discriminate|]. simpl.
  intros H. apply andb_true_iff in H as [_ H]. right. apply at_inside_at, H.
Qed.


(** *** Removing the matches of a pattern *)

Section Removal.
Variable r : regex.
Variable at_ : list ascii -> bool.
Variable q : ascii -> bool.
Hypothesis at_runs : forall x y, within q x y -> at_ x = true -> at_ y = true.
Hypothesis engine : forall prev t,
  match rmatch r prev t accept with
  | Some (_, rest) =>
      at_ t = true /\ take_while q rest = [] /\ exists pre, t = pre ++ rest /\ pre <> []
  | None => at_ t = false
  end.

Lemma shorter (pre rest : list ascii) :
  pre <> [] -> (length rest <? length (pre ++ rest))%nat = true.
Proof.
  intros H. apply Nat.ltb_lt. rewrite length_app.
  destruct pre; [contradiction | simpl; lia].
Qed.

(** What is left has no match, and starts with no more of [q] than the text. *)
Lemma sub_loop_none :
  forall fuel prev t, length t <= fuel ->
    none_at at_ (sub_loop r [] fuel prev t) = true /\
    within q (sub_loop r [] fuel prev t) t.
Proof.
  induction fuel as [|fuel IH]; intros prev t Hlen.
  - destruct t; simpl in Hlen; [|lia]. split; [reflexivity | apply within_refl].
  - destruct t as [|a t']; [split; [reflexivity | apply within_refl]|].
    cbn [sub_loop]. pose proof (engine prev (a :: t')) as He.
    assert (Hcopy : at_ (a :: t') = false ->
              none_at at_ (a :: sub_loop r [] fuel (Some a) t') = true /\
              within q (a :: sub_loop r [] fuel (Some a) t') (a :: t')).
    { intros Hno. destruct (IH (Some a) t') as [H1 H2]; [simpl in Hlen; lia|].
      split; [|apply within_cons, H2].
      cbn [none_at]. rewrite H1, andb_true_r.
      destruct (at_ (a :: sub_loop r [] fuel (Some a) t')) eqn:Hat; [|reflexivity].
      rewrite (at_runs _ (a :: t') (within_cons q a _ _ H2) Hat) in Hno.
      discriminate Hno. }
    destruct (rmatch r prev (a :: t') accept) as [[p' rest]|]; [|apply Hcopy, He].
    destruct He as (Hat & Hrest & pre & Ht & Hpre).
    assert (Hlt : (length rest <? length (a :: t'))%nat = true)
      by (rewrite Ht; apply shorter, Hpre).
    rewrite Hlt. cbn [app].
    assert (Hl : length rest <= fuel).
    { apply Nat.ltb_lt in Hlt. simpl in Hlt, Hlen. lia. }
    destruct (IH p' rest Hl) as [H1 [e H2]]. split; [exact H1|].
    apply within_nil. rewrite Hrest in H2.
    destruct (take_while q (sub_loop r [] fuel p' rest)); [reflexivity | discriminate H2].
Qed.

(** A text without a match is left as it is. *)
Lemma sub_loop_fixed :
  forall fuel prev t, none_at at_ t = true -> sub_loop r [] fuel prev t = t.
Proof.
  induction fuel as [|fuel IH]; intros prev t H; [reflexivity|].
  destruct t as [|a t']; [reflexivity|].
  cbn [sub_loop]. cbn [none_at] in H. apply andb_true_iff in H as [H1 H2].
  pose proof (engine prev (a :: t')) as He.
  destruct (rmatch r prev (a :: t') accept) as [[p' rest]|].
  - destruct He as [Hat _]. rewrite Hat in H1. discriminate H1.
  - rewrite IH by exact H2. reflexivity.
Qed.

(** The matches of another pattern, which reads a run inside [q], do not
    appear by the removal. *)
Lemma sub_loop_keeps_none (at2 : list ascii -> bool) (q2 : ascii -> bool) :
  (forall x y, within q2 x y -> at2 x = true -> at2 y = true) ->
  (forall c, q2 c = true -> q c = true) ->
  forall fuel prev t, length t <= fuel ->
    none_at at2 t = true -> none_at at2 (sub_loop r [] fuel prev t) = true.
Proof.
  intros Hruns Hsub.
  induction fuel as [|fuel IH]; intros prev t Hlen H.
  - destruct t; simpl in Hlen; [reflexivity | lia].
  - destruct t as [|a t']; [reflexivity|].
    cbn [sub_loop]. pose proof (engine prev (a :: t')) as He.
    assert (Hcopy : none_at at2 (a :: sub_loop r [] fuel (Some a) t') = true).
    { cbn [none_at] in H |- *. apply andb_true_iff in H as [H1 H2].
      rewrite IH by (simpl in Hlen; lia || exact H2). rewrite andb_true_r.
      destruct (at2 (a :: sub_loop r [] fuel (Some a) t')) eqn:Hat; [|reflexivity].
      destruct (sub_loop_none fuel (Some a) t') as [_ Hw]; [simpl in Hlen; lia|].
      rewrite (Hruns _ (a :: t') (within_cons q2 a _ _ (within_sub q2 q _ _ Hsub Hw)) Hat)
        in H1.
      discriminate H1. }
    destruct (rmatch r prev (a :: t') accept) as [[p' rest]|]; [|exact Hcopy].
    destruct He as (Hat & Hrest & pre & Ht & Hpre).
    assert (Hlt : (length rest <? length (a :: t'))%nat = true)
      by (rewrite Ht; apply shorter, Hpre).
    rewrite Hlt. cbn [app].
    apply IH.
    + apply Nat.ltb_lt in Hlt. simpl in Hlt, Hlen. lia.
    + apply (none_at_app at2 pre). rewrite <- Ht. exact H.
Qed.

End Removal.

Lemma url_engine (prev : option ascii) (t : list ascii) :
  match rmatch url_re prev t accept with
  | Some (_, rest) =>
      url_at t = true /\ take_while urlch rest = [] /\
      exists pre, t = pre ++ rest /\ pre <> []
  | None => url_at t = false
  end.
Proof.
  pose proof (rmatch_url prev t) as H. unfold url_at.
  destruct (rmatch url_re prev t accept) as [[p' rest]|];
    destruct (url_host t) as [h|] eqn:Eh; try discriminate H; [|reflexivity].
  injection H as ->. split; [reflexivity|]. split; [apply take_while_drop_while|].
  destruct (url_host_split t h Eh) as (pre & -> & Hpre).
  exists (pre ++ take_while urlch h). split.
  - rewrite <- app_assoc, take_drop_while. reflexivity.
  - destruct pre; [contradiction | discriminate].
Qed.

Lemma email_engine (prev : option ascii) (t : list ascii) :
  match rmatch email_re prev t accept with
  | Some (_, rest) =>
      email_at t = true /\ take_while nonspace rest = [] /\
      exists pre, t = pre ++ rest /\ pre <> []
  | None => email_at t = false
  end.
Proof.
  pose proof (rmatch_email prev t) as H.
  destruct (rmatch email_re prev t accept) as [[p' rest]|];
    destruct (email_at t) eqn:Eh; try discriminate H; [|reflexivity].
  injection H as ->. split; [reflexivity|]. split; [apply take_while_drop_while|].
  exists (take_while nonspace t). split; [symmetry; apply take_drop_while|].
  destruct t as [|a t']; [discriminate Eh|]. simpl in Eh |- *.
  destruct (nonspace a); [discriminate | discriminate Eh].
Qed.

Lemma url_at_nil : url_at [] = false.
Proof. reflexivity. Qed.

Lemma email_at_nil : email_at [] = false.
Proof. reflexivity. Qed.

(** *** The character steps and the addresses *)

Lemma head_is_filter (p : ascii -> bool) (s : list ascii) :
  (forall c, isspace c = true -> p c = true) ->
  head_is nonspace (List.filter p s) = true -> head_is nonspace s = true.
Proof.
  intros Hp. induction s as [|a s IH]; [auto|]. simpl.
  destruct (p a) eqn:Ha; [auto|]. intros _.
  unfold nonspace. destruct (isspace a) eqn:Hs; [|reflexivity].
  rewrite (Hp a Hs) in Ha. discriminate Ha.
Qed.

Lemma at_inside_filter (p : ascii -> bool) (s : list ascii) :
  (forall c, isspace c = true -> p c = true) ->
  at_inside (List.filter p s) = true -> at_inside s = true.
Proof.
  intros Hp. induction s as [|a s IH]; [auto|]. cbn [List.filter].
  destruct (p a) eqn:Ha.
  - cbn [at_inside]. intros H. apply andb_true_iff in H as [Hc H]. rewrite Hc. simpl.
    apply orb_true_iff in H as [H|H].
    + apply andb_true_iff in H as [H1 H2].
      rewrite H1, (head_is_filter p s Hp H2). reflexivity.
    + rewrite (IH H). apply orb_true_r.
  - intros H. cbn [at_inside]. rewrite (IH H), orb_true_r, andb_true_r.
    unfold nonspace. destruct (isspace a) eqn:Hs; [|reflexivity].
    rewrite (Hp a Hs) in Ha. discriminate Ha.
Qed.

Lemma none_email_filter (p : ascii -> bool) (s : list ascii) :
  (forall c, isspace c = true -> p c = true) ->
  none_at email_at s = true -> none_at email_at (List.filter p s) = true.
Proof.
  intros Hp. induction s as [|a s IH]; [auto|].
  cbn [none_at List.filter]. intros H. apply andb_true_iff in H as [H1 H2].
  destruct (p a); [|apply IH, H2].
  cbn [none_at]. rewrite (IH H2), andb_true_r.
  cbn [email_at] in H1 |- *.
  destruct (nonspace a); [|reflexivity]. cbn [andb] in *.
  destruct (at_inside (List.filter p s)) eqn:E; [|reflexivity].
  rewrite (at_inside_filter p s Hp E) in H1. discriminate H1.
Qed.

Lemma lower_char_space (c : ascii) : isspace (lower_char c) = isspace c.
Proof. each_char c. Qed.

Lemma lower_char_at (c : ascii) : Ascii.eqb (lower_char c) "@" = Ascii.eqb c "@".
Proof. each_char c. Qed.

Lemma at_inside_lower (s : list ascii) :
  at_inside (map lower_char s) = at_inside s.
Proof.
  induction s as [|a s IH]; [reflexivity|]. cbn [map at_inside].
  rewrite IH, lower_char_at. unfold nonspace. rewrite lower_char_space.
  destruct s as [|b s]; [reflexivity|]. cbn [map head_is].
  unfold nonspace. rewrite lower_char_space. reflexivity.
Qed.

Lemma none_email_lower (s : list ascii) :
  none_at email_at s = true -> none_at email_at (map lower_char s) = true.
Proof.
  induction s as [|a s IH]; [auto|].
  cbn [none_at map]. intros H. apply andb_true_iff in H as [H1 H2].
  rewrite (IH H2), andb_true_r.
  cbn [email_at] in H1 |- *. rewrite at_inside_lower.
  unfold nonspace in *. rewrite lower_char_space. exact H1.
Qed.

Lemma keeps_special_space (c : ascii) : isspace c = true -> keeps_special c = true.
Proof. unfold keeps_special. intros ->. apply orb_true_r. Qed.

Lemma not_decimal_space (c : ascii) : isspace c = true -> negb (isdecimal c) = true.
Proof. each_char c. Qed.

Lemma nonspace_refl (c : ascii) : nonspace c = true -> nonspace c = true.
Proof. auto. Qed.

(** The character steps and the white space step bring no address. *)
Lemma none_email_clean_chars (sp nu lo : bool) (s : list ascii) :
  none_at email_at s = true -> none_at email_at (clean_chars sp nu lo s) = true.
Proof.
  intros H. unfold clean_chars.
  apply (none_at_strip email_at nonspace email_at_runs).
  apply (none_at_squeeze email_at nonspace email_at_nil email_at_runs nonspace_refl).
  assert (H3 : forall x, none_at email_at x = true ->
                 none_at email_at (if lo then map lower_char x else x) = true).
  { intros x Hx. destruct lo; [apply none_email_lower, Hx | exact Hx]. }
  apply H3.
  assert (H2 : forall x, none_at email_at x = true ->
                 none_at email_at
                   (if nu then List.filter (fun c => negb (isdecimal c)) x else x) = true).
  { intros x Hx. destruct nu; [|exact Hx].
    apply none_email_filter; [apply not_decimal_space | exact Hx]. }
  apply H2.
  destruct sp; [|exact H].
  apply none_email_filter; [apply keeps_special_space | exact H].
Qed.

(** A text without the character that every match has is without a match. *)
Lemma none_at_without (at_ : list ascii -> bool) (c : ascii) (s : list ascii) :
  (forall t, at_ t = true -> List.In c t) -> ~ List.In c s -> none_at at_ s = true.
Proof.
  intros Hin. induction s as [|a s IH]; [reflexivity|].
  intros Hc. cbn [none_at]. rewrite IH by (intros H; apply Hc; right; exact H).
  rewrite andb_true_r. destruct (at_ (a :: s)) eqn:E; [|reflexivity].
  destruct (Hc (Hin _ E)).
Qed.

Lemma kept_special_without (nu lo : bool) (c : ascii) (s : list ascii) :
  keeps_special c = false -> Forall (kept true nu lo) s -> ~ List.In c s.
Proof.
  intros Hc Hs Hin. rewrite List.Forall_forall in Hs.
  destruct (Hs c Hin) as [H _]. rewrite H in Hc by reflexivity. discriminate Hc.
Qed.

(** *** The cleaner with the two removals *)

Lemma clean_text_patterns (text : string) (o : gmap string bool) :
  get o "remove_extra_spaces" true = true ->
  get o "remove_phone_numbers" false = false ->
  clean_text text (Some o) =
  of_chars (clean_chars (get o "remove_special_chars" false)
              (get o "remove_numbers" false) (get o "lowercase" false)
              (clean_patterns (get o "remove_urls" true) (get o "remove_emails" false)
                 (chars text))).
Proof.
  intros Hx Hp. unfold clean_text. rewrite Hx, Hp.
  unfold clean_chars, clean_patterns, strip, lower, sub.
  destruct (get o "remove_urls" true);
    destruct (get o "remove_emails" false);
    destruct (get o "remove_special_chars" false);
    destruct (get o "remove_numbers" false);
    destruct (get o "lowercase" false);
    rewrite ?chars_of_chars, ?sub_special, ?sub_digits, ?sub_spaces;
    reflexivity.
Qed.

Lemma none_url_strip_squeeze (s : list ascii) :
  none_at url_at s = true ->
  none_at url_at (strip_chars (squeeze false s)) = true.
Proof.
  intros H.
  apply (none_at_strip url_at urlch url_at_runs).
  apply (none_at_squeeze url_at urlch url_at_nil url_at_runs urlch_nonspace), H.
Qed.

(** The cleaned text has no address when the addresses are removed, and no
    URL when the URLs are removed and no later step can complete one. *)
Lemma cleaned_none (u e sp nu lo : bool) (s : list ascii) :
  let out := clean_chars sp nu lo (clean_patterns u e s) in
  (e = true -> none_at email_at out = true) /\
  (u = true -> sp = true \/ (nu = false /\ lo = false) -> none_at url_at out = true).
Proof.
  cbv zeta. split.
  - intros ->. apply none_email_clean_chars. unfold clean_patterns.
    apply (sub_loop_none email_re email_at nonspace email_at_runs email_engine). lia.
  - intros -> [->|[-> ->]].
    + apply (none_at_without url_at ":"%char); [apply url_at_colon|].
      apply (kept_special_without nu lo); [reflexivity | apply clean_chars_kept].
    + destruct sp.
      * apply (none_at_without url_at ":"%char); [apply url_at_colon|].
        apply (kept_special_without false false); [reflexivity | apply clean_chars_kept].
      * unfold clean_chars, clean_patterns. apply none_url_strip_squeeze.
        assert (Hu : none_at url_at (sub_chars url_re [] s) = true).
        { apply (sub_loop_none url_re url_at urlch url_at_runs url_engine). lia. }
        destruct e; [|exact Hu].
        apply (sub_loop_keeps_none email_re email_at nonspace email_at_runs email_engine
                 url_at urlch url_at_runs urlch_nonspace); [lia | exact Hu].
Qed.

Lemma clean_patterns_fixed (u e : bool) (s : list ascii) :
  (u = true -> none_at url_at s = true) ->
  (e = true -> none_at email_at s = true) ->
  clean_patterns u e s = s.
Proof.
  intros Hu He. unfold clean_patterns.
  assert (H1 : (if u then sub_chars url_re [] s else s) = s).
  { destruct u; [|reflexivity].
    apply (sub_loop_fixed url_re url_at urlch url_engine), Hu. reflexivity. }
  rewrite H1. destruct e; [|reflexivity].
  apply (sub_loop_fixed email_re email_at nonspace email_engine), He. reflexivity.
Qed.

End PatternFacts.

(** ** The cleaner with the telephone numbers removed *)

Module PhoneFacts.
Import Chars Str Re DataCleaner CleanerSpec PatternSpec ReFacts CleanerFacts PatternFacts.

(** *** The classes of characters that [phone_re] tells apart *)

Lemma digit_word (c : ascii) : isdecimal c = true -> isword c = true.
Proof. each_char c. Qed.

Lemma digit_not_sep (c : ascii) : isdecimal c = true -> sepch c = false.
Proof. each_char c. Qed.

Lemma digit_nonspace (c : ascii) : isdecimal c = true -> nonspace c = true.
Proof. each_char c. Qed.

Lemma sep_not_word (c : ascii) : sepch c = true -> isword c = false.
Proof. each_char c. Qed.

Lemma sep_nonspace (c : ascii) : sepch c = true -> nonspace c = true.
Proof. each_char c. Qed.

Lemma space_not_word (c : ascii) : isspace c = true -> isword c = false.
Proof. each_char c. Qed.

Lemma space_not_sep (c : ascii) : isspace c = true -> sepch c = false.
Proof. each_char c. Qed.

Lemma lower_char_word (c : ascii) : isword (lower_char c) = isword c.
Proof. each_char c. Qed.

Lemma lower_char_sep (c : ascii) : sepch (lower_char c) = sepch c.
Proof. each_char c. Qed.

(** *** The matcher on [phone_re] *)

Lemma digits_head (n : nat) (t t' : list ascii) :
  digits (S n) t = Some t' -> exists a t0, t = a :: t0 /\ isdecimal a = true.
Proof.
  destruct t as [|a t0]; [discriminate|]. cbn [digits].
  destruct (isdecimal a) eqn:Ha; [|discriminate]. intros _. exists a, t0. auto.
Qed.

Lemma digits_nth (n : nat) : forall t t',
  digits (S n) t = Some t' -> exists d, nth_error t n = Some d /\ isdecimal d = true.
Proof.
  induction n as [|n IH]; intros [|a t] t'; try discriminate; cbn [digits];
    destruct (isdecimal a) eqn:Ha; try discriminate.
  - intros _. exists a. auto.
  - intros H. apply (IH t t'), H.
Qed.

Lemma digits_split (n : nat) : forall t t',
  digits n t = Some t' ->
  exists m, t = m ++ t' /\ length m = n /\ Forall (fun c => isdecimal c = true) m.
Proof.
  induction n as [|n IH]; intros t t'.
  - intros [= <-]. exists []. auto.
  - destruct t as [|a t]; [discriminate|]. cbn [digits].
    destruct (isdecimal a) eqn:Ha; [|discriminate]. intros H.
    destruct (IH t t' H) as (m & -> & <- & Hm). exists (a :: m). auto.
Qed.

Lemma digits_not (n : nat) (a : ascii) (t : list ascii) :
  isdecimal a = false -> digits (S n) (a :: t) = None.
Proof. intros H. cbn [digits]. rewrite H. reflexivity. Qed.

(** [\d{n}], for [n] over zero. *)
Lemma times_digits (k : cont) : forall n prev t,
  times_loop (rmatch (In [Digit])) k (S n) prev t =
  match digits (S n) t with
  | Some t' => k (nth_error t n) t'
  | None => None
  end.
Proof.
  induction n as [|n IH]; intros prev [|a t]; try reflexivity.
  - cbn [times_loop rmatch digits]. rewrite has_digit.
    destruct (isdecimal a); reflexivity.
  - change (times_loop (rmatch (In [Digit])) k (S (S n)) prev (a :: t))
      with (if has [Digit] a
            then times_loop (rmatch (In [Digit])) k (S n) (Some a) t else None).
    rewrite has_digit. change (digits (S (S n)) (a :: t))
      with (if isdecimal a then digits (S n) t else None).
    destruct (isdecimal a); [|reflexivity]. rewrite IH. reflexivity.
Qed.

(** [[-.]?\d{n}]: the separator is taken when there is one. *)
Lemma opt_times (R : regex) (n : nat) (prev : option ascii) (t : list ascii) (k : cont) :
  rmatch (Cat (Opt (In [Ch "-"; Ch "."])) (Cat (Times (S n) (In [Digit])) R)) prev t k =
  match digits (S n) (skip_sep t) with
  | Some t' => rmatch R (nth_error (skip_sep t) n) t' k
  | None => None
  end.
Proof.
  set (K := fun p s => times_loop (rmatch (In [Digit])) (fun p' s' => rmatch R p' s' k)
                         (S n) p s).
  assert (HK : forall p s, K p s =
            match digits (S n) s with
            | Some t' => rmatch R (nth_error s n) t' k
            | None => None
            end) by (intros; apply times_digits).
  change (rmatch (Cat (Opt (In [Ch "-"; Ch "."])) (Cat (Times (S n) (In [Digit])) R)) prev t k)
    with (match rmatch (In [Ch "-"; Ch "."]) prev t K with
          | Some x => Some x
          | None => K prev t
          end).
  destruct t as [|a t'].
  - cbn [rmatch skip_sep]. apply HK.
  - cbn [rmatch skip_sep]. fold (sepch a). destruct (sepch a) eqn:Ha.
    + rewrite (HK prev), digits_not.
      * rewrite HK. destruct (digits (S n) t') as [l|]; [|reflexivity].
        destruct (rmatch R (nth_error t' n) l k); reflexivity.
      * destruct (isdecimal a) eqn:Hd; [|reflexivity].
        rewrite (digit_not_sep a Hd) in Ha. discriminate Ha.
    + apply HK.
Qed.

Lemma phone_engine (prev : option ascii) (t : list ascii) :
  match rmatch phone_re prev t accept with
  | Some (p', rest) =>
      phone_at (word_at prev) t = true /\ phone_body t = Some rest /\
      word_at p' = true /\ word_at (head rest) = false
  | None => phone_at (word_at prev) t = false
  end.
Proof.
  unfold phone_at, phone_body.
  change (rmatch phone_re prev t accept)
    with (if xorb (word_at prev) (word_at (head t))
          then times_loop (rmatch (In [Digit]))
                 (fun p s =>
                    rmatch (Cat (Opt (In [Ch "-"; Ch "."])) (Cat (Times 3 (In [Digit]))
                             (Cat (Opt (In [Ch "-"; Ch "."])) (Cat (Times 4 (In [Digit])) Bound))))
                      p s accept) 3 prev t
          else None).
  rewrite times_digits.
  destruct (digits 3 t) as [t1|] eqn:E1.
  2: { rewrite andb_false_r. destruct (xorb _ _); reflexivity. }
  destruct (digits_head _ _ _ E1) as (a & t0 & -> & Ha).
  cbn [head word_at]. rewrite (digit_word a Ha).
  rewrite opt_times.
  destruct (digits 3 (skip_sep t1)) as [t2|] eqn:E2.
  2: { rewrite andb_false_r. destruct (xorb _ _); reflexivity. }
  rewrite opt_times.
  destruct (digits 4 (skip_sep t2)) as [rest|] eqn:E3.
  2: { rewrite andb_false_r. destruct (xorb _ _); reflexivity. }
  destruct (digits_nth _ _ _ E3) as (d & Hd & Hdd). rewrite Hd.
  cbn [rmatch word_at]. rewrite (digit_word d Hdd).
  destruct (word_at prev); cbn [xorb negb andb]; [reflexivity|].
  destruct (word_at (head rest)) eqn:Hr; cbn [negb]; [reflexivity|].
  unfold accept. repeat split; [apply digit_word, Hdd | exact Hr].
Qed.

(** Every match of [ten_digits_re] is one of [phone_re]. *)
Lemma digits_add (n m : nat) : forall t,
  digits (n + m) t = match digits n t with Some t' => digits m t' | None => None end.
Proof.
  induction n as [|n IH]; intros t; [reflexivity|].
  destruct t as [|a t]; [reflexivity|]. cbn [Nat.add digits].
  destruct (isdecimal a); [apply IH | reflexivity].
Qed.

Lemma skip_sep_digits (n : nat) (t t' : list ascii) :
  digits (S n) t = Some t' -> skip_sep t = t.
Proof.
  intros H. destruct (digits_head _ _ _ H) as (a & t0 & -> & Ha).
  cbn [skip_sep]. rewrite (digit_not_sep a Ha). reflexivity.
Qed.

Lemma ten_digits_body (t rest : list ascii) :
  digits 10 t = Some rest -> phone_body t = Some rest.
Proof.
  unfold phone_body. change 10 with (3 + (3 + 4)). rewrite digits_add.
  destruct (digits 3 t) as [t1|]; [|discriminate]. rewrite digits_add.
  destruct (digits 3 t1) as [t2|] eqn:E2; [|discriminate]. intros E3.
  rewrite (skip_sep_digits _ _ _ E2), E2, (skip_sep_digits _ _ _ E3). exact E3.
Qed.

Lemma ten_engine (prev : option ascii) (t : list ascii) :
  rmatch ten_digits_re prev t accept <> None -> phone_at (word_at prev) t = true.
Proof.
  unfold phone_at.
  change (rmatch ten_digits_re prev t accept)
    with (if xorb (word_at prev) (word_at (head t))
          then times_loop (rmatch (In [Digit])) (fun p s => rmatch Bound p s accept) 10 prev t
          else None).
  rewrite times_digits.
  destruct (digits 10 t) as [rest|] eqn:E.
  2: { destruct (xorb _ _); intros H; destruct H; reflexivity. }
  rewrite (ten_digits_body _ _ E).
  destruct (digits_head _ _ _ E) as (a & t0 & -> & Ha).
  cbn [head word_at]. rewrite (digit_word a Ha).
  destruct (digits_nth _ _ _ E) as (d & Hd & Hdd). rewrite Hd.
  cbn [rmatch word_at]. rewrite (digit_word d Hdd).
  destruct (word_at prev); cbn [xorb negb andb]; [intros H; destruct H; reflexivity|].
  destruct (word_at (head rest)); cbn [negb]; [intros H; destruct H|]; reflexivity.
Qed.

(** What a match takes is not empty and has no white space. *)
Lemma skip_sep_split (t : list ascii) :
  exists m, t = m ++ skip_sep t /\ Forall (fun c => nonspace c = true) m.
Proof.
  destruct t as [|a t]; [exists []; auto|]. cbn [skip_sep].
  destruct (sepch a) eqn:Ha; [|exists []; auto].
  exists [a]. split; [reflexivity|]. constructor; [apply sep_nonspace, Ha | constructor].
Qed.

Lemma digits_taken (n : nat) (t t' : list ascii) :
  digits n t = Some t' ->
  exists m, t = m ++ t' /\ length m = n /\ Forall (fun c => nonspace c = true) m.
Proof.
  intros H. destruct (digits_split n t t' H) as (m & E & L & F).
  exists m. repeat split; auto.
  eapply List.Forall_impl; [|exact F]. apply digit_nonspace.
Qed.

Lemma phone_body_split (t rest : list ascii) :
  phone_body t = Some rest ->
  exists m, t = m ++ rest /\ m <> [] /\ Forall (fun c => nonspace c = true) m.
Proof.
  unfold phone_body.
  destruct (digits 3 t) as [t1|] eqn:E1; [|discriminate].
  destruct (digits 3 (skip_sep t1)) as [t2|] eqn:E2; [|discriminate]. intros E3.
  destruct (digits_taken _ _ _ E1) as (m1 & -> & L1 & F1).
  destruct (skip_sep_split t1) as (s1 & S1 & G1).
  destruct (digits_taken _ _ _ E2) as (m2 & M2 & _ & F2).
  destruct (skip_sep_split t2) as (s2 & S2 & G2).
  destruct (digits_taken _ _ _ E3) as (m3 & M3 & _ & F3).
  exists (m1 ++ s1 ++ m2 ++ s2 ++ m3). split; [|split].
  - rewrite <- !app_assoc. f_equal. rewrite S1 at 1. f_equal.
    rewrite M2. f_equal. rewrite S2 at 1. f_equal. exact M3.
  - destruct m1; [discriminate L1 | discriminate].
  - repeat (apply Forall_app; split); assumption.
Qed.

(** *** What a match can see *)

Lemma sees_digit (b : bool) (a : ascii) (x y : list ascii) :
  isdecimal a = true -> sees b (a :: x) y ->
  exists y0, y = a :: y0 /\ sees false x y0.
Proof.
  intros Ha H. pose proof (digit_word a Ha) as Hw.
  inversion H as [ | ? ? ? Hi Hy | ? ? Hx | ? ? ? y0 Hs]; subst.
  - exists x. split; [reflexivity | apply sees_same].
  - cbn [inert] in Hi. rewrite Hw in Hi. discriminate Hi.
  - cbn [head word_at] in Hx. rewrite Hw in Hx. discriminate Hx.
  - exists y0. rewrite Hw in Hs. auto.
Qed.

Lemma sees_digits (n : nat) : forall b x y x',
  digits (S n) x = Some x' -> sees b x y ->
  exists y', digits (S n) y = Some y' /\ sees false x' y'.
Proof.
  induction n as [|n IH]; intros b x y x' E H;
    destruct (digits_head _ _ _ E) as (a & x0 & -> & Ha);
    destruct (sees_digit b a x0 y Ha H) as (y0 & -> & H0);
    cbn [digits] in E |- *; rewrite Ha in E |- *.
  - injection E as <-. exists y0. auto.
  - apply (IH false x0 y0 x' E H0).
Qed.

Lemma sees_skip (n : nat) (x y x' : list ascii) :
  sees false x y -> digits (S n) (skip_sep x) = Some x' ->
  exists y', digits (S n) (skip_sep y) = Some y' /\ sees false x' y'.
Proof.
  intros H E. inversion H as [ | ? ? ? Hi Hy | | ? a x0 y0 Hs]; subst.
  - exists x'. split; [exact E | apply sees_same].
  - destruct x as [|a x0]; [discriminate E|]. cbn [inert] in Hi.
    apply andb_true_iff in Hi as [Hw Hp]. apply negb_true_iff in Hw, Hp.
    cbn [skip_sep] in E. rewrite Hp in E.
    destruct (digits_head _ _ _ E) as (a' & t0 & [= <- <-] & Ha).
    rewrite (digit_word a Ha) in Hw. discriminate Hw.
  - cbn [skip_sep] in E |- *. destruct (sepch a) eqn:Hp.
    + apply (sees_digits n _ _ _ _ E Hs).
    + apply (sees_digits n false _ _ _ E H).
Qed.

Lemma sees_head (x y : list ascii) :
  sees false x y -> word_at (head x) = false -> word_at (head y) = false.
Proof.
  intros H Hx. inversion H as [ | ? ? ? Hi Hy | | ? a x0 y0 Hs]; subst; auto.
Qed.

(** A match in [x] is one in [y]. *)
Lemma phone_mono (x y : list ascii) :
  sees true x y -> phone_at false x = true -> phone_at false y = true.
Proof.
  unfold phone_at, phone_body. cbn [negb andb]. intros H.
  destruct (digits 3 x) as [x1|] eqn:E1; [|discriminate].
  destruct (sees_digits _ _ _ _ _ E1 H) as (y1 & -> & H1).
  destruct (digits 3 (skip_sep x1)) as [x2|] eqn:E2; [|discriminate].
  destruct (sees_skip _ _ _ _ H1 E2) as (y2 & -> & H2).
  destruct (digits 4 (skip_sep x2)) as [x3|] eqn:E3; [|discriminate].
  destruct (sees_skip _ _ _ _ H2 E3) as (y3 & -> & H3).
  intros Hx. apply negb_true_iff in Hx. rewrite (sees_head _ _ H3 Hx). reflexivity.
Qed.

Lemma phone_at_word (t : list ascii) : phone_at true t = false.
Proof. reflexivity. Qed.

Lemma phone_at_head (w : bool) (a : ascii) (t : list ascii) :
  isdecimal a = false -> phone_at w (a :: t) = false.
Proof.
  intros H. unfold phone_at, phone_body. rewrite digits_not by exact H.
  apply andb_false_r.
Qed.

Lemma not_word_not_digit (a : ascii) : isword a = false -> isdecimal a = false.
Proof.
  intros H. destruct (isdecimal a) eqn:Hd; [|reflexivity].
  rewrite (digit_word a Hd) in H. discriminate H.
Qed.

(** *** Removing the matches *)

Lemma phone_taken (prev p' : option ascii) (t rest : list ascii) :
  rmatch phone_re prev t accept = Some (p', rest) ->
  (length rest <? length t)%nat = true /\ word_at prev = false /\
  word_at p' = true /\ word_at (head rest) = false /\
  exists m, t = m ++ rest /\ m <> [] /\ Forall (fun c => nonspace c = true) m.
Proof.
  intros E. pose proof (phone_engine prev t) as H. rewrite E in H.
  destruct H as (Hat & Hb & Hp & Hr).
  destruct (phone_body_split _ _ Hb) as (m & Ht & Hm & Hf).
  split; [rewrite Ht; apply shorter, Hm|].
  split; [|eauto 8].
  unfold phone_at in Hat. destruct (word_at prev); [discriminate Hat | reflexivity].
Qed.

Lemma phone_none (prev : option ascii) (t : list ascii) :
  phone_at (word_at prev) t = false -> rmatch phone_re prev t accept = None.
Proof.
  intros H. pose proof (phone_engine prev t) as He.
  destruct (rmatch phone_re prev t accept) as [[p' rest]|]; [|reflexivity].
  destruct He as [He _]. rewrite He in H. discriminate H.
Qed.

(** After a word character the scan copies the next character. *)
Lemma sub_phone_head (fuel : nat) (p' : option ascii) (t : list ascii) :
  word_at p' = true -> head (sub_loop phone_re [] fuel p' t) = head t.
Proof.
  intros Hp. destruct fuel as [|fuel]; [reflexivity|].
  destruct t as [|a t']; [reflexivity|]. cbn [sub_loop].
  rewrite phone_none by (rewrite Hp; reflexivity). reflexivity.
Qed.

Lemma sub_phone_sees : forall fuel prev t,
  sees (negb (word_at prev)) (sub_loop phone_re [] fuel prev t) t.
Proof.
  induction fuel as [|fuel IH]; intros prev t; [apply sees_same|].
  destruct t as [|a t']; [apply sees_same|]. cbn [sub_loop].
  destruct (rmatch phone_re prev (a :: t') accept) as [[p' rest]|] eqn:E.
  - destruct (phone_taken _ _ _ _ E) as (Hlt & Hw & Hp & Hr & _).
    rewrite Hlt, Hw. cbn [app negb]. apply sees_gap.
    rewrite (sub_phone_head fuel p' rest Hp). exact Hr.
  - apply sees_cons. apply (IH (Some a) t').
Qed.

(** What is left has no match. *)
Lemma sub_phone_free : forall fuel prev t w,
  length t <= fuel ->
  w = word_at prev \/ (w = false /\ word_at prev = true /\ word_at (head t) = false) ->
  phone_free w (sub_loop phone_re [] fuel prev t) = true.
Proof.
  induction fuel as [|fuel IH]; intros prev t w Hlen Hw.
  - destruct t; simpl in Hlen; [reflexivity | lia].
  - destruct t as [|a t']; [reflexivity|]. cbn [sub_loop].
    destruct (rmatch phone_re prev (a :: t') accept) as [[p' rest]|] eqn:E.
    + destruct (phone_taken _ _ _ _ E) as (Hlt & Hv & Hp & Hr & _).
      rewrite Hlt. cbn [app]. apply IH.
      * apply Nat.ltb_lt in Hlt. simpl in Hlt, Hlen. lia.
      * right. destruct Hw as [->|(-> & Hc & _)]; [auto|].
        rewrite Hc in Hv. discriminate Hv.
    + cbn [phone_free]. rewrite (IH (Some a) t' (isword a)), andb_true_r
        by (simpl in Hlen; lia || left; reflexivity).
      apply negb_true_iff.
      destruct (phone_at w (a :: sub_loop phone_re [] fuel (Some a) t')) eqn:Hat;
        [|reflexivity].
      destruct w; [discriminate Hat|].
      assert (Hy : phone_at false (a :: t') = true).
      { apply (phone_mono (a :: sub_loop phone_re [] fuel (Some a) t')); [|exact Hat].
        apply sees_cons. apply (sub_phone_sees fuel (Some a) t'). }
      destruct Hw as [Hw|(_ & _ & Hh)].
      * pose proof (phone_engine prev (a :: t')) as He. rewrite E, <- Hw in He.
        rewrite He in Hy. discriminate Hy.
      * cbn [head word_at] in Hh.
        rewrite (phone_at_head false a t' (not_word_not_digit a Hh)) in Hy.
        discriminate Hy.
Qed.

(** A text without a match is left as it is, by a pattern whose matches are
    matches of [phone_re]. *)
Lemma sub_free_fixed (r : regex) :
  (forall prev t, rmatch r prev t accept <> None -> phone_at (word_at prev) t = true) ->
  forall fuel prev t, phone_free (word_at prev) t = true -> sub_loop r [] fuel prev t = t.
Proof.
  intros Hr. induction fuel as [|fuel IH]; intros prev t H; [reflexivity|].
  destruct t as [|a t']; [reflexivity|]. cbn [sub_loop].
  cbn [phone_free] in H. apply andb_true_iff in H as [H1 H2].
  apply negb_true_iff in H1.
  destruct (rmatch r prev (a :: t') accept) as [[p' rest]|] eqn:E.
  - rewrite (Hr prev (a :: t')) in H1 by (rewrite E; discriminate). discriminate H1.
  - rewrite (IH (Some a) t' H2). reflexivity.
Qed.

Lemma phone_some (prev : option ascii) (t : list ascii) :
  rmatch phone_re prev t accept <> None -> phone_at (word_at prev) t = true.
Proof.
  intros H. pose proof (phone_engine prev t) as He.
  destruct (rmatch phone_re prev t accept) as [[p' rest]|]; [apply He | destruct H; reflexivity].
Qed.

Lemma phones_fixed (p : bool) (t : list ascii) :
  (p = true -> phone_free false t = true) -> phones p t = t.
Proof.
  intros H. destruct p; [|reflexivity]. specialize (H eq_refl). unfold phones, sub_chars.
  rewrite (sub_free_fixed phone_re phone_some _ None t H).
  apply (sub_free_fixed ten_digits_re ten_engine _ None t H).
Qed.

Lemma phones_free (t : list ascii) : phone_free false (phones true t) = true.
Proof.
  unfold phones.
  assert (H : phone_free false (sub_chars phone_re [] t) = true).
  { apply (sub_phone_free (length t) None t false); [lia | left; reflexivity]. }
  unfold sub_chars at 1.
  rewrite (sub_free_fixed ten_digits_re ten_engine _ None _ H). exact H.
Qed.

(** *** The steps after the removal *)

Lemma free_without_digits (t : list ascii) : forall w,
  Forall (fun c => isdecimal c = false) t -> phone_free w t = true.
Proof.
  induction t as [|a t IH]; intros w H; [reflexivity|].
  inversion H; subst. cbn [phone_free].
  rewrite phone_at_head by assumption. rewrite IH by assumption. reflexivity.
Qed.

Lemma digits_lower (n : nat) : forall t,
  digits n (map lower_char t) = option_map (map lower_char) (digits n t).
Proof.
  induction n as [|n IH]; intros t; [reflexivity|].
  destruct t as [|a t]; [reflexivity|]. cbn [map digits].
  rewrite lower_char_decimal. destruct (isdecimal a); [apply IH | reflexivity].
Qed.

Lemma skip_sep_lower (t : list ascii) :
  skip_sep (map lower_char t) = map lower_char (skip_sep t).
Proof.
  destruct t as [|a t]; [reflexivity|]. cbn [map skip_sep].
  rewrite lower_char_sep. destruct (sepch a); reflexivity.
Qed.

Lemma phone_at_lower (w : bool) (t : list ascii) :
  phone_at w (map lower_char t) = phone_at w t.
Proof.
  unfold phone_at, phone_body. f_equal. rewrite digits_lower.
  destruct (digits 3 t) as [t1|]; [|reflexivity]. cbn [option_map].
  rewrite skip_sep_lower, digits_lower.
  destruct (digits 3 (skip_sep t1)) as [t2|]; [|reflexivity]. cbn [option_map].
  rewrite skip_sep_lower, digits_lower.
  destruct (digits 4 (skip_sep t2)) as [[|c t3]|]; [reflexivity| |reflexivity].
  cbn [option_map map head word_at]. rewrite lower_char_word. reflexivity.
Qed.

Lemma free_lower (t : list ascii) : forall w,
  phone_free w (map lower_char t) = phone_free w t.
Proof.
  induction t as [|a t IH]; intros w; [reflexivity|].
  cbn [phone_free]. change (map lower_char (a :: t)) with (lower_char a :: map lower_char t).
  cbn [phone_free]. rewrite IH, lower_char_word.
  change (lower_char a :: map lower_char t) with (map lower_char (a :: t)).
  rewrite phone_at_lower. reflexivity.
Qed.

Lemma sees_squeeze (t : list ascii) : forall b, sees b (squeeze false t) t.
Proof.
  induction t as [|a t IH]; intros b; [apply sees_same|]. cbn [squeeze].
  destruct (isspace a) eqn:Ha.
  - apply sees_end; [reflexivity|]. cbn [head word_at]. apply space_not_word, Ha.
  - apply sees_cons, IH.
Qed.

Lemma free_step (w : bool) (a : ascii) (x y : list ascii) :
  sees (negb (isword a)) x y -> phone_at w (a :: y) = false ->
  phone_at w (a :: x) = false.
Proof.
  intros H Hy. destruct (phone_at w (a :: x)) eqn:Hx; [|reflexivity].
  destruct w; [discriminate Hx|].
  rewrite (phone_mono (a :: x) (a :: y)) in Hy; [discriminate Hy | | exact Hx].
  apply sees_cons, H.
Qed.

Lemma free_squeeze (t : list ascii) : forall w inrun,
  (inrun = true -> w = false) ->
  phone_free w t = true -> phone_free w (squeeze inrun t) = true.
Proof.
  induction t as [|a t IH]; intros w inrun Hin H; [reflexivity|].
  cbn [phone_free] in H. apply andb_true_iff in H as [H1 H2].
  apply negb_true_iff in H1. cbn [squeeze].
  destruct (isspace a) eqn:Ha.
  - rewrite (space_not_word a Ha) in H2. destruct inrun.
    + rewrite (Hin eq_refl). apply IH; auto.
    + cbn [phone_free]. rewrite phone_at_head by reflexivity.
      apply (IH false true); auto.
  - cbn [phone_free]. rewrite (IH _ false) by (discriminate || exact H2).
    rewrite (free_step w a _ t (sees_squeeze t _) H1). reflexivity.
Qed.

Lemma free_drop_while (t : list ascii) :
  phone_free false t = true -> phone_free false (drop_while isspace t) = true.
Proof.
  induction t as [|a t IH]; intros H; [reflexivity|]. cbn [drop_while].
  destruct (isspace a) eqn:Ha; [|exact H].
  cbn [phone_free] in H. apply andb_true_iff in H as [_ H].
  rewrite (space_not_word a Ha) in H. apply IH, H.
Qed.

Lemma sees_spaces (x e : list ascii) : forall b,
  Forall (fun c => isspace c = true) e -> sees b x (x ++ e).
Proof.
  intros b He. revert b. induction x as [|a x IH]; intros b.
  - apply sees_end; [reflexivity|]. destruct He as [|c e Hc _]; [reflexivity|].
    apply space_not_word, Hc.
  - apply sees_cons, IH.
Qed.

Lemma free_prefix (x e : list ascii) : forall w,
  Forall (fun c => isspace c = true) e ->
  phone_free w (x ++ e) = true -> phone_free w x = true.
Proof.
  intros w He. revert w. induction x as [|a x IH]; intros w H; [reflexivity|].
  cbn [app phone_free] in H |- *. apply andb_true_iff in H as [H1 H2].
  apply negb_true_iff in H1.
  rewrite (IH _ H2), (free_step w a x (x ++ e) (sees_spaces x e _ He) H1). reflexivity.
Qed.

Lemma take_while_holds (p : ascii -> bool) (l : list ascii) :
  Forall (fun c => p c = true) (take_while p l).
Proof.
  induction l as [|a l IH]; [constructor|]. cbn [take_while].
  destruct (p a) eqn:Ha; constructor; auto.
Qed.

Lemma free_strip (t : list ascii) :
  phone_free false t = true -> phone_free false (strip_chars t) = true.
Proof.
  intros H. unfold strip_chars.
  apply (free_prefix _ (rev (take_while isspace (rev (drop_while isspace t))))).
  - apply Forall_rev, take_while_holds.
  - rewrite rstrip_prefix. apply free_drop_while, H.
Qed.

(** The character steps bring no telephone number, unless the special
    characters are removed and the digits are kept. *)
Lemma free_clean_chars (sp nu lo : bool) (t : list ascii) :
  sp = false \/ nu = true ->
  phone_free false t = true -> phone_free false (clean_chars sp nu lo t) = true.
Proof.
  intros Hc H. destruct nu.
  - apply free_without_digits.
    eapply List.Forall_impl; [|apply (clean_chars_kept sp true lo)].
    intros c (_ & Hn & _). apply negb_true_iff, Hn. reflexivity.
  - destruct Hc as [->|Hc]; [|discriminate Hc]. unfold clean_chars.
    apply free_strip, free_squeeze; [discriminate|].
    destruct lo; [rewrite free_lower|]; exact H.
Qed.

(** *** Removing the matches of a pattern that has no white space *)

Section Taken.
Variable r : regex.
Hypothesis taken : forall prev t p' rest,
  rmatch r prev t accept = Some (p', rest) ->
  exists m, t = m ++ rest /\ Forall (fun c => nonspace c = true) m.

Lemma head_is_taken (m rest : list ascii) :
  Forall (fun c => nonspace c = true) m -> (length rest < length (m ++ rest))%nat ->
  head_is nonspace (m ++ rest) = true.
Proof.
  intros [|c m' Hc _]; [simpl; lia|]. intros _. exact Hc.
Qed.

Lemma at_inside_taken (m rest : list ascii) :
  Forall (fun c => nonspace c = true) m ->
  at_inside rest = true -> at_inside (m ++ rest) = true.
Proof.
  induction 1 as [|c m Hc _ IH]; [auto|]. intros H.
  cbn [app at_inside]. rewrite Hc, (IH H). apply orb_true_r.
Qed.

Lemma sub_loop_head_is : forall fuel prev t,
  head_is nonspace (sub_loop r [] fuel prev t) = true -> head_is nonspace t = true.
Proof.
  induction fuel as [|fuel IH]; intros prev t; [auto|].
  destruct t as [|a t']; [auto|]. cbn [sub_loop].
  destruct (rmatch r prev (a :: t') accept) as [[p' rest]|] eqn:E; [|auto].
  destruct (length rest <? length (a :: t'))%nat eqn:Hlt; [|auto].
  cbn [app]. intros _.
  destruct (taken _ _ _ _ E) as (m & Ht & Hm). rewrite Ht in Hlt |- *.
  apply head_is_taken; [exact Hm | apply Nat.ltb_lt, Hlt].
Qed.

Lemma sub_loop_at_inside : forall fuel prev t,
  at_inside (sub_loop r [] fuel prev t) = true -> at_inside t = true.
Proof.
  induction fuel as [|fuel IH]; intros prev t; [auto|].
  destruct t as [|a t']; [auto|]. cbn [sub_loop].
  assert (Hcopy : at_inside (a :: sub_loop r [] fuel (Some a) t') = true ->
                  at_inside (a :: t') = true).
  { cbn [at_inside]. intros H. apply andb_true_iff in H as [Hc H]. rewrite Hc.
    apply orb_true_iff in H as [H|H].
    - apply andb_true_iff in H as [H1 H2].
      rewrite H1, (sub_loop_head_is _ _ _ H2). reflexivity.
    - rewrite (IH _ _ H). apply orb_true_r. }
  destruct (rmatch r prev (a :: t') accept) as [[p' rest]|] eqn:E; [|exact Hcopy].
  destruct (length rest <? length (a :: t'))%nat eqn:Hlt; [|exact Hcopy].
  cbn [app]. intros H.
  destruct (taken _ _ _ _ E) as (m & -> & Hm).
  apply at_inside_taken; [exact Hm | apply (IH _ _ H)].
Qed.

(** The removal brings no address. *)
Lemma sub_loop_keeps_email : forall fuel prev t,
  none_at email_at t = true -> none_at email_at (sub_loop r [] fuel prev t) = true.
Proof.
  induction fuel as [|fuel IH]; intros prev t H; [exact H|].
  destruct t as [|a t']; [reflexivity|]. cbn [sub_loop].
  assert (Hcopy : none_at email_at (a :: sub_loop r [] fuel (Some a) t') = true).
  { cbn [none_at] in H |- *. apply andb_true_iff in H as [H1 H2].
    rewrite (IH _ _ H2), andb_true_r. apply negb_true_iff. apply negb_true_iff in H1.
    cbn [email_at] in H1 |- *. destruct (nonspace a); [|reflexivity]. cbn [andb] in *.
    destruct (at_inside (sub_loop r [] fuel (Some a) t')) eqn:Hat; [|reflexivity].
    rewrite (sub_loop_at_inside _ _ _ Hat) in H1. discriminate H1. }
  destruct (rmatch r prev (a :: t') accept) as [[p' rest]|] eqn:E; [|exact Hcopy].
  destruct (length rest <? length (a :: t'))%nat eqn:Hlt; [|exact Hcopy].
  cbn [app]. apply IH.
  destruct (taken _ _ _ _ E) as (m & Ht & _).
  apply (none_at_app email_at m). rewrite <- Ht. exact H.
Qed.

End Taken.

Lemma phone_taken_nonspace (prev : option ascii) (t : list ascii) (p' : option ascii)
    (rest : list ascii) :
  rmatch phone_re prev t accept = Some (p', rest) ->
  exists m, t = m ++ rest /\ Forall (fun c => nonspace c = true) m.
Proof.
  intros E. destruct (phone_taken _ _ _ _ E) as (_ & _ & _ & _ & m & Ht & _ & Hm).
  exists m. auto.
Qed.

Lemma phones_keeps_email (p : bool) (t : list ascii) :
  none_at email_at t = true -> none_at email_at (phones p t) = true.
Proof.
  intros H. destruct p; [|exact H].
  assert (E : phones true t = sub_chars phone_re [] t).
  { unfold phones. unfold sub_chars at 1.
    apply (sub_free_fixed ten_digits_re ten_engine).
    apply (sub_phone_free (length t) None t false); [lia | left; reflexivity]. }
  rewrite E. apply (sub_loop_keeps_email phone_re phone_taken_nonspace), H.
Qed.

(** *** The cleaner by its flags *)

Lemma clean_text_flags (text : string) (o : gmap string bool) :
  get o "remove_extra_spaces" true = true ->
  clean_text text (Some o) =
  of_chars (clean_flags (get o "remove_urls" true) (get o "remove_emails" false)
              (get o "remove_phone_numbers" false)
              (get o "remove_special_chars" false)
              (get o "remove_numbers" false) (get o "lowercase" false)
              (chars text)).
Proof.
  intros Hx. unfold clean_text. rewrite Hx.
  unfold clean_flags, clean_chars, clean_patterns, phones, strip, lower, sub.
  destruct (get o "remove_urls" true);
    destruct (get o "remove_emails" false);
    destruct (get o "remove_phone_numbers" false);
    destruct (get o "remove_special_chars" false);
    destruct (get o "remove_numbers" false);
    destruct (get o "lowercase" false);
    rewrite ?chars_of_chars, ?sub_special, ?sub_digits, ?sub_spaces;
    reflexivity.
Qed.

(** The cleaned text has no address when the addresses are removed. *)
Lemma cleaned_no_email (u p sp nu lo : bool) (s : list ascii) :
  none_at email_at (clean_flags u true p sp nu lo s) = true.
Proof.
  unfold clean_flags. apply none_email_clean_chars, phones_keeps_email.
  unfold clean_patterns.
  apply (sub_loop_none email_re email_at nonspace email_at_runs email_engine). lia.
Qed.

(** It has no URL when the URLs are removed and no later step can complete
    one: the special characters go, or nothing else is removed or changed. *)
Lemma cleaned_no_url (e p sp nu lo : bool) (s : list ascii) :
  sp = true \/ (nu = false /\ lo = false /\ p = false) ->
  none_at url_at (clean_flags true e p sp nu lo s) = true.
Proof.
  intros Hc. destruct sp.
  - apply (none_at_without url_at ":"%char); [apply url_at_colon|].
    apply (kept_special_without nu lo); [reflexivity | apply clean_chars_kept].
  - destruct Hc as [Hc|(-> & -> & ->)]; [discriminate Hc|].
    apply (cleaned_none true e false false false s). all: auto.
Qed.

(** It has no telephone number when they are removed, unless the special
    characters are removed after them and the digits are kept. *)
Lemma cleaned_no_phone (u e sp nu lo : bool) (s : list ascii) :
  sp = false \/ nu = true ->
  phone_free false (clean_flags u e true sp nu lo s) = true.
Proof.
  intros Hc. unfold clean_flags. apply free_clean_chars; [exact Hc | apply phones_free].
Qed.

Lemma clean_flags_twice (u e p sp nu lo : bool) (s : list ascii) :
  (if sp then p = false \/ nu = true
   else u = false \/ (nu = false /\ lo = false /\ p = false)) ->
  let out := clean_flags u e p sp nu lo s in
  clean_flags u e p sp nu lo out = out.
Proof.
  intros Hc. cbv zeta. unfold clean_flags at 1.
  rewrite clean_patterns_fixed, phones_fixed.
  - apply clean_chars_idempotent.
  - intros ->. apply cleaned_no_phone. destruct sp.
    + destruct Hc as [Hc|Hc]; [discriminate Hc | right; exact Hc].
    + left; reflexivity.
  - intros ->. apply cleaned_no_url. destruct sp; [left; reflexivity|].
    destruct Hc as [Hc|Hc]; [discriminate Hc | right; exact Hc].
  - intros ->. apply cleaned_no_email.
Qed.

(** For every other choice of the flags, a text that is cleaned further by
    the second run. *)
Lemma clean_flags_unstable (u e p sp nu lo : bool) :
  (if sp then p = false \/ nu = true
   else u = false \/ (nu = false /\ lo = false /\ p = false)) \/
  exists s, clean_flags u e p sp nu lo (clean_flags u e p sp nu lo s)
            <> clean_flags u e p sp nu lo s.
Proof.
  destruct sp.
  - destruct p; [|left; left; reflexivity].
    destruct nu; [left; right; reflexivity|].
    right. exists (chars "12-3456-7890").
    destruct u, e, lo; intros H; vm_compute in H; discriminate H.
  - destruct u; [|left; left; reflexivity].
    destruct lo.
    { right. exists (chars "HTTP://a").
      destruct e, p, nu; intros H; vm_compute in H; discriminate H. }
    destruct nu.
    { right. exists (chars "http:1//a").
      destruct e, p; intros H; vm_compute in H; discriminate H. }
    destruct p.
    { right. exists (chars "http:/123-456-7890/a").
      destruct e; intros H; vm_compute in H; discriminate H. }
    left; right. auto.
Qed.

End PhoneFacts.

(** ** C1: idempotence of [clean_text] *)

Section CleanTextExamples.
Import DataCleaner.

(** A URL in capitals is kept by the URL step, which is case sensitive, and
    put in lower case after it: the second run removes it. *)
Example urls_then_lowercase :
  let o := Some (options_of true false false false false true true) in
  clean_text "HTTP://a" o = "http://a" /\ clean_text "http://a" o = "".
Proof. vm_compute. split; reflexivity. Qed.

(** Removing the special characters can put ten digits side by side. *)
Example phones_then_special :
  let o := Some (options_of false false true true false false true) in
  clean_text "12-3456-7890" o = "1234567890" /\ clean_text "1234567890" o = "".
Proof. vm_compute. split; reflexivity. Qed.

(** Removing a telephone number or a digit can complete a URL. *)
Example urls_then_phones :
  let o := Some (options_of true false true false false false true) in
  clean_text "http:/123-456-7890/a" o = "http://a" /\ clean_text "http://a" o = "".
Proof. vm_compute. split; reflexivity. Qed.

Example urls_then_numbers :
  let o := Some (options_of true false false false true false true) in
  clean_text "http:1//a" o = "http://a" /\ clean_text "http://a" o = "".
Proof. vm_compute. split; reflexivity. Qed.

(** The default options on a usual text. *)
Example clean_default :
  clean_text "Visit  http://a.b/c?d=1  now,  mail x@y.z or call 123-456-7890 !" None
  = "Visit now, mail x@y.z or call 123-456-7890 !".
Proof. vm_compute. reflexivity. Qed.

Example clean_all_but_numbers :
  clean_text "Visit  http://a.b/c?d=1  now,  mail x@y.z or call 123-456-7890 / 1234567890 ! ABC"
    (Some (options_of true true true true false true true))
  = "visit now mail or call abc".
Proof. vm_compute. reflexivity. Qed.

(** The addresses and the telephone numbers removed, the rest in lower case. *)
Example clean_phones_only :
  let o := Some (options_of false true true false false true true) in
  clean_text "Call 555-123-4567 or 555.1234567 , not 12-3456-7890; MAIL x@y.z" o
  = "call or , not 12-3456-7890; mail".
Proof. vm_compute. reflexivity. Qed.

End CleanTextExamples.


(** With the options left out, the defaults are taken: the URLs are removed
    and the white space is collapsed, and cleaning twice is cleaning once. *)
Example clean_text_default_idempotent (s : string) :
  DataCleaner.clean_text (DataCleaner.clean_text s None) None
  = DataCleaner.clean_text s None.
Proof.
  change (DataCleaner.clean_text (DataCleaner.clean_text s None) None)
    with (DataCleaner.clean_text
            (DataCleaner.clean_text s (Some DataCleaner.default_options))
            (Some DataCleaner.default_options)).
  change (DataCleaner.clean_text s None)
    with (DataCleaner.clean_text s (Some DataCleaner.default_options)).
  rewrite !(PhoneFacts.clean_text_flags _ DataCleaner.default_options)
    by reflexivity.
  rewrite ReFacts.chars_of_chars, PhoneFacts.clean_flags_twice; [reflexivity|].
  vm_compute. right. auto.
Qed.



(** ** C2: the rules of [validate_file] *)

Module ValidatorFacts.
Import Chars Str Py FileValidator ValidatorSpec.

Lemma supported_iff (ext : string) :
  (exists label, assoc ext SUPPORTED_EXTENSIONS = Some label) <->
  In ext [".pdf"; ".docx"; ".doc"; ".xlsx"; ".xls"; ".csv"; ".txt"].
Proof.
  unfold SUPPORTED_EXTENSIONS; cbn [assoc]. split.
  - intros [label H].
    repeat match type of H with
    | (if String.eqb ?a ?b then _ else _) = _ =>
        destruct (String.eqb_spec a b) as [E|_]; [subst; simpl; tauto|]
    end. discriminate.
  - intros H.
    repeat (destruct H as [<-|H]; [vm_compute; eexists; reflexivity|]).
    destruct H.
Qed.

End ValidatorFacts.

(** C2: [validate_file] answers by the first rule that fails, in the order
    existence, extension, size above the maximum, empty file; the extension
    is compared in lower case with the seven supported ones; and a file that
    exists and has a supported extension is valid exactly when its size is
    positive and at most 50 * 1024 * 1024 bytes. *)
Theorem validate_file_rules (stat : FileValidator.stat_fn) (file_path : string) :
  let ext := ValidatorSpec.extension file_path in
  let supported := In ext [".pdf"; ".docx"; ".doc"; ".xlsx"; ".xls"; ".csv"; ".txt"] in
  (stat file_path = None ->
   FileValidator.validate_file stat file_path = Py.Ok (false, "File does not exist")) /\
  (forall size, stat file_path = Some size -> ~ supported ->
   FileValidator.validate_file stat file_path
   = Py.Ok (false, ValidatorSpec.unsupported_message ext)) /\
  (forall size, stat file_path = Some size -> supported ->
   (52428800 < size)%N ->
   FileValidator.validate_file stat file_path
   = Py.Ok (false, ValidatorSpec.too_large_message size)) /\
  (forall size, stat file_path = Some size -> supported ->
   size = 0%N ->
   FileValidator.validate_file stat file_path = Py.Ok (false, "File is empty")) /\
  (forall size, stat file_path = Some size -> supported ->
   exists ok message,
     FileValidator.validate_file stat file_path = Py.Ok (ok, message) /\
     (ok = true <-> (0 < size <= 50 * 1024 * 1024)%N)).
Proof.
  intros ext supported. unfold FileValidator.validate_file, FileValidator.exists_,
    FileValidator.getsize.
  fold (ValidatorSpec.extension file_path). fold ext.
  pose proof (ValidatorFacts.supported_iff ext) as Hs. fold supported in Hs.
  repeat split.
  - intros ->. reflexivity.
  - intros size -> Hn. cbn [negb].
    destruct (FileValidator.assoc ext FileValidator.SUPPORTED_EXTENSIONS) eqn:Ha.
    + exfalso. apply Hn, Hs. eauto.
    + reflexivity.
  - intros size -> Hy Hlt. cbn [negb]. apply Hs in Hy as [label ->].
    cbn [Py.bind]. unfold FileValidator.MAX_FILE_SIZE.
    replace (50 * 1024 * 1024 <? size)%N with true
      by (symmetry; apply N.ltb_lt; lia).
    reflexivity.
  - intros size -> Hy ->. cbn [negb]. apply Hs in Hy as [label ->]. reflexivity.
  - intros size -> Hy. cbn [negb]. apply Hs in Hy as [label ->].
    cbn [Py.bind]. unfold FileValidator.MAX_FILE_SIZE.
    destruct (N.ltb_spec (50 * 1024 * 1024) size) as [Hlt|Hle].
    + do 2 eexists. split; [reflexivity|]. split; [discriminate | lia].
    + destruct (N.eqb_spec size 0) as [->|Hne].
      * do 2 eexists. split; [reflexivity|]. split; [discriminate | lia].
      * do 2 eexists. split; [reflexivity|]. split; [lia | reflexivity].
Qed.

Lemma validate_file_rules_witness :
  FileValidator.validate_file (Fixtures.one_file "in/Report.PDF" 52428800) "missing.pdf"
  = Py.Ok (false, "File does not exist") /\
  FileValidator.validate_file (Fixtures.one_file "in/archive.tar.gz" 0) "in/archive.tar.gz"
  = Py.Ok (false, ValidatorSpec.unsupported_message ".gz") /\
  FileValidator.validate_file (Fixtures.one_file "in/Report.PDF" 52428801) "in/Report.PDF"
  = Py.Ok (false, ValidatorSpec.too_large_message 52428801) /\
  FileValidator.validate_file (Fixtures.one_file "in/Report.PDF" 0) "in/Report.PDF"
  = Py.Ok (false, "File is empty") /\
  exists ok message,
    FileValidator.validate_file (Fixtures.one_file "in/Report.PDF" 52428800) "in/Report.PDF"
    = Py.Ok (ok, message) /\
    (ok = true <-> (0 < 52428800 <= 50 * 1024 * 1024)%N).
Proof.
  split; [|split; [|split; [|split]]].
  - apply (validate_file_rules (Fixtures.one_file "in/Report.PDF" 52428800) "missing.pdf").
    reflexivity.
  - apply (validate_file_rules (Fixtures.one_file "in/archive.tar.gz" 0) "in/archive.tar.gz")
      with (size := 0%N); [reflexivity|].
    vm_compute. intros H.
    repeat (destruct H as [H|H]; [discriminate H|]). exact H.
  - apply (validate_file_rules (Fixtures.one_file "in/Report.PDF" 52428801) "in/Report.PDF");
      [reflexivity | vm_compute; tauto | reflexivity].
  - apply (validate_file_rules (Fixtures.one_file "in/Report.PDF" 0) "in/Report.PDF")
      with (size := 0%N); [reflexivity | vm_compute; tauto | reflexivity].
  - apply (validate_file_rules (Fixtures.one_file "in/Report.PDF" 52428800) "in/Report.PDF");
      [reflexivity | vm_compute; tauto].
Defined.

Example validate_file_boundary :
  FileValidator.validate_file (Fixtures.one_file "a.csv" 52428800) "a.csv"
  = Py.Ok (true, "Valid CSV File") /\
  FileValidator.validate_file (Fixtures.one_file "a.csv" 52428801) "a.csv"
  = Py.Ok (false, "File too large: 50.00MB. Maximum size: 50.0MB") /\
  FileValidator.validate_file (Fixtures.one_file "a.csv" 1) "a.csv"
  = Py.Ok (true, "Valid CSV File").
Proof. vm_compute. repeat split; reflexivity. Qed.

(** ** The formatter *)

Module FormatterFacts.
Import Chars Str Py DataFormatter FormatterSpec ReFacts.

(** [len(text.split())] counts the word starts. *)
Lemma split_chars_length (cur l : list ascii) :
  length (split_chars cur l)
  = (match cur with [] => 0 | _ => 1 end
     + word_starts (match cur with [] => true | _ => false end) l)%nat.
Proof.
  revert cur; induction l as [|a l IH]; intros cur; simpl.
  - destruct cur; reflexivity.
  - destruct (isspace a).
    + destruct cur; simpl; rewrite IH; reflexivity.
    + rewrite IH. destruct cur; simpl; lia.
Qed.

Lemma split_length (text : string) : length (split text) = word_count text.
Proof.
  unfold split, word_count. rewrite length_map, split_chars_length. reflexivity.
Qed.

Lemma lookup_clean_cells (k : string) (row : dict) :
  lookup k (map (fun kv => (fst kv, clean_cell (snd kv))) row)
  = option_map clean_cell (lookup k row).
Proof.
  induction row as [|[k' v] row IH]; [reflexivity|]. simpl.
  destruct (String.eqb k' k); [reflexivity | exact IH].
Qed.

Lemma keys_clean_cells (row : dict) :
  keys (map (fun kv => (fst kv, clean_cell (snd kv))) row) = keys row.
Proof. unfold keys. rewrite map_map. reflexivity. Qed.

Lemma no_wrong_keys (fieldnames ks : list string) :
  (forall k, In k ks -> In k fieldnames) ->
  List.filter (fun k => negb (existsb (String.eqb k) fieldnames)) ks = [].
Proof.
  induction ks as [|k ks IH]; intros H; [reflexivity|]. simpl.
  assert (Hk : existsb (String.eqb k) fieldnames = true).
  { apply existsb_exists. exists k. split; [apply H; left; reflexivity|].
    apply String.eqb_refl. }
  rewrite Hk. simpl. apply IH. intros k' Hk'. apply H. right. exact Hk'.
Qed.

Lemma dict_to_list_fits (fieldnames : list string) (row : dict) :
  fits fieldnames row ->
  dict_to_list fieldnames (map (fun kv => (fst kv, clean_cell (snd kv))) row)
  = Ok (map (fun k => default (VStr "") (option_map clean_cell (lookup k row))) fieldnames).
Proof.
  intros H. unfold dict_to_list. rewrite keys_clean_cells, no_wrong_keys by exact H.
  f_equal. apply map_ext. intros k. rewrite lookup_clean_cells. reflexivity.
Qed.

Lemma write_rows_fit (fieldnames : list string) (rows : list dict) :
  Forall (fits fieldnames) rows ->
  write_rows fieldnames (map VDict rows)
  = (map (row_cells fieldnames) rows, Ok tt).
Proof.
  induction 1 as [|row rows Hrow Hrows IH]; [reflexivity|].
  cbn [map write_rows items_method bind]. rewrite dict_to_list_fits by exact Hrow.
  rewrite IH. f_equal. f_equal. unfold row_cells. rewrite map_map.
  apply map_ext. intros k. destruct (lookup k row); reflexivity.
Qed.

End FormatterFacts.

Module StrFacts.

Lemma append_cons (c : ascii) (s t : string) : String c s +:+ t = String c (s +:+ t).
Proof. reflexivity. Qed.

Lemma append_nil_r (s : string) : s +:+ "" = s.
Proof.
  induction s as [|c s IH]; [reflexivity|]. rewrite append_cons, IH. reflexivity.
Qed.

Lemma append_assoc (s t u : string) : (s +:+ t) +:+ u = s +:+ t +:+ u.
Proof.
  induction s as [|c s IH]; [reflexivity|]. rewrite !append_cons, IH. reflexivity.
Qed.

Lemma concat_cons (x : string) (xs : list string) :
  String.concat "" (x :: xs) = x +:+ String.concat "" xs.
Proof.
  destruct xs as [|y xs]; cbn [String.concat].
  - rewrite append_nil_r. reflexivity.
  - reflexivity.
Qed.

Lemma concat_app (l1 l2 : list string) :
  String.concat "" (l1 ++ l2) = String.concat "" l1 +:+ String.concat "" l2.
Proof.
  induction l1 as [|x l1 IH]; [reflexivity|].
  rewrite <- app_comm_cons, !concat_cons, IH, append_assoc. reflexivity.
Qed.

Lemma concat_flat_map {A : Type} (g : A -> list string) (l : list A) :
  String.concat "" (map (fun a => String.concat "" (g a)) l)
  = String.concat "" (flat_map g l).
Proof.
  induction l as [|a l IH]; [reflexivity|].
  cbn [map flat_map]. rewrite concat_cons, concat_app, IH. reflexivity.
Qed.

End StrFacts.

(** ** C8 and C10: the text made by [to_xml] *)

Module XmlFacts.
Import Chars Str Py DataFormatter FormatterSpec StrFacts.

(** The lines that [dict_to_xml] puts for one entry of the mapping. *)
Lemma entry_lines (kv : string * value) :
  exists lines, Forall indented_line lines /\
    (let '(key, value) := kv in
     let safe_key := safe_key key in
     match value with
     | VDict d' => "  " +:+ dict_to_xml_helper d' safe_key 2 +:+ nl
     | VList l =>
         String.concat ""
           (map (fun item =>
                   match item with
                   | VDict d' => "  " +:+ dict_to_xml_helper d' safe_key 2 +:+ nl
                   | _ => "  " +:+ leaf safe_key item +:+ nl
                   end) l)
     | _ => "  " +:+ leaf safe_key value +:+ nl
     end) = String.concat "" lines.
Proof.
  destruct kv as [key value].
  assert (one : forall x, exists lines, Forall indented_line lines /\
                 "  " +:+ x +:+ nl = String.concat "" lines).
  { intros x. exists ["  " +:+ x +:+ nl]. split; [|reflexivity].
    constructor; [exists x; reflexivity | constructor]. }
  destruct value; try apply one.
  eexists. split; [|reflexivity].
  apply List.Forall_forall. intros piece Hin. apply in_map_iff in Hin as (item & <- & _).
  destruct item; eexists; reflexivity.
Qed.

Lemma entries_lines (d : dict) (f : string * value -> string) :
  (forall kv, exists lines, Forall indented_line lines /\ f kv = String.concat "" lines) ->
  exists lines, Forall indented_line lines /\
    String.concat "" (map f d) = String.concat "" lines.
Proof.
  intros Hf. induction d as [|kv d (lines & Hl & IH)].
  - exists []. split; [constructor | reflexivity].
  - destruct (Hf kv) as (l1 & H1 & E1). exists (l1 ++ lines). split.
    + apply Forall_app. split; assumption.
    + cbn [map]. rewrite concat_cons, concat_app, E1, IH. reflexivity.
Qed.

End XmlFacts.

Example to_xml_flat :
  DataFormatter.to_xml [("document type", Py.VStr "PDF"); ("n", Py.VList [Py.VInt 1; Py.VInt 2])]
    "document"
  = DataFormatter.xml_declaration +:+ DataFormatter.nl
    +:+ "<document>" +:+ DataFormatter.nl
    +:+ "  <document_type>PDF</document_type>" +:+ DataFormatter.nl
    +:+ "  <n>1</n>" +:+ DataFormatter.nl
    +:+ "  <n>2</n>" +:+ DataFormatter.nl
    +:+ "</document>".
Proof. vm_compute. reflexivity. Qed.

(** C10: a string value goes into the element as it is, whatever its
    characters: a mapping with the value ["x<y&z>"] gives the content
    [x<y&z>]. The key becomes the tag with its spaces and hyphens replaced by
    underscores and every other character kept, also a [<]. *)
Theorem to_xml_escapes_nothing :
  (forall (key text root_name : string),
     DataFormatter.to_xml [(key, Py.VStr text)] root_name
     = DataFormatter.xml_declaration +:+ DataFormatter.nl
       +:+ "<" +:+ root_name +:+ ">" +:+ DataFormatter.nl
       +:+ "  <" +:+ DataFormatter.safe_key key +:+ ">" +:+ text
       +:+ "</" +:+ DataFormatter.safe_key key +:+ ">" +:+ DataFormatter.nl
       +:+ "</" +:+ root_name +:+ ">") /\
  (forall (key text tag : string) (level : nat),
     DataFormatter.dict_to_xml_helper [(key, Py.VStr text)] tag level
     = "<" +:+ tag +:+ ">" +:+ DataFormatter.nl
       +:+ DataFormatter.repeat_str "  " level
       +:+ "  <" +:+ DataFormatter.safe_key key +:+ ">" +:+ text
       +:+ "</" +:+ DataFormatter.safe_key key +:+ ">" +:+ DataFormatter.nl
       +:+ DataFormatter.repeat_str "  " level +:+ "</" +:+ tag +:+ ">") /\
  (forall key : string,
     Str.chars (DataFormatter.safe_key key)
     = map (fun c => if Ascii.eqb c " " || Ascii.eqb c "-" then "_"%char else c)
           (Str.chars key)) /\
  DataFormatter.to_xml [("a<b c-d", Py.VStr "x<y&z>")] "document"
  = DataFormatter.xml_declaration +:+ DataFormatter.nl
    +:+ "<document>" +:+ DataFormatter.nl
    +:+ "  <a<b_c_d>x<y&z></a<b_c_d>" +:+ DataFormatter.nl
    +:+ "</document>".
Proof.
  repeat split.
  - intros key text root_name.
    unfold DataFormatter.to_xml, DataFormatter.dict_to_xml, DataFormatter.leaf.
    cbn [map String.concat Py.str].
    rewrite !StrFacts.append_assoc. reflexivity.
  - intros key text tag level.
    unfold DataFormatter.dict_to_xml_helper.
    cbn [DataFormatter.xml_helper map String.concat].
    unfold DataFormatter.leaf. cbn [Py.str].
    rewrite !StrFacts.append_assoc. reflexivity.
  - intros key. unfold DataFormatter.safe_key, Str.replace_char.
    rewrite !ReFacts.chars_of_chars, map_map. apply map_ext. intros c.
    destruct (Ascii.eqb_spec c " ") as [->|H1]; [reflexivity|].
    cbn [orb]. reflexivity.
Qed.

(** ** C6 and C9: the features and the statistics *)

Module RecordFacts.
Import Chars Str Py DataFormatter FormatterSpec FormatterFacts.

Lemma split_method_text (data : dict) (text : string) :
  full_text_of data = Some text ->
  split_method (get data "full_text" (VStr "")) = Ok (split text).
Proof.
  unfold full_text_of, get. destruct (lookup "full_text" data) as [[]|]; try discriminate.
  - intros [= ->]. reflexivity.
  - intros [= <-]. reflexivity.
Qed.

Lemma has_tables_of (data : dict) (tables : list value) :
  tables_of data = Some tables ->
  (if has_key "tables" data
   then let* n := len (get data "tables" (VList [])) in Ok (0 <? n)%nat
   else Ok false)
  = Ok (match tables with [] => false | _ => true end).
Proof.
  unfold tables_of, has_key, get.
  destruct (lookup "tables" data) as [[]|]; try discriminate.
  - intros [= ->]. destruct tables; reflexivity.
  - intros [= <-]. reflexivity.
Qed.

End RecordFacts.

(** C6, as stated, does not hold for [has_structure]: the record of a text
    file has its units in the field ["lines"], and [has_structure] is
    false for it. *)
Lemma has_structure_ignores_lines :
  ~ (forall (data ai : Py.dict),
       DataFormatter.create_ai_training_format data = Py.Ok ai ->
       FormatterSpec.feature ai "has_structure"
       = Some (Py.VBool (FormatterSpec.units_field_present data))).
Proof.
  intros H.
  destruct (DataFormatter.create_ai_training_format Fixtures.text_record) as [ai|e] eqn:E;
    [|discriminate E].
  specialize (H _ _ E). vm_compute in E. injection E as <-.
  vm_compute in H. discriminate H.
Qed.

(** C6, amended: for a record whose ["full_text"], if any, is a string and
    whose ["tables"], if any, is a list, [create_ai_training_format] gives
    [word_count] the number of words of the text (0 without text),
    [has_tables] true exactly when there is a table, [has_structure] true
    exactly when the record has the field ["pages"] or the field
    ["paragraphs"], and [structured_data] the tables if the field is there,
    else the rows of ["data"] if that field is there, else the empty list. *)
Theorem create_ai_training_format_fields
  (data : Py.dict) (text : string) (tables : list Py.value) :
  FormatterSpec.full_text_of data = Some text ->
  FormatterSpec.tables_of data = Some tables ->
  exists ai,
    DataFormatter.create_ai_training_format data = Py.Ok ai /\
    FormatterSpec.feature ai "word_count"
    = Some (Py.VInt (Z.of_nat (FormatterSpec.word_count text))) /\
    FormatterSpec.feature ai "has_tables"
    = Some (Py.VBool (match tables with [] => false | _ => true end)) /\
    FormatterSpec.feature ai "has_structure"
    = Some (Py.VBool (Py.has_key "pages" data || Py.has_key "paragraphs" data)) /\
    Py.lookup "structured_data" ai
    = Some (match Py.lookup "tables" data with
            | Some t => t
            | None => match Py.lookup "data" data with
                      | Some rows => rows
                      | None => Py.VList []
                      end
            end).
Proof.
  intros Htext Htables. unfold DataFormatter.create_ai_training_format.
  rewrite (RecordFacts.split_method_text data text Htext).
  cbn [Py.bind]. rewrite (RecordFacts.has_tables_of data tables Htables).
  cbn [Py.bind]. rewrite FormatterFacts.split_length.
  eexists. split; [reflexivity|].
  destruct (Py.lookup "full_text" data), (Py.lookup "metadata" data),
    (Py.lookup "tables" data), (Py.lookup "data" data);
    repeat split; reflexivity.
Qed.

Lemma create_ai_training_format_fields_witness :
  exists ai,
    DataFormatter.create_ai_training_format Fixtures.text_record = Py.Ok ai /\
    FormatterSpec.feature ai "word_count" = Some (Py.VInt 3) /\
    FormatterSpec.feature ai "has_tables" = Some (Py.VBool false) /\
    FormatterSpec.feature ai "has_structure" = Some (Py.VBool false) /\
    Py.lookup "structured_data" ai = Some (Py.VList []).
Proof.
  apply (create_ai_training_format_fields Fixtures.text_record "a b c" []); reflexivity.
Defined.

Example create_ai_training_format_pdf :
  exists ai,
    DataFormatter.create_ai_training_format Fixtures.pdf_record = Py.Ok ai /\
    FormatterSpec.feature ai "word_count" = Some (Py.VInt 3) /\
    FormatterSpec.feature ai "has_tables" = Some (Py.VBool false) /\
    FormatterSpec.feature ai "has_structure" = Some (Py.VBool true).
Proof. eexists. vm_compute. repeat split; reflexivity. Qed.

(** C9: for a record whose ["full_text"], if any, is a string and whose
    ["tables"], if any, is a list, [get_statistics] reports [has_tables]
    true exactly when the record has the key ["tables"], and [table_count]
    the length of the list; with an empty list [has_tables] is true and
    [table_count] is 0, while [create_ai_training_format] gives [has_tables]
    false. *)
Theorem get_statistics_has_tables
  (data : Py.dict) (text : string) (tables : list Py.value) :
  FormatterSpec.full_text_of data = Some text ->
  FormatterSpec.tables_of data = Some tables ->
  exists stats,
    DataFormatter.get_statistics data = Py.Ok stats /\
    Py.lookup "has_tables" stats = Some (Py.VBool (Py.has_key "tables" data)) /\
    Py.lookup "table_count" stats = Some (Py.VInt (Z.of_nat (length tables))) /\
    (Py.lookup "tables" data = Some (Py.VList []) ->
     Py.lookup "has_tables" stats = Some (Py.VBool true) /\
     Py.lookup "table_count" stats = Some (Py.VInt 0) /\
     exists ai,
       DataFormatter.create_ai_training_format data = Py.Ok ai /\
       FormatterSpec.feature ai "has_tables" = Some (Py.VBool false)).
Proof.
  intros Htext Htables.
  assert (Hai : Py.lookup "tables" data = Some (Py.VList []) ->
                exists ai,
                  DataFormatter.create_ai_training_format data = Py.Ok ai /\
                  FormatterSpec.feature ai "has_tables" = Some (Py.VBool false)).
  { intros Hempty.
    assert (Ht : FormatterSpec.tables_of data = Some []).
    { unfold FormatterSpec.tables_of. rewrite Hempty. reflexivity. }
    destruct (create_ai_training_format_fields data text [] Htext Ht)
      as (ai & E & _ & Hh & _).
    exists ai. split; assumption. }
  unfold DataFormatter.get_statistics.
  unfold FormatterSpec.full_text_of in Htext.
  unfold FormatterSpec.tables_of in Htables. unfold Py.has_key.
  destruct (Py.lookup "full_text" data) as [[]|]; try discriminate Htext;
    destruct (Py.lookup "tables" data) as [[]|] eqn:Et; try discriminate Htables;
    injection Htables as <-;
    cbn [Py.len Py.split_method Py.bind];
    destruct (Py.lookup "total_pages" data), (Py.lookup "total_paragraphs" data);
    (eexists; split; [reflexivity|]);
    (split; [reflexivity|]); (split; [reflexivity|]);
    intros Hempty; try discriminate Hempty;
    injection Hempty as ->; (split; [reflexivity|]); (split; [reflexivity|]);
    apply Hai; reflexivity.
Qed.

Lemma get_statistics_has_tables_witness :
  exists stats,
    DataFormatter.get_statistics Fixtures.pdf_record = Py.Ok stats /\
    Py.lookup "has_tables" stats = Some (Py.VBool true) /\
    Py.lookup "table_count" stats = Some (Py.VInt 0) /\
    exists ai,
      DataFormatter.create_ai_training_format Fixtures.pdf_record = Py.Ok ai /\
      FormatterSpec.feature ai "has_tables" = Some (Py.VBool false).
Proof.
  destruct (get_statistics_has_tables Fixtures.pdf_record "a b c" [] eq_refl eq_refl)
    as (stats & E & _ & _ & H).
  destruct (H eq_refl) as (Hh & Hc & Hai).
  exists stats. repeat split; assumption.
Defined.

(** ** C7: [to_csv] *)

Module CsvFacts.
Import Chars Str Py Fs DataFormatter FormatterSpec FormatterFacts.

Lemma wrong_keys_nil (fieldnames ks : list string) :
  List.filter (fun k => negb (existsb (String.eqb k) fieldnames)) ks = [] ->
  forall k, In k ks -> In k fieldnames.
Proof.
  induction ks as [|k0 ks IH]; intros H k Hin; [destruct Hin|].
  simpl in H. destruct (existsb (String.eqb k0) fieldnames) eqn:E; simpl in H;
    [|discriminate H].
  destruct Hin as [<-|Hin]; [|apply IH; assumption].
  apply existsb_exists in E as (k' & Hk' & Heq).
  apply String.eqb_eq in Heq. subst k'. exact Hk'.
Qed.

(** A row with a key that is no field name stops the writing: the rows
    before it are written. *)
Lemma write_rows_stop (fieldnames : list string) (good : list dict) (bad : dict)
  (rest : list dict) :
  Forall (fits fieldnames) good -> ~ fits fieldnames bad ->
  exists cause,
    String.prefix "dict contains fields not in fieldnames: " cause = true /\
    write_rows fieldnames (map VDict (good ++ bad :: rest))
    = (map (row_cells fieldnames) good, Raise (Exn "ValueError" cause)).
Proof.
  intros Hgood Hbad. induction Hgood as [|row good Hrow Hgood IH].
  - cbn [app map write_rows items_method bind]. unfold dict_to_list.
    rewrite keys_clean_cells.
    destruct (List.filter (fun k => negb (existsb (String.eqb k) fieldnames)) (keys bad))
      as [|w ws] eqn:E.
    + exfalso. apply Hbad. exact (wrong_keys_nil fieldnames (keys bad) E).
    + eexists. split; [|reflexivity].
      generalize (join ", " (map repr_str (w :: ws))). intros t.
      destruct t; reflexivity.
  - destruct IH as (cause & Hc & Hw). exists cause. split; [exact Hc|].
    cbn [app map write_rows items_method bind].
    rewrite dict_to_list_fits by exact Hrow.
    cbn [map] in Hw. rewrite Hw. f_equal. f_equal. unfold row_cells. rewrite map_map.
    apply map_ext. intros k. destruct (lookup k row); reflexivity.
Qed.

Lemma fits_self (row : dict) : fits (keys row) row.
Proof. intros k H. exact H. Qed.

End CsvFacts.



(** Of the rows [{"a": 1}], [{"a": 2}], [{"b": 3}], [{"a": 4}] the file
    holds the header and the first two. *)
Example to_csv_stops_at_other_key :
  DataFormatter.to_csv (fun _ => None)
    (Py.VList (map Py.VDict [[("a", Py.VInt 1)]; [("a", Py.VInt 2)];
                             [("b", Py.VInt 3)]; [("a", Py.VInt 4)]]))
    "out.csv" ∅
  = ("Error creating CSV: dict contains fields not in fieldnames: 'b'",
     <["out.csv" := Fs.Csv [["a"]; ["1"]; ["2"]]]> ∅).
Proof. reflexivity. Qed.


(** ** C5: the extractors catch what their body raises *)

Module ExtractFacts.
Import Chars Str Py Converters AppSpec.

Lemma pdf_record_no_error (e : env) (p : string) (d : dict) :
  PDFConverter.extract_body e p = Ok d -> lookup "error" d = None.
Proof.
  unfold PDFConverter.extract_body. intros H. through_binds H.
  injection H as <-. reflexivity.
Qed.

Lemma word_record_no_error (e : env) (p : string) (d : dict) :
  WordConverter.extract_body e p = Ok d -> lookup "error" d = None.
Proof.
  unfold WordConverter.extract_body. intros H. through_binds H.
  injection H as <-. reflexivity.
Qed.

Lemma excel_record_no_error (e : env) (p : string) (d : dict) :
  ExcelConverter.extract_body e p = Ok d -> lookup "error" d = None.
Proof.
  unfold ExcelConverter.extract_body. intros H. through_binds H.
  injection H as <-. reflexivity.
Qed.

Lemma text_record_no_error (e : env) (p enc : string) (d : dict) :
  TextConverter.extract_body e p enc = Ok d -> lookup "error" d = None.
Proof.
  unfold TextConverter.extract_body, TextConverter._extract_csv,
    TextConverter._extract_plain_text.
  intros H. destruct (endswith ".csv" (lower p)); through_binds H;
    injection H as <-; reflexivity.
Qed.

Lemma body_no_error (e : env) (c : converter) (d : dict) :
  body e c = Ok d -> lookup "error" d = None.
Proof.
  destruct c; simpl.
  - apply pdf_record_no_error.
  - apply word_record_no_error.
  - apply excel_record_no_error.
  - apply text_record_no_error.
Qed.

End ExtractFacts.

(** C5, as stated, does not hold for every internal failure: when
    pdfplumber raises, the PDF extractor goes on without tables and returns
    the record, with no ["error"]. *)
Lemma pdf_tables_failure_is_no_error :
  ~ (forall (e : Converters.env) (file_path : string),
       (exists ex, Converters.plumber_open e file_path = Py.Raise ex) ->
       Py.has_key "error" (Converters.PDFConverter.extract e file_path) = true).
Proof.
  intros H.
  specialize (H Fixtures.office_without_plumber "in/b.pdf"
                (ex_intro _ (Py.Exn "PDFSyntaxError" "No /Root object!") eq_refl)).
  vm_compute in H. discriminate H.
Qed.

(** C5, amended: [extract] of each of the four converters returns a mapping,
    whatever the libraries do. When the body of its [try] raises, the mapping
    has the two entries ["error"], with the text
    ["Failed to extract <format>: <cause>"], the cause being the text of the
    exception, and ["document_type"], and no other; when it does not, the
    mapping is the record, which has no ["error"]. The table extraction of
    the PDF and Word extractors never makes the body raise: what pdfplumber
    or the table loop raises is swallowed, and no table is reported. *)
Theorem extract_catches (e : Converters.env) (c : Converters.converter) :
  match AppSpec.body e c with
  | Py.Raise ex =>
      Converters.extract e c
      = [("error",
          Py.VStr ("Failed to extract " +:+ AppSpec.what c +:+ ": " +:+ Py.exn_str ex));
         ("document_type", Py.VStr (AppSpec.tag c))]
  | Py.Ok record =>
      Converters.extract e c = record /\ Py.lookup "error" record = None
  end /\
  (forall file_path,
     (exists ex, Converters.plumber_open e file_path = Py.Raise ex) ->
     Converters.PDFConverter._extract_tables e file_path = []) /\
  (forall doc,
     (exists ex, Converters.docx_tables doc = Py.Raise ex) ->
     Converters.WordConverter._extract_tables doc = []).
Proof.
  split; [|split].
  - destruct (AppSpec.body e c) as [record|ex] eqn:E.
    + split; [|exact (ExtractFacts.body_no_error e c record E)].
      destruct c; simpl in E |- *;
        unfold Converters.PDFConverter.extract, Converters.WordConverter.extract,
          Converters.ExcelConverter.extract, Converters.TextConverter.extract;
        rewrite E; reflexivity.
    + destruct c; simpl in E |- *;
        unfold Converters.PDFConverter.extract, Converters.WordConverter.extract,
          Converters.ExcelConverter.extract, Converters.TextConverter.extract;
        rewrite E; reflexivity.
  - intros file_path [ex Hex]. unfold Converters.PDFConverter._extract_tables.
    rewrite Hex. reflexivity.
  - intros doc [ex Hex]. unfold Converters.WordConverter._extract_tables.
    rewrite Hex. reflexivity.
Qed.

Example extract_broken_pdf :
  Converters.extract Fixtures.office (Converters.PDF "in/broken.pdf")
  = [("error", Py.VStr "Failed to extract PDF: cannot open broken document");
     ("document_type", Py.VStr "PDF")].
Proof. vm_compute. reflexivity. Qed.

Example extract_missing_workbook :
  Converters.extract Fixtures.office (Converters.Excel "in/w.xlsx")
  = [("error", Py.VStr "Failed to extract Excel file: no such document");
     ("document_type", Py.VStr "Excel Spreadsheet")].
Proof. vm_compute. reflexivity. Qed.

Example extract_pdf_without_plumber :
  Py.lookup "tables"
    (Converters.extract Fixtures.office_without_plumber (Converters.PDF "in/b.pdf"))
  = Some (Py.VList []) /\
  Py.lookup "error"
    (Converters.extract Fixtures.office_without_plumber (Converters.PDF "in/b.pdf"))
  = None.
Proof. vm_compute. split; reflexivity. Qed.

(** ** C4: the rows for the CSV export *)

Module TabularFacts.
Import Chars Str Py Fs Converters App AppSpec.

Lemma hashable_iff (v : value) :
  hashable v <-> (forall l, v <> VList l) /\ (forall d, v <> VDict d).
Proof.
  unfold hashable. split.
  - intros [k H]. split; intros x ->; discriminate H.
  - intros [Hl Hd]. destruct v; try (eexists; reflexivity).
    + exfalso. apply (Hl l). reflexivity.
    + exfalso. apply (Hd d). reflexivity.
Qed.

Lemma dict_of_pairs_from (headers row : list value) (acc : kdict) :
  Forall hashable headers ->
  foldM (fun d '(k, v) => let* _ := hash_key k in Ok (put k v d)) acc (zip headers row)
  = Ok (fold_left (fun d '(k, v) => put k v d) (zip headers row) acc).
Proof.
  intros H. revert row acc. induction H as [|h headers [k Hk] _ IH]; intros row acc;
    [reflexivity|].
  destruct row as [|v row]; [reflexivity|].
  cbn [zip foldM fold_left]. rewrite Hk. cbn [bind]. apply IH.
Qed.

Lemma dict_zip_cells (headers row : list value) :
  Forall hashable headers ->
  dict_zip (VList headers) (VList row) = Ok (zipped headers row).
Proof.
  intros H. unfold dict_zip, dict_of_pairs, zipped.
  cbn [DataFormatter.iterate bind]. apply dict_of_pairs_from, H.
Qed.

Lemma mapM_dict_zip (headers : list value) (rows : list (list value)) :
  Forall hashable headers ->
  mapM (dict_zip (VList headers)) (map row_value rows)
  = Ok (map (zipped headers) rows).
Proof.
  intros H. induction rows as [|row rows IH]; [reflexivity|].
  cbn [map mapM]. unfold row_value at 1. rewrite dict_zip_cells by exact H.
  cbn [bind]. rewrite IH. reflexivity.
Qed.

(** The first header cell that cannot be hashed, if a cell of the row meets
    it, stops the zipping. *)
Lemma dict_of_pairs_stops (pre : list value) (h : value) (post row : list value)
  (ex : exn) :
  Forall hashable pre -> hash_key h = Raise ex -> (length pre < length row)%nat ->
  forall acc,
    foldM (fun d '(k, v) => let* _ := hash_key k in Ok (put k v d)) acc
      (zip (pre ++ h :: post) row)
    = Raise ex.
Proof.
  intros Hpre Hh. revert row. induction Hpre as [|p pre [k Hk] _ IH]; intros row Hlen acc.
  - destruct row as [|v row]; [cbn [length] in Hlen; lia|].
    cbn [app zip foldM]. rewrite Hh. reflexivity.
  - destruct row as [|v row]; [cbn [length] in Hlen; lia|].
    cbn [app zip foldM]. rewrite Hk. cbn [bind]. apply IH. cbn [length] in Hlen. lia.
Qed.

(** A key that is not there yet is put last. *)
Lemma put_new (k v : value) (d : kdict) :
  Forall (fun k' => same_key k' k = false) (map fst d) -> put k v d = d ++ [(k, v)].
Proof.
  induction d as [|[k' v'] d IH]; intros H; [reflexivity|].
  cbn [map fst] in H. inversion H as [|? ? Hk Hd]; subst.
  cbn [put]. rewrite Hk, IH by exact Hd. reflexivity.
Qed.

Lemma distinct_before (l1 : list value) (x : value) (l2 : list value) :
  distinct_keys (l1 ++ x :: l2) -> Forall (fun a => same_key a x = false) l1.
Proof.
  unfold distinct_keys. induction l1 as [|a l1 IH]; intros H; [constructor|].
  cbn [app] in H. inversion H as [|? ? Ha Hrest]; subst. constructor.
  - rewrite List.Forall_forall in Ha. apply Ha. apply in_elt.
  - apply IH, Hrest.
Qed.

Lemma zipped_from_distinct (headers row : list value) (acc : kdict) :
  distinct_keys (map fst acc ++ headers) ->
  fold_left (fun d '(k, v) => put k v d) (zip headers row) acc
  = acc ++ zip headers row.
Proof.
  revert row acc; induction headers as [|h headers IH]; intros row acc Hd.
  - cbn [zip fold_left]. rewrite app_nil_r. reflexivity.
  - destruct row as [|v row]; [cbn [zip fold_left]; rewrite app_nil_r; reflexivity|].
    cbn [zip fold_left]. rewrite put_new by exact (distinct_before _ _ _ Hd).
    rewrite IH.
    + rewrite <- app_assoc. reflexivity.
    + rewrite map_app. cbn [map fst]. rewrite <- app_assoc. exact Hd.
Qed.

Lemma zipped_distinct (headers row : list value) :
  distinct_keys headers -> zipped headers row = zip headers row.
Proof. intros H. unfold zipped. rewrite zipped_from_distinct; [reflexivity | exact H]. Qed.

End TabularFacts.

(** C4: the rows for the CSV export are those of ["data"] if the record has
    that key; else those of ["all_data"] if it has that key; else, if it has
    a non-empty list of tables and the first has two rows or more, its rows
    after the first, each zipped against the first row: the header cells,
    which can be strings, [None] or numbers, are the keys (when no two of
    them are one key, a zipped row is the list of the pairs), and a header
    cell that is a list or a dictionary raises [TypeError] when a cell of the
    first row meets it; else none. When the rows selected are none, the
    export answers ["No tabular data found for CSV export"] with no output
    path and writes nothing. *)
Theorem extract_tabular_data_rules (data : Py.dict) :
  (forall rows,
     Py.lookup "data" data = Some rows ->
     App._extract_tabular_data data = Py.Ok (App.Rows rows)) /\
  (forall rows,
     Py.lookup "data" data = None -> Py.lookup "all_data" data = Some rows ->
     App._extract_tabular_data data = Py.Ok (App.Rows rows)) /\
  (forall first others headers row rows,
     Py.lookup "data" data = None -> Py.lookup "all_data" data = None ->
     Py.lookup "tables" data = Some (Py.VList (first :: others)) ->
     Py.getitem first "data"
     = Py.Ok (Converters.table_value (headers :: row :: rows)) ->
     Forall AppSpec.hashable headers ->
     Forall (fun h => h <> Py.VFloat "nan") headers ->
     App._extract_tabular_data data
     = Py.Ok (App.Zipped (map (AppSpec.zipped headers) (row :: rows))) /\
     (AppSpec.distinct_keys headers ->
      forall r, AppSpec.zipped headers r = App.zip headers r)) /\
  (forall v,
     AppSpec.hashable v <-> (forall l, v <> Py.VList l) /\ (forall d, v <> Py.VDict d)) /\
  (forall first others pre h post row rows ex,
     Py.lookup "data" data = None -> Py.lookup "all_data" data = None ->
     Py.lookup "tables" data = Some (Py.VList (first :: others)) ->
     Py.getitem first "data"
     = Py.Ok (Converters.table_value ((pre ++ h :: post) :: row :: rows)) ->
     Forall AppSpec.hashable pre -> Py.hash_key h = Py.Raise ex ->
     (length pre < length row)%nat ->
     App._extract_tabular_data data = Py.Raise ex) /\
  (forall first others t,
     Py.lookup "data" data = None -> Py.lookup "all_data" data = None ->
     Py.lookup "tables" data = Some (Py.VList (first :: others)) ->
     Py.getitem first "data" = Py.Ok (Converters.table_value t) ->
     (length t <= 1)%nat ->
     App._extract_tabular_data data = Py.Ok (App.Rows (Py.VList []))) /\
  (Py.lookup "data" data = None -> Py.lookup "all_data" data = None ->
   Py.lookup "tables" data = None \/ Py.lookup "tables" data = Some (Py.VList []) ->
   App._extract_tabular_data data = Py.Ok (App.Rows (Py.VList []))) /\
  (forall (e : Converters.env) output_path stats_text success fs rows,
     App._extract_tabular_data data = Py.Ok rows -> App.rows_given rows = false ->
     App.export_csv e data output_path stats_text success fs
     = (Py.Ok ("No tabular data found for CSV export", "", None, stats_text), fs)).
Proof.
  split; [|split; [|split; [|split; [|split; [|split; [|split]]]]]].
  - unfold App._extract_tabular_data. intros rows ->. reflexivity.
  - unfold App._extract_tabular_data. intros rows -> ->. reflexivity.
  - intros tbl others headers row rows Hd Ha Ht Hfirst Hh _. split.
    + unfold App._extract_tabular_data. rewrite Hd, Ha, Ht.
      cbn [Py.truthy DataFormatter.first_item Py.bind]. rewrite Hfirst.
      unfold Converters.table_value.
      cbn [map Py.bind Py.truthy Py.len length Nat.ltb Nat.leb
           DataFormatter.first_item App.rest_items tl DataFormatter.iterate].
      change (Converters.row_value row :: map Converters.row_value rows)
        with (map Converters.row_value (row :: rows)).
      unfold Converters.row_value at 1.
      rewrite TabularFacts.mapM_dict_zip by exact Hh. reflexivity.
    + intros Hnd r. apply TabularFacts.zipped_distinct, Hnd.
  - apply TabularFacts.hashable_iff.
  - intros tbl others pre h post row rows ex Hd Ha Ht Hfirst Hpre Hh Hlen.
    unfold App._extract_tabular_data. rewrite Hd, Ha, Ht.
    cbn [Py.truthy DataFormatter.first_item Py.bind]. rewrite Hfirst.
    unfold Converters.table_value.
    cbn [map Py.bind Py.truthy Py.len length Nat.ltb Nat.leb
         DataFormatter.first_item App.rest_items tl DataFormatter.iterate Py.mapM].
    unfold Converters.row_value at 1 2. unfold App.dict_zip at 1.
    cbn [DataFormatter.iterate Py.bind]. unfold App.dict_of_pairs.
    rewrite (TabularFacts.dict_of_pairs_stops pre h post row ex Hpre Hh Hlen).
    reflexivity.
  - intros tbl others t Hd Ha Ht Hfirst Hlen.
    unfold App._extract_tabular_data. rewrite Hd, Ha, Ht.
    cbn [Py.truthy DataFormatter.first_item Py.bind]. rewrite Hfirst.
    destruct t as [|r1 [|r2 t]]; [reflexivity | reflexivity |].
    cbn [length] in Hlen. lia.
  - unfold App._extract_tabular_data. intros -> -> [-> | ->]; reflexivity.
  - intros e output_path stats_text success fs rows Hrows Hfalse.
    unfold App.export_csv, App.io_bind, App.lift, App.ret.
    rewrite Hrows, Hfalse. reflexivity.
Qed.

Lemma extract_tabular_data_rules_witness :
  App._extract_tabular_data Fixtures.table_record
  = Py.Ok (App.Zipped [[(Py.VStr "h1", Py.VStr "1"); (Py.VStr "h2", Py.VStr "2")];
                       [(Py.VStr "h1", Py.VStr "3"); (Py.VStr "h2", Py.VNone)]]) /\
  App.export_csv Fixtures.office Fixtures.text_record "output/a_converted.csv" "stats"
    (fun preview => ("ok", preview, Some "output/a_converted.csv", "stats")) ∅
  = (Py.Ok ("No tabular data found for CSV export", "", None, "stats"), ∅).
Proof.
  split.
  - destruct (extract_tabular_data_rules Fixtures.table_record) as (_ & _ & H & _).
    destruct (H (Py.VDict [("page", Py.VInt 1); ("table_index", Py.VInt 1);
                           ("rows", Py.VInt 3); ("columns", Py.VInt 2);
                           ("data", Converters.table_value
                                      [[Py.VStr "h1"; Py.VStr "h2"];
                                       [Py.VStr "1"; Py.VStr "2"];
                                       [Py.VStr "3"; Py.VNone]])])
                [] [Py.VStr "h1"; Py.VStr "h2"] [Py.VStr "1"; Py.VStr "2"]
                [[Py.VStr "3"; Py.VNone]]
                eq_refl eq_refl eq_refl eq_refl) as [E _].
    + repeat constructor; eexists; reflexivity.
    + repeat constructor; discriminate.
    + exact E.
  - destruct (extract_tabular_data_rules Fixtures.text_record)
      as (_ & _ & _ & _ & _ & _ & H4 & H5).
    apply (H5 Fixtures.office "output/a_converted.csv" "stats" _ ∅ (App.Rows (Py.VList []))).
    + apply H4; [reflexivity | reflexivity | left; reflexivity].
    + reflexivity.
Defined.

(** A table of pdfplumber whose header has an empty cell, which is [None]:
    the rows are zipped, [None] being a key, and the CSV file is written,
    the header cell of [None] being empty. *)
Example export_csv_none_header :
  let record :=
    [("tables",
      Py.VList [Py.VDict [("data", Converters.table_value
                                     [[Py.VStr "h1"; Py.VNone];
                                      [Py.VStr "1"; Py.VStr "2"];
                                      [Py.VStr "3"; Py.VNone]])]])] in
  App._extract_tabular_data record
  = Py.Ok (App.Zipped [[(Py.VStr "h1", Py.VStr "1"); (Py.VNone, Py.VStr "2")];
                       [(Py.VStr "h1", Py.VStr "3"); (Py.VNone, Py.VNone)]]) /\
  App.export_csv Fixtures.office record "output/t_converted.csv" "stats"
    (fun preview => ("ok", preview, Some "output/t_converted.csv", "stats")) ∅
  = (Py.Ok ("ok", "CSV file created with 2 rows", Some "output/t_converted.csv", "stats"),
     {["output/t_converted.csv" := Fs.Csv [["h1"; ""]; ["1"; "2"]; ["3"; ""]]]}).
Proof. split; vm_compute; reflexivity. Qed.

(** ** C3: the tally and the archive of [process_batch] *)

Module BatchFacts.
Import Chars Str Py Fs Converters App AppSpec.

Section Batch.
Variable E : files -> env.
Variable output_format : string.
Variables clean_text remove_urls remove_extra_spaces lowercase : bool.

Local Abbreviation step :=
  (batch_step E output_format clean_text remove_urls remove_extra_spaces lowercase).
Local Abbreviation run :=
  (trace E output_format clean_text remove_urls remove_extra_spaces lowercase).

Lemma count_cons (o : outcome) (outs : list outcome) (b : bool) :
  count (o :: outs) b
  = ((if Bool.eqb (went_through o) b then 1 else 0) + count outs b)%nat.
Proof. unfold count. cbn [List.filter]. destruct (Bool.eqb (went_through o) b); reflexivity. Qed.

Lemma fold_batch_step (files_ : list string) :
  forall (t : tally) (fs : files),
    fold_left step files_ (t, fs)
    = ({| results := results t ++ details files_ (fst (run fs files_));
          successful := successful t + count (fst (run fs files_)) true;
          failed := failed t + count (fst (run fs files_)) false |},
       snd (run fs files_)).
Proof.
  induction files_ as [|p ps IH]; intros t fs.
  - cbn. rewrite app_nil_r, !Nat.add_0_r. destruct t; reflexivity.
  - cbn [fold_left trace]. unfold batch_step at 2.
    destruct (process_file (E fs) p output_format clean_text remove_urls
                remove_extra_spaces lowercase fs) as [[[[status preview] out] stats] fs'].
    destruct (run fs' ps) as [outs fs''] eqn:Hrun.
    cbn [fst snd].
    destruct (path_given out) eqn:Hout; rewrite IH, Hrun; cbn [fst snd results successful failed];
      rewrite !count_cons; unfold went_through, output_of; cbn [fst snd]; rewrite Hout;
      cbn [Bool.eqb]; unfold details; cbn [zip map]; unfold detail, went_through, output_of,
        status_of; cbn [fst snd]; rewrite Hout; rewrite <- app_assoc; cbn [app];
      f_equal; f_equal; lia.
Qed.

Lemma run_length (files_ : list string) :
  forall fs, length (fst (run fs files_)) = length files_.
Proof.
  induction files_ as [|p ps IH]; intros fs; [reflexivity|].
  cbn [trace].
  destruct (process_file (E fs) p output_format clean_text remove_urls
              remove_extra_spaces lowercase fs) as [o fs'].
  specialize (IH fs'). destruct (run fs' ps) as [outs fs'']. cbn [fst length] in *.
  rewrite IH. reflexivity.
Qed.

Lemma count_total (outs : list outcome) :
  (count outs true + count outs false = length outs)%nat.
Proof.
  induction outs as [|o outs IH]; [reflexivity|].
  rewrite !count_cons. cbn [length]. destruct (went_through o); cbn [Bool.eqb]; lia.
Qed.

End Batch.

Lemma under_insert (dir p : string) (f : file) (fs : files) :
  String.prefix (dir +:+ "/") p = true ->
  under dir (<[p := f]> fs) = {[p]} ∪ under dir fs.
Proof.
  intros Hp. unfold under.
  rewrite map_filter_insert_True by exact Hp. apply dom_insert_L.
Qed.

Lemma elem_of_under (dir p : string) (fs : files) :
  p ∈ under dir fs <-> String.prefix (dir +:+ "/") p = true /\ is_Some (fs !! p).
Proof.
  unfold under. rewrite elem_of_dom. split.
  - intros [f Hf]. apply map_lookup_filter_Some in Hf as [Hf Hp]. split; [exact Hp | eauto].
  - intros [Hp [f Hf]]. exists f. apply map_lookup_filter_Some. split; [exact Hf | exact Hp].
Qed.

End BatchFacts.

Lemma extract_catches_witness :
  Converters.extract Fixtures.office (Converters.PDF "in/broken.pdf")
  = [("error", Py.VStr "Failed to extract PDF: cannot open broken document");
     ("document_type", Py.VStr "PDF")] /\
  Converters.PDFConverter._extract_tables Fixtures.office_without_plumber "in/b.pdf" = [].
Proof.
  split.
  - pose proof (extract_catches Fixtures.office (Converters.PDF "in/broken.pdf")) as [H _].
    exact H.
  - pose proof (extract_catches Fixtures.office_without_plumber (Converters.PDF "in/b.pdf"))
      as (_ & H & _).
    apply H. eexists. reflexivity.
Defined.

(** ** Where [process_file] writes *)

Module PathFacts.
Import Chars Str Path ReFacts.

Lemma take_while_all (p : ascii -> bool) (l : list ascii) :
  Forall (fun a => p a = true) (take_while p l).
Proof.
  induction l as [|a l IH]; simpl; [constructor|].
  destruct (p a) eqn:E; constructor; assumption.
Qed.

Lemma drop_while_nil (p : ascii -> bool) (l : list ascii) :
  drop_while p l = [] -> Forall (fun a => p a = true) l.
Proof.
  induction l as [|a l IH]; simpl; [constructor|].
  destruct (p a) eqn:E; [|discriminate]. intros H. constructor; auto.
Qed.

Lemma drop_while_all (p : ascii -> bool) (l : list ascii) :
  Forall (fun a => p a = true) l -> drop_while p l = [].
Proof. induction 1 as [|a l Ha Hl IH]; simpl; [reflexivity|]. rewrite Ha. exact IH. Qed.

Lemma not_char (c : ascii) (l : list ascii) :
  Forall (fun a => negb (Ascii.eqb a c) = true) l <-> Forall (fun a => a <> c) l.
Proof.
  split; apply List.Forall_impl; intros a.
  - destruct (Ascii.eqb_spec a c); [discriminate | auto].
  - destruct (Ascii.eqb_spec a c); [contradiction | reflexivity].
Qed.

Lemma Forall_drop (P : ascii -> Prop) (p : ascii -> bool) (l : list ascii) :
  Forall P l -> Forall P (drop_while p l).
Proof.
  induction 1 as [|a l Ha Hl IH]; simpl; [constructor|].
  destruct (p a); [exact IH | constructor; assumption].
Qed.

Lemma name_no_slash (l : list ascii) : no_slash (snd (dir_and_name l)).
Proof.
  unfold dir_and_name, rsplit, no_slash.
  destruct (drop_while (fun a => negb (Ascii.eqb a "/")) (rev l)) as [|c before] eqn:E.
  - cbn [snd]. apply drop_while_nil, not_char in E.
    apply List.Forall_rev in E. rewrite rev_involutive in E. exact E.
  - cbn [snd tl]. apply List.Forall_rev, not_char, take_while_all.
Qed.

Lemma dir_and_name_plain (l : list ascii) : no_slash l -> dir_and_name l = ([], l).
Proof.
  intros H. unfold dir_and_name, rsplit.
  rewrite drop_while_all; [reflexivity|].
  apply not_char, List.Forall_rev, H.
Qed.

Lemma stem_no_slash (q : string) :
  no_slash (chars q) -> no_slash (chars (fst (splitext q))).
Proof.
  intros H. unfold splitext. rewrite (dir_and_name_plain _ H). unfold rsplit.
  destruct (drop_while (fun a => negb (Ascii.eqb a ".")) (rev (chars q)))
    as [|c before] eqn:E; [exact H|].
  destruct (forallb (fun a => Ascii.eqb a ".") (rev before)); [exact H|].
  cbn [fst app]. rewrite chars_of_chars.
  assert (Hd : no_slash (c :: before)).
  { rewrite <- E. apply Forall_drop, List.Forall_rev, H. }
  apply List.Forall_rev. inversion Hd; assumption.
Qed.

Lemma chars_append (s t : string) : chars (s +:+ t) = chars s ++ chars t.
Proof.
  induction s as [|c s IH]; [reflexivity|].
  change (chars (String c s +:+ t)) with (c :: chars (s +:+ t)).
  rewrite IH. reflexivity.
Qed.

Lemma prefix_append (s t : string) : String.prefix s (s +:+ t) = true.
Proof.
  induction s as [|c s IH]; [destruct t; reflexivity|].
  change (String c s +:+ t) with (String c (s +:+ t)). cbn [String.prefix].
  destruct (ascii_dec c c) as [_|Hn]; [exact IH | contradiction].
Qed.

Lemma join_output (b : string) :
  match chars b with "/"%char :: _ => False | _ => True end ->
  join "output" b = "output/" +:+ b.
Proof.
  unfold join. destruct (chars b) as [|c l]; [reflexivity|].
  destruct (Ascii.eqb_spec c "/") as [->|Hne]; [contradiction|].
  intros _.
  assert (E : forall (A : Type) (x y : A),
            match c with "/"%char => x | _ => y end = y).
  { intros A x y. destruct c as [[] [] [] [] [] [] [] []]; try reflexivity.
    contradiction Hne. reflexivity. }
  rewrite E. reflexivity.
Qed.

(** The output path of a file is in the output directory. *)
Lemma output_path_under (file_path suffix : string) :
  String.prefix "output/"
    (join "output" (fst (splitext (basename file_path)) +:+ String "_" suffix)) = true.
Proof.
  rewrite join_output; [apply prefix_append|].
  rewrite chars_append.
  pose proof (stem_no_slash (basename file_path)) as H.
  unfold basename in H at 1. rewrite chars_of_chars in H.
  specialize (H (name_no_slash _)).
  destruct (chars (fst (splitext (basename file_path)))) as [|c l]; [exact I|].
  cbn [app]. inversion H as [|? ? Hc _]; subst.
  destruct c as [[] [] [] [] [] [] [] []]; try exact I. contradiction Hc. reflexivity.
Qed.

End PathFacts.

(** ** C8: the root element of [to_xml] *)

Module RootFacts.
Import Chars Str Py DataFormatter FormatterSpec XmlSpec StrFacts.

Lemma value_nested_ind (P : value -> Prop) :
  P VNone -> (forall b, P (VBool b)) -> (forall z, P (VInt z)) ->
  (forall r, P (VFloat r)) -> (forall s, P (VStr s)) ->
  (forall l, Forall P l -> P (VList l)) ->
  (forall d, Forall (fun kv => P (snd kv)) d -> P (VDict d)) ->
  forall v, P v.
Proof.
  intros HN HB HI HF HS HL HD. fix IH 1. intros [| b | z | r | s | l | d].
  - exact HN.
  - apply HB.
  - apply HI.
  - apply HF.
  - apply HS.
  - apply HL. induction l as [|x l IHl]; constructor; [apply IH | exact IHl].
  - apply HD. induction d as [|[k x] d IHd]; constructor; [apply IH | exact IHd].
Qed.

Lemma moves_nil (st : reading) : moves st "" st.
Proof. intros rest. reflexivity. Qed.

Lemma moves_app (st st1 st2 : reading) (a b : string) :
  moves st a st1 -> moves st1 b st2 -> moves st (a +:+ b) st2.
Proof.
  intros Ha Hb rest. rewrite PathFacts.chars_append, <- app_assoc, Ha, Hb. reflexivity.
Qed.

Lemma moves_concat (st : reading) (pieces : list string) :
  Forall (fun p => moves st p st) pieces -> moves st (String.concat "" pieces) st.
Proof.
  induction 1 as [|p pieces Hp _ IH]; [apply moves_nil|].
  rewrite concat_cons. apply (moves_app st st st); assumption.
Qed.

(** Text inside an element. *)
Lemma moves_text (o : list (list ascii)) (c : list (list ascii)) (s : string) :
  o <> [] -> plain_text s = true -> moves (o, None, c) s (o, None, c).
Proof.
  intros Ho Hs rest. unfold plain_text, contains_char in Hs.
  apply negb_true_iff in Hs. induction (chars s) as [|a l IH]; [reflexivity|].
  cbn [existsb] in Hs. apply orb_false_iff in Hs as [Ha Hl].
  cbn [app read]. rewrite Ascii.eqb_sym, Ha.
  destruct o as [|top o']; [contradiction|]. apply IH, Hl.
Qed.

Lemma name_char_plain (a : ascii) :
  name_char a = true -> Ascii.eqb a ">" = false.
Proof. each_char a. Qed.

Lemma name_start_char (a : ascii) : name_start a = true -> name_char a = true.
Proof. unfold name_char. intros ->. reflexivity. Qed.

Lemma name_start_slash (a : ascii) : name_start a = true -> a <> "/"%char.
Proof. intros H ->. discriminate H. Qed.

(** The characters of a tag are gathered up to its [>]. *)
Lemma read_tag (m : list ascii) :
  Forall (fun a => Ascii.eqb a ">" = false) m ->
  forall o buf c rest,
    read (o, Some buf, c) (m ++ ">"%char :: rest)
    = match end_tag o c (rev buf ++ m) with
      | Some st' => read st' rest
      | None => None
      end.
Proof.
  induction 1 as [|a m Ha _ IH]; intros o buf c rest.
  - cbn [app read]. rewrite app_nil_r. reflexivity.
  - cbn [app read]. rewrite Ha, IH. cbn [rev]. rewrite <- app_assoc. reflexivity.
Qed.

Lemma name_plain (n : list ascii) :
  is_name n = true -> Forall (fun a => Ascii.eqb a ">" = false) n.
Proof.
  destruct n as [|a n]; [discriminate|]. cbn [is_name]. intros H.
  apply andb_true_iff in H as [Ha Hn]. constructor.
  - apply name_char_plain, name_start_char, Ha.
  - rewrite forallb_forall in Hn. apply List.Forall_forall. intros x Hx.
    apply name_char_plain, Hn, Hx.
Qed.

Lemma moves_open (o c : list (list ascii)) (n : string) :
  is_name (chars n) = true ->
  moves (o, None, c) ("<" +:+ n +:+ ">") (chars n :: o, None, c).
Proof.
  intros Hn rest. rewrite !PathFacts.chars_append, <- !app_assoc.
  change (chars "<" ++ chars n ++ chars ">" ++ rest)
    with ("<"%char :: chars n ++ ">"%char :: rest).
  cbn [read Ascii.eqb Bool.eqb]. rewrite read_tag by exact (name_plain _ Hn).
  cbn [rev app]. unfold end_tag. rewrite Hn.
  destruct (chars n) as [|a l] eqn:E; [discriminate Hn|].
  cbn [is_name] in Hn. apply andb_true_iff in Hn as [Ha _].
  destruct a as [[] [] [] [] [] [] [] []]; try reflexivity.
  vm_compute in Ha. discriminate Ha.
Qed.

Lemma moves_close (top : list ascii) (o c : list (list ascii)) (n : string) :
  is_name (chars n) = true -> top = chars n ->
  moves (top :: o, None, c) ("</" +:+ n +:+ ">")
        (o, None, match o with [] => chars n :: c | _ => c end).
Proof.
  intros Hn -> rest. rewrite !PathFacts.chars_append, <- !app_assoc.
  change (chars "</" ++ chars n ++ chars ">" ++ rest)
    with ("<"%char :: ("/"%char :: chars n) ++ ">"%char :: rest).
  cbn [read Ascii.eqb Bool.eqb]. rewrite read_tag.
  - cbn [rev app end_tag]. rewrite Hn, String.eqb_refl. reflexivity.
  - constructor; [reflexivity | exact (name_plain _ Hn)].
Qed.

Lemma plain_spaces (n : nat) : plain_text (repeat_str "  " n) = true.
Proof. induction n as [|n IH]; [reflexivity|]. exact IH. Qed.

Section Inside.
Variable o : list (list ascii).
Variable c : list (list ascii).
Hypothesis o_open : o <> [].

Local Abbreviation here := (o, None, c).

Lemma moves_leaf (tag : string) (v : value) :
  is_name (chars tag) = true -> plain_text (str v) = true ->
  moves here (leaf tag v) here.
Proof.
  intros Ht Hv. unfold leaf.
  replace ("<" +:+ tag +:+ ">" +:+ str v +:+ "</" +:+ tag +:+ ">")
    with (("<" +:+ tag +:+ ">") +:+ str v +:+ ("</" +:+ tag +:+ ">"))
    by (rewrite !append_assoc; reflexivity).
  apply (moves_app _ (chars tag :: o, None, c)); [apply moves_open, Ht|].
  apply (moves_app _ (chars tag :: o, None, c)).
  - apply moves_text; [discriminate | exact Hv].
  - pose proof (moves_close (chars tag) o c tag Ht eq_refl) as H.
    destruct o; [contradiction | exact H].
Qed.

Lemma text_then (a b : string) (st' : reading) :
  plain_text a = true -> moves here b st' -> moves here (a +:+ b) st'.
Proof. intros Ha Hb. apply (moves_app _ here); [apply moves_text; assumption | exact Hb]. Qed.

Lemma plain_nl : plain_text nl = true.
Proof. reflexivity. Qed.

(** A line of an element: the indentation, an element, a line feed. *)
Lemma moves_line (indent piece : string) :
  plain_text indent = true -> moves here piece here ->
  moves here (indent +:+ "  " +:+ piece +:+ nl) here.
Proof.
  intros Hi Hp. apply text_then; [exact Hi|]. apply text_then; [reflexivity|].
  apply (moves_app _ here); [exact Hp|]. apply moves_text; [exact o_open | reflexivity].
Qed.

End Inside.

(** What the helper makes of a tame dictionary is one element. *)
Lemma helper_element (v : value) :
  element v /\ match v with VList l => Forall element l | _ => True end.
Proof.
  induction v as [| b | z | r | s | l IH | d IH] using value_nested_ind;
    try (split; [intros tag level o c _ _ _; apply moves_nil | exact I]).
  - split; [intros tag level o c _ _ _; apply moves_nil|].
    apply List.Forall_forall. intros item Hin. rewrite List.Forall_forall in IH.
    apply (IH item Hin).
  - split; [|exact I]. intros tag level o c Ht Hn Ho.
    cbn [xml_helper].
    set (indent := repeat_str "  " level).
    assert (Hi : plain_text indent = true) by apply plain_spaces.
    match goal with
    | |- moves _ (_ +:+ _ +:+ _ +:+ _ +:+ String.concat "" (map ?f d) +:+ _) _ =>
        set (entry := f)
    end.
    replace ("<" +:+ tag +:+ ">" +:+ nl +:+ String.concat "" (map entry d)
             +:+ indent +:+ "</" +:+ tag +:+ ">")
      with (("<" +:+ tag +:+ ">") +:+ nl +:+ String.concat "" (map entry d)
            +:+ indent +:+ ("</" +:+ tag +:+ ">"))
      by (rewrite !append_assoc; reflexivity).
    apply (moves_app _ (chars tag :: o, None, c)); [apply moves_open, Hn|].
    assert (Hopen : chars tag :: o <> []) by discriminate.
    apply text_then; [exact Hopen | reflexivity|].
    apply (moves_app _ (chars tag :: o, None, c)).
    + apply moves_concat. apply List.Forall_forall. intros piece Hin.
      apply in_map_iff in Hin as ([key value] & <- & Hin).
      cbn [tame] in Ht. rewrite forallb_forall in Ht. specialize (Ht _ Hin).
      rewrite List.Forall_forall in IH. specialize (IH _ Hin). cbn [snd] in IH.
      unfold entry. cbv beta iota zeta. fold indent.
      destruct value as [| b | z | r | s | l | d'];
        try (apply andb_true_iff in Ht as [Hk Hv];
             apply (moves_line _ _ Hopen); [exact Hi|];
             apply moves_leaf; assumption).
      * apply moves_concat. apply List.Forall_forall. intros line Hl.
        apply in_map_iff in Hl as (item & <- & Hitem).
        rewrite forallb_forall in Ht. specialize (Ht _ Hitem).
        destruct IH as [_ IH]. rewrite List.Forall_forall in IH.
        specialize (IH _ Hitem).
        destruct item as [| b | z | r | s | l' | d'];
          apply andb_true_iff in Ht as [Hk Hv];
          apply (moves_line _ _ Hopen); try exact Hi;
          try (apply moves_leaf; assumption).
        apply IH; assumption.
      * apply andb_true_iff in Ht as [Hk Hv].
        apply (moves_line _ _ Hopen); [exact Hi|].
        apply (proj1 IH); assumption.
    + apply text_then; [exact Hopen | exact Hi|].
      pose proof (moves_close (chars tag) o c tag Hn eq_refl) as H.
      destruct o; [contradiction | exact H].
Qed.

Lemma strip_own_prefix (pre t : list ascii) :
  PatternSpec.strip_prefix pre (pre ++ t) = Some t.
Proof.
  induction pre as [|a pre IH]; [reflexivity|].
  cbn [app PatternSpec.strip_prefix]. rewrite Ascii.eqb_refl. exact IH.
Qed.

(** The text of [dict_to_xml] is one element, the first of the text. *)
Lemma root_element (data : dict) (root : string) :
  is_name (chars root) = true -> tame (VDict data) = true ->
  moves ([], None, []) (dict_to_xml data root) ([], None, [chars root]).
Proof.
  intros Hn Ht. unfold dict_to_xml.
  match goal with
  | |- moves _ (_ +:+ _ +:+ _ +:+ _ +:+ String.concat "" (map ?f data) +:+ _) _ =>
      set (entry := f)
  end.
  replace ("<" +:+ root +:+ ">" +:+ nl +:+ String.concat "" (map entry data)
           +:+ "</" +:+ root +:+ ">")
    with (("<" +:+ root +:+ ">") +:+ nl +:+ String.concat "" (map entry data)
          +:+ ("</" +:+ root +:+ ">"))
    by (rewrite !append_assoc; reflexivity).
  apply (moves_app _ ([chars root], None, [])); [apply moves_open, Hn|].
  assert (Hopen : [chars root] <> []) by discriminate.
  apply text_then; [exact Hopen | reflexivity|].
  apply (moves_app _ ([chars root], None, [])).
  - apply moves_concat. apply List.Forall_forall. intros piece Hin.
    apply in_map_iff in Hin as ([key value] & <- & Hin).
    cbn [tame] in Ht. rewrite forallb_forall in Ht. specialize (Ht _ Hin).
    pose proof (helper_element value) as IH.
    unfold entry. cbv beta iota zeta.
    assert (Hline : forall piece,
              moves ([chars root], None, []) piece ([chars root], None, []) ->
              moves ([chars root], None, []) ("  " +:+ piece +:+ nl)
                    ([chars root], None, [])).
    { intros piece Hp. apply text_then; [exact Hopen | reflexivity|].
      apply (moves_app _ ([chars root], None, [])); [exact Hp|].
      apply moves_text; [exact Hopen | reflexivity]. }
    destruct value as [| b | z | r | s | l | d'];
      try (apply andb_true_iff in Ht as [Hk Hv]; apply Hline;
           apply moves_leaf; assumption).
    + apply moves_concat. apply List.Forall_forall. intros line Hl.
      apply in_map_iff in Hl as (item & <- & Hitem).
      rewrite forallb_forall in Ht. specialize (Ht _ Hitem).
      destruct IH as [_ IH]. rewrite List.Forall_forall in IH.
      specialize (IH _ Hitem).
      destruct item as [| b | z | r | s | l' | d'];
        apply andb_true_iff in Ht as [Hk Hv]; apply Hline;
        try (apply moves_leaf; assumption).
      unfold dict_to_xml_helper. apply IH; assumption.
    + apply andb_true_iff in Ht as [Hk Hv]. apply Hline.
      unfold dict_to_xml_helper. apply (proj1 IH); assumption.
  - exact (moves_close (chars root) [] [] root Hn eq_refl).
Qed.

End RootFacts.


(** A root name that is no name gives no element of that name, and a value
    that closes the root element leaves a text that is not made of
    elements. *)
Example to_xml_no_root :
  XmlSpec.root_elements (DataFormatter.to_xml [("a", Py.VStr "x")] "a b") = None /\
  XmlSpec.root_elements
    (DataFormatter.to_xml [("a", Py.VStr "</document><document>")] "document") = None.
Proof. split; vm_compute; reflexivity. Qed.




Module ProcessFacts.
Import Chars Str Py Fs Converters App AppSpec.

Lemma bind_lift {A B : Type} (r : result A) (k : A -> io B) (fs : files) :
  io_bind (lift r) k fs
  = match r with Ok a => k a fs | Raise ex => (Raise ex, fs) end.
Proof. destruct r; reflexivity. Qed.

Lemma bind_ret {A B : Type} (a : A) (k : A -> io B) (fs : files) :
  io_bind (ret a) k fs = k a fs.
Proof. reflexivity. Qed.

Lemma quiet_raise (e : env) (fs : files) (ex : exn) : effect_of e fs (Raise ex, fs).
Proof. split; [left; reflexivity|]. intros r H. discriminate H. Qed.

Lemma quiet_answer (e : env) (fs : files) (status preview stats : string) :
  effect_of e fs (Ok (status, preview, None, stats), fs).
Proof.
  split; [left; reflexivity|]. intros r [= <-] H. discriminate H.
Qed.

Lemma written_answer (e : env) (fs : files) (file_path suffix status preview stats : string)
  (f : file) :
  let out := Path.join output_dir
               (fst (Path.splitext (Path.basename file_path)) +:+ String "_" suffix) in
  effect_of e fs (Ok (status, preview, Some out, stats), <[out := f]> fs).
Proof.
  intros out.
  assert (Hp : String.prefix "output/" out = true) by apply PathFacts.output_path_under.
  split.
  - right. exists out, f. split; [exact Hp | reflexivity].
  - intros r [= <-] _. exists out. split; [reflexivity|]. split; [exact Hp|].
    intros _. cbn [snd]. rewrite lookup_insert_eq. eauto.
Qed.

Lemma write_text_effect (e : env) (fs : files) (file_path suffix content : string)
  (k : unit -> io outcome) status preview stats :
  let out := Path.join output_dir
               (fst (Path.splitext (Path.basename file_path)) +:+ String "_" suffix) in
  (forall u, k u = ret (status, preview, Some out, stats)) ->
  effect_of e fs (io_bind (write_text e out content) k fs).
Proof.
  intros out Hk. unfold io_bind, write_text.
  destruct (opens e out) as [ex|].
  - apply quiet_raise.
  - rewrite Hk. unfold ret. apply written_answer.
Qed.

Lemma to_csv_files (opens_ : string -> option exn) (data : tabular) (out : string)
  (fs : files) :
  (snd (rows_to_csv opens_ data out fs) = fs \/
   exists rows, snd (rows_to_csv opens_ data out fs) = <[out := Csv rows]> fs) /\
  (rows_given data = true -> opens_ out = None ->
   exists rows, snd (rows_to_csv opens_ data out fs) = <[out := Csv rows]> fs).
Proof.
  destruct data as [data|ds]; cbn [rows_to_csv rows_given].
  - unfold DataFormatter.to_csv.
    destruct (truthy data); cbn [negb].
    + destruct (opens_ out) as [ex|].
      * split; [left; reflexivity | intros _ H; discriminate H].
      * destruct (DataFormatter.csv_body data) as [rows [u|ex]]; cbn [snd];
          (split; [right|intros _ _]; exists rows; reflexivity).
    + split; [left; reflexivity | intros H; discriminate H].
  - unfold DataFormatter.to_csv_zipped. destruct ds as [|first ds].
    + split; [left; reflexivity | intros H; discriminate H].
    + destruct (opens_ out) as [ex|].
      * split; [left; reflexivity | intros _ H; discriminate H].
      * destruct (DataFormatter.write_krows (map fst first) (first :: ds))
          as [rows [u|ex]]; cbn [snd];
          (split; [right|intros _ _]; eexists; reflexivity).
Qed.

Lemma export_csv_effect (e : env) (fs : files) (data : dict)
  (file_path suffix stats_text status stats : string) :
  let out := Path.join output_dir
               (fst (Path.splitext (Path.basename file_path)) +:+ String "_" suffix) in
  let success := fun preview : string => (status, preview, Some out, stats) in
  effect_of e fs (export_csv e data out stats_text success fs).
Proof.
  intros out success. unfold export_csv. rewrite bind_lift.
  destruct (_extract_tabular_data data) as [rows|ex]; [|apply quiet_raise].
  destruct (rows_given rows) eqn:Ht; [|apply quiet_answer].
  unfold io_bind at 1. cbv beta iota. rewrite bind_lift.
  assert (Hp : String.prefix "output/" out = true) by apply PathFacts.output_path_under.
  destruct (to_csv_files (opens e) rows out fs) as [Hfs Hw].
  assert (Hwr : writes_under_output fs (snd (rows_to_csv (opens e) rows out fs))).
  { destruct Hfs as [->|[written ->]]; [left; reflexivity|].
    right. exists out, (Csv written). split; [exact Hp | reflexivity]. }
  destruct (rows_len rows) as [n|ex]; unfold effect_of, ret; cbn [fst snd].
  - split; [exact Hwr|]. intros r [= <-] _. exists out.
    split; [reflexivity|]. split; [exact Hp|].
    intros Hopen. destruct (Hw Ht Hopen) as [written ->].
    rewrite lookup_insert_eq. eauto.
  - split; [exact Hwr|]. intros r H. discriminate H.
Qed.

Lemma process_file_body_effect (e : env) (file_path output_format : string)
  (clean_text remove_urls remove_extra_spaces lowercase : bool) (fs : files) :
  effect_of e fs
    (process_file_body e file_path output_format
       clean_text remove_urls remove_extra_spaces lowercase fs).
Proof.
  unfold process_file_body. rewrite bind_lift.
  destruct (FileValidator.validate_file (stat e) file_path) as [[is_valid msg]|ex];
    [|apply quiet_raise].
  destruct is_valid; cbn [negb]; [|apply quiet_answer].
  match goal with
  | |- context [match ?nc with Some _ => _ | None => _ end fs] =>
      destruct nc as [new|]
  end; [|apply quiet_answer].
  rewrite bind_lift.
  destruct (new e file_path) as [conv|ex]; [|apply quiet_raise].
  destruct (lookup "error" (extract e conv)); [apply quiet_answer|].
  match goal with
  | |- context [io_bind ?m ?k fs] =>
      assert (Hk : forall data, effect_of e fs (k data fs))
  end.
  { intros data. cbv beta. rewrite bind_lift.
    destruct (DataFormatter.get_statistics data) as [stats|ex]; [|apply quiet_raise].
    destruct (output_format =? "JSON")%string.
    { eapply (write_text_effect e fs file_path "converted.json"). intros u. reflexivity. }
    destruct (output_format =? "CSV")%string.
    { apply (export_csv_effect e fs data file_path "converted.csv"). }
    destruct (output_format =? "XML")%string.
    { eapply (write_text_effect e fs file_path "converted.xml"). intros u. reflexivity. }
    destruct (output_format =? "AI Training Format")%string; [|apply quiet_raise].
    rewrite bind_lift.
    destruct (DataFormatter.create_ai_training_format data) as [ai|ex]; [|apply quiet_raise].
    eapply (write_text_effect e fs file_path "ai_training.json"). intros u. reflexivity. }
  destruct (lookup "full_text" (extract e conv)) as [text|]; [destruct clean_text|].
  - unfold io_bind at 1. rewrite bind_lift.
    match goal with
    | |- context [clean_value ?t ?o] => destruct (clean_value t o) as [cleaned|ex]
    end; [apply Hk | apply quiet_raise].
  - apply Hk.
  - apply Hk.
Qed.

Lemma process_file_effect (e : env) (file_path output_format : string)
  (clean_text remove_urls remove_extra_spaces lowercase : bool) (fs : files) :
  let result := process_file e file_path output_format
                  clean_text remove_urls remove_extra_spaces lowercase fs in
  body_effect e fs (Ok (fst result)) (snd result).
Proof.
  cbv zeta. unfold process_file.
  pose proof (process_file_body_effect e file_path output_format
                clean_text remove_urls remove_extra_spaces lowercase fs) as H.
  unfold effect_of in H.
  destruct (process_file_body e file_path output_format
              clean_text remove_urls remove_extra_spaces lowercase fs) as [[r|ex] fs'];
    cbn [fst snd] in *.
  - exact H.
  - destruct H as [Hw _]. split; [exact Hw|]. intros r [= <-] H. discriminate H.
Qed.

End ProcessFacts.

Module TraceFacts.
Import Chars Str Py Fs Converters App AppSpec.

Lemma written_stays (fs fs' : files) (p : string) :
  writes_under_output fs fs' -> is_Some (fs !! p) -> is_Some (fs' !! p).
Proof.
  intros [->|(out & f & _ & ->)] H; [exact H|].
  apply lookup_insert_is_Some. destruct (decide (out = p)); [left | right]; auto.
Qed.

Lemma written_under (fs fs' : files) (p : string) :
  writes_under_output fs fs' -> is_Some (fs' !! p) ->
  is_Some (fs !! p) \/ String.prefix "output/" p = true.
Proof.
  intros [->|(out & f & Hp & ->)] H; [left; exact H|].
  apply lookup_insert_is_Some in H as [<-|[_ H]]; [right; exact Hp | left; exact H].
Qed.

Section Trace.
Variable E : files -> env.
Variable output_format : string.
Variables clean_text remove_urls remove_extra_spaces lowercase : bool.

Local Abbreviation run :=
  (trace E output_format clean_text remove_urls remove_extra_spaces lowercase).

(** What was there stays, and what comes is in the output directory. *)
Lemma trace_files (files_ : list string) :
  forall fs p,
    (is_Some (fs !! p) -> is_Some (snd (run fs files_) !! p)) /\
    (is_Some (snd (run fs files_) !! p) ->
     is_Some (fs !! p) \/ String.prefix "output/" p = true).
Proof.
  induction files_ as [|f fs_ IH]; intros fs p; [split; auto|].
  cbn [trace].
  pose proof (ProcessFacts.process_file_effect (E fs) f output_format
                clean_text remove_urls remove_extra_spaces lowercase fs) as [Hw _].
  destruct (process_file (E fs) f output_format clean_text remove_urls
              remove_extra_spaces lowercase fs) as [o fs'].
  cbn [fst snd] in Hw. specialize (IH fs' p).
  destruct (run fs' fs_) as [os fs'']. cbn [snd] in *. destruct IH as [IH1 IH2]. split.
  - intros H. apply IH1, (written_stays fs fs' p Hw H).
  - intros H. destruct (IH2 H) as [H'|H']; [|right; exact H'].
    exact (written_under fs fs' p Hw H').
Qed.

(** When every file can be opened for writing, the output of a file that
    went through is there in the end. *)
Lemma trace_outputs (files_ : list string) :
  (forall fs p, opens (E fs) p = None) ->
  forall fs o,
    In o (fst (run fs files_)) -> went_through o = true ->
    exists out,
      output_of o = Some out /\ String.prefix "output/" out = true /\
      is_Some (snd (run fs files_) !! out).
Proof.
  intros Hopen. induction files_ as [|f fs_ IH]; intros fs o Hin Hok; [destruct Hin|].
  cbn [trace] in *.
  pose proof (ProcessFacts.process_file_effect (E fs) f output_format
                clean_text remove_urls remove_extra_spaces lowercase fs) as [_ Hout].
  pose proof (fun p => trace_files fs_
                (snd (process_file (E fs) f output_format clean_text remove_urls
                        remove_extra_spaces lowercase fs)) p) as Hstay.
  destruct (process_file (E fs) f output_format clean_text remove_urls
              remove_extra_spaces lowercase fs) as [o1 fs'].
  cbn [fst snd] in *. specialize (IH fs' o).
  destruct (run fs' fs_) as [os fs'']. cbn [fst snd] in *.
  destruct Hin as [<-|Hin]; [|apply IH; assumption].
  destruct (Hout o1 eq_refl Hok) as (out & Ho & Hp & Hthere).
  exists out. split; [exact Ho|]. split; [exact Hp|].
  apply (proj1 (Hstay out)), Hthere, Hopen.
Qed.

End Trace.

End TraceFacts.

(** In the CSV mode the answer of [to_csv] is not looked at: when the file
    cannot be written, [process_file] still answers with the output path. *)
Example process_file_csv_not_written :
  let r := App.process_file Fixtures.office_read_only "in/c.csv" "CSV"
             false false false false ∅ in
  let rows := Py.VList [Py.VDict [("a", Py.VStr "1"); ("b", Py.VStr "2")];
                        Py.VDict [("a", Py.VStr "3"); ("b", Py.VStr "4")]] in
  (exists status stats,
     fst r = (status, "CSV file created with 2 rows",
              Some "output/c_converted.csv", stats)) /\
  snd r = ∅ /\
  App._extract_tabular_data
    (Converters.extract Fixtures.office_read_only (Converters.TextFile "in/c.csv" "utf-8"))
  = Py.Ok (App.Rows rows) /\
  fst (DataFormatter.to_csv (Converters.opens Fixtures.office_read_only) rows
         "output/c_converted.csv" ∅)
  = "Error creating CSV: [Errno 13] Permission denied".
Proof.
  cbv zeta. split; [|split; [|split]].
  - eexists _, _. vm_compute. reflexivity.
  - vm_compute. reflexivity.
  - vm_compute. reflexivity.
  - vm_compute. reflexivity.
Qed.




(** ** The words of a text *)

Module WordFacts.
Import Chars Str ReFacts CleanerFacts CleanerSpec TextSpec StrFacts PathFacts.

Lemma drop_while_app (p : ascii -> bool) (u v : list ascii) :
  drop_while p (u ++ v)
  = match drop_while p u with [] => drop_while p v | d => d ++ v end.
Proof.
  induction u as [|a u IH]; simpl.
  - destruct (drop_while p v); reflexivity.
  - destruct (p a); [exact IH | reflexivity].
Qed.

(** Stripping on the right, piece by piece. *)
Lemma rstrip_app (x y : list ascii) :
  rev (drop_while isspace (rev (x ++ y)))
  = match rev (drop_while isspace (rev y)) with
    | [] => rev (drop_while isspace (rev x))
    | r => x ++ r
    end.
Proof.
  rewrite rev_app_distr, drop_while_app.
  destruct (drop_while isspace (rev y)) as [|d ds] eqn:E.
  - reflexivity.
  - rewrite rev_app_distr, rev_involutive.
    destruct (rev (d :: ds)) eqn:E'; [|reflexivity].
    apply (f_equal (@length ascii)) in E'. rewrite length_rev in E'. discriminate E'.
Qed.

Lemma rstrip_single (a : ascii) :
  rev (drop_while isspace (rev [a])) = if isspace a then [] else [a].
Proof. simpl. destruct (isspace a); reflexivity. Qed.

Lemma rstrip_cons (a : ascii) (l : list ascii) :
  rev (drop_while isspace (rev (a :: l)))
  = match rev (drop_while isspace (rev l)) with
    | [] => if isspace a then [] else [a]
    | r => a :: r
    end.
Proof.
  change (a :: l) with ([a] ++ l). rewrite rstrip_app, rstrip_single. reflexivity.
Qed.

Lemma chars_join (sep : string) (ws : list (list ascii)) :
  sep = " " -> chars (join sep (map of_chars ws)) = spaced ws.
Proof.
  intros ->. induction ws as [|w ws IH]; [reflexivity|].
  destruct ws as [|w' ws'].
  - simpl. apply chars_of_chars.
  - change (join " " (map of_chars (w :: w' :: ws')))
      with (of_chars w +:+ " " +:+ join " " (map of_chars (w' :: ws'))).
    rewrite !chars_append, IH, chars_of_chars. reflexivity.
Qed.

Lemma split_chars_words (cur l : list ascii) :
  Forall (fun w => w <> []) (split_chars cur l).
Proof.
  revert cur; induction l as [|a l IH]; intros cur; simpl.
  - destruct cur as [|c cur]; constructor; [|constructor].
    intros H. apply (f_equal (@length ascii)) in H. simpl in H.
    rewrite length_app in H. simpl in H. lia.
  - destruct (isspace a); [|apply IH].
    destruct cur as [|c cur]; [apply IH|]. constructor; [|apply IH].
    intros H. apply (f_equal (@length ascii)) in H. simpl in H.
    rewrite length_app in H. simpl in H. lia.
Qed.

Lemma spaced_nil (ws : list (list ascii)) :
  Forall (fun w => w <> []) ws -> spaced ws = [] -> ws = [].
Proof.
  intros H E. destruct H as [|w ws Hw Hws]; [reflexivity|].
  destruct ws; simpl in E.
  - contradiction.
  - destruct w; [contradiction | discriminate E].
Qed.

Lemma squeeze_true_clean (l : list ascii) : starts_clean (squeeze true l).
Proof.
  induction l as [|a l IH]; simpl; [exact I|].
  destruct (isspace a) eqn:Ha; [exact IH | exact Ha].
Qed.

Lemma drop_squeeze (l : list ascii) :
  drop_while isspace (squeeze false l) = squeeze true l.
Proof.
  destruct l as [|a l]; [reflexivity|]. simpl.
  destruct (isspace a) eqn:Ha; simpl.
  - change (isspace " ") with true. cbv iota.
    apply drop_while_clean, squeeze_true_clean.
  - rewrite Ha. reflexivity.
Qed.

(** The words joined by single spaces are the text with its white space
    squeezed and stripped. *)
Lemma spaced_split (cur l : list ascii) :
  Forall (fun c => isspace c = false) cur ->
  spaced (split_chars cur l)
  = rev (drop_while isspace
           (rev (rev cur ++ squeeze (match cur with [] => true | _ => false end) l))).
Proof.
  revert cur; induction l as [|a l IH]; intros cur Hcur.
  - simpl. rewrite app_nil_r. destruct cur as [|c cur]; [reflexivity|].
    cbn [spaced]. simpl rev at 2. rewrite rstrip_app, rstrip_single.
    inversion Hcur as [|? ? Hc _]; subst. rewrite Hc. reflexivity.
  - cbn [split_chars squeeze]. destruct (isspace a) eqn:Ha.
    + destruct cur as [|c cur].
      * apply (IH [] Hcur).
      * specialize (IH [] (List.Forall_nil _)). cbn [rev app] in IH.
        pose proof (split_chars_words [] l) as Hw.
        rewrite rstrip_app, rstrip_cons, <- IH.
        change (isspace " ") with true. cbv iota.
        destruct (split_chars [] l) as [|w ws] eqn:E.
        { cbn [spaced]. rewrite rev_involutive. cbn [drop_while].
          inversion Hcur as [|? ? Hc _]; subst. rewrite Hc. reflexivity. }
        { destruct (spaced (w :: ws)) as [|x xs] eqn:Es.
          - apply spaced_nil in Es; [discriminate Es | exact Hw].
          - cbn [spaced]. destruct ws; rewrite <- ?Es; reflexivity. }
    + rewrite (IH (a :: cur)) by (constructor; assumption).
      cbn [rev]. rewrite <- app_assoc. cbn [app].
      destruct cur; reflexivity.
Qed.

Lemma chars_words (s : string) :
  chars (join " " (split s)) = strip_chars (squeeze false (chars s)).
Proof.
  unfold split. rewrite chars_join by reflexivity.
  rewrite (spaced_split [] (chars s) (List.Forall_nil _)).
  unfold strip_chars. rewrite drop_squeeze. reflexivity.
Qed.

(** White space at the end adds no word. *)
Lemma split_chars_spaces (cur ws : list ascii) :
  Forall (fun c => isspace c = true) ws ->
  split_chars cur ws = split_chars cur [].
Proof.
  intros H; revert cur; induction H as [|a ws Ha Hws IH]; intros cur; [reflexivity|].
  cbn [split_chars]. rewrite Ha, (IH []). destruct cur; reflexivity.
Qed.

Lemma split_chars_app_spaces (cur l ws : list ascii) :
  Forall (fun c => isspace c = true) ws ->
  split_chars cur (l ++ ws) = split_chars cur l.
Proof.
  intros H; revert cur; induction l as [|a l IH]; intros cur.
  - apply split_chars_spaces, H.
  - cbn [app split_chars]. destruct (isspace a); rewrite ?IH; reflexivity.
Qed.

Lemma split_chars_squeeze (l : list ascii) :
  (forall cur, split_chars cur (squeeze false l) = split_chars cur l) /\
  split_chars [] (squeeze true l) = split_chars [] l.
Proof.
  induction l as [|a l [IH1 IH2]]; [split; reflexivity|].
  cbn [squeeze]. destruct (isspace a) eqn:Ha.
  - split.
    + intros cur. cbn [split_chars]. change (isspace " ") with true. cbv iota.
      rewrite Ha, IH2. reflexivity.
    + cbn [split_chars]. rewrite Ha. exact IH2.
  - split.
    + intros cur. cbn [split_chars]. rewrite Ha. apply IH1.
    + cbn [split_chars]. rewrite Ha. apply IH1.
Qed.

Lemma split_chars_strip (l : list ascii) :
  split_chars [] (strip_chars l) = split_chars [] l.
Proof.
  unfold strip_chars.
  assert (H1 : split_chars [] (drop_while isspace l) = split_chars [] l).
  { induction l as [|a l IH]; [reflexivity|]. simpl.
    destruct (isspace a) eqn:Ha; [exact IH|]. simpl. rewrite Ha. reflexivity. }
  rewrite <- H1.
  set (w := drop_while isspace l).
  rewrite <- (rstrip_prefix w) at 2.
  rewrite split_chars_app_spaces; [reflexivity|].
  apply List.Forall_rev, take_while_all.
Qed.

End WordFacts.

(** ** utils/cleaner.py: lines, duplicates and empty entries *)

Module LineFacts.
Import Chars Str Re Py Cleaner ReFacts CleanerFacts CleanerSpec PatternSpec PatternFacts
  TextSpec StrFacts PathFacts WordFacts.

(** *** Lines *)

Lemma split_on_plain (c : ascii) (cur l : list ascii) :
  Forall (fun a => a <> c) l -> split_on_chars c cur l = [rev cur ++ l].
Proof.
  intros H; revert cur; induction H as [|a l Ha Hl IH]; intros cur.
  - simpl. rewrite app_nil_r. reflexivity.
  - cbn [split_on_chars]. destruct (Ascii.eqb_spec a c); [contradiction|].
    rewrite IH. cbn [rev]. rewrite <- app_assoc. reflexivity.
Qed.

Lemma split_on_sep (c : ascii) (cur x rest : list ascii) :
  Forall (fun a => a <> c) x ->
  split_on_chars c cur (x ++ c :: rest) = (rev cur ++ x) :: split_on_chars c [] rest.
Proof.
  intros H; revert cur; induction H as [|a l Ha Hl IH]; intros cur.
  - cbn [app split_on_chars]. rewrite Ascii.eqb_refl, app_nil_r. reflexivity.
  - cbn [app split_on_chars]. destruct (Ascii.eqb_spec a c); [contradiction|].
    rewrite IH. cbn [rev]. rewrite <- app_assoc. reflexivity.
Qed.

Lemma split_on_pieces (c : ascii) (cur l : list ascii) :
  Forall (fun a => a <> c) cur ->
  Forall (Forall (fun a => a <> c)) (split_on_chars c cur l).
Proof.
  revert cur; induction l as [|a l IH]; intros cur Hcur.
  - constructor; [apply List.Forall_rev, Hcur | constructor].
  - cbn [split_on_chars]. destruct (Ascii.eqb_spec a c).
    + constructor; [apply List.Forall_rev, Hcur | apply IH; constructor].
    + apply IH. constructor; assumption.
Qed.

Lemma chars_join_char (c : ascii) (ls : list (list ascii)) :
  chars (join (String c "") (map of_chars ls)) = joined c ls.
Proof.
  induction ls as [|l ls IH]; [reflexivity|].
  destruct ls as [|l' ls'].
  - simpl. apply chars_of_chars.
  - change (join (String c "") (map of_chars (l :: l' :: ls')))
      with (of_chars l +:+ String c "" +:+ join (String c "") (map of_chars (l' :: ls'))).
    rewrite !chars_append, IH, chars_of_chars. reflexivity.
Qed.

(** Splitting what was joined gives the pieces back. *)
Lemma split_joined (c : ascii) (ls : list (list ascii)) :
  ls <> [] -> Forall (Forall (fun a => a <> c)) ls ->
  split_on_chars c [] (joined c ls) = ls.
Proof.
  intros Hne H. induction H as [|l ls Hl Hls IH]; [contradiction|].
  destruct ls as [|l' ls'].
  - simpl. apply (split_on_plain c [] l Hl).
  - change (joined c (l :: l' :: ls')) with (l ++ c :: joined c (l' :: ls')).
    rewrite (split_on_sep c [] l _ Hl), IH by discriminate. reflexivity.
Qed.

Lemma split_on_nonempty (c : ascii) (cur l : list ascii) :
  split_on_chars c cur l <> [].
Proof.
  revert cur; induction l as [|a l IH]; intros cur; simpl; [discriminate|].
  destruct (Ascii.eqb a c); [discriminate | apply IH].
Qed.

(** Joining what was split gives the text back. *)
Lemma joined_split (c : ascii) (cur l : list ascii) :
  joined c (split_on_chars c cur l) = rev cur ++ l.
Proof.
  revert cur; induction l as [|a l IH]; intros cur.
  - simpl. rewrite app_nil_r. reflexivity.
  - cbn [split_on_chars]. destruct (Ascii.eqb_spec a c) as [->|].
    + destruct (split_on_chars c [] l) as [|x xs] eqn:E.
      * exfalso. apply (split_on_nonempty c [] l E).
      * change (joined c (rev cur :: x :: xs)) with (rev cur ++ c :: joined c (x :: xs)).
        rewrite <- E, IH. reflexivity.
    + rewrite IH. cbn [rev]. rewrite <- app_assoc. reflexivity.
Qed.


(** *** The two patterns of [remove_headers_footers] *)

Lemma in_class (items : list item) (k : cont) : True -> forall prev s,
  rmatch (In items) prev s k =
  match s with
  | a :: s' => if has items a then k (Some a) s' else None
  | [] => None
  end.
Proof. intros _ prev s. reflexivity. Qed.

Lemma plus_class (items : list item) (k : cont) (prev : option ascii) (s : list ascii) :
  rmatch (Plus (In items)) prev s k = back (has items) k s.
Proof.
  rewrite rmatch_Plus.
  apply (plus_back (rmatch (In items)) (has items) (fun _ => True) (in_class items)
           (fun _ _ _ _ => I) k I).
  lia.
Qed.

(** [p+] before something that cannot start with [p]: the whole run is taken. *)
Lemma back_found (p : ascii -> bool) (k : cont) :
  (forall p1 p2 s, found (k p1 s) = found (k p2 s)) ->
  (forall prev a s', p a = true -> k prev (a :: s') = None) ->
  forall s, found (back p k s) = head_is p s && found (k None (drop_while p s)).
Proof.
  intros Hprev Hex. induction s as [|a s IH]; [reflexivity|].
  cbn [back head_is drop_while]. destruct (p a) eqn:Ha; [|reflexivity].
  cbn [andb].
  destruct (back p k s) as [x|] eqn:E.
  - cbn [found] in IH |- *. symmetry in IH. apply andb_true_iff in IH as [_ IH].
    symmetry. exact IH.
  - cbn [found] in IH. destruct s as [|b s'].
    + apply Hprev.
    + cbn [head_is drop_while] in IH |- *. destruct (p b) eqn:Hb.
      * rewrite (Hex (Some a) b s' Hb). cbn [andb] in IH. exact IH.
      * apply Hprev.
Qed.

Lemma dollar_found (prev : option ascii) (s : list ascii) :
  found (dollar prev s) = at_dollar s.
Proof.
  destruct s as [|c [|d s]]; try reflexivity.
  unfold dollar, at_dollar. destruct (Ascii.eqb c (chr 10)); reflexivity.
Qed.

Lemma digit_not_feed (a : ascii) : isdecimal a = true -> Ascii.eqb a (chr 10) = false.
Proof. each_char a. Qed.

Lemma digit_not_blank (a : ascii) : isdecimal a = true -> Ascii.eqb a " " = false.
Proof. each_char a. Qed.

Lemma dollar_digit (prev : option ascii) (a : ascii) (s : list ascii) :
  has [Digit] a = true -> dollar prev (a :: s) = None.
Proof.
  rewrite has_digit. intros Ha. destruct s; [|reflexivity].
  unfold dollar. rewrite (digit_not_feed a Ha). reflexivity.
Qed.

Section Shapes.
Variable k : cont.
Variable R : regex.
Variable f : list ascii -> bool.
Hypothesis R_shape : forall prev l, found (rmatch R prev l k) = f l.

Lemma shape_in (items : list item) (prev : option ascii) (l : list ascii) :
  found (rmatch (Cat (In items) R) prev l k) = one (has items) f l.
Proof.
  rewrite rmatch_Cat. destruct l as [|a l]; [reflexivity|].
  cbn [rmatch one]. destruct (has items a); [apply R_shape | reflexivity].
Qed.

Lemma shape_chr (c : ascii) (prev : option ascii) (l : list ascii) :
  found (rmatch (Cat (Chr c) R) prev l k) = one (is_char c) f l.
Proof.
  rewrite rmatch_Cat. destruct l as [|a l]; [reflexivity|].
  cbn [rmatch one]. unfold is_char. destruct (Ascii.eqb a c); [apply R_shape | reflexivity].
Qed.

Lemma shape_plus (items : list item) (prev : option ascii) (l : list ascii) :
  (forall a l', has items a = true -> f (a :: l') = false) ->
  found (rmatch (Cat (Plus (In items)) R) prev l k) = run (has items) f l.
Proof.
  intros Hex. rewrite rmatch_Cat, plus_class, back_found.
  - unfold run. rewrite R_shape. reflexivity.
  - intros p1 p2 s. rewrite !R_shape. reflexivity.
  - intros prev' a s' Ha. specialize (R_shape prev' (a :: s')).
    rewrite (Hex a s' Ha) in R_shape.
    destruct (rmatch R prev' (a :: s') k); [discriminate R_shape | reflexivity].
Qed.

End Shapes.

Lemma shape_digits (prev : option ascii) (l : list ascii) :
  found (rmatch (Plus (In [Digit])) prev l dollar) = run (has [Digit]) at_dollar l.
Proof.
  rewrite plus_class, back_found.
  - unfold run. rewrite dollar_found. reflexivity.
  - intros p1 p2 s. rewrite !dollar_found. reflexivity.
  - intros prev' a s'. apply dollar_digit.
Qed.

Lemma number_found (l : list ascii) :
  found (rmatch number_re None l dollar) = run (has [Digit]) at_dollar l.
Proof. apply shape_digits. Qed.

Lemma blank_not_digit (a : ascii) (rest : list ascii -> bool) (l : list ascii) :
  has [Digit] a = true -> one (is_char " ") rest (a :: l) = false.
Proof.
  rewrite has_digit. intros Ha. cbn [one]. unfold is_char.
  rewrite (digit_not_blank a Ha). reflexivity.
Qed.

Lemma page_found (l : list ascii) :
  found (rmatch page_re None l dollar) = page_shape l.
Proof.
  unfold page_re, page_shape.
  apply shape_in. intros p1 l1. apply shape_in. intros p2 l2.
  apply shape_in. intros p3 l3. apply shape_in. intros p4 l4.
  apply shape_chr. intros p5 l5.
  apply shape_plus; [|intros a l' Ha; apply blank_not_digit, Ha].
  intros p6 l6. apply shape_chr. intros p7 l7.
  apply shape_in. intros p8 l8. apply shape_in. intros p9 l9.
  apply shape_chr. intros p10 l10. apply shape_digits.
Qed.


Lemma strip_ends_clean (x : list ascii) : ends_clean (strip_chars x).
Proof.
  intros pre c H. unfold strip_chars in H.
  apply (f_equal (@rev ascii)) in H. rewrite rev_involutive, rev_app_distr in H.
  cbn [rev app] in H.
  pose proof (drop_while_starts_clean (rev (drop_while isspace x))) as Hs.
  rewrite H in Hs. exact Hs.
Qed.

Lemma ends_clean_tail (a : ascii) (l : list ascii) :
  l <> [] -> ends_clean (a :: l) -> ends_clean l.
Proof. intros _ H pre c ->. apply (H (a :: pre) c). reflexivity. Qed.

Lemma ends_clean_app (x y : list ascii) :
  y <> [] -> ends_clean (x ++ y) -> ends_clean y.
Proof.
  intros _ H pre c ->. apply (H (x ++ pre) c). rewrite app_assoc. reflexivity.
Qed.

Lemma feed_is_space : isspace (chr 10) = true.
Proof. reflexivity. Qed.

Lemma of_chars_app (x y : list ascii) : of_chars (x ++ y) = of_chars x +:+ of_chars y.
Proof.
  induction x as [|a x IH]; [reflexivity|].
  change (of_chars ((a :: x) ++ y)) with (String a (of_chars (x ++ y))).
  rewrite IH. reflexivity.
Qed.

Lemma drop_while_stop (p : ascii -> bool) (n : list ascii) (a : ascii) (x : list ascii) :
  Forall (fun c => p c = true) n -> p a = false ->
  drop_while p (n ++ a :: x) = a :: x.
Proof.
  intros Hn Ha. induction Hn as [|c n Hc Hn IH]; simpl; [rewrite Ha|rewrite Hc]; auto.
Qed.

Lemma drop_while_whole (p : ascii -> bool) (n : list ascii) :
  Forall (fun c => p c = true) n -> drop_while p n = [].
Proof. apply drop_while_all. Qed.

Lemma forall_digit (l : list ascii) :
  Forall (fun c => has [Digit] c = true) l <-> Forall (fun c => isdecimal c = true) l.
Proof. split; apply List.Forall_impl; intros c; rewrite has_digit; auto. Qed.

(** A run of digits that ends the text. *)
Lemma run_to_end (l : list ascii) :
  ends_clean l ->
  run (has [Digit]) at_dollar l = true <->
  l <> [] /\ Forall (fun c => isdecimal c = true) l.
Proof.
  intros Hend. unfold run. rewrite andb_true_iff. split.
  - intros [Hh Hd]. split; [destruct l; [discriminate Hh | discriminate]|].
    apply forall_digit.
    destruct (drop_while (has [Digit]) l) as [|c [|d r]] eqn:E; try discriminate Hd.
    + apply drop_while_nil, E.
    + exfalso. cbn [at_dollar] in Hd. apply Ascii.eqb_eq in Hd. subst c.
      pose proof (take_drop_while (has [Digit]) l) as Hl. rewrite E in Hl.
      symmetry in Hl. apply Hend in Hl. rewrite feed_is_space in Hl. discriminate Hl.
  - intros [Hne Hall]. apply forall_digit in Hall. split.
    + destruct Hall; [contradiction | assumption].
    + rewrite drop_while_all by exact Hall. reflexivity.
Qed.

Lemma number_shape (t : string) :
  ends_clean (chars t) ->
  run (has [Digit]) at_dollar (chars t) = true <-> number t.
Proof.
  intros H. rewrite (run_to_end _ H). unfold number.
  split; intros [Hne Hall]; (split; [|exact Hall]).
  - intros ->. apply Hne. reflexivity.
  - intros E. apply Hne. rewrite <- (of_chars_chars t), E. reflexivity.
Qed.

Lemma lower_as (c x : ascii) (items : list item) :
  (forall a, lower_char a = x <-> has items a = true) ->
  lower_char c = x <-> has items c = true.
Proof. auto. Qed.

Lemma class_p (a : ascii) : lower_char a = "p"%char <-> has [Ch "P"; Ch "p"] a = true.
Proof. split; each_char a. Qed.
Lemma class_a (a : ascii) : lower_char a = "a"%char <-> has [Ch "a"; Ch "A"] a = true.
Proof. split; each_char a. Qed.
Lemma class_g (a : ascii) : lower_char a = "g"%char <-> has [Ch "g"; Ch "G"] a = true.
Proof. split; each_char a. Qed.
Lemma class_e (a : ascii) : lower_char a = "e"%char <-> has [Ch "e"; Ch "E"] a = true.
Proof. split; each_char a. Qed.
Lemma class_o (a : ascii) : lower_char a = "o"%char <-> has [Ch "o"; Ch "O"] a = true.
Proof. split; each_char a. Qed.
Lemma class_f (a : ascii) : lower_char a = "f"%char <-> has [Ch "f"; Ch "F"] a = true.
Proof. split; each_char a. Qed.

Lemma lower_chars (w s : string) :
  lower w = s <-> map lower_char (chars w) = chars s.
Proof.
  unfold lower. split; intros H.
  - rewrite <- H, chars_of_chars. reflexivity.
  - rewrite H. apply of_chars_chars.
Qed.

Lemma page_shape_marker (l : list ascii) :
  ends_clean l -> page_shape l = true -> page_marker (of_chars l).
Proof.
  intros Hend H. unfold page_shape in H.
  destruct l as [|c1 [|c2 [|c3 [|c4 [|s1 r]]]]];
    cbn [one] in H; rewrite ?andb_false_r in H; try discriminate H.
  apply andb_true_iff in H as [E1 H]. apply andb_true_iff in H as [E2 H].
  apply andb_true_iff in H as [E3 H]. apply andb_true_iff in H as [E4 H].
  apply andb_true_iff in H as [Es1 H].
  apply Ascii.eqb_eq in Es1; subst s1.
  unfold run in H at 1. apply andb_true_iff in H as [Hn H].
  pose proof (take_drop_while (has [Digit]) r) as Hr.
  pose proof (take_while_all (has [Digit]) r) as Hnall.
  destruct (drop_while (has [Digit]) r) as [|s2 [|o [|f [|s3 r3]]]];
    cbn [one] in H; rewrite ?andb_false_r in H; try discriminate H.
  apply andb_true_iff in H as [Es2 H]. apply andb_true_iff in H as [E5 H].
  apply andb_true_iff in H as [E6 H]. apply andb_true_iff in H as [Es3 H].
  apply Ascii.eqb_eq in Es2; subst s2. apply Ascii.eqb_eq in Es3; subst s3.
  set (n := take_while (has [Digit]) r) in *.
  assert (Hm : r3 <> [] /\ Forall (fun c => isdecimal c = true) r3).
  { apply run_to_end; [|exact H].
    assert (E : c1 :: c2 :: c3 :: c4 :: " "%char :: r
                = ([c1; c2; c3; c4; " "%char] ++ n ++ [" "%char; o; f; " "%char]) ++ r3).
    { rewrite <- Hr, <- !app_assoc. reflexivity. }
    rewrite E in Hend. apply (ends_clean_app _ r3) in Hend; [exact Hend|].
    destruct r3; [discriminate H | discriminate]. }
  exists (of_chars [c1; c2; c3; c4]), (of_chars n), (of_chars [o; f]), (of_chars r3).
  split; [|split; [|split; [|split]]].
  - rewrite <- Hr.
    change (c1 :: c2 :: c3 :: c4 :: " "%char :: n ++ " "%char :: o :: f :: " "%char :: r3)
      with ([c1; c2; c3; c4] ++ [" "%char] ++ n ++ [" "%char] ++ [o; f] ++ [" "%char] ++ r3).
    rewrite !of_chars_app. reflexivity.
  - apply lower_chars. rewrite chars_of_chars. cbn [map].
    apply class_p in E1. apply class_a in E2. apply class_g in E3. apply class_e in E4.
    rewrite E1, E2, E3, E4. reflexivity.
  - apply lower_chars. rewrite chars_of_chars. cbn [map].
    apply class_o in E5. apply class_f in E6. rewrite E5, E6. reflexivity.
  - split.
    + intros E. apply (f_equal chars) in E. rewrite chars_of_chars in E.
      destruct r as [|d r']; [discriminate Hn|].
      unfold n in E. cbn [take_while head_is] in E, Hn. rewrite Hn in E. discriminate E.
    + rewrite chars_of_chars. apply forall_digit, Hnall.
  - destruct Hm as [Hne Hall]. split.
    + intros E. apply Hne. apply (f_equal chars) in E.
      rewrite chars_of_chars in E. exact E.
    + rewrite chars_of_chars. exact Hall.
Qed.

Lemma head_is_run (p : ascii -> bool) (n x : list ascii) :
  n <> [] -> Forall (fun c => p c = true) n -> head_is p (n ++ x) = true.
Proof. intros Hne H. destruct H; [contradiction | assumption]. Qed.

Lemma marker_page_shape (t : string) : page_marker t -> page_shape (chars t) = true.
Proof.
  intros (w1 & n & w2 & m & -> & H1 & H2 & [Hn Hnall] & [Hm Hmall]).
  rewrite !chars_append. change (chars " ") with [" "%char].
  apply lower_chars in H1, H2.
  destruct (chars w1) as [|c1 [|c2 [|c3 [|c4 [|? ?]]]]]; try discriminate H1.
  destruct (chars w2) as [|o [|f [|? ?]]]; try discriminate H2.
  injection H1 as E1 E2 E3 E4. injection H2 as E5 E6.
  apply class_p in E1. apply class_a in E2. apply class_g in E3. apply class_e in E4.
  apply class_o in E5. apply class_f in E6.
  assert (Hn' : chars n <> []).
  { intros E. apply Hn. rewrite <- (of_chars_chars n), E. reflexivity. }
  assert (Hm' : chars m <> []).
  { intros E. apply Hm. rewrite <- (of_chars_chars m), E. reflexivity. }
  apply forall_digit in Hnall, Hmall.
  unfold page_shape. cbn [app one]. rewrite E1, E2, E3, E4. cbn [andb].
  unfold is_char at 1. rewrite Ascii.eqb_refl. cbn [andb].
  unfold run at 1. rewrite (head_is_run _ _ _ Hn' Hnall). cbn [andb].
  rewrite (drop_while_stop (has [Digit]) (chars n) " "%char _ Hnall eq_refl).
  cbn [one]. unfold is_char. rewrite !Ascii.eqb_refl, E5, E6. cbn [andb].
  unfold run. rewrite <- (app_nil_r (chars m)) at 1.
  rewrite (head_is_run _ _ _ Hm' Hmall), drop_while_all by exact Hmall.
  reflexivity.
Qed.

(** What [keeps_line] tests, without the matcher. *)
Lemma keeps_line_iff (line : string) :
  keeps_line line = true <->
  (3 <= String.length (strip line))%nat /\
  ~ number (strip line) /\ ~ page_marker (strip line).
Proof.
  assert (Hend : ends_clean (chars (strip line))).
  { unfold strip. rewrite chars_of_chars. apply strip_ends_clean. }
  unfold keeps_line, matches.
  change (match rmatch page_re None (chars (strip line)) dollar with
          | Some _ => true | None => false end)
    with (found (rmatch page_re None (chars (strip line)) dollar)).
  change (match rmatch number_re None (chars (strip line)) dollar with
          | Some _ => true | None => false end)
    with (found (rmatch number_re None (chars (strip line)) dollar)).
  rewrite page_found, number_found, !andb_true_iff, !negb_true_iff, Nat.ltb_ge.
  split.
  - intros [[Hp Hn] Hl]. split; [exact Hl|]. split.
    + intros H. apply (number_shape _ Hend) in H. rewrite H in Hn. discriminate Hn.
    + intros H. apply marker_page_shape in H. rewrite H in Hp. discriminate Hp.
  - intros (Hl & Hn & Hp). split; [split|exact Hl].
    + destruct (page_shape (chars (strip line))) eqn:E; [|reflexivity].
      exfalso. apply Hp. rewrite <- (of_chars_chars (strip line)).
      apply (page_shape_marker _ Hend E).
    + destruct (run (has [Digit]) at_dollar (chars (strip line))) eqn:E; [|reflexivity].
      exfalso. apply Hn. apply (number_shape _ Hend), E.
Qed.

End LineFacts.

Module EntryFacts.
Import Chars Str Re Py Cleaner ReFacts CleanerFacts CleanerSpec TextSpec StrFacts
  PathFacts WordFacts LineFacts.

(** *** The lines kept *)

Lemma filter_map_comm {A B : Type} (f : A -> B) (p : B -> bool) (l : list A) :
  List.filter p (map f l) = map f (List.filter (fun a => p (f a)) l).
Proof.
  induction l as [|a l IH]; [reflexivity|]. simpl.
  destruct (p (f a)); simpl; rewrite IH; reflexivity.
Qed.

Lemma filter_fixed {A : Type} (p : A -> bool) (l : list A) :
  List.filter p (List.filter p l) = List.filter p l.
Proof.
  induction l as [|a l IH]; [reflexivity|]. simpl.
  destruct (p a) eqn:Ha; simpl; rewrite ?Ha, IH; reflexivity.
Qed.

Lemma Forall_filter {A : Type} (P : A -> Prop) (p : A -> bool) (l : list A) :
  Forall P l -> Forall P (List.filter p l).
Proof.
  induction 1 as [|a l Ha Hl IH]; simpl; [constructor|].
  destruct (p a); [constructor; assumption | exact IH].
Qed.

(** The lines that [remove_headers_footers] keeps, as characters. *)
Lemma kept_lines (text : string) :
  List.filter keeps_line (split_on (chr 10) text)
  = map of_chars (List.filter (fun l => keeps_line (of_chars l))
                    (split_on_chars (chr 10) [] (chars text))).
Proof. unfold split_on. apply filter_map_comm. Qed.

Lemma lines_of_result (text : string) :
  List.filter keeps_line (split_on (chr 10) text) <> [] ->
  split_on (chr 10) (remove_headers_footers text)
  = List.filter keeps_line (split_on (chr 10) text).
Proof.
  intros Hne. unfold remove_headers_footers. rewrite kept_lines in Hne |- *.
  set (K := List.filter _ (split_on_chars (chr 10) [] (chars text))) in *.
  unfold split_on at 1. rewrite chars_join_char, split_joined; [reflexivity| |].
  - intros E. rewrite E in Hne. contradiction.
  - apply Forall_filter, split_on_pieces. constructor.
Qed.

Lemma no_lines_kept (text : string) :
  List.filter keeps_line (split_on (chr 10) text) = [] ->
  remove_headers_footers text = "".
Proof. intros H. unfold remove_headers_footers. rewrite H. reflexivity. Qed.

Lemma remove_headers_footers_twice (text : string) :
  remove_headers_footers (remove_headers_footers text) = remove_headers_footers text.
Proof.
  destruct (List.filter keeps_line (split_on (chr 10) text)) as [|k ks] eqn:E.
  - rewrite (no_lines_kept text E). reflexivity.
  - unfold remove_headers_footers at 1.
    rewrite lines_of_result by (rewrite E; discriminate).
    rewrite filter_fixed. reflexivity.
Qed.

(** *** Entries *)

Lemma strip_head (c : ascii) (rest : string) :
  isspace c = false -> strip (String c rest) <> "".
Proof.
  intros Hc E. unfold strip in E. apply (f_equal chars) in E.
  rewrite chars_of_chars in E. change (chars "") with (@nil ascii) in E.
  change (chars (String c rest)) with (c :: chars rest) in E.
  unfold strip_chars in E. cbn [drop_while] in E. rewrite Hc in E.
  rewrite rstrip_cons, Hc in E.
  destruct (rev (drop_while isspace (rev (chars rest)))); discriminate E.
Qed.

Lemma str_of_Z_head (z : Z) :
  exists c rest, str_of_Z z = String c rest /\ isspace c = false.
Proof.
  unfold str_of_Z. destruct (Z.to_int z) as [u|u]; cbn [NilZero.string_of_int].
  - unfold NilZero.string_of_uint.
    destruct u; cbn [NilEmpty.string_of_uint]; eexists _, _; split; reflexivity.
  - eexists _, _. split; reflexivity.
Qed.

Lemma solid_text (v : value) : solid v -> strip (str v) <> "".
Proof.
  destruct v as [|b|z|r|s|l|d]; cbn [solid str repr].
  - intros _. vm_compute. discriminate.
  - intros _. destruct b; vm_compute; discriminate.
  - intros _. destruct (str_of_Z_head z) as (c & rest & -> & Hc).
    apply strip_head, Hc.
  - contradiction.
  - auto.
  - intros _. rewrite append_cons. apply strip_head. reflexivity.
  - intros _. rewrite append_cons. apply strip_head. reflexivity.
Qed.

Lemma any_text_blank (values : list value) :
  Forall blank values -> any_text values = false.
Proof.
  induction 1 as [|v vs (s & -> & Hs) Hvs IH]; [reflexivity|].
  unfold any_text in *. cbn [existsb str]. rewrite Hs, IH. reflexivity.
Qed.

Lemma any_text_solid (values : list value) :
  Exists solid values -> any_text values = true.
Proof.
  induction 1 as [v vs Hv|v vs Hvs IH]; unfold any_text in *; cbn [existsb].
  - apply solid_text in Hv.
    destruct (String.eqb_spec (strip (str v)) ""); [contradiction | reflexivity].
  - rewrite IH. apply orb_true_r.
Qed.

Lemma remove_empty_dicts (ds : list dict) :
  remove_empty_entries (map VDict ds)
  = Ok (map VDict (List.filter (fun d => any_text (map snd d)) ds)).
Proof.
  induction ds as [|d ds IH]; [reflexivity|].
  cbn [map remove_empty_entries values_method bind List.filter]. rewrite IH.
  cbn [bind]. destruct (any_text (map snd d)); reflexivity.
Qed.

Lemma remove_empty_result (data kept : list value) :
  remove_empty_entries data = Ok kept ->
  exists ds, data = map VDict ds /\
             kept = map VDict (List.filter (fun d => any_text (map snd d)) ds).
Proof.
  revert kept; induction data as [|entry rest IH]; intros kept H.
  - injection H as <-. exists []. split; reflexivity.
  - cbn [remove_empty_entries] in H.
    destruct entry as [| | | | | |d]; try discriminate H.
    cbn [values_method bind] in H.
    destruct (remove_empty_entries rest) as [kept'|] eqn:E; [|discriminate H].
    cbn [bind] in H. injection H as <-.
    destruct (IH kept' eq_refl) as (ds & -> & ->).
    exists (d :: ds). split; [reflexivity|].
    cbn [List.filter]. destruct (any_text (map snd d)); reflexivity.
Qed.

Lemma remove_empty_raises (pre : list dict) (v : value) (post : list value) :
  ~ is_dict v ->
  remove_empty_entries (map VDict pre ++ v :: post) = Raise (no_attribute v "values").
Proof.
  intros Hv. induction pre as [|d pre IH].
  - cbn [map app remove_empty_entries].
    destruct v; try reflexivity. contradiction Hv. exact I.
  - cbn [map app remove_empty_entries values_method bind]. rewrite IH. reflexivity.
Qed.

(** *** Duplicates *)

Lemma hkey_eqb_eq (a b : hkey) :
  hkey_eqb a b = true <-> a = b /\ a <> KFloat "nan".
Proof.
  split.
  - intros H. destruct a, b; cbn [hkey_eqb] in H; try discriminate H.
    + split; [reflexivity | discriminate].
    + apply Z.eqb_eq in H. subst. split; [reflexivity | discriminate].
    + apply andb_true_iff in H as [H Hn]. apply String.eqb_eq in H. subst.
      split; [reflexivity|]. intros E. injection E as ->. discriminate Hn.
    + apply String.eqb_eq in H. subst. split; [reflexivity | discriminate].
  - intros [<- Hn]. destruct a; cbn [hkey_eqb].
    + reflexivity.
    + apply Z.eqb_refl.
    + rewrite String.eqb_refl. cbn [andb].
      destruct (String.eqb_spec r "nan") as [->|]; [contradiction | reflexivity].
    + apply String.eqb_refl.
Qed.

Lemma seen_iff (k : hkey) (seen : list hkey) :
  k <> KFloat "nan" ->
  (existsb (hkey_eqb k) seen = true <-> List.In k seen).
Proof.
  intros Hk. rewrite existsb_exists. split.
  - intros (x & Hx & E). apply hkey_eqb_eq in E as [E _]. subst. exact Hx.
  - intros H. exists k. split; [exact H | apply hkey_eqb_eq; split; [reflexivity | exact Hk]].
Qed.

(** The key of an item that is no NaN is no NaN. *)
Lemma item_key_number (item : value) (k : hkey) :
  item <> VFloat "nan" -> item_key item = Ok k -> k <> KFloat "nan".
Proof.
  intros Hn H ->. destruct item as [| | |r| | |]; try discriminate H.
  cbn [item_key hash_key] in H. destruct (Double.float_int r); [discriminate H|].
  injection H as ->. apply Hn. reflexivity.
Qed.

(** An item has a key unless it is a list. *)
Lemma item_key_returns (item : value) :
  (exists k, item_key item = Ok k) <-> (forall l, item <> VList l).
Proof.
  split.
  - intros [k H] l ->. discriminate H.
  - intros H. destruct item; try (eexists; reflexivity).
    exfalso. apply (H l). reflexivity.
Qed.

Lemma dedup_returns (items : list value) :
  forall seen,
    (exists result, remove_duplicates_from seen items = Ok result) <->
    Forall (fun item => forall l, item <> VList l) items.
Proof.
  induction items as [|item rest IH]; intros seen.
  - split; [constructor | eexists; reflexivity].
  - cbn [remove_duplicates_from]. split.
    + intros [result H].
      destruct (item_key item) as [k|] eqn:Ek; [|discriminate H]. cbn [bind] in H.
      constructor; [apply item_key_returns; eauto|].
      destruct (existsb (hkey_eqb k) seen).
      * apply (IH seen). eauto.
      * destruct (remove_duplicates_from (k :: seen) rest) as [r|] eqn:Er;
          [|discriminate H].
        apply (IH (k :: seen)). eauto.
    + intros H. inversion H as [|? ? Hitem Hrest]; subst.
      apply item_key_returns in Hitem as [k ->]. cbn [bind].
      destruct (existsb (hkey_eqb k) seen).
      * apply IH, Hrest.
      * apply (IH (k :: seen)) in Hrest as [r ->]. eexists. reflexivity.
Qed.

Lemma dedup_result (items : list value) :
  Forall (fun item => item <> VFloat "nan") items ->
  forall seen result,
    remove_duplicates_from seen items = Ok result ->
    result `sublist_of` items /\
    exists keys,
      mapM item_key result = Ok keys /\ List.NoDup keys /\
      Forall (fun k => k <> KFloat "nan") keys /\
      (forall k, List.In k keys -> ~ List.In k seen) /\
      (forall item k, List.In item items -> item_key item = Ok k -> List.In k seen \/ List.In k keys).
Proof.
  induction 1 as [|item rest Hitem Hrest IH]; intros seen result H.
  - injection H as <-. split; [constructor|].
    exists []. repeat split; [constructor | constructor | intros k [] | intros item k []].
  - cbn [remove_duplicates_from] in H.
    destruct (item_key item) as [k|] eqn:Ek; [|discriminate H]. cbn [bind] in H.
    pose proof (item_key_number item k Hitem Ek) as Hk0.
    destruct (existsb (hkey_eqb k) seen) eqn:Es.
    + destruct (IH seen result H) as (Hsub & keys & Hk & Hnd & Hnum & Hnew & Hall).
      split; [apply sublist_cons, Hsub|].
      exists keys. repeat split; try assumption.
      intros item' k' [<-|Hin] Hk'.
      * rewrite Ek in Hk'. injection Hk' as <-. left. apply (seen_iff k seen Hk0), Es.
      * apply (Hall item' k' Hin Hk').
    + destruct (remove_duplicates_from (k :: seen) rest) as [r|] eqn:Er; [|discriminate H].
      cbn [bind] in H. injection H as <-.
      destruct (IH (k :: seen) r Er) as (Hsub & keys & Hk & Hnd & Hnum & Hnew & Hall).
      split; [apply sublist_skip, Hsub|].
      exists (k :: keys). repeat split.
      * cbn [mapM]. rewrite Ek, Hk. reflexivity.
      * constructor; [|exact Hnd]. intros Hin. apply (Hnew k Hin). left. reflexivity.
      * constructor; assumption.
      * intros k' [<-|Hin] Hs.
        -- apply (seen_iff k seen Hk0) in Hs. rewrite Hs in Es. discriminate Es.
        -- apply (Hnew k' Hin). right. exact Hs.
      * intros item' k' [<-|Hin] Hk'.
        -- rewrite Ek in Hk'. injection Hk' as <-. right. left. reflexivity.
        -- destruct (Hall item' k' Hin Hk') as [[<-|Hs]|Hkeys].
           ++ right. left. reflexivity.
           ++ left. exact Hs.
           ++ right. right. exact Hkeys.
Qed.

Lemma dedup_fixed (result : list value) :
  forall seen keys,
    mapM item_key result = Ok keys -> List.NoDup keys ->
    Forall (fun k => k <> KFloat "nan") keys ->
    (forall k, List.In k keys -> ~ List.In k seen) ->
    remove_duplicates_from seen result = Ok result.
Proof.
  induction result as [|item rest IH]; intros seen keys Hk Hnd Hnum Hnew; [reflexivity|].
  cbn [mapM] in Hk. destruct (item_key item) as [k|] eqn:Ek; [|discriminate Hk].
  cbn [bind] in Hk. destruct (mapM item_key rest) as [ks|] eqn:Eks; [|discriminate Hk].
  cbn [bind] in Hk. injection Hk as <-.
  inversion Hnum as [|? ? Hk0 Hnum']; subst.
  cbn [remove_duplicates_from]. rewrite Ek. cbn [bind].
  destruct (existsb (hkey_eqb k) seen) eqn:Es.
  - apply (seen_iff k seen Hk0) in Es. exfalso.
    apply (Hnew k); [left; reflexivity | exact Es].
  - inversion Hnd as [|? ? Hnotin Hnd']; subst.
    rewrite (IH (k :: seen) ks eq_refl Hnd' Hnum'); [reflexivity|].
    intros k' Hin [<-|Hs]; [contradiction|].
    apply (Hnew k'); [right; exact Hin | exact Hs].
Qed.

Lemma in_mapM_keys (result : list value) (keys : list hkey) (k : hkey) :
  mapM item_key result = Ok keys -> List.In k keys ->
  exists kept, List.In kept result /\ item_key kept = Ok k.
Proof.
  revert keys; induction result as [|item rest IH]; intros keys Hk Hin.
  - injection Hk as <-. destruct Hin.
  - cbn [mapM] in Hk. destruct (item_key item) as [k0|] eqn:Ek; [|discriminate Hk].
    cbn [bind] in Hk. destruct (mapM item_key rest) as [ks|] eqn:Eks; [|discriminate Hk].
    cbn [bind] in Hk. injection Hk as <-. destruct Hin as [<-|Hin].
    + exists item. split; [left; reflexivity | exact Ek].
    + destruct (IH ks eq_refl Hin) as (kept & Hkept & E).
      exists kept. split; [right; exact Hkept | exact E].
Qed.

Lemma dedup_strings (l : list string) :
  forall seen, exists l',
    remove_duplicates_from seen (map VStr l) = Ok (map VStr l') /\
    List.NoDup l' /\
    (forall s, List.In s l' -> List.In s l /\ ~ List.In (KStr s) seen) /\
    (forall s, List.In s l -> List.In (KStr s) seen \/ List.In s l').
Proof.
  induction l as [|s l IH]; intros seen.
  - exists []. repeat split; [constructor | destruct H | destruct H | intros s []].
  - cbn [map remove_duplicates_from item_key hash_key bind].
    destruct (existsb (hkey_eqb (KStr s)) seen) eqn:Es.
    + destruct (IH seen) as (l' & E & Hnd & Hin & Hall).
      exists l'. repeat split; try assumption.
      * right. apply (Hin s0 H).
      * apply (Hin s0 H).
      * intros s0 [<-|H0]; [left; apply seen_iff; [discriminate | exact Es] | apply Hall, H0].
    + destruct (IH (KStr s :: seen)) as (l' & E & Hnd & Hin & Hall).
      exists (s :: l'). rewrite E. repeat split.
      * constructor; [|exact Hnd]. intros H. apply (Hin s H). left. reflexivity.
      * destruct H as [<-|H]; [left; reflexivity | right; apply (Hin s0 H)].
      * destruct H as [<-|H].
        -- intros Hs. apply seen_iff in Hs; [|discriminate].
           rewrite Hs in Es. discriminate Es.
        -- intros Hs. apply (Hin s0 H). right. exact Hs.
      * intros s0 [<-|H0]; [right; left; reflexivity|].
        destruct (Hall s0 H0) as [[E0|Hs]|Hl'].
        -- injection E0 as <-. right. left. reflexivity.
        -- left. exact Hs.
        -- right. right. exact Hl'.
Qed.

End EntryFacts.

(** ** The other methods of the cleaner *)

(** X1: [normalize_whitespace] is [clean_text] with the white space step as
    its only step: the words joined by single spaces are the text with every
    run of white space made one space and the ends stripped. *)
Theorem normalize_whitespace_as_clean_text (text : string) :
  Cleaner.normalize_whitespace text
  = DataCleaner.clean_text text
      (Some (DataCleaner.options_of false false false false false false true)).
Proof.
  rewrite PatternFacts.clean_text_patterns by reflexivity.
  change (DataCleaner.get _ "remove_special_chars" false) with false.
  change (DataCleaner.get _ "remove_numbers" false) with false.
  change (DataCleaner.get _ "lowercase" false) with false.
  change (DataCleaner.get _ "remove_urls" true) with false.
  change (DataCleaner.get _ "remove_emails" false) with false.
  unfold CleanerSpec.clean_chars, PatternSpec.clean_patterns.
  rewrite <- WordFacts.chars_words. symmetry. apply ReFacts.of_chars_chars.
Qed.

(** X2: normalizing twice is normalizing once, and the words of the
    normalized text are the words of the text. *)
Theorem normalize_whitespace_keeps_words (text : string) :
  Cleaner.normalize_whitespace (Cleaner.normalize_whitespace text)
  = Cleaner.normalize_whitespace text /\
  Str.split (Cleaner.normalize_whitespace text) = Str.split text.
Proof.
  assert (Hw : Str.split (Cleaner.normalize_whitespace text) = Str.split text).
  { unfold Cleaner.normalize_whitespace. unfold Str.split at 1.
    rewrite WordFacts.chars_words, WordFacts.split_chars_strip.
    rewrite (proj1 (WordFacts.split_chars_squeeze (Str.chars text))). reflexivity. }
  split; [|exact Hw].
  unfold Cleaner.normalize_whitespace at 1. rewrite Hw. reflexivity.
Qed.

(** X3: a line is kept by [remove_headers_footers] exactly when, stripped, it
    has three characters or more, is no number, and is no [Page n of m] in
    any case; when a line is kept, the lines of the result are the lines
    kept, in their order and as they were, and else the result is empty. *)
Theorem remove_headers_footers_lines (text : string) :
  let kept := List.filter Cleaner.keeps_line (Str.split_on (Chars.chr 10) text) in
  (forall line,
     Cleaner.keeps_line line = true <->
     (3 <= String.length (Str.strip line))%nat /\
     ~ TextSpec.number (Str.strip line) /\ ~ TextSpec.page_marker (Str.strip line)) /\
  (kept = [] -> Cleaner.remove_headers_footers text = "") /\
  (kept <> [] ->
   Str.split_on (Chars.chr 10) (Cleaner.remove_headers_footers text) = kept).
Proof.
  cbv zeta. split; [apply LineFacts.keeps_line_iff|]. split.
  - apply EntryFacts.no_lines_kept.
  - apply EntryFacts.lines_of_result.
Qed.

(** X4: removing the headers and footers of a text twice is removing them
    once. *)
Theorem remove_headers_footers_idempotent (text : string) :
  Cleaner.remove_headers_footers (Cleaner.remove_headers_footers text)
  = Cleaner.remove_headers_footers text.
Proof. apply EntryFacts.remove_headers_footers_twice. Qed.

(** X5: of a list of dictionaries, [remove_empty_entries] keeps those that
    have a value whose text is not blank, in their order. A dictionary with
    no value, or with blank strings only, is removed; one that has [None], a
    number, a boolean, a list or a dictionary among its values is kept. *)
Theorem remove_empty_entries_rules (ds : list Py.dict) :
  Cleaner.remove_empty_entries (map Py.VDict ds)
  = Py.Ok (map Py.VDict (List.filter (fun d => Cleaner.any_text (map snd d)) ds)) /\
  (forall values, Forall TextSpec.blank values -> Cleaner.any_text values = false) /\
  (forall values, Exists TextSpec.solid values -> Cleaner.any_text values = true).
Proof.
  split; [apply EntryFacts.remove_empty_dicts|]. split.
  - apply EntryFacts.any_text_blank.
  - apply EntryFacts.any_text_solid.
Qed.

(** X6: when [remove_empty_entries] returns, every entry was a dictionary,
    the result is a sublist of the data, and removing again changes nothing;
    it raises [AttributeError] at the first entry that is no dictionary. *)
Theorem remove_empty_entries_result (data : list Py.value) :
  (forall kept,
     Cleaner.remove_empty_entries data = Py.Ok kept ->
     Forall TextSpec.is_dict data /\ kept `sublist_of` data /\
     Cleaner.remove_empty_entries kept = Py.Ok kept) /\
  (forall pre v post,
     data = map Py.VDict pre ++ v :: post -> ~ TextSpec.is_dict v ->
     Cleaner.remove_empty_entries data = Py.Raise (Py.no_attribute v "values")).
Proof.
  split.
  - intros kept H.
    destruct (EntryFacts.remove_empty_result data kept H) as (ds & -> & ->).
    split; [|split].
    + apply List.Forall_forall. intros v Hv. apply in_map_iff in Hv as (d & <- & _).
      exact I.
    + clear H. induction ds as [|d ds IH]; [constructor|].
      cbn [List.filter map]. destruct (Cleaner.any_text (map snd d)).
      * apply sublist_skip, IH.
      * apply sublist_cons, IH.
    + rewrite EntryFacts.remove_empty_dicts, EntryFacts.filter_fixed. reflexivity.
  - intros pre v post -> Hv. apply EntryFacts.remove_empty_raises, Hv.
Qed.



(** X8: on a list of strings [remove_duplicates] does not raise: it returns
    the strings of the list, each once. *)
Theorem remove_duplicates_strings (l : list string) :
  exists l',
    Cleaner.remove_duplicates (map Py.VStr l) = Py.Ok (map Py.VStr l') /\
    List.NoDup l' /\ (forall s, List.In s l <-> List.In s l').
Proof.
  destruct (EntryFacts.dedup_strings l []) as (l' & E & Hnd & Hin & Hall).
  exists l'. split; [exact E|]. split; [exact Hnd|].
  intros s. split.
  - intros H. destruct (Hall s H) as [[]|H']. exact H'.
  - intros H. apply (Hin s H).
Qed.

(** ** Paths and extensions *)

Module ExtFacts.
Import Chars Str Py Path FileValidator ValidatorSpec ReFacts CleanerFacts StrFacts
  PathFacts WordFacts LineFacts.

Lemma drop_while_head (p : ascii -> bool) (l : list ascii) (a : ascii) (r : list ascii) :
  drop_while p l = a :: r -> p a = false.
Proof.
  induction l as [|b l IH]; simpl; [discriminate|].
  destruct (p b) eqn:Hb; [exact IH|]. intros H. injection H as <- _. exact Hb.
Qed.

(** [rsplit] cuts the text before the last [c]. *)
Lemma rsplit_parts (c : ascii) (l a b : list ascii) :
  rsplit c l = Some (a, b) ->
  exists t, b = c :: t /\ l = a ++ c :: t /\ Forall (fun x => x <> c) t.
Proof.
  unfold rsplit. intros H.
  pose proof (take_drop_while (fun x => negb (Ascii.eqb x c)) (rev l)) as Hl.
  pose proof (take_while_all (fun x => negb (Ascii.eqb x c)) (rev l)) as Ht.
  destruct (drop_while (fun x => negb (Ascii.eqb x c)) (rev l)) as [|c' before] eqn:E;
    [discriminate H|].
  injection H as <- <-.
  apply drop_while_head in E. apply negb_false_iff, Ascii.eqb_eq in E. subst c'.
  exists (rev (take_while (fun x => negb (Ascii.eqb x c)) (rev l))).
  split; [reflexivity|]. split.
  - apply (f_equal (@rev ascii)) in Hl.
    rewrite rev_involutive, rev_app_distr in Hl. cbn [rev] in Hl.
    rewrite <- app_assoc in Hl. symmetry. exact Hl.
  - apply List.Forall_rev, not_char, Ht.
Qed.

Lemma rsplit_none (c : ascii) (l : list ascii) :
  rsplit c l = None -> Forall (fun x => x <> c) l.
Proof.
  unfold rsplit. intros H.
  destruct (drop_while (fun x => negb (Ascii.eqb x c)) (rev l)) eqn:E; [|discriminate H].
  apply drop_while_nil, not_char in E. apply List.Forall_rev in E.
  rewrite rev_involutive in E. exact E.
Qed.

Lemma dir_and_name_parts (l : list ascii) :
  fst (dir_and_name l) ++ snd (dir_and_name l) = l.
Proof.
  unfold dir_and_name. destruct (rsplit "/" l) as [[dir name]|] eqn:E; [|reflexivity].
  apply rsplit_parts in E as (t & -> & -> & _). cbn [fst snd tl].
  rewrite <- app_assoc. reflexivity.
Qed.

(** The extension, when there is one: a dot and what follows the last dot of
    the path, in which there is no slash. *)
Lemma splitext_parts (p : string) :
  snd (splitext p) <> "" ->
  exists stem t,
    fst (splitext p) = of_chars stem /\ snd (splitext p) = of_chars ("."%char :: t) /\
    chars p = stem ++ "."%char :: t /\ Forall (fun x => x <> "."%char) t.
Proof.
  unfold splitext. pose proof (dir_and_name_parts (chars p)) as Hp.
  destruct (dir_and_name (chars p)) as [dir name]. cbn [fst snd] in Hp.
  destruct (rsplit "." name) as [[stem ext]|] eqn:E; [|intros H; contradiction H; reflexivity].
  destruct (forallb (fun a => Ascii.eqb a ".") stem);
    [intros H; contradiction H; reflexivity|].
  intros _. apply rsplit_parts in E as (t & -> & -> & Ht).
  exists (dir ++ stem), t. cbn [fst snd]. repeat split; try assumption.
  rewrite <- Hp, <- app_assoc. reflexivity.
Qed.

Lemma splitext_join (p : string) : fst (splitext p) +:+ snd (splitext p) = p.
Proof.
  destruct (String.eqb_spec (snd (splitext p)) "") as [E|Hne].
  - rewrite E, append_nil_r. revert E. unfold splitext.
    destruct (dir_and_name (chars p)) as [dir name].
    destruct (rsplit "." name) as [[stem ext]|] eqn:Er; [|reflexivity].
    destruct (forallb (fun a => Ascii.eqb a ".") stem); [reflexivity|].
    cbn [snd]. intros E. apply rsplit_parts in Er as (t & -> & _).
    discriminate E.
  - destruct (splitext_parts p Hne) as (stem & t & -> & -> & Hp & _).
    rewrite <- of_chars_app, <- Hp. apply of_chars_chars.
Qed.

Lemma endswith_app (a suffix : list ascii) :
  endswith (of_chars suffix) (of_chars (a ++ suffix)) = true.
Proof.
  unfold endswith. rewrite !chars_of_chars, rev_app_distr, of_chars_app.
  apply prefix_append.
Qed.

Lemma lower_ext (p ext : string) :
  extension p = ext -> ext <> "" ->
  exists stem t,
    chars p = stem ++ "."%char :: t /\ Forall (fun x => x <> "."%char) t /\
    snd (splitext p) = of_chars ("."%char :: t) /\
    map lower_char ("."%char :: t) = chars ext.
Proof.
  unfold extension. intros H Hne.
  assert (Hs : snd (splitext p) <> "").
  { intros E. rewrite E in H. apply Hne. rewrite <- H. reflexivity. }
  destruct (splitext_parts p Hs) as (stem & t & _ & Hext & Hp & Ht).
  exists stem, t. repeat split; try assumption.
  rewrite Hext in H. apply lower_chars in H. rewrite chars_of_chars in H. exact H.
Qed.

Lemma lower_path (p : string) (stem t : list ascii) :
  chars p = stem ++ "."%char :: t ->
  lower p = of_chars (map lower_char stem ++ map lower_char ("."%char :: t)).
Proof. intros H. unfold lower. rewrite H, map_app. reflexivity. Qed.

(** The last piece of a text cut at [c] is what follows its last [c]. *)
Lemma last_piece (c : ascii) (a t : list ascii) :
  Forall (fun x => x <> c) t ->
  forall cur d, List.last (split_on_chars c cur (a ++ c :: t)) d = t.
Proof.
  intros Ht. induction a as [|x a IH]; intros cur d.
  - cbn [app split_on_chars]. rewrite Ascii.eqb_refl.
    rewrite (split_on_plain c [] t Ht). reflexivity.
  - cbn [app split_on_chars]. destruct (Ascii.eqb x c).
    + pose proof (split_on_nonempty c [] (a ++ c :: t)) as Hne.
      destruct (split_on_chars c [] (a ++ c :: t)) as [|y ys] eqn:E; [contradiction|].
      change (List.last (rev cur :: y :: ys) d) with (List.last (y :: ys) d).
      rewrite <- E. apply IH.
    + apply IH.
Qed.

Lemma last_of_map {A B : Type} (f : A -> B) (l : list A) (d : A) :
  List.last (map f l) (f d) = f (List.last l d).
Proof.
  induction l as [|a l IH]; [reflexivity|].
  destruct l; [reflexivity|]. exact IH.
Qed.

Lemma last_dot_part (p : string) (stem t : list ascii) :
  chars p = stem ++ "."%char :: t -> Forall (fun x => x <> "."%char) t ->
  List.last (split_on "." p) "" = of_chars t.
Proof.
  intros Hp Ht. unfold split_on. change "" with (of_chars []).
  rewrite last_of_map, Hp, (last_piece "." stem t Ht). reflexivity.
Qed.

Lemma upper_of_lower (c x : ascii) :
  lower_char c = x -> between "a" "z" x = true ->
  upper_char c = [chr (code x - 32)].
Proof.
  intros <-. destruct c as [[] [] [] [] [] [] [] []];
    vm_compute; intros H; try discriminate H; reflexivity.
Qed.

Lemma upper_letters (t l : list ascii) :
  map lower_char t = l ->
  Forall (fun c => between "a" "z" c = true) l ->
  flat_map upper_char t = map (fun c => chr (code c - 32)) l.
Proof.
  revert l; induction t as [|c t IH]; intros l H Hl.
  - subst l. reflexivity.
  - subst l. inversion Hl as [|? ? Hy Hl']; subst.
    cbn [flat_map map].
    rewrite (upper_of_lower c (lower_char c) eq_refl Hy), (IH _ eq_refl Hl').
    reflexivity.
Qed.

(** [file_path.split('.')[-1].upper()] for a path with an extension of
    lower-case letters, in any case. *)
Lemma last_dot_part_upper_of (p x : string) :
  extension p = String "." x ->
  Forall (fun c => between "a" "z" c = true) (chars x) ->
  Converters.last_dot_part_upper p
  = of_chars (map (fun c => chr (code c - 32)) (chars x)).
Proof.
  intros H Hx. destruct (lower_ext p _ H) as (stem & t & Hp & Ht & _ & Hl);
    [discriminate|].
  unfold Converters.last_dot_part_upper. rewrite (last_dot_part p stem t Hp Ht).
  unfold upper. rewrite chars_of_chars. f_equal.
  apply upper_letters; [|exact Hx].
  cbn [map] in Hl. change (chars (String "." x)) with ("."%char :: chars x) in Hl.
  injection Hl as Hl. exact Hl.
Qed.

End ExtFacts.

(** X9: the three small methods of the validator agree with one another and
    with [validate_file]: a path is supported exactly when its extension in
    lower case is one of the supported ones, which is when its type is not
    ["Unknown"]; a file that [validate_file] accepts is supported, and the
    message is ["Valid "] and its type. *)
Theorem validator_methods_agree (stat : FileValidator.stat_fn) (file_path : string) :
  (FileValidator.is_supported file_path = true <->
   In (ValidatorSpec.extension file_path) FileValidator.get_supported_extensions) /\
  (FileValidator.is_supported file_path = true <->
   FileValidator.get_file_type file_path <> "Unknown") /\
  (forall message,
     FileValidator.validate_file stat file_path = Py.Ok (true, message) ->
     FileValidator.is_supported file_path = true /\
     message = "Valid " +:+ FileValidator.get_file_type file_path).
Proof.
  unfold FileValidator.is_supported, FileValidator.get_file_type,
    FileValidator.validate_file.
  fold (ValidatorSpec.extension file_path).
  pose proof (ValidatorFacts.supported_iff (ValidatorSpec.extension file_path)) as Hs.
  change FileValidator.get_supported_extensions
    with [".pdf"; ".docx"; ".doc"; ".xlsx"; ".xls"; ".csv"; ".txt"].
  destruct (FileValidator.assoc (ValidatorSpec.extension file_path)
              FileValidator.SUPPORTED_EXTENSIONS) as [label|] eqn:E.
  - split; [|split].
    + split; [intros _; apply Hs; eauto | reflexivity].
    + split; [|reflexivity]. intros _. cbn [default from_option].
      revert E. unfold FileValidator.SUPPORTED_EXTENSIONS. cbn [FileValidator.assoc].
      repeat match goal with
      | |- (if ?b then _ else _) = _ -> _ =>
          destruct b; [intros H; injection H as <-; discriminate|]
      end. discriminate.
    + intros message H. split; [reflexivity|].
      destruct (negb (FileValidator.exists_ stat file_path)); [discriminate H|].
      destruct (FileValidator.getsize stat file_path) as [size|]; [|discriminate H].
      cbn [Py.bind] in H.
      destruct (FileValidator.MAX_FILE_SIZE <? size)%N; [discriminate H|].
      destruct (size =? 0)%N; [discriminate H|].
      injection H as <-. reflexivity.
  - split; [|split].
    + split; [discriminate|]. intros H. apply Hs in H as [label H]. discriminate H.
    + split; [discriminate|]. intros H. contradiction H. reflexivity.
    + intros message H.
      destruct (negb (FileValidator.exists_ stat file_path)); discriminate H.
Qed.

(** X10: the text converter reads a file as CSV exactly by the test
    [file_path.lower().endswith('.csv')], which agrees with the extension
    that [process_file] dispatches on: a path whose extension is [.csv] in
    any case is read as CSV, and one whose extension is [.txt] as plain
    text. *)
Theorem text_extract_by_extension (e : Converters.env) (file_path encoding : string) :
  (ValidatorSpec.extension file_path = ".csv" ->
   Converters.TextConverter.extract_body e file_path encoding
   = Converters.TextConverter._extract_csv e file_path encoding) /\
  (ValidatorSpec.extension file_path = ".txt" ->
   Converters.TextConverter.extract_body e file_path encoding
   = Converters.TextConverter._extract_plain_text e file_path encoding).
Proof.
  unfold Converters.TextConverter.extract_body. split; intros H.
  - destruct (ExtFacts.lower_ext file_path _ H) as (stem & t & Hp & _ & _ & Hl);
      [discriminate|].
    rewrite (ExtFacts.lower_path file_path stem t Hp), Hl.
    change ".csv" with (Str.of_chars (Str.chars ".csv")) at 1.
    rewrite ExtFacts.endswith_app. reflexivity.
  - destruct (ExtFacts.lower_ext file_path _ H) as (stem & t & Hp & _ & _ & Hl);
      [discriminate|].
    rewrite (ExtFacts.lower_path file_path stem t Hp), Hl.
    unfold Str.endswith. rewrite !ReFacts.chars_of_chars, rev_app_distr.
    reflexivity.
Qed.

(** X11: the extension that the text and Excel converters put in their
    metadata is the last piece of the path cut at its dots, in upper case:
    for a path whose extension is [.csv], [.txt], [.xlsx] or [.xls] in any
    case, it is [CSV], [TXT], [XLSX] or [XLS]; for a path without a dot it
    is the whole path in upper case. *)
Theorem metadata_extension (file_path encoding : string) :
  (ValidatorSpec.extension file_path = ".csv" ->
   Converters.TextConverter.get_metadata file_path encoding
   = [("encoding", Py.VStr encoding); ("file_extension", Py.VStr "CSV")]) /\
  (ValidatorSpec.extension file_path = ".txt" ->
   Converters.TextConverter.get_metadata file_path encoding
   = [("encoding", Py.VStr encoding); ("file_extension", Py.VStr "TXT")]) /\
  (ValidatorSpec.extension file_path = ".xlsx" ->
   Converters.ExcelConverter.get_metadata file_path
   = [("file_type", Py.VStr "Excel Spreadsheet"); ("format", Py.VStr "XLSX")]) /\
  (ValidatorSpec.extension file_path = ".xls" ->
   Converters.ExcelConverter.get_metadata file_path
   = [("file_type", Py.VStr "Excel Spreadsheet"); ("format", Py.VStr "XLS")]) /\
  (Forall (fun c => c <> "."%char) (Str.chars file_path) ->
   Converters.last_dot_part_upper file_path = Str.upper file_path).
Proof.
  unfold Converters.TextConverter.get_metadata, Converters.ExcelConverter.get_metadata.
  repeat split; intros H.
  - rewrite (ExtFacts.last_dot_part_upper_of file_path "csv" H) by (repeat constructor).
    reflexivity.
  - rewrite (ExtFacts.last_dot_part_upper_of file_path "txt" H) by (repeat constructor).
    reflexivity.
  - rewrite (ExtFacts.last_dot_part_upper_of file_path "xlsx" H) by (repeat constructor).
    reflexivity.
  - rewrite (ExtFacts.last_dot_part_upper_of file_path "xls" H) by (repeat constructor).
    reflexivity.
  - unfold Converters.last_dot_part_upper, Str.split_on.
    rewrite (LineFacts.split_on_plain "." [] _ H). cbn [map List.last rev app].
    rewrite ReFacts.of_chars_chars. reflexivity.
Qed.

(** ** The statistics and the XML of a record *)

Module StatsFacts.
Import Chars Str Py DataFormatter FormatterSpec FormatterFacts StrFacts.

Lemma get_statistics_of (data : dict) (text : string) (tables : list value) :
  full_text_of data = Some text -> tables_of data = Some tables ->
  get_statistics data = Ok (statistics_of data text tables).
Proof.
  unfold full_text_of, tables_of, get_statistics, statistics_of, count_entry, has_key.
  intros Htext Htables.
  destruct (lookup "full_text" data) as [[]|]; try discriminate Htext;
    injection Htext as <-;
    destruct (lookup "tables" data) as [[]|]; try discriminate Htables;
    injection Htables as <-;
    cbn [len split_method bind];
    destruct (lookup "total_pages" data), (lookup "total_paragraphs" data);
    reflexivity.
Qed.

Lemma format_statistics_lines (stats extra : dict) :
  App._format_statistics (stats ++ extra)
  = App._format_statistics stats
    +:+ String.concat ""
          (map (fun '(key, value) =>
                  "**" +:+ title (replace_char "_" " " key) +:+ ":** "
                  +:+ str value +:+ nl) extra).
Proof.
  unfold App._format_statistics. rewrite map_app, concat_app, !append_assoc.
  reflexivity.
Qed.

End StatsFacts.

Module XmlMore.
Import Chars Str Py DataFormatter FormatterSpec FormatterFacts StrFacts XmlFacts.

Lemma dict_to_xml_app (d1 d2 : dict) (k : string) (root : string) :
  dict_to_xml (d1 ++ (k, VList []) :: d2) root = dict_to_xml (d1 ++ d2) root.
Proof.
  unfold dict_to_xml. rewrite !map_app, !concat_app. cbn [map].
  rewrite concat_cons. reflexivity.
Qed.

Lemma helper_app (d1 d2 : dict) (k tag : string) (level : nat) :
  dict_to_xml_helper (d1 ++ (k, VList []) :: d2) tag level
  = dict_to_xml_helper (d1 ++ d2) tag level.
Proof.
  unfold dict_to_xml_helper. cbn [xml_helper].
  rewrite !map_app, !concat_app. cbn [map]. rewrite concat_cons. reflexivity.
Qed.

End XmlMore.

(** X12: for a record whose ["full_text"], if any, is a string and whose
    ["tables"], if any, is a list, [get_statistics] returns six entries, in
    this order: the document type (["Unknown"] without one), a total size
    that is always 0, the length and the number of words of the text, whether
    the key ["tables"] is there, and the number of tables; then the number
    of pages if the record has one, else the number of paragraphs if it has
    one. *)
Theorem get_statistics_entries (data : Py.dict) (text : string) (tables : list Py.value) :
  FormatterSpec.full_text_of data = Some text ->
  FormatterSpec.tables_of data = Some tables ->
  DataFormatter.get_statistics data
  = Py.Ok ([("document_type", DataFormatter.get data "document_type" (Py.VStr "Unknown"));
            ("total_size", Py.VInt 0);
            ("text_length", Py.VInt (Z.of_nat (String.length text)));
            ("word_count", Py.VInt (Z.of_nat (length (Str.split text))));
            ("has_tables", Py.VBool (Py.has_key "tables" data));
            ("table_count", Py.VInt (Z.of_nat (length tables)))]
           ++ match Py.lookup "total_pages" data with
              | Some x => [("total_pages", x)]
              | None =>
                  match Py.lookup "total_paragraphs" data with
                  | Some x => [("total_paragraphs", x)]
                  | None => []
                  end
              end).
Proof. apply StatsFacts.get_statistics_of. Qed.

Lemma get_statistics_entries_witness :
  DataFormatter.get_statistics Fixtures.pdf_record
  = Py.Ok [("document_type", Py.VStr "PDF"); ("total_size", Py.VInt 0);
           ("text_length", Py.VInt 5); ("word_count", Py.VInt 3);
           ("has_tables", Py.VBool true); ("table_count", Py.VInt 0);
           ("total_pages", Py.VInt 1)].
Proof.
  exact (get_statistics_entries Fixtures.pdf_record "a b c" [] eq_refl eq_refl).
Defined.

(** X13: [get_statistics] returns exactly when the ["full_text"] of the
    record, if any, is a string, and its ["tables"], if any, has a length (a
    string, a list or a dictionary); else it raises. *)
Theorem get_statistics_returns (data : Py.dict) :
  (exists stats, DataFormatter.get_statistics data = Py.Ok stats) <->
  match Py.lookup "full_text" data with
  | None | Some (Py.VStr _) => True
  | _ => False
  end /\
  match Py.lookup "tables" data with
  | None | Some (Py.VStr _) | Some (Py.VList _) | Some (Py.VDict _) => True
  | _ => False
  end.
Proof.
  unfold DataFormatter.get_statistics.
  destruct (Py.lookup "full_text" data) as [[]|];
    destruct (Py.lookup "tables" data) as [[]|];
    cbn [Py.len Py.split_method Py.bind];
    (split; [intros [stats H]; try discriminate H; split; exact I
            | intros [H1 H2]; try contradiction; eexists; reflexivity]).
Qed.

(** X14: a key whose value is an empty list leaves nothing in the XML: the
    text is that of the record without the key, at the root and in a nested
    element. *)
Theorem to_xml_drops_empty_lists (d1 d2 : Py.dict) (key root_name : string) :
  DataFormatter.to_xml (d1 ++ (key, Py.VList []) :: d2) root_name
  = DataFormatter.to_xml (d1 ++ d2) root_name /\
  (forall tag indent_level,
     DataFormatter.dict_to_xml_helper (d1 ++ (key, Py.VList []) :: d2) tag indent_level
     = DataFormatter.dict_to_xml_helper (d1 ++ d2) tag indent_level).
Proof.
  split.
  - unfold DataFormatter.to_xml. rewrite XmlMore.dict_to_xml_app. reflexivity.
  - intros tag level. apply XmlMore.helper_app.
Qed.

(** X15: the statistics text that [process_file] shows for such a record:
    the heading, then one line for each entry of [get_statistics], the key
    in title case with spaces for its underscores. *)
Theorem format_statistics_text (data : Py.dict) (text : string) (tables : list Py.value)
  (stats : Py.dict) :
  FormatterSpec.full_text_of data = Some text ->
  FormatterSpec.tables_of data = Some tables ->
  DataFormatter.get_statistics data = Py.Ok stats ->
  App._format_statistics stats
  = "**Document Statistics**" +:+ DataFormatter.nl +:+ DataFormatter.nl
    +:+ "**Document Type:** "
    +:+ Py.str (DataFormatter.get data "document_type" (Py.VStr "Unknown"))
    +:+ DataFormatter.nl
    +:+ "**Total Size:** 0" +:+ DataFormatter.nl
    +:+ "**Text Length:** " +:+ Py.str_of_nat (String.length text) +:+ DataFormatter.nl
    +:+ "**Word Count:** " +:+ Py.str_of_nat (length (Str.split text)) +:+ DataFormatter.nl
    +:+ "**Has Tables:** " +:+ (if Py.has_key "tables" data then "True" else "False")
    +:+ DataFormatter.nl
    +:+ "**Table Count:** " +:+ Py.str_of_nat (length tables) +:+ DataFormatter.nl
    +:+ match Py.lookup "total_pages" data with
        | Some x => "**Total Pages:** " +:+ Py.str x +:+ DataFormatter.nl
        | None =>
            match Py.lookup "total_paragraphs" data with
            | Some x => "**Total Paragraphs:** " +:+ Py.str x +:+ DataFormatter.nl
            | None => ""
            end
        end.
Proof.
  intros Htext Htables H.
  rewrite (StatsFacts.get_statistics_of data text tables Htext Htables) in H.
  injection H as <-. unfold FormatterSpec.statistics_of.
  rewrite StatsFacts.format_statistics_lines. unfold App._format_statistics.
  cbn [map]. rewrite !StrFacts.concat_cons.
  change (Str.title (Str.replace_char "_" " " "document_type")) with "Document Type".
  change (Str.title (Str.replace_char "_" " " "total_size")) with "Total Size".
  change (Str.title (Str.replace_char "_" " " "text_length")) with "Text Length".
  change (Str.title (Str.replace_char "_" " " "word_count")) with "Word Count".
  change (Str.title (Str.replace_char "_" " " "has_tables")) with "Has Tables".
  change (Str.title (Str.replace_char "_" " " "table_count")) with "Table Count".
  change (String.concat "" []) with "".
  assert (Hlast :
    String.concat ""
      (map (fun '(key, value) =>
              "**" +:+ Str.title (Str.replace_char "_" " " key) +:+ ":** "
              +:+ Py.str value +:+ DataFormatter.nl) (FormatterSpec.count_entry data))
    = match Py.lookup "total_pages" data with
      | Some x => "**Total Pages:** " +:+ Py.str x +:+ DataFormatter.nl
      | None =>
          match Py.lookup "total_paragraphs" data with
          | Some x => "**Total Paragraphs:** " +:+ Py.str x +:+ DataFormatter.nl
          | None => ""
          end
      end).
  { unfold FormatterSpec.count_entry.
    destruct (Py.lookup "total_pages" data) as [x|];
      [|destruct (Py.lookup "total_paragraphs" data) as [x|]]; cbn [map String.concat].
    - change (Str.title (Str.replace_char "_" " " "total_pages")) with "Total Pages".
      rewrite ?StrFacts.append_assoc, ?StrFacts.append_nil_r. reflexivity.
    - change (Str.title (Str.replace_char "_" " " "total_paragraphs"))
        with "Total Paragraphs".
      rewrite ?StrFacts.append_assoc, ?StrFacts.append_nil_r. reflexivity.
    - reflexivity. }
  rewrite Hlast. cbn [Py.str Py.repr Py.str_of_bool].
  unfold Py.str_of_nat. rewrite ?StrFacts.append_assoc, ?StrFacts.append_nil_r.
  destruct (Py.has_key "tables" data); reflexivity.
Qed.

Lemma format_statistics_text_witness :
  exists stats,
    DataFormatter.get_statistics Fixtures.text_record = Py.Ok stats /\
    App._format_statistics stats
    = "**Document Statistics**" +:+ DataFormatter.nl +:+ DataFormatter.nl
      +:+ "**Document Type:** Text File" +:+ DataFormatter.nl
      +:+ "**Total Size:** 0" +:+ DataFormatter.nl
      +:+ "**Text Length:** 5" +:+ DataFormatter.nl
      +:+ "**Word Count:** 3" +:+ DataFormatter.nl
      +:+ "**Has Tables:** False" +:+ DataFormatter.nl
      +:+ "**Table Count:** 0" +:+ DataFormatter.nl.
Proof.
  eexists. split; [reflexivity|].
  exact (format_statistics_text Fixtures.text_record "a b c" [] _ eq_refl eq_refl eq_refl).
Defined.

(** ** The records of the extractors *)

Module RecordMore.
Import Chars Str Py Converters FormatterSpec FormatterFacts ReFacts StrFacts PathFacts
  TextSpec WordFacts LineFacts.

Lemma in_enumerate {A : Type} (xs : list A) :
  forall i0 i x,
    List.In (i, x) (enumerate_from i0 xs) <->
    (i0 <= i)%nat /\ nth_error xs (i - i0) = Some x.
Proof.
  induction xs as [|y xs IH]; intros i0 i x; cbn [enumerate_from].
  - split; [intros [] | intros [_ H]]. destruct (i - i0)%nat; discriminate H.
  - split.
    + intros [E|H].
      * injection E as <- <-. split; [lia|]. rewrite Nat.sub_diag. reflexivity.
      * apply IH in H as [Hle Hn]. split; [lia|].
        replace (i - i0)%nat with (S (i - S i0)) by lia. exact Hn.
    + intros [Hle Hn]. destruct (Nat.eq_dec i i0) as [->|Hne].
      * rewrite Nat.sub_diag in Hn. injection Hn as ->. left. reflexivity.
      * right. apply IH. split; [lia|].
        replace (i - i0)%nat with (S (i - S i0)) in Hn by lia. exact Hn.
Qed.

Lemma length_enumerate {A : Type} (xs : list A) (i0 : nat) :
  length (enumerate_from i0 xs) = length xs.
Proof. revert i0; induction xs; intros i0; simpl; [|rewrite IHxs]; reflexivity. Qed.

(** The number of lines is one more than the number of line feeds. *)
Lemma split_on_count (c : ascii) (cur l : list ascii) :
  length (split_on_chars c cur l) = S (count_occ ascii_dec l c).
Proof.
  revert cur; induction l as [|a l IH]; intros cur; [reflexivity|].
  cbn [split_on_chars count_occ].
  destruct (Ascii.eqb_spec a c) as [->|Hne].
  - destruct (ascii_dec c c) as [_|H]; [|contradiction]. cbn [length]. rewrite IH.
    reflexivity.
  - destruct (ascii_dec a c) as [H|_]; [contradiction|]. apply IH.
Qed.

Lemma join_split_on (c : ascii) (s : string) :
  join (String c "") (split_on c s) = s.
Proof.
  rewrite <- (of_chars_chars (join _ _)). unfold split_on.
  rewrite chars_join_char, joined_split. apply of_chars_chars.
Qed.

Lemma word_starts_space (b : bool) (x : list ascii) (sp : ascii) (y : list ascii) :
  isspace sp = true ->
  word_starts b (x ++ sp :: y) = (word_starts b x + word_starts true y)%nat.
Proof.
  intros Hs. revert b; induction x as [|a x IH]; intros b.
  - cbn [app word_starts]. rewrite Hs. reflexivity.
  - cbn [app word_starts]. destruct (isspace a); rewrite IH; lia.
Qed.

Lemma word_starts_initial_space (sp : ascii) (y : list ascii) :
  isspace sp = true -> word_starts true (sp :: y) = word_starts true y.
Proof. intros Hs. cbn [word_starts]. rewrite Hs. reflexivity. Qed.

(** The words of texts joined by blank lines are the words of the texts. *)
Lemma words_of_joined (texts : list string) :
  length (split (join blank_line texts))
  = list_sum (map (fun t => length (split t)) texts).
Proof.
  induction texts as [|t texts IH]; [reflexivity|].
  destruct texts as [|t' texts'].
  - change (join blank_line [t]) with t. unfold list_sum. cbn [map fold_right]. lia.
  - change (join blank_line (t :: t' :: texts'))
      with (t +:+ blank_line +:+ join blank_line (t' :: texts')).
    rewrite split_length in *. unfold word_count in *.
    rewrite !chars_append. change (chars blank_line) with [chr 10; chr 10].
    cbn [app]. rewrite word_starts_space by reflexivity.
    rewrite word_starts_initial_space by reflexivity.
    change (list_sum (map (fun t0 => length (split t0)) (t :: t' :: texts')))
      with (length (split t)
            + list_sum (map (fun t0 => length (split t0)) (t' :: texts')))%nat.
    rewrite split_length. unfold word_count. rewrite IH. reflexivity.
Qed.

Lemma mapM_length {A B : Type} (f : A -> result B) (xs : list A) (ys : list B) :
  mapM f xs = Ok ys -> length ys = length xs.
Proof.
  revert ys; induction xs as [|x xs IH]; intros ys H.
  - injection H as <-. reflexivity.
  - cbn [mapM] in H. destruct (f x); [|discriminate H]. cbn [bind] in H.
    destruct (mapM f xs) as [ys'|]; [|discriminate H]. cbn [bind] in H.
    injection H as <-. cbn [length]. rewrite (IH ys' eq_refl). reflexivity.
Qed.

Lemma enumerate_app {A : Type} (xs ys : list A) (i0 : nat) :
  enumerate_from i0 (xs ++ ys)
  = enumerate_from i0 xs ++ enumerate_from (i0 + length xs) ys.
Proof.
  revert i0; induction xs as [|x xs IH]; intros i0; cbn [app enumerate_from length].
  - rewrite Nat.add_0_r. reflexivity.
  - rewrite IH. replace (S i0 + length xs)%nat with (i0 + S (length xs))%nat by lia.
    reflexivity.
Qed.

Lemma append_until_error_all {A : Type} (P : value -> Prop) (f : A -> result (list value))
  (xs : list A) :
  (forall x ys, f x = Ok ys -> Forall P ys) -> Forall P (append_until_error f xs).
Proof.
  intros Hf. induction xs as [|x xs IH]; cbn [append_until_error]; [constructor|].
  destruct (f x) as [ys|] eqn:E; [|constructor].
  apply Forall_app. split; [apply (Hf x ys E) | exact IH].
Qed.

Lemma append_until_error_stops {A : Type} (f : A -> result (list value))
  (xs : list A) (bad : A) (rest : list A) (ex : exn) :
  Forall (fun x => exists ys, f x = Ok ys) xs -> f bad = Raise ex ->
  append_until_error f (xs ++ bad :: rest) = append_until_error f xs.
Proof.
  intros Hxs Hbad. induction Hxs as [|x xs [ys Hx] Hxs IH]; cbn [app append_until_error].
  - rewrite Hbad. reflexivity.
  - rewrite Hx, IH. reflexivity.
Qed.

(** What the sheets of a workbook give. *)
Lemma sheets_of_frames (e : env) (file_path : string) (names : list string)
  (sheets : list (value * list value)) :
  mapM (fun sheet_name =>
          let* df := read_excel e file_path sheet_name in
          let* statistics := ExcelConverter._get_statistics df in
          let records := map VDict (df_records df) in
          Ok (VDict [("sheet_name", VStr sheet_name);
                     ("rows", VNat (length (df_records df)));
                     ("columns", VNat (length (df_columns df)));
                     ("column_names", VList (df_columns df));
                     ("data", VList records);
                     ("preview", VList (firstn 10 records));
                     ("statistics", VDict statistics)],
              records))
       names = Ok sheets ->
  exists frames,
    mapM (read_excel e file_path) names = Ok frames /\
    flat_map snd sheets = flat_map (fun df => map VDict (df_records df)) frames.
Proof.
  revert sheets; induction names as [|name names IH]; intros sheets H.
  - injection H as <-. exists []. split; reflexivity.
  - cbn [mapM] in H.
    destruct (read_excel e file_path name) as [df|] eqn:Edf; [|discriminate H].
    cbn [bind] in H.
    destruct (ExcelConverter._get_statistics df) as [st|]; [|discriminate H].
    cbn [bind] in H.
    match type of H with
    | bind ?m _ = _ => destruct m as [rest|] eqn:Er; [|discriminate H]
    end.
    cbn [bind] in H. injection H as <-.
    destruct (IH rest eq_refl) as (frames & Hf & Hflat).
    exists (df :: frames). split.
    + cbn [mapM]. rewrite Edf. cbn [bind]. rewrite Hf. reflexivity.
    + cbn [flat_map snd]. rewrite Hflat. reflexivity.
Qed.

End RecordMore.

(** X16: the record of a plain text file: the lines are the text cut at its
    line feeds, one more than there are line feeds, and joined by line feeds
    they are the text; the field ["lines"] lists the lines that are not
    blank, each with its position in the text counted from 1. *)
Theorem plain_text_lines (e : Converters.env) (file_path encoding content : string) :
  Converters.read_text e file_path encoding = Py.Ok content ->
  let lines := Str.split_on (Chars.chr 10) content in
  exists record entries,
    Converters.TextConverter._extract_plain_text e file_path encoding = Py.Ok record /\
    Py.lookup "total_lines" record = Some (Converters.VNat (length lines)) /\
    length lines = S (count_occ ascii_dec (Str.chars content) (Chars.chr 10)) /\
    Str.join DataFormatter.nl lines = content /\
    Py.lookup "total_characters" record
    = Some (Converters.VNat (String.length content)) /\
    Py.lookup "lines" record = Some (Py.VList entries) /\
    (forall n text,
       List.In (Py.VDict [("line_number", Converters.VNat n); ("text", Py.VStr text)])
         entries <->
       (1 <= n)%nat /\ nth_error lines (n - 1) = Some text /\ Str.strip text <> "") /\
    Forall (fun entry =>
              exists n text,
                entry = Py.VDict [("line_number", Converters.VNat n);
                                  ("text", Py.VStr text)]) entries.
Proof.
  intros Hread lines. unfold Converters.TextConverter._extract_plain_text.
  rewrite Hread. cbn [Py.bind]. fold lines.
  eexists _, _. split; [reflexivity|].
  split; [reflexivity|]. split.
  { unfold lines, Str.split_on. rewrite length_map. apply RecordMore.split_on_count. }
  split; [apply RecordMore.join_split_on|].
  split; [reflexivity|]. split; [reflexivity|]. split.
  - intros n text. rewrite in_map_iff. split.
    + intros ([i line] & E & Hin). apply filter_In in Hin as [Hin Hnb].
      injection E as En ->. apply Nat2Z.inj in En. subst n.
      apply RecordMore.in_enumerate in Hin as [_ Hn].
      split; [lia|]. split.
      * replace (i + 1 - 1)%nat with (i - 0)%nat by lia. exact Hn.
      * intros E. rewrite E in Hnb. discriminate Hnb.
    + intros (Hn & Hnth & Hnb). exists ((n - 1)%nat, text). split.
      * replace (n - 1 + 1)%nat with n by lia. reflexivity.
      * apply filter_In. split.
        -- apply RecordMore.in_enumerate. split; [lia|].
           rewrite Nat.sub_0_r. exact Hnth.
        -- destruct (String.eqb_spec (Str.strip text) ""); [contradiction | reflexivity].
  - apply List.Forall_forall. intros entry Hin.
    apply in_map_iff in Hin as ([i line] & <- & _). eauto.
Qed.

Lemma plain_text_lines_witness :
  exists record,
    Converters.TextConverter._extract_plain_text Fixtures.office "in/a.txt" "ascii"
    = Py.Ok record /\
    Py.lookup "total_lines" record = Some (Py.VInt 1) /\
    Py.lookup "lines" record
    = Some (Py.VList [Py.VDict [("line_number", Py.VInt 1);
                                ("text", Py.VStr "Hello  WORLD http://x.y/z ok")]]).
Proof.
  destruct (plain_text_lines Fixtures.office "in/a.txt" "ascii"
              "Hello  WORLD http://x.y/z ok" eq_refl)
    as (record & entries & E & _).
  exists record. split; [exact E|].
  vm_compute in E. injection E as <-. split; reflexivity.
Defined.

(** X17: in the record of a PDF the number of words of the full text is the
    sum of the numbers of words of the pages, and the pages are numbered
    from 1; in the record of a Word document it is the sum over the
    paragraphs, which are those that are not blank. *)
Theorem word_counts_add_up (e : Converters.env) (file_path : string) (record : Py.dict) :
  (Converters.PDFConverter.extract_body e file_path = Py.Ok record ->
   exists texts full,
     Py.lookup "pages" record
     = Some (Py.VList
               (map (fun '(page_num, text) =>
                       Py.VDict [("page_number", Converters.VNat (page_num + 1));
                                 ("text", Py.VStr text);
                                 ("word_count",
                                  Converters.VNat (length (Str.split text)))])
                    (Converters.enumerate_from 0 texts))) /\
     Py.lookup "total_pages" record = Some (Converters.VNat (length texts)) /\
     Py.lookup "full_text" record = Some (Py.VStr full) /\
     length (Str.split full) = list_sum (map (fun t => length (Str.split t)) texts)) /\
  (Converters.WordConverter.extract_body e file_path = Py.Ok record ->
   exists paragraphs full,
     Py.lookup "paragraphs" record
     = Some (Py.VList
               (map (fun '(text, style) =>
                       Py.VDict [("text", Py.VStr text); ("style", Py.VStr style);
                                 ("word_count",
                                  Converters.VNat (length (Str.split text)))])
                    paragraphs)) /\
     Py.lookup "total_paragraphs" record = Some (Converters.VNat (length paragraphs)) /\
     Forall (fun para => Str.strip (fst para) <> "") paragraphs /\
     Py.lookup "full_text" record = Some (Py.VStr full) /\
     length (Str.split full)
     = list_sum (map (fun para => length (Str.split (fst para))) paragraphs)).
Proof.
  split; intros H.
  - unfold Converters.PDFConverter.extract_body in H.
    destruct (Converters.fitz_open e file_path) as [doc|]; [|discriminate H].
    cbn [Py.bind] in H.
    destruct (Py.mapM (fun page => page) (Converters.fitz_pages doc)) as [texts|] eqn:Et;
      [|discriminate H].
    cbn [Py.bind] in H.
    destruct (Converters.PDFConverter.get_metadata e file_path doc); [|discriminate H].
    cbn [Py.bind] in H. injection H as <-.
    exists texts, (Str.join Converters.blank_line texts).
    split; [reflexivity|]. split.
    { cbn [Py.lookup String.eqb]. rewrite (RecordMore.mapM_length _ _ _ Et).
      reflexivity. }
    split; [reflexivity|]. apply RecordMore.words_of_joined.
  - unfold Converters.WordConverter.extract_body in H.
    destruct (Converters.docx_open e file_path) as [doc|]; [|discriminate H].
    cbn [Py.bind] in H.
    match type of H with
    | Py.bind ?m _ = _ => destruct m as [paragraphs|] eqn:Ep; [|discriminate H]
    end.
    cbn [Py.bind] in H.
    destruct (Converters.WordConverter.get_metadata doc); [|discriminate H].
    cbn [Py.bind] in H. injection H as <-.
    exists paragraphs, (Str.join Converters.blank_line (map fst paragraphs)).
    split; [reflexivity|]. split; [reflexivity|]. split.
    { revert paragraphs Ep.
      induction (Converters.docx_paragraphs doc) as [|para paras IH];
        intros paragraphs Ep.
      - injection Ep as <-. constructor.
      - cbn [List.filter] in Ep.
        destruct (String.eqb_spec (Str.strip (Converters.para_text para)) "") as [E|Hne];
          cbn [negb] in Ep; [apply IH, Ep|].
        cbn [Py.mapM] in Ep.
        destruct (Converters.para_style_name para); [|discriminate Ep].
        cbn [Py.bind] in Ep.
        match type of Ep with
        | Py.bind ?m _ = _ => destruct m as [rest|] eqn:Er; [|discriminate Ep]
        end.
        cbn [Py.bind] in Ep. injection Ep as <-.
        constructor; [exact Hne | apply IH; reflexivity]. }
    split; [reflexivity|].
    rewrite RecordMore.words_of_joined, map_map. reflexivity.
Qed.

(** X18: the record of a workbook: ["all_data"] is the rows of all the
    sheets, one sheet after the other in the order of the sheet names, and
    these are the rows that the CSV export takes. *)
Theorem excel_all_data (e : Converters.env) (file_path : string) (record : Py.dict) :
  Converters.ExcelConverter.extract_body e file_path = Py.Ok record ->
  exists names frames,
    Converters.excel_sheet_names e file_path = Py.Ok names /\
    Py.mapM (Converters.read_excel e file_path) names = Py.Ok frames /\
    Py.lookup "total_sheets" record = Some (Converters.VNat (length names)) /\
    Py.lookup "all_data" record
    = Some (Py.VList (flat_map (fun df => map Py.VDict (Converters.df_records df)) frames)) /\
    App._extract_tabular_data record
    = Py.Ok (App.Rows (Py.VList (flat_map (fun df => map Py.VDict (Converters.df_records df))
                                          frames))).
Proof.
  unfold Converters.ExcelConverter.extract_body. intros H.
  destruct (Converters.excel_sheet_names e file_path) as [names|]; [|discriminate H].
  cbn [Py.bind] in H.
  match type of H with
  | Py.bind ?m _ = _ => destruct m as [sheets|] eqn:Es; [|discriminate H]
  end.
  cbn [Py.bind] in H. injection H as <-.
  destruct (RecordMore.sheets_of_frames e file_path names sheets Es)
    as (frames & Hf & Hflat).
  exists names, frames. split; [reflexivity|]. split; [exact Hf|].
  split; [reflexivity|]. rewrite <- Hflat. split; reflexivity.
Qed.

Lemma excel_all_data_witness :
  exists record,
    Converters.ExcelConverter.extract_body Fixtures.office_with_workbook "in/d.xlsx"
    = Py.Ok record /\
    App._extract_tabular_data record
    = Py.Ok (App.Rows (Py.VList [Py.VDict [("n", Py.VInt 1)]; Py.VDict [("n", Py.VInt 2)];
                                 Py.VDict [("n", Py.VInt 1)]; Py.VDict [("n", Py.VInt 2)]])).
Proof.
  destruct (Converters.ExcelConverter.extract_body Fixtures.office_with_workbook
              "in/d.xlsx") as [record|ex] eqn:H; [|vm_compute in H; discriminate H].
  exists record. split; [reflexivity|].
  destruct (excel_all_data Fixtures.office_with_workbook "in/d.xlsx" record H)
    as (names & frames & Hn & Hf & _ & _ & Ht).
  rewrite Ht. vm_compute in Hn. injection Hn as <-.
  vm_compute in Hf. injection Hf as <-. reflexivity.
Defined.

(** X19: every table that the PDF extractor reports has a row: its page and
    its index on the page are counted from 1, ["rows"] is the number of its
    rows and ["columns"] the length of its first row. When pdfplumber fails
    on a page, the tables of the pages before it are reported. *)
Theorem pdf_tables_reported (e : Converters.env) (file_path : string) :
  Forall (fun entry =>
            exists page index first rest,
              entry = Py.VDict [("page", Converters.VNat page);
                                ("table_index", Converters.VNat index);
                                ("rows", Converters.VNat (S (length rest)));
                                ("columns", Converters.VNat (length first));
                                ("data", Converters.table_value (first :: rest))] /\
              (1 <= page)%nat /\ (1 <= index)%nat)
    (Converters.PDFConverter._extract_tables e file_path) /\
  (forall e' good ex rest,
     Converters.plumber_open e file_path = Py.Ok (map Py.Ok good ++ Py.Raise ex :: rest) ->
     Converters.plumber_open e' file_path = Py.Ok (map Py.Ok good) ->
     Converters.PDFConverter._extract_tables e file_path
     = Converters.PDFConverter._extract_tables e' file_path).
Proof.
  unfold Converters.PDFConverter._extract_tables. split.
  - destruct (Converters.plumber_open e file_path) as [pages|]; [|constructor].
    apply RecordMore.append_until_error_all.
    intros [page_num page] ys H.
    destruct page as [tables|]; [|discriminate H]. cbn [Py.bind] in H.
    injection H as <-. apply List.Forall_forall. intros entry Hin.
    apply in_flat_map in Hin as ([idx t] & _ & Hin).
    destruct t as [|first rest]; [destruct Hin|].
    destruct Hin as [<-|[]].
    exists (page_num + 1)%nat, (idx + 1)%nat, first, rest.
    split; [reflexivity | lia].
  - intros e' good ex rest -> ->.
    rewrite RecordMore.enumerate_app.
    cbn [Converters.enumerate_from].
    apply (RecordMore.append_until_error_stops _ _ _ _ ex); [|reflexivity].
    apply List.Forall_forall. intros [i page] Hin.
    apply RecordMore.in_enumerate in Hin as [_ Hn].
    apply nth_error_In, in_map_iff in Hn as (tables & <- & _).
    cbn [Py.bind]. eauto.
Qed.

(** ** What [process_file] writes *)

Module OutputFacts.
Import Chars Str Py Fs Converters App AppSpec OutputSpec ProcessFacts PathFacts StrFacts.

Lemma join_base (file_path suffix : string) :
  Path.join output_dir (base_name file_path +:+ String "_" suffix)
  = "output/" +:+ base_name file_path +:+ String "_" suffix.
Proof.
  apply join_output. rewrite chars_append.
  pose proof (stem_no_slash (Path.basename file_path)) as H.
  unfold Path.basename in H at 1. rewrite ReFacts.chars_of_chars in H.
  specialize (H (name_no_slash _)). unfold base_name.
  destruct (chars (fst (Path.splitext (Path.basename file_path)))) as [|c l]; [exact I|].
  cbn [app]. inversion H as [|? ? Hc _]; subst.
  destruct c as [[] [] [] [] [] [] [] []]; try exact I. contradiction Hc. reflexivity.
Qed.

Lemma lookup_set_item_other (k k' : string) (v : value) (d : dict) :
  k <> k' -> lookup k (set_item k' v d) = lookup k d.
Proof.
  intros Hne. induction d as [|[k0 v0] d IH]; cbn [set_item lookup].
  - destruct (String.eqb_spec k' k); [congruence | reflexivity].
  - destruct (String.eqb_spec k0 k') as [->|Hk]; cbn [lookup].
    + destruct (String.eqb_spec k' k); [congruence | reflexivity].
    + rewrite IH. reflexivity.
Qed.

Lemma listy_set_item (k k' : string) (v : value) (d : dict) :
  k <> k' -> listy k d -> listy k (set_item k' v d).
Proof. intros Hne H. unfold listy. rewrite lookup_set_item_other by exact Hne. exact H. Qed.

(** The rows for the CSV export have a length, when the record has lists. *)
Lemma tabular_len (data : dict) (rows : tabular) :
  listy "data" data -> listy "all_data" data ->
  _extract_tabular_data data = Ok rows -> exists n, rows_len rows = Ok n.
Proof.
  unfold _extract_tabular_data. intros [Hd|[l Hd]] Ha H; rewrite Hd in H.
  - destruct Ha as [Ha|[l Ha]]; rewrite Ha in H.
    + destruct (lookup "tables" data) as [tables|];
        [|injection H as <-; eexists; reflexivity].
      destruct (truthy tables); [|injection H as <-; eexists; reflexivity].
      destruct (DataFormatter.first_item tables) as [first|]; [|discriminate H].
      cbn [bind] in H.
      destruct (getitem first "data") as [first_table|]; [|discriminate H].
      cbn [bind] in H.
      match type of H with
      | bind ?m _ = _ => destruct m as [long|]; [|discriminate H]
      end.
      cbn [bind] in H. destruct long; [|injection H as <-; eexists; reflexivity].
      destruct (DataFormatter.first_item first_table); [|discriminate H].
      cbn [bind] in H.
      destruct (rest_items first_table); [|discriminate H]. cbn [bind] in H.
      match type of H with
      | bind ?m _ = _ => destruct m; [|discriminate H]
      end.
      cbn [bind] in H.
      match type of H with
      | bind ?m _ = _ => destruct m; [|discriminate H]
      end.
      cbn [bind] in H. injection H as <-. eexists. reflexivity.
    + injection H as <-. eexists. reflexivity.
  - injection H as <-. eexists. reflexivity.
Qed.

(** Nothing is written to a file that cannot be opened. *)
Lemma to_csv_closed (opens_ : string -> option exn) (data : tabular) (out : string)
  (fs : files) (ex : exn) :
  opens_ out = Some ex -> snd (rows_to_csv opens_ data out fs) = fs.
Proof.
  intros Ho. destruct data as [data|ds]; cbn [rows_to_csv].
  - unfold DataFormatter.to_csv. rewrite Ho. destruct (negb (truthy data)); reflexivity.
  - unfold DataFormatter.to_csv_zipped. rewrite Ho. destruct ds; reflexivity.
Qed.

Lemma extract_lists (e : env) (c : converter) :
  listy "data" (extract e c) /\ listy "all_data" (extract e c).
Proof.
  destruct c as [p|p|p|p enc]; cbn [extract].
  - unfold PDFConverter.extract, try_except.
    destruct (PDFConverter.extract_body e p) as [d|ex] eqn:H;
      [|split; left; reflexivity].
    unfold PDFConverter.extract_body in H. through_binds H. injection H as <-.
    split; left; reflexivity.
  - unfold WordConverter.extract, try_except.
    destruct (WordConverter.extract_body e p) as [d|ex] eqn:H;
      [|split; left; reflexivity].
    unfold WordConverter.extract_body in H. through_binds H. injection H as <-.
    split; left; reflexivity.
  - unfold ExcelConverter.extract, try_except.
    destruct (ExcelConverter.extract_body e p) as [d|ex] eqn:H;
      [|split; left; reflexivity].
    unfold ExcelConverter.extract_body in H. through_binds H. injection H as <-.
    split; [left; reflexivity | right; eexists; reflexivity].
  - unfold TextConverter.extract, try_except.
    destruct (TextConverter.extract_body e p enc) as [d|ex] eqn:H;
      [|split; left; reflexivity].
    unfold TextConverter.extract_body, TextConverter._extract_csv,
      TextConverter._extract_plain_text in H.
    destruct (endswith ".csv" (lower p)); through_binds H; injection H as <-.
    + split; [right; eexists; reflexivity | left; reflexivity].
    + split; left; reflexivity.
Qed.

Lemma extract_error (e : env) (c : converter) (err : value) :
  lookup "error" (extract e c) = Some err ->
  exists ex, body e c = Raise ex /\
    err = VStr ("Failed to extract " +:+ what c +:+ ": " +:+ exn_str ex).
Proof.
  intros H. destruct (body e c) as [d|ex] eqn:Hb.
  - pose proof (ExtractFacts.body_no_error e c d Hb) as Hn.
    destruct c; cbn [body] in Hb; cbn [extract] in H;
      unfold PDFConverter.extract, WordConverter.extract, ExcelConverter.extract,
        TextConverter.extract in H;
      rewrite Hb in H; cbn [try_except] in H; congruence.
  - exists ex. split; [reflexivity|].
    destruct c; cbn [body] in Hb; cbn [extract] in H;
      unfold PDFConverter.extract, WordConverter.extract, ExcelConverter.extract,
        TextConverter.extract in H;
      rewrite Hb in H; cbn [try_except lookup String.eqb Ascii.eqb Bool.eqb] in H;
      injection H as <-; reflexivity.
Qed.

(** A file that the validator accepts has one of the seven extensions. *)
Lemma valid_supported (stat : FileValidator.stat_fn) (file_path msg : string) :
  FileValidator.validate_file stat file_path = Ok (true, msg) ->
  List.In (lower (snd (Path.splitext file_path)))
    [".pdf"; ".docx"; ".doc"; ".xlsx"; ".xls"; ".csv"; ".txt"].
Proof.
  unfold FileValidator.validate_file. intros H.
  destruct (negb (FileValidator.exists_ stat file_path)); [discriminate H|].
  cbv zeta in H.
  destruct (FileValidator.assoc (lower (snd (Path.splitext file_path)))
              FileValidator.SUPPORTED_EXTENSIONS) as [label|] eqn:Ha;
    [|discriminate H].
  apply ValidatorFacts.supported_iff. eauto.
Qed.

Section Named.
Variable e : env.
Variables file_path output_format : string.
Variable fs : files.

Lemma named_quiet (status stats : string) :
  quiet e file_path output_format status ->
  named e file_path output_format fs (Ok (status, "", None, stats)) fs.
Proof. intros H. cbn. auto. Qed.

Lemma named_write (suffix content preview stats : string)
  (k : unit -> io outcome) :
  suffix_of output_format = Some (String "_" suffix) ->
  output_format <> "CSV" ->
  let out := Path.join output_dir (base_name file_path +:+ String "_" suffix) in
  (forall u, k u = ret (saved_message file_path out, preview, Some out, stats)) ->
  named e file_path output_format fs
    (fst (io_bind (write_text e out content) k fs))
    (snd (io_bind (write_text e out content) k fs)).
Proof.
  intros Hs Hfmt out Hk. unfold io_bind, write_text.
  destruct (opens e out) as [ex|] eqn:Ho; [reflexivity|].
  rewrite Hk. unfold ret, named, output_name. cbn [fst snd].
  rewrite Hs, Ho. split; [|split; [reflexivity | eauto]].
  unfold out. rewrite join_base. reflexivity.
Qed.

Lemma named_export (data : dict) (stats_text stats : string) :
  output_format = "CSV" ->
  listy "data" data -> listy "all_data" data ->
  let out := Path.join output_dir (base_name file_path +:+ "_converted.csv") in
  named e file_path output_format fs
    (fst (export_csv e data out stats_text
           (fun preview : string =>
              (saved_message file_path out, preview, Some out, stats)) fs))
    (snd (export_csv e data out stats_text
           (fun preview : string =>
              (saved_message file_path out, preview, Some out, stats)) fs)).
Proof.
  intros Hfmt Hd Ha out. unfold export_csv. rewrite bind_lift.
  destruct (_extract_tabular_data data) as [rows|ex] eqn:Er; [|reflexivity].
  destruct (tabular_len data rows Hd Ha Er) as [n Hn].
  destruct (rows_given rows) eqn:Ht.
  2:{ apply named_quiet. right. right. split; [reflexivity | exact Hfmt]. }
  unfold io_bind at 1. cbv beta iota. rewrite bind_lift, Hn.
  unfold ret, named, output_name. cbn [fst snd].
  rewrite Hfmt. cbn [suffix_of String.eqb Ascii.eqb Bool.eqb].
  split; [unfold out; rewrite join_base; reflexivity|].
  split; [reflexivity|].
  destruct (opens e out) as [ex|] eqn:Ho.
  - split; [exact (to_csv_closed (opens e) rows out fs ex Ho) | reflexivity].
  - destruct (proj2 (to_csv_files (opens e) rows out fs) Ht Ho) as [written Hw].
    exists (Csv written). exact Hw.
Qed.

End Named.

Lemma process_file_body_named (e : env) (file_path output_format : string)
  (clean_text remove_urls remove_extra_spaces lowercase : bool) (fs : files) :
  let x := process_file_body e file_path output_format
             clean_text remove_urls remove_extra_spaces lowercase fs in
  named e file_path output_format fs (fst x) (snd x).
Proof.
  cbv zeta. unfold process_file_body. rewrite bind_lift.
  destruct (FileValidator.validate_file (stat e) file_path) as [[is_valid msg]|ex] eqn:Hv;
    [|reflexivity].
  destruct is_valid; cbn [negb];
    [|apply (named_quiet e file_path output_format fs); left; exact Hv].
  pose proof (valid_supported _ _ _ Hv) as Hext.
  match goal with
  | |- context [match ?nc with Some _ => _ | None => _ end fs] =>
      destruct nc as [new|] eqn:Hnc
  end.
  2:{ exfalso. revert Hnc.
      repeat (destruct Hext as [<-|Hext]; [discriminate|]). destruct Hext. }
  clear Hnc Hext.
  rewrite bind_lift.
  destruct (new e file_path) as [conv|ex]; [|reflexivity].
  destruct (lookup "error" (extract e conv)) as [err|] eqn:He.
  { apply (named_quiet e file_path output_format fs). right. left.
    destruct (extract_error e conv err He) as [ex [Hb ->]].
    exists conv, ex. split; [exact Hb | reflexivity]. }
  destruct (extract_lists e conv) as [Hd Ha].
  match goal with
  | |- context [io_bind ?m ?k fs] =>
      assert (Hk : forall data, listy "data" data -> listy "all_data" data ->
                named e file_path output_format fs (fst (k data fs)) (snd (k data fs)))
  end.
  { intros data Hd' Ha'. cbv beta. rewrite bind_lift.
    destruct (DataFormatter.get_statistics data) as [stats|ex]; [|reflexivity].
    fold (base_name file_path).
    destruct (String.eqb_spec output_format "JSON") as [->|Hj].
    { eapply (named_write e file_path "JSON" fs "converted.json");
        [reflexivity | discriminate | intros u; reflexivity]. }
    destruct (String.eqb_spec output_format "CSV") as [->|Hc].
    { apply (named_export e file_path "CSV" fs data); [reflexivity | exact Hd' | exact Ha']. }
    destruct (String.eqb_spec output_format "XML") as [->|Hx].
    { eapply (named_write e file_path "XML" fs "converted.xml");
        [reflexivity | discriminate | intros u; reflexivity]. }
    destruct (String.eqb_spec output_format "AI Training Format") as [->|Hai];
      [|reflexivity].
    rewrite bind_lift.
    destruct (DataFormatter.create_ai_training_format data) as [ai|ex]; [|reflexivity].
    eapply (named_write e file_path "AI Training Format" fs "ai_training.json");
      [reflexivity | discriminate | intros u; reflexivity]. }
  destruct (lookup "full_text" (extract e conv)) as [text|]; [destruct clean_text|].
  - unfold io_bind at 1. rewrite bind_lift.
    match goal with
    | |- context [clean_value ?t ?o] => destruct (clean_value t o) as [cleaned|ex]
    end; [|reflexivity].
    apply Hk; apply listy_set_item; try discriminate; assumption.
  - apply Hk; assumption.
  - apply Hk; assumption.
Qed.

(** The same for [process_file], whose handler answers without a path. *)
Lemma process_file_named (e : env) (file_path output_format : string)
  (clean_text remove_urls remove_extra_spaces lowercase : bool) (fs : files) :
  let x := process_file e file_path output_format
             clean_text remove_urls remove_extra_spaces lowercase fs in
  match fst x with
  | (status, preview, Some out, stats) =>
      output_name file_path output_format = Some out /\
      status = saved_message file_path out /\
      match opens e out with
      | None => exists f, snd x = <[out := f]> fs
      | Some _ => snd x = fs /\ output_format = "CSV"
      end
  | (status, preview, None, stats) =>
      snd x = fs /\ preview = "" /\
      (quiet e file_path output_format status \/
       exists ex, status = "Error processing file: " +:+ exn_str ex)
  end.
Proof.
  cbv zeta. unfold process_file.
  pose proof (process_file_body_named e file_path output_format
                clean_text remove_urls remove_extra_spaces lowercase fs) as H.
  cbv zeta in H.
  destruct (process_file_body e file_path output_format
              clean_text remove_urls remove_extra_spaces lowercase fs) as [[r|ex] fs'];
    cbn [fst snd] in *.
  - destruct r as [[[status preview] [out|]] stats]; cbn [named] in H.
    + exact H.
    + destruct H as (H1 & H2 & H3). auto.
  - cbn [named] in H. split; [exact H|]. split; [reflexivity|]. right. eauto.
Qed.

End OutputFacts.

Module StatusFacts.
Import Chars Str Py Fs Converters App AppSpec OutputSpec StrFacts.

Lemma append_inj_l (a b c : string) : a +:+ b = a +:+ c -> b = c.
Proof.
  induction a as [|x a IH]; intros H; [exact H|].
  rewrite !append_cons in H. injection H as H. exact (IH H).
Qed.

(** What the validator says of a file that it refuses. *)
Lemma refused_messages (stat : FileValidator.stat_fn) (file_path msg : string) :
  FileValidator.validate_file stat file_path = Ok (false, msg) ->
  msg = "File does not exist" \/
  msg = ValidatorSpec.unsupported_message (lower (snd (Path.splitext file_path))) \/
  (exists size, msg = ValidatorSpec.too_large_message size) \/
  msg = "File is empty".
Proof.
  unfold FileValidator.validate_file. intros H.
  destruct (negb (FileValidator.exists_ stat file_path)).
  { injection H as <-. auto. }
  cbv zeta in H.
  destruct (FileValidator.assoc _ FileValidator.SUPPORTED_EXTENSIONS).
  - destruct (FileValidator.getsize stat file_path) as [size|]; [|discriminate H].
    cbn [bind] in H.
    destruct (FileValidator.MAX_FILE_SIZE <? size)%N.
    + injection H as <-. right. right. left. exists size. reflexivity.
    + destruct (size =? 0)%N; [|discriminate H]. injection H as <-. auto.
  - injection H as <-. right. left. reflexivity.
Qed.

(** No status without an output path starts as that of a file that went
    through does. *)
Lemma quiet_not_saved (e : env) (file_path output_format status : string) :
  quiet e file_path output_format status \/
  (exists ex, status = "Error processing file: " +:+ exn_str ex) ->
  String.prefix "Successfully processed: " status = false.
Proof.
  intros [[H|[H|H]]|H].
  - apply refused_messages in H as [->|[->|[[size ->]| ->]]]; reflexivity.
  - destruct H as (c & ex & _ & ->). reflexivity.
  - destruct H as [-> _]. reflexivity.
  - destruct H as [ex ->]. reflexivity.
Qed.

Lemma saved_prefix (file_path out : string) :
  String.prefix "Successfully processed: " (saved_message file_path out) = true.
Proof. apply PathFacts.prefix_append. Qed.

End StatusFacts.

(** X20: when [process_file] answers with an output path, the format is one
    of the four and the path is ["output/"], the name of the input without
    its directory and its extension, and the suffix of the format; the call
    has written no other file, and this one if it can be opened. When it
    answers without a path, the files are as they were. *)
Theorem process_file_output (e : Converters.env) (file_path output_format : string)
  (clean_text remove_urls remove_extra_spaces lowercase : bool) (fs : Fs.files) :
  let x := App.process_file e file_path output_format
             clean_text remove_urls remove_extra_spaces lowercase fs in
  match AppSpec.output_of (fst x) with
  | Some out =>
      (exists suffix,
         List.In (output_format, suffix)
           [("JSON", "_converted.json"); ("CSV", "_converted.csv");
            ("XML", "_converted.xml"); ("AI Training Format", "_ai_training.json")] /\
         out = "output/" +:+ OutputSpec.base_name file_path +:+ suffix) /\
      (forall p, p <> out -> snd x !! p = fs !! p) /\
      (Converters.opens e out = None -> is_Some (snd x !! out)) /\
      (Converters.opens e out <> None -> snd x = fs /\ output_format = "CSV")
  | None => snd x = fs
  end.
Proof.
  cbv zeta.
  pose proof (OutputFacts.process_file_named e file_path output_format
                clean_text remove_urls remove_extra_spaces lowercase fs) as H.
  cbv zeta in H.
  destruct (App.process_file e file_path output_format
              clean_text remove_urls remove_extra_spaces lowercase fs)
    as [[[[status preview] [out|]] stats] fs']; cbn [fst snd AppSpec.output_of] in *.
  2:{ apply H. }
  destruct H as (Hname & _ & Hfiles). split; [|split; [|split]].
  - unfold OutputSpec.output_name, OutputSpec.suffix_of in Hname.
    destruct (String.eqb_spec output_format "JSON") as [->|_].
    { injection Hname as <-. eexists. split; [left; reflexivity | reflexivity]. }
    destruct (String.eqb_spec output_format "CSV") as [->|_].
    { injection Hname as <-. eexists.
      split; [right; left; reflexivity | reflexivity]. }
    destruct (String.eqb_spec output_format "XML") as [->|_].
    { injection Hname as <-. eexists.
      split; [right; right; left; reflexivity | reflexivity]. }
    destruct (String.eqb_spec output_format "AI Training Format") as [->|_];
      [|discriminate Hname].
    injection Hname as <-. eexists.
    split; [right; right; right; left; reflexivity | reflexivity].
  - intros p Hp. destruct (Converters.opens e out).
    + destruct Hfiles as [-> _]. reflexivity.
    + destruct Hfiles as [f ->]. apply lookup_insert_ne. congruence.
  - intros Ho. rewrite Ho in Hfiles. destruct Hfiles as [f ->].
    rewrite lookup_insert_eq. eauto.
  - intros Ho. destruct (Converters.opens e out); [exact Hfiles | congruence].
Qed.

(** X21: two inputs with the same name up to the directory and the
    extension have one output file: when both go through, one after the
    other, the paths are the same, and the second call writes over what the
    first wrote. *)
Theorem same_stem_one_output (e1 e2 : Converters.env) (first second output_format : string)
  (c1 u1 s1 l1 c2 u2 s2 l2 : bool) (fs : Fs.files) (out1 out2 : string) :
  OutputSpec.base_name first = OutputSpec.base_name second ->
  let x1 := App.process_file e1 first output_format c1 u1 s1 l1 fs in
  let x2 := App.process_file e2 second output_format c2 u2 s2 l2 (snd x1) in
  AppSpec.output_of (fst x1) = Some out1 ->
  AppSpec.output_of (fst x2) = Some out2 ->
  out1 = out2 /\
  (Converters.opens e2 out2 = None -> exists f, snd x2 = <[out2 := f]> fs).
Proof.
  intros Hbase x1 x2 H1 H2.
  pose proof (OutputFacts.process_file_named e1 first output_format c1 u1 s1 l1 fs) as N1.
  pose proof (OutputFacts.process_file_named e2 second output_format c2 u2 s2 l2 (snd x1))
    as N2.
  cbv zeta in N1, N2. fold x1 in N1. fold x2 in N2.
  destruct (fst x1) as [[[st1 pv1] o1] t1]. destruct (fst x2) as [[[st2 pv2] o2] t2].
  cbn [AppSpec.output_of fst snd] in H1, H2. subst o1 o2.
  destruct N1 as (Hn1 & _ & Hf1). destruct N2 as (Hn2 & _ & Hf2).
  assert (E : out1 = out2).
  { unfold OutputSpec.output_name in Hn1, Hn2. rewrite Hbase in Hn1.
    destruct (OutputSpec.suffix_of output_format); congruence. }
  split; [exact E|]. intros Ho. rewrite Ho in Hf2. destruct Hf2 as [f ->].
  exists f. subst out2.
  destruct (Converters.opens e1 out1).
  - destruct Hf1 as [-> _]. reflexivity.
  - destruct Hf1 as [f1 ->]. apply insert_insert_eq.
Qed.

Lemma same_stem_one_output_witness :
  exists f,
    snd (App.process_file Fixtures.office_with_workbook "in/c.txt" "JSON"
           true true true false
           (snd (App.process_file Fixtures.office_with_workbook "in/c.csv" "JSON"
                   true true true false ∅)))
    = <["output/c_converted.json" := f]> ∅.
Proof.
  refine (proj2 (same_stem_one_output Fixtures.office_with_workbook
                   Fixtures.office_with_workbook "in/c.csv" "in/c.txt" "JSON"
                   true true true false true true true false ∅
                   "output/c_converted.json" "output/c_converted.json" _ _ _) _);
    vm_compute; reflexivity.
Defined.

(** X22: the status of [process_file] starts with
    ["Successfully processed: "] exactly when an output path is given, and
    then it names the input and the path. Without a path the preview is
    empty and the status is the message of the validator, the message of
    the extractor that failed, that of a CSV export without rows, or
    ["Error processing file: "] followed by the text of the exception. *)
Theorem process_file_status (e : Converters.env) (file_path output_format : string)
  (clean_text remove_urls remove_extra_spaces lowercase : bool) (fs : Fs.files) :
  let '(status, preview, output_path, stats) :=
    fst (App.process_file e file_path output_format
           clean_text remove_urls remove_extra_spaces lowercase fs) in
  (String.prefix "Successfully processed: " status = true <-> output_path <> None) /\
  match output_path with
  | Some out =>
      status = "Successfully processed: " +:+ Path.basename file_path
               +:+ DataFormatter.nl +:+ "Output saved to: " +:+ out
  | None =>
      preview = "" /\
      (FileValidator.validate_file (Converters.stat e) file_path = Py.Ok (false, status) \/
       (exists c ex,
          AppSpec.body e c = Py.Raise ex /\
          status = "Failed to extract " +:+ AppSpec.what c +:+ ": " +:+ Py.exn_str ex) \/
       (status = "No tabular data found for CSV export" /\ output_format = "CSV") \/
       (exists ex, status = "Error processing file: " +:+ Py.exn_str ex))
  end.
Proof.
  pose proof (OutputFacts.process_file_named e file_path output_format
                clean_text remove_urls remove_extra_spaces lowercase fs) as H.
  cbv zeta in H.
  destruct (fst (App.process_file e file_path output_format
              clean_text remove_urls remove_extra_spaces lowercase fs))
    as [[[status preview] [out|]] stats].
  - destruct H as (_ & -> & _). split; [|reflexivity].
    split; [discriminate | intros _; apply StatusFacts.saved_prefix].
  - destruct H as (_ & -> & H). split.
    + rewrite (StatusFacts.quiet_not_saved e file_path output_format status H).
      split; [discriminate | congruence].
    + split; [reflexivity|]. unfold OutputSpec.quiet, OutputSpec.extract_failed in H.
      tauto.
Qed.

(** X23: [process_file] never answers
    ["Unsupported file type: <extension>"]: a file that passes the validator
    has an extension that one of the four converters takes, so the last
    branch of the choice of the converter is never taken. *)
Theorem process_file_never_unsupported_type (e : Converters.env)
  (file_path output_format : string)
  (clean_text remove_urls remove_extra_spaces lowercase : bool) (fs : Fs.files) :
  AppSpec.status_of (fst (App.process_file e file_path output_format
                            clean_text remove_urls remove_extra_spaces lowercase fs))
  <> "Unsupported file type: " +:+ Str.lower (snd (Path.splitext file_path)).
Proof.
  pose proof (OutputFacts.process_file_named e file_path output_format
                clean_text remove_urls remove_extra_spaces lowercase fs) as H.
  cbv zeta in H.
  destruct (fst (App.process_file e file_path output_format
              clean_text remove_urls remove_extra_spaces lowercase fs))
    as [[[status preview] [out|]] stats]; cbn [AppSpec.status_of fst].
  - destruct H as (_ & -> & _). discriminate.
  - destruct H as (_ & _ & [[H|[H|H]]|H]).
    + apply StatusFacts.refused_messages in H as [->|[->|[[size ->]| ->]]];
        try discriminate.
      unfold ValidatorSpec.unsupported_message. intros E.
      rewrite <- (StrFacts.append_nil_r
                    ("Unsupported file type: " +:+ Str.lower (snd (Path.splitext file_path))))
        in E.
      rewrite StrFacts.append_assoc in E.
      apply StatusFacts.append_inj_l, StatusFacts.append_inj_l in E. discriminate E.
    + destruct H as (c & ex & _ & ->). discriminate.
    + destruct H as [-> _]. discriminate.
    + destruct H as [ex ->]. discriminate.
Qed.

(** ** A CSV file through [process_file] *)

Module CsvPath.
Import Chars Str Py Fs Converters App AppSpec OutputSpec FormatterSpec ProcessFacts StrFacts.

Lemma csv_by_extension (e : env) (file_path encoding : string) :
  ValidatorSpec.extension file_path = ".csv" ->
  TextConverter.extract_body e file_path encoding
  = TextConverter._extract_csv e file_path encoding.
Proof.
  unfold TextConverter.extract_body. intros H.
  destruct (ExtFacts.lower_ext file_path _ H) as (stem & t & Hp & _ & _ & Hl);
    [discriminate|].
  rewrite (ExtFacts.lower_path file_path stem t Hp), Hl.
  change ".csv" with (of_chars (chars ".csv")) at 1.
  rewrite ExtFacts.endswith_app. reflexivity.
Qed.

Lemma valid_size (stat : FileValidator.stat_fn) (file_path msg : string) :
  FileValidator.validate_file stat file_path = Ok (true, msg) ->
  exists size, FileValidator.getsize stat file_path = Ok size.
Proof.
  unfold FileValidator.validate_file, FileValidator.exists_, FileValidator.getsize.
  destruct (stat file_path) as [size|]; [eauto | discriminate].
Qed.

(** [process_file] on a CSV file up to the choice of the format. *)
Lemma process_csv_file (e : env) (file_path output_format msg : string)
  (clean_text remove_urls remove_extra_spaces lowercase : bool) (fs : files)
  (headers : option (list string)) (rows : list dict) :
  FileValidator.validate_file (stat e) file_path = Ok (true, msg) ->
  ValidatorSpec.extension file_path = ".csv" ->
  read_csv e file_path (TextConverter._detect_encoding e file_path) = Ok (headers, rows) ->
  output_format = "CSV" ->
  let record := csv_record file_path (TextConverter._detect_encoding e file_path)
                  headers rows in
  exists stats,
    process_file_body e file_path output_format
      clean_text remove_urls remove_extra_spaces lowercase fs
    = export_csv e record
        (Path.join output_dir (base_name file_path +:+ "_converted.csv")) stats
        (fun preview =>
           (saved_message file_path
              (Path.join output_dir (base_name file_path +:+ "_converted.csv")),
            preview,
            Some (Path.join output_dir (base_name file_path +:+ "_converted.csv")),
            stats)) fs.
Proof.
  intros Hv Hext Hread -> record. unfold process_file_body. rewrite bind_lift, Hv.
  cbn [negb]. unfold ValidatorSpec.extension in Hext. rewrite Hext.
  cbn [String.eqb Ascii.eqb Bool.eqb orb]. rewrite bind_lift.
  unfold new_text, base_init.
  destruct (valid_size _ _ _ Hv) as [size ->]. cbn [bind extract].
  unfold TextConverter.extract.
  rewrite (csv_by_extension e file_path _ Hext).
  unfold TextConverter._extract_csv. rewrite Hread. cbn [bind try_except].
  fold (csv_record file_path (TextConverter._detect_encoding e file_path) headers rows).
  fold record.
  change (lookup "error" record) with (@None value).
  change (lookup "full_text" record) with (@None value).
  cbv beta iota. rewrite bind_ret, bind_lift.
  change (DataFormatter.get_statistics record)
    with (Ok [("document_type", VStr "CSV File");
              ("total_size", VInt 0); ("text_length", VInt 0); ("word_count", VInt 0);
              ("has_tables", VBool false); ("table_count", VInt 0)]).
  cbv beta iota zeta. cbn [String.eqb Ascii.eqb Bool.eqb].
  eexists. reflexivity.
Qed.

End CsvPath.

(** X24: a CSV file that passes the validator, exported as CSV: when the
    reader gives rows whose keys are all keys of the first row, and the
    output can be opened, [process_file] writes to
    ["output/<name>_converted.csv"] the keys of the first row and one line
    for each row, and says how many rows; when the reader gives no row, it
    writes nothing and says that no tabular data was found. The cleaning
    options change nothing. *)
Theorem process_file_csv_to_csv (e : Converters.env) (file_path msg : string)
  (clean_text remove_urls remove_extra_spaces lowercase : bool) (fs : Fs.files) :
  FileValidator.validate_file (Converters.stat e) file_path = Py.Ok (true, msg) ->
  ValidatorSpec.extension file_path = ".csv" ->
  let encoding := Converters.TextConverter._detect_encoding e file_path in
  let out := "output/" +:+ OutputSpec.base_name file_path +:+ "_converted.csv" in
  let x := App.process_file e file_path "CSV"
             clean_text remove_urls remove_extra_spaces lowercase fs in
  (forall headers first rest,
     Converters.read_csv e file_path encoding = Py.Ok (headers, first :: rest) ->
     Forall (FormatterSpec.fits (Py.keys first)) rest ->
     Converters.opens e out = None ->
     (exists stats,
        fst x = (OutputSpec.saved_message file_path out,
                 "CSV file created with " +:+ Py.str_of_nat (S (length rest)) +:+ " rows",
                 Some out, stats)) /\
     snd x = <[out := Fs.Csv (Py.keys first
                               :: map (FormatterSpec.row_cells (Py.keys first))
                                      (first :: rest))]> fs) /\
  (forall headers,
     Converters.read_csv e file_path encoding = Py.Ok (headers, []) ->
     (exists stats,
        fst x = ("No tabular data found for CSV export", "", None, stats)) /\
     snd x = fs).
Proof.
  intros Hv Hext encoding out x. split.
  - intros headers first rest Hread Hfit Ho.
    destruct (CsvPath.process_csv_file e file_path "CSV" msg
                clean_text remove_urls remove_extra_spaces lowercase fs
                headers (first :: rest) Hv Hext Hread eq_refl) as [stats H].
    unfold x, App.process_file. rewrite H. clear H.
    rewrite (OutputFacts.join_base file_path "converted.csv"). fold out.
    unfold App.export_csv. rewrite ProcessFacts.bind_lift.
    change (App._extract_tabular_data _)
      with (Py.Ok (App.Rows (Py.VList (map Py.VDict (first :: rest))))).
    cbv beta iota. change (App.rows_given _) with true. cbv iota.
    unfold App.io_bind at 1. cbv beta iota. rewrite ProcessFacts.bind_lift.
    cbn [App.rows_len App.rows_to_csv Py.len]. rewrite length_map. unfold App.ret.
    cbn [fst snd length].
    split; [eexists; reflexivity|].
    unfold DataFormatter.to_csv. change (Py.truthy _) with true. cbn [negb].
    rewrite Ho. unfold DataFormatter.csv_body.
    cbn [map DataFormatter.first_item Py.bind DataFormatter.keys_method
         DataFormatter.iterate].
    change (Py.VDict first :: map Py.VDict rest) with (map Py.VDict (first :: rest)).
    rewrite FormatterFacts.write_rows_fit; [reflexivity|].
    constructor; [apply CsvFacts.fits_self | exact Hfit].
  - intros headers Hread.
    destruct (CsvPath.process_csv_file e file_path "CSV" msg
                clean_text remove_urls remove_extra_spaces lowercase fs
                headers [] Hv Hext Hread eq_refl) as [stats H].
    unfold x, App.process_file. rewrite H. clear H.
    unfold App.export_csv. rewrite ProcessFacts.bind_lift.
    split; [eexists; reflexivity | reflexivity].
Qed.

Lemma process_file_csv_to_csv_witness :
  snd (App.process_file Fixtures.office "in/c.csv" "CSV" true true true false ∅)
  = {["output/c_converted.csv" := Fs.Csv [["a"; "b"]; ["1"; "2"]; ["3"; "4"]]]}.
Proof.
  refine (proj2
    (proj1 (process_file_csv_to_csv Fixtures.office "in/c.csv" "Valid CSV File"
              true true true false ∅ _ _)
       (Some ["a"; "b"]) [("a", Py.VStr "1"); ("b", Py.VStr "2")]
       [[("a", Py.VStr "3"); ("b", Py.VStr "4")]] _ _ _)).
  - vm_compute. reflexivity.
  - vm_compute. reflexivity.
  - vm_compute. reflexivity.
  - constructor; [|constructor]. intros k H. exact H.
  - reflexivity.
Defined.
